(** * CMIP6 NetCDF-to-Excel merger: a shallow embedding and its properties

    The development follows the four stages of the pipeline
    ([utils/file_handler.py], [utils/nc_reader.py], [utils/excel_writer.py],
    driven by [merge_nc_to_excel.py]).

    Modelling conventions.
    - Cell values are exact rationals or the missing value NaN ([val]);
      xarray decodes fill values to NaN, and its reductions skip NaN
      while numpy's propagate it.  Rounding is not modelled.
    - Coordinate labels (lat, lon) are exact rationals.
    - An xarray DataArray is a labelled, time-major nest of 2-D slices; a
      numpy ndarray is a shape together with a flat C-order buffer.
    - Python exceptions are values of [exn]; file-system accesses, array
      reductions and the warnings printed are recorded in an event log
      that survives a raised exception.
    - A Python [str] is the string of the bytes of its UTF-8 encoding;
      the decimal digits are those of Unicode 14.0 (Python 3.11).
    - Excel files are written by pandas with openpyxl; a workbook is the
      list of its sheets, each the title openpyxl gives it and the frame
      written to it. *)

From Stdlib Require Import String Ascii Bool Arith ZArith Lia List.
From Stdlib Require Import QArith Qcanon Qabs Qcabs.
From Stdlib Require Import Sorted Permutation.
From Stdlib Require Import DecimalString DecimalPos DecimalZ.
Import ListNotations.

Local Open Scope string_scope.
Local Open Scope Z_scope.
Local Open Scope list_scope.

(* ================================================================== *)
(** * Values, paths, exceptions, events *)
(* ================================================================== *)

(** A float cell: a number or NaN. *)
Inductive val : Type :=
| NaN : val
| Num : Qc -> val.

(** A [pathlib.Path] of a file inside a directory. *)
Record FilePath : Type := mkPath { fp_dir : string; fp_name : string }.

(** The exceptions the program raises (class and message). *)
Inductive exn : Type :=
| FileNotFoundError_InputDirectory (dir : string)
    (* "Input directory does not exist: ..." *)
| ValueError_NoNetCDFFiles (dir : string)
    (* "No NetCDF files found in directory: ..." *)
| ValueError_NoYearsExtracted (dir : string)
    (* "Could not extract years from any files in: ..." *)
| ValueError_CouldNotExtractYear (filename : string)
| ValueError_NoFilePaths
| ValueError_VariableNotFound (variable : string) (p : FilePath)
| OSError_CannotOpen (p : FilePath)
| RuntimeError_ReadingFile (p : FilePath) (cause : exn)
| ValueError_CoordinateMismatch (file_number : nat)
    (* "Coordinate mismatch detected in file {i+1}. ..." *)
| ValueError_Broadcast
    (* numpy: operands could not be broadcast together *)
| ValueError_Alignment
    (* xarray: cannot reindex along a dimension with duplicate labels *)
| IndexError
| ValueError_UnknownAggregation (mode : string)
| ValueError_UnexpectedShape (shape : list nat)
| ValueError_Reshape
| ValueError_ZeroSizeReduction
| ValueError_ArraysLength
    (* pandas: All arrays must be of the same length *)
| ValueError_MissingLatLon
| KeyError (key : string)
| IndexError_NoVisibleSheet
    (* openpyxl, on saving a workbook without sheets *)
| ValueError_SheetTooLarge
    (* pandas: This sheet is too large! *)
| ValueError_TitleEmpty
    (* openpyxl: Title must have at least one character *)
| ValueError_InvalidTitleCharacter (title : string)
    (* openpyxl: Invalid character ... found in sheet title *)
| IllegalCharacterError (value : string)
    (* openpyxl: ... cannot be used in worksheets. *)
| NotModelled_TitleClash
    (* the renaming of a title another sheet holds, see [set_title] *)
| NotModelled_DatasetMerge
    (* the merge of whole datasets, see [as_data_arrays] *)
| ZeroDivisionError
| ImportError_netCDF4
| SystemExit (code : Z).

(** Messages printed to the console (only those that carry meaning). *)
Inductive message : Type :=
| Warn_SkippingFile (filename : string)
| Warn_DimensionsDiffer
| Warn_ValuesDiffer
| Warn_CouldNotValidate (e : exn)
| Warn_SequentialYears
| Warn_ProceedingAnyway
| Msg_ValidationPassed
| Msg_Step (n : nat)
| Msg_Error (e : exn)
| Msg_FailedTo (stage : string) (e : exn)
| Msg_SplittingSheets
| Msg_Success
| Warn_ExcelValidationFailed.

Inductive reduction : Type := RedMean | RedMax | RedMin.

Inductive event : Type :=
| EvDirExists (dir : string)          (* Path.exists() *)
| EvGlob (dir : string)               (* Path.glob("*.nc") *)
| EvOpenNc (p : FilePath)             (* netCDF4.Dataset(path, 'r') *)
| EvOpenDataset (p : FilePath)        (* xr.open_dataset(path) *)
| EvReduce (r : reduction) (year : Z) (* year_data.mean/max/min(dim='time') *)
| EvPrint (m : message).

(* ================================================================== *)
(** * A logging exception monad *)
(* ================================================================== *)

Inductive result (A : Type) : Type :=
| Ok : A -> result A
| Raise : exn -> result A.
Arguments Ok {A} _.
Arguments Raise {A} _.

(** A computation yields the events it performed and how it ended. *)
Definition M (A : Type) : Type := (list event * result A)%type.

Definition ret {A} (a : A) : M A := ([], Ok a).
Definition raise {A} (e : exn) : M A := ([], Raise e).
Definition emit (ev : event) : M unit := ([ev], Ok tt).
Definition print (m : message) : M unit := emit (EvPrint m).

Definition bind {A B} (c : M A) (k : A -> M B) : M B :=
  match c with
  | (l, Ok a) => let (l', r) := k a in (l ++ l', r)
  | (l, Raise e) => (l, Raise e)
  end.

(** [try: c except Exception as e: h e] *)
Definition try_except {A} (c : M A) (h : exn -> M A) : M A :=
  match c with
  | (l, Ok a) => (l, Ok a)
  | (l, Raise e) => let (l', r) := h e in (l ++ l', r)
  end.

Definition log_of {A} (c : M A) : list event := fst c.
Definition outcome {A} (c : M A) : result A := snd c.

Declare Scope monad_scope.
Delimit Scope monad_scope with monad.
Notation "x <- c ;; k" := (bind c (fun x => k))
  (at level 61, c at next level, right associativity) : monad_scope.
Notation "c ;; k" := (bind c (fun _ => k))
  (at level 61, right associativity) : monad_scope.
Local Open Scope monad_scope.

(** [for x in xs: body x] *)
Fixpoint for_each {A} (xs : list A) (body : A -> M unit) : M unit :=
  match xs with
  | [] => ret tt
  | x :: xs' => body x ;; for_each xs' body
  end.

(** [for x in xs: acc = body acc x] *)
Fixpoint fold_M {A S} (xs : list A) (body : S -> A -> M S) (acc : S) : M S :=
  match xs with
  | [] => ret acc
  | x :: xs' => acc' <- body acc x ;; fold_M xs' body acc'
  end.

(* ================================================================== *)
(** * config.py *)
(* ================================================================== *)

Module config.

Definition BASE_INPUT_PATH : string := "C:\Users\ibian\Desktop\ClimAdapt\CMIP6".
Definition EXCEL_AGGREGATION : string := "mean".
Definition EXCEL_SHEET_NAME : string := "Data".
Definition EXCEL_MAX_ROWS_PER_SHEET : Z := 1000000.
Definition BASE_OUTPUT_PATH : string :=
  "C:\Users\ibian\Desktop\ClimAdapt\CMIP6\ACCESS CM2 xlsx".

(** [s.replace(" ", "_")] *)
Fixpoint replace_spaces (s : string) : string :=
  match s with
  | EmptyString => EmptyString
  | String c s' =>
      String (if Ascii.eqb c " "%char then "_"%char else c) (replace_spaces s')
  end.

Definition get_output_path (model scenario variable : string) : string :=
  (BASE_OUTPUT_PATH ++ "/" ++ replace_spaces model ++ "_"
     ++ replace_spaces scenario ++ "_" ++ variable ++ ".xlsx")%string.

(** [DIRECTORY_PATTERN.format(...)] appended to the base path. *)
Definition get_input_directory (model scenario variable : string) : string :=
  (BASE_INPUT_PATH ++ "/" ++ model ++ " " ++ scenario
     ++ "/CMIP6 Files_" ++ variable ++ "/")%string.

End config.

(* ================================================================== *)
(** * Python built-ins used by the program *)
(* ================================================================== *)

(** [sorted(xs, key=...)] / [list.sort(key=...)]: a stable sort. *)
Fixpoint insert_key {A} (key : A -> Z) (x : A) (l : list A) : list A :=
  match l with
  | [] => [x]
  | y :: l' => if key x <=? key y then x :: l else y :: insert_key key x l'
  end.

Definition sort_key {A} (key : A -> Z) (l : list A) : list A :=
  fold_right (insert_key key) [] l.

(** [str(n)] for an int. *)
Definition str_of_int (n : Z) : string := NilZero.string_of_int (Z.to_int n).

(** [s.endswith(suffix)] *)
Definition endswith (s suffix : string) : bool :=
  let ls := String.length s in
  let lf := String.length suffix in
  (lf <=? ls)%nat && String.eqb (substring (ls - lf) lf s) suffix.

(* ================================================================== *)
(** * utils/file_handler.py: discovery *)
(* ================================================================== *)

(** ** Characters

    A Python [str] is modelled by its UTF-8 encoding, a string of bytes.
    An ASCII character is a single byte that occurs nowhere inside the
    encoding of another character, so a test for an ASCII character, an
    ASCII suffix or an ASCII substring reads the bytes as they are. *)

Definition byte (c : ascii) : N := N_of_ascii c.

Definition is_continuation (c : ascii) : bool :=
  (128 <=? byte c)%N && (byte c <=? 191)%N.

(** The code point encoded at the head of [s], with the rest of [s]:
    one byte below 128, or a lead byte and one to three continuation
    bytes (shortest form only, no surrogate, nothing above U+10FFFF). *)
Definition utf8_head (s : string) : option (N * string) :=
  match s with
  | EmptyString => None
  | String c0 s1 =>
      let b0 := byte c0 in
      if (b0 <? 128)%N then Some (b0, s1)
      else if (b0 <? 194)%N then None
      else if (b0 <? 224)%N then
        match s1 with
        | String c1 s2 =>
            if is_continuation c1
            then Some (((b0 - 192) * 64 + (byte c1 - 128))%N, s2)
            else None
        | _ => None
        end
      else if (b0 <? 240)%N then
        match s1 with
        | String c1 (String c2 s3) =>
            let cp := ((b0 - 224) * 4096 + (byte c1 - 128) * 64
                       + (byte c2 - 128))%N in
            if is_continuation c1 && is_continuation c2
               && (2048 <=? cp)%N
               && negb ((55296 <=? cp)%N && (cp <=? 57343)%N)
            then Some (cp, s3)
            else None
        | _ => None
        end
      else if (b0 <? 245)%N then
        match s1 with
        | String c1 (String c2 (String c3 s4)) =>
            let cp := ((b0 - 240) * 262144 + (byte c1 - 128) * 4096
                       + (byte c2 - 128) * 64 + (byte c3 - 128))%N in
            if is_continuation c1 && is_continuation c2 && is_continuation c3
               && (65536 <=? cp)%N && (cp <=? 1114111)%N
            then Some (cp, s4)
            else None
        | _ => None
        end
      else None
  end.

(** The decimal digits of Unicode 14.0, the character database of
    Python 3.11: the digits of a script are ten consecutive code points,
    listed here by their zero.  In a [str] pattern [\d] matches exactly
    these characters, and [int] reads each as its value. *)
Definition decimal_zeros : list N :=
  [48; 1632; 1776; 1984; 2406; 2534; 2662; 2790; 2918; 3046; 3174; 3302;
   3430; 3558; 3664; 3792; 3872; 4160; 4240; 6112; 6160; 6470; 6608; 6784;
   6800; 6992; 7088; 7232; 7248; 42528; 43216; 43264; 43472; 43504; 43600;
   44016; 65296; 66720; 68912; 69734; 69872; 69942; 70096; 70384; 70736;
   70864; 71248; 71360; 71472; 71904; 72016; 72784; 73040; 73120; 92768;
   92864; 93008; 120782; 120792; 120802; 120812; 120822; 123200; 123632;
   125264; 130032]%N.

Fixpoint decimal_among (zeros : list N) (cp : N) : option Z :=
  match zeros with
  | [] => None
  | z :: zeros' =>
      if (z <=? cp)%N && (cp <? z + 10)%N then Some (Z.of_N (cp - z))
      else decimal_among zeros' cp
  end.

(** The value of a code point as a decimal digit, if it is one. *)
Definition unicode_decimal (cp : N) : option Z :=
  decimal_among decimal_zeros cp.

(** [\d] at the head of [s]: the value of the digit and what follows
    it. *)
Definition digit_here (s : string) : option (Z * string) :=
  match utf8_head s with
  | Some (cp, rest) =>
      match unicode_decimal cp with
      | Some v => Some (v, rest)
      | None => None
      end
  | None => None
  end.

Definition is_underscore (c : ascii) : bool := Ascii.eqb c "_"%char.

(** The pattern [_(\d{4})_] anchored at the head of [s]; the value is
    [int(group(1))]. *)
Definition match_year_here (s : string) : option Z :=
  match s with
  | String u s1 =>
      if is_underscore u then
        match digit_here s1 with
        | Some (a, s2) =>
            match digit_here s2 with
            | Some (b, s3) =>
                match digit_here s3 with
                | Some (c, s4) =>
                    match digit_here s4 with
                    | Some (d, String v _) =>
                        if is_underscore v
                        then Some (1000 * a + 100 * b + 10 * c + d)
                        else None
                    | _ => None
                    end
                | None => None
                end
            | None => None
            end
        | None => None
        end
      else None
  | EmptyString => None
  end.

(** [re.search(config.YEAR_PATTERN, filename)]: the leftmost match. *)
Fixpoint re_search_year (s : string) : option Z :=
  match match_year_here s with
  | Some y => Some y
  | None =>
      match s with
      | EmptyString => None
      | String _ s' => re_search_year s'
      end
  end.

Definition extract_year_from_filename (filename : string) : result Z :=
  match re_search_year filename with
  | None => Raise (ValueError_CouldNotExtractYear filename)
  | Some y => Ok y
  end.

(** The directories of the file system: a listing, or [None] when the
    directory is absent. Listings are in enumeration order. *)
Definition dirs := string -> option (list string).

(** [list(input_dir.glob("*.nc"))] *)
Definition glob_nc (entries : list string) : list string :=
  filter (fun n => endswith n ".nc") entries.

(** One iteration of the loop over [nc_files]: append the pair, or warn
    and skip when the year cannot be extracted. *)
Definition discover_step (dir : string) (files_with_years : list (FilePath * Z))
    (name : string) : M (list (FilePath * Z)) :=
  try_except
    (match extract_year_from_filename name with
     | Ok year => ret (files_with_years ++ [(mkPath dir name, year)])
     | Raise e => raise e
     end)
    (fun e => print (Warn_SkippingFile name) ;; ret files_with_years).

Definition discover_nc_files (fs : dirs) (model scenario variable : string)
  : M (list (FilePath * Z)) :=
  let input_dir := config.get_input_directory model scenario variable in
  emit (EvDirExists input_dir) ;;
  match fs input_dir with
  | None => raise (FileNotFoundError_InputDirectory input_dir)
  | Some entries =>
      emit (EvGlob input_dir) ;;
      let nc_files := glob_nc entries in
      match nc_files with
      | [] => raise (ValueError_NoNetCDFFiles input_dir)
      | _ =>
          files_with_years <- fold_M nc_files (discover_step input_dir) [] ;;
          match files_with_years with
          | [] => raise (ValueError_NoYearsExtracted input_dir)
          | _ => ret (sort_key snd files_with_years)
          end
      end
  end.

(* ================================================================== *)
(** * Numbers *)
(* ================================================================== *)

Definition Qc_of_Z (z : Z) : Qc := Q2Qc (inject_Z z).
Definition Qc_of_nat (n : nat) : Qc := Qc_of_Z (Z.of_nat n).

Definition Qcleb (a b : Qc) : bool := Qle_bool a b.
Definition Qcltb (a b : Qc) : bool := negb (Qle_bool b a).
Definition Qceqb (a b : Qc) : bool := Qeq_bool a b.

(** The tolerance constants: [0.01], and numpy's default [rtol = 1e-05]. *)
Definition tol_abs : Qc := Q2Qc (1 # 100).
Definition np_default_rtol : Qc := Q2Qc (1 # 100000).

(** [xs[a:b]] for non-negative [a], [b]. *)
Definition py_slice {A} (a b : nat) (xs : list A) : list A :=
  firstn (b - a) (skipn a xs).

(* ================================================================== *)
(** * The raster files *)
(* ================================================================== *)

(** A decoded time-coordinate value: a calendar timestamp that
    [pd.to_datetime] accepts (only its year matters), or an object of a
    non-standard calendar that it rejects. *)
Inductive tstamp : Type :=
| Datetime (year : Z)
| CFTime.

(** A 3-D block of values, addressed [time][lat][lon]. *)
Definition cube := list (list (list val)).

(** The content of a NetCDF file: coordinate variables and data
    variables over (time, lat, lon). *)
Record NcFile : Type := mkNc {
  nc_time : list tstamp;
  nc_lat : list Qc;
  nc_lon : list Qc;
  nc_vars : list (string * cube)
}.

(** The files of the file system; [None] when a path cannot be opened. *)
Definition ncfiles := FilePath -> option NcFile.

Definition lift {A} (r : result A) : M A := ([], r).

(* ================================================================== *)
(** * utils/file_handler.py: the lightweight coordinate check *)
(* ================================================================== *)

(** [with netCDF4.Dataset(path, 'r') as nc: (nc.variables['lat'][:],
    nc.variables['lon'][:])] *)
Definition open_nc_coords (files : ncfiles) (p : FilePath)
  : M (list Qc * list Qc) :=
  emit (EvOpenNc p) ;;
  match files p with
  | None => raise (OSError_CannotOpen p)
  | Some nc => ret (nc_lat nc, nc_lon nc)
  end.

(** [abs(a - b).max()] for arrays of equal length. *)
Definition abs_diff_max (a b : list Qc) : result Qc :=
  match map (fun p => Qcabs (fst p - snd p)%Qc) (combine a b) with
  | [] => Raise ValueError_ZeroSizeReduction
  | d :: ds => Ok (fold_left (fun m x => if Qcleb m x then x else m) ds d)
  end.

Definition abs_diff_max_lt (a b : list Qc) (tol : Qc) : M bool :=
  m <- lift (abs_diff_max a b) ;; ret (Qcltb m tol).

(** The loop over [file_paths[1:min(5, len(file_paths))]]; a [return
    False] inside the loop ends it. *)
Fixpoint validate_loop (files : ncfiles) (first_lat first_lon : list Qc)
    (paths : list FilePath) : M bool :=
  match paths with
  | [] => ret true
  | file_path :: rest =>
      c <- open_nc_coords files file_path ;;
      let (lat, lon) := c in
      if negb ((length lat =? length first_lat)%nat
               && (length lon =? length first_lon)%nat)
      then print Warn_DimensionsDiffer ;; ret false
      else
        lat_ok <- abs_diff_max_lt lat first_lat tol_abs ;;
        lon_ok <- (if lat_ok then abs_diff_max_lt lon first_lon tol_abs
                   else ret false) ;;
        if negb (lat_ok && lon_ok)
        then print Warn_ValuesDiffer ;; ret false
        else validate_loop files first_lat first_lon rest
  end.

(** The body of the [try] block. *)
Definition validate_try (netCDF4_installed : bool) (files : ncfiles)
    (file_paths : list FilePath) : M bool :=
  (if netCDF4_installed then ret tt else raise ImportError_netCDF4) ;;
  match file_paths with
  | [] => raise IndexError
  | p0 :: _ =>
      c <- open_nc_coords files p0 ;;
      let (first_lat, first_lon) := c in
      validate_loop files first_lat first_lon
        (py_slice 1 (Nat.min 5 (length file_paths)) file_paths)
  end.

Definition validate_coordinate_consistency (netCDF4_installed : bool)
    (files : ncfiles) (file_paths : list FilePath) : M bool :=
  if (length file_paths <? 2)%nat then ret true
  else
    try_except (validate_try netCDF4_installed files file_paths)
      (fun e => print (Warn_CouldNotValidate e) ;; ret true).

(* ================================================================== *)
(** * Dictionaries, numpy and xarray *)
(* ================================================================== *)

(** A [dict] in insertion order: [d[k] = v] and [d.get(k)]. *)
Fixpoint dict_set {K V} (eqb : K -> K -> bool) (d : list (K * V)) (k : K) (v : V)
  : list (K * V) :=
  match d with
  | [] => [(k, v)]
  | (k', v') :: d' =>
      if eqb k' k then (k', v) :: d' else (k', v') :: dict_set eqb d' k v
  end.

Fixpoint dict_get {K V} (eqb : K -> K -> bool) (d : list (K * V)) (k : K)
  : option V :=
  match d with
  | [] => None
  | (k', v') :: d' => if eqb k' k then Some v' else dict_get eqb d' k
  end.

Definition dict_keys {K V} (d : list (K * V)) : list K := map fst d.

(** A numpy array: its shape and its buffer in C order. *)
Record ndarray : Type := mkNd { shape : list nat; buf : list val }.

Definition ndim (a : ndarray) : nat := length (shape a).

(** An xarray DataArray with dimensions (time, lat, lon). *)
Record DataArray : Type := mkDA {
  da_time : list tstamp;
  da_lat : list Qc;
  da_lon : list Qc;
  da_values : cube
}.

(** What [read_nc_file] hands back: the named variable, or the whole
    dataset when the name is falsy. *)
Inductive xr_object : Type :=
| XDataArray (da : DataArray)
| XDataset (ds : NcFile).

(** [len(da)]: the size of the first dimension. *)
Definition da_len (da : DataArray) : nat := length (da_values da).

Definition map2 {A B C} (f : A -> B -> C) (a : list A) (b : list B) : list C :=
  map (fun p => f (fst p) (snd p)) (combine a b).

(** ** numpy *)

(** [np.unique]: the sorted distinct values. *)
Fixpoint drop_repeats (l : list Z) : list Z :=
  match l with
  | [] => []
  | x :: l' =>
      match l' with
      | [] => [x]
      | y :: _ => if x =? y then drop_repeats l' else x :: drop_repeats l'
      end
  end.

Definition np_unique (xs : list Z) : list Z := drop_repeats (sort_key (fun x => x) xs).

(** [np.where(mask)[0]]: the positions of [True], ascending. *)
Fixpoint np_where_from (i : nat) (mask : list bool) : list nat :=
  match mask with
  | [] => []
  | b :: m => if b then i :: np_where_from (S i) m else np_where_from (S i) m
  end.

Definition np_where (mask : list bool) : list nat := np_where_from 0 mask.

(** Broadcasting of two 1-D arrays. *)
Definition np_broadcast {A} (a b : list A) : result (list (A * A)) :=
  if (length a =? length b)%nat then Ok (combine a b)
  else
    match a, b with
    | [x], _ => Ok (map (fun y => (x, y)) b)
    | _, [y] => Ok (map (fun x => (x, y)) a)
    | _, _ => Raise ValueError_Broadcast
    end.

(** [np.isclose(a, b)]: [|a - b| <= atol + rtol * |b|]. *)
Definition np_isclose (rtol atol a b : Qc) : bool :=
  Qcleb (Qcabs (a - b)%Qc) (atol + rtol * Qcabs b)%Qc.

(** [np.allclose(a, b, atol=atol)]: [rtol] keeps its default, 1e-05. *)
Definition np_allclose (a b : list Qc) (atol : Qc) : result bool :=
  match np_broadcast a b with
  | Ok ps => Ok (forallb (fun p => np_isclose np_default_rtol atol (fst p) (snd p)) ps)
  | Raise e => Raise e
  end.

(** [np.meshgrid(lon, lat)]: two (len lat, len lon) arrays. *)
Definition np_meshgrid (lon lat : list Qc) : ndarray * ndarray :=
  let m := length lat in
  let n := length lon in
  (mkNd [m; n] (concat (map (fun _ => map Num lon) lat)),
   mkNd [m; n] (concat (map (fun la => map (fun _ => Num la) lon) lat))).

(** [a.flatten()] *)
Definition np_flatten (a : ndarray) : list val := buf a.

(** [a.reshape(-1, k)] *)
Definition np_reshape_rows (a : ndarray) (k : nat) : result ndarray :=
  let size := length (buf a) in
  if (k =? 0)%nat || negb (size mod k =? 0)%nat then Raise ValueError_Reshape
  else Ok (mkNd [(size / k)%nat; k] (buf a)).

(** The rows of a 2-D buffer. *)
Fixpoint chunks (r k : nat) (b : list val) : list (list val) :=
  match r with
  | O => []
  | S r' => firstn k b :: chunks r' k (skipn k b)
  end.

(** Float addition and division by a count; NaN propagates. *)
Definition add_val (x y : val) : val :=
  match x, y with
  | Num a, Num b => Num (a + b)%Qc
  | _, _ => NaN
  end.

Definition div_count (x : val) (n : nat) : val :=
  match x, n with
  | Num a, S _ => Num (a / Qc_of_nat n)%Qc
  | _, _ => NaN
  end.

(** [a.mean(axis=0)] of a 2-D numpy array: the column sums over the row
    count. numpy does not skip NaN: one NaN in a column makes its mean
    NaN. *)
Definition np_mean_axis0 (a : ndarray) : result ndarray :=
  match shape a with
  | [r; k] =>
      let sums := fold_left (map2 add_val) (chunks r k (buf a)) (repeat (Num 0%Qc) k) in
      Ok (mkNd [k] (map (fun s => div_count s r) sums))
  | s => Raise (ValueError_UnexpectedShape s)
  end.

(** ** xarray *)

(** [da.isel(time=indices)] *)
Definition isel_time (da : DataArray) (indices : list nat) : result DataArray :=
  if forallb (fun i => (i <? da_len da)%nat) indices
  then Ok (mkDA (map (fun i => nth i (da_time da) CFTime) indices)
                (da_lat da) (da_lon da)
                (map (fun i => nth i (da_values da) []) indices))
  else Raise IndexError.

(** Reduction over the time dimension, cell by cell: an accumulator grid
    of the (lat, lon) shape is updated with every time slice. *)
Definition reduce_time {S} (m n : nat) (init : S) (step : S -> val -> S)
    (slices : cube) : list (list S) :=
  fold_left (map2 (map2 step)) slices (repeat (repeat init n) m).

(** NaN-skipping mean: the sum and the count of the numbers seen. *)
Definition mean_step (acc : Qc * nat) (v : val) : Qc * nat :=
  match v with
  | NaN => acc
  | Num q => ((fst acc + q)%Qc, S (snd acc))
  end.

Definition mean_final (acc : Qc * nat) : val :=
  match snd acc with
  | O => NaN
  | S _ => Num (fst acc / Qc_of_nat (snd acc))%Qc
  end.

(** NaN-skipping extremum. *)
Definition pick_step (better : Qc -> Qc -> bool) (acc : option Qc) (v : val)
  : option Qc :=
  match v, acc with
  | NaN, _ => acc
  | Num q, None => Some q
  | Num q, Some m => if better q m then Some q else Some m
  end.

Definition pick_final (acc : option Qc) : val :=
  match acc with
  | None => NaN
  | Some q => Num q
  end.

(** [da.mean(dim='time').values], [.max(...)], [.min(...)]. For float
    data xarray's reductions skip missing values ([skipna] defaults to
    True): a cell reduces over its numbers, and to NaN when it has none. *)
Definition xr_reduce_values {S} (init : S) (step : S -> val -> S)
    (final : S -> val) (da : DataArray) : ndarray :=
  let m := length (da_lat da) in
  let n := length (da_lon da) in
  mkNd [m; n] (concat (map (map final) (reduce_time m n init step (da_values da)))).

Definition xr_mean_time_values : DataArray -> ndarray :=
  xr_reduce_values (0%Qc, O) mean_step mean_final.

Definition xr_max_time_values : DataArray -> ndarray :=
  xr_reduce_values None (pick_step (fun q m => Qcltb m q)) pick_final.

Definition xr_min_time_values : DataArray -> ndarray :=
  xr_reduce_values None (pick_step (fun q m => Qcltb q m)) pick_final.

(** [da.values] of the 3-D array. *)
Definition da_values_nd (da : DataArray) : ndarray :=
  mkNd [da_len da; length (da_lat da); length (da_lon da)]
       (concat (map (@concat val) (da_values da))).

(** ** [xr.concat(datasets, dim='time')]

    With its defaults the objects are first aligned on the other
    dimensions by an outer join: where the label arrays of a dimension
    are not all equal, the joined index is the sorted union of the labels
    and every object is re-indexed to it, missing cells becoming NaN. *)

Definition labels_eqb (a b : list Qc) : bool :=
  (length a =? length b)%nat
  && forallb (fun p => Qceqb (fst p) (snd p)) (combine a b).

Fixpoint insert_label (x : Qc) (l : list Qc) : list Qc :=
  match l with
  | [] => [x]
  | y :: l' =>
      if Qceqb x y then l
      else if Qcleb x y then x :: l
      else y :: insert_label x l'
  end.

Definition index_union (idxs : list (list Qc)) : list Qc :=
  fold_right insert_label [] (concat idxs).

Definition join_index (idxs : list (list Qc)) : list Qc :=
  match idxs with
  | [] => []
  | i0 :: rest => if forallb (labels_eqb i0) rest then i0 else index_union idxs
  end.

Fixpoint index_of (x : Qc) (l : list Qc) : option nat :=
  match l with
  | [] => None
  | y :: l' => if Qceqb x y then Some O else option_map S (index_of x l')
  end.

Fixpoint has_duplicates (l : list Qc) : bool :=
  match l with
  | [] => false
  | x :: l' => existsb (Qceqb x) l' || has_duplicates l'
  end.

Definition can_reindex (old new : list Qc) : bool :=
  labels_eqb old new || negb (has_duplicates old).

Definition reindex_axis {A} (old new : list Qc) (fill : A) (xs : list A) : list A :=
  if labels_eqb old new then xs
  else map (fun l => match index_of l old with
                     | Some i => nth i xs fill
                     | None => fill
                     end) new.

Definition reindex_like (new_lat new_lon : list Qc) (da : DataArray) : DataArray :=
  mkDA (da_time da) new_lat new_lon
    (map (fun slice =>
            reindex_axis (da_lat da) new_lat (repeat NaN (length new_lon))
              (map (reindex_axis (da_lon da) new_lon NaN) slice))
         (da_values da)).

Definition xr_concat_time (datasets : list DataArray) : result DataArray :=
  let new_lat := join_index (map da_lat datasets) in
  let new_lon := join_index (map da_lon datasets) in
  if forallb (fun da => can_reindex (da_lat da) new_lat
                        && can_reindex (da_lon da) new_lon) datasets
  then
    let aligned := map (reindex_like new_lat new_lon) datasets in
    Ok (mkDA (concat (map da_time aligned)) new_lat new_lon
             (concat (map da_values aligned)))
  else Raise ValueError_Alignment.

(** [pd.to_datetime(values).year.tolist()]; [None] when the conversion
    raises. *)
Fixpoint pd_to_datetime_years (ts : list tstamp) : option (list Z) :=
  match ts with
  | [] => Some []
  | Datetime y :: ts' => option_map (cons y) (pd_to_datetime_years ts')
  | CFTime :: _ => None
  end.

(** [enumerate(xs, start)] *)
Definition enumerate {A} (start : nat) (xs : list A) : list (nat * A) :=
  combine (seq start (length xs)) xs.

(* ================================================================== *)
(** * utils/nc_reader.py *)
(* ================================================================== *)

Definition read_nc_file (files : ncfiles) (file_path : FilePath)
    (variable_name : string) : M xr_object :=
  emit (EvOpenDataset file_path) ;;
  match files file_path with
  | None => raise (OSError_CannotOpen file_path)
  | Some ds =>
      if negb (String.eqb variable_name "") then
        match dict_get String.eqb (nc_vars ds) variable_name with
        | None => raise (ValueError_VariableNotFound variable_name file_path)
        | Some values =>
            ret (XDataArray (mkDA (nc_time ds) (nc_lat ds) (nc_lon ds) values))
        end
      else ret (XDataset ds)
  end.

(** The embedding follows the merge of DataArrays; the merge of whole
    datasets (reached only with an empty variable name) is outside it. *)
Fixpoint as_data_arrays (objs : list xr_object) : option (list DataArray) :=
  match objs with
  | [] => Some []
  | XDataArray da :: rest => option_map (cons da) (as_data_arrays rest)
  | XDataset _ :: _ => None
  end.

(** The coordinate check of one later file against the first. *)
Definition check_coords (first_lat first_lon : list Qc) (ix : nat * DataArray)
  : M unit :=
  let (i, da) := ix in
  lat_match <- lift (np_allclose (da_lat da) first_lat tol_abs) ;;
  lon_match <- lift (np_allclose (da_lon da) first_lon tol_abs) ;;
  if negb (lat_match && lon_match)
  then raise (ValueError_CoordinateMismatch (i + 1))
  else ret tt.

(** The time-to-year mapping from the supplied labels. *)
Definition years_step (datasets : list DataArray) (time_years : list Z)
    (iy : nat * Z) : M (list Z) :=
  let (i, year) := iy in
  match nth_error datasets i with
  | None => raise IndexError
  | Some da => ret (time_years ++ repeat year (da_len da))
  end.

(** The last-resort labels: 2000 + file position. *)
Definition sequential_years (datasets : list DataArray) : list Z :=
  concat (map (fun id => repeat (2000 + Z.of_nat (fst id)) (da_len (snd id)))
              (enumerate 0 datasets)).

(** The merge proper, once every file has been read: the coordinate
    check, the concatenation and the labels of the time steps. *)
Definition merge_datasets (datasets : list DataArray) (years : option (list Z))
  : M (DataArray * list Z) :=
  (if (1 <? length datasets)%nat then
     for_each (enumerate 1 (tl datasets))
       (check_coords (da_lat (nth 0 datasets (mkDA [] [] [] [])))
                     (da_lon (nth 0 datasets (mkDA [] [] [] []))))
   else ret tt) ;;
  merged <- lift (xr_concat_time datasets) ;;
  time_years <-
    match years with
    | Some (y :: ys) =>
        fold_M (enumerate 0 (y :: ys)) (years_step datasets) []
    | _ =>
        match pd_to_datetime_years (da_time merged) with
        | Some ys => ret ys
        | None =>
            print Warn_SequentialYears ;;
            ret (sequential_years datasets)
        end
    end ;;
  ret (merged, time_years).

Definition merge_nc_files (files : ncfiles) (file_paths : list FilePath)
    (variable_name : string) (years : option (list Z))
  : M (DataArray * list Z) :=
  match file_paths with
  | [] => raise ValueError_NoFilePaths
  | _ =>
      objs <- fold_M file_paths
                (fun acc file_path =>
                   try_except
                     (da <- read_nc_file files file_path variable_name ;;
                      ret (acc ++ [da]))
                     (fun e => raise (RuntimeError_ReadingFile file_path e)))
                [] ;;
      match as_data_arrays objs with
      | None => raise NotModelled_DatasetMerge
      | Some datasets => merge_datasets datasets years
      end
  end.

(** One iteration of the loop over [unique_years]. *)
Definition aggregate_year (data_array : DataArray) (years : list Z)
    (aggregation : string) (data_dict : list (Z * ndarray)) (year : Z)
  : M (list (Z * ndarray)) :=
  let year_mask := map (fun y => y =? year) years in
  let year_indices := np_where year_mask in
  year_data <- lift (isel_time data_array year_indices) ;;
  aggregated <-
    (if String.eqb aggregation "mean" then
       emit (EvReduce RedMean year) ;; ret (xr_mean_time_values year_data)
     else if String.eqb aggregation "max" then
       emit (EvReduce RedMax year) ;; ret (xr_max_time_values year_data)
     else if String.eqb aggregation "min" then
       emit (EvReduce RedMin year) ;; ret (xr_min_time_values year_data)
     else if String.eqb aggregation "all" then
       ret (da_values_nd year_data)
     else raise (ValueError_UnknownAggregation aggregation)) ;;
  ret (dict_set Z.eqb data_dict year aggregated).

Definition extract_coordinate_data (data_array : DataArray)
    (time_years : list Z) (aggregation : string)
  : M (list Qc * list Qc * list (Z * ndarray)) :=
  let lat := da_lat data_array in
  let lon := da_lon data_array in
  let years := time_years in
  let unique_years := np_unique years in
  data_dict <- fold_M unique_years
                 (aggregate_year data_array years aggregation) [] ;;
  ret (lat, lon, data_dict).

(** The flat column of one year: a 2-D array is flattened, a 3-D array
    is reshaped to (days, cells) and averaged over the days. *)
Definition flatten_year (n_lat n_lon : nat) (data_array : ndarray)
  : result (list val) :=
  if (ndim data_array =? 2)%nat then Ok (np_flatten data_array)
  else if (ndim data_array =? 3)%nat then
    match np_reshape_rows data_array (n_lat * n_lon) with
    | Raise e => Raise e
    | Ok rows =>
        match np_mean_axis0 rows with
        | Raise e => Raise e
        | Ok mean => Ok (buf mean)
        end
    end
  else Raise (ValueError_UnexpectedShape (shape data_array)).

Definition column_name (variable_name : string) (year : Z) : string :=
  (variable_name ++ "_" ++ str_of_int year)%string.

(** One iteration of the loop over [sorted(data_dict.items())]. *)
Definition add_year_column (n_lat n_lon : nat) (variable_name : string)
    (result : list (string * list val)) (item : Z * ndarray)
  : M (list (string * list val)) :=
  let (year, data_array) := item in
  data_flat <- lift (flatten_year n_lat n_lon data_array) ;;
  ret (dict_set String.eqb result (column_name variable_name year) data_flat).

Definition prepare_dataframe_data (lat lon : list Qc)
    (data_dict : list (Z * ndarray)) (variable_name : string)
  : M (list (string * list val)) :=
  let n_lat := length lat in
  let n_lon := length lon in
  let (lon_grid, lat_grid) := np_meshgrid lon lat in
  let lat_flat := np_flatten lat_grid in
  let lon_flat := np_flatten lon_grid in
  let result := [("lat", lat_flat); ("lon", lon_flat)] in
  fold_M (sort_key fst data_dict) (add_year_column n_lat n_lon variable_name) result.

(* ================================================================== *)
(** * utils/excel_writer.py *)
(* ================================================================== *)

(** A pandas DataFrame: the length of its index and its columns, in
    order. *)
Record DataFrame : Type := mkDF {
  df_len : nat;
  df_columns : list (string * list val)
}.

Definition df_column_names (df : DataFrame) : list string :=
  map fst (df_columns df).

(** [pd.DataFrame(data_dict)] for a dict of 1-D arrays. *)
Definition pd_DataFrame (data_dict : list (string * list val)) : result DataFrame :=
  match data_dict with
  | [] => Ok (mkDF 0 [])
  | (_, c) :: rest =>
      if forallb (fun kv => (length (snd kv) =? length c)%nat) rest
      then Ok (mkDF (length c) data_dict)
      else Raise ValueError_ArraysLength
  end.

(** [df[cols]] *)
Fixpoint df_select_columns (cols : list (string * list val)) (names : list string)
  : result (list (string * list val)) :=
  match names with
  | [] => Ok []
  | c :: names' =>
      match dict_get String.eqb cols c with
      | None => Raise (KeyError c)
      | Some v =>
          match df_select_columns cols names' with
          | Ok tl => Ok ((c, v) :: tl)
          | Raise e => Raise e
          end
      end
  end.

Definition df_select (df : DataFrame) (names : list string) : result DataFrame :=
  match df_select_columns (df_columns df) names with
  | Ok cols => Ok (mkDF (df_len df) cols)
  | Raise e => Raise e
  end.

(** The bound of a slice: negative positions count from the end, and
    everything is clipped to the length. *)
Definition py_bound (n i : Z) : nat :=
  Z.to_nat (if i <? 0 then Z.max 0 (i + n) else Z.min i n).

Definition py_slice_Z {A} (start stop : Z) (xs : list A) : list A :=
  let n := Z.of_nat (length xs) in
  py_slice (py_bound n start) (py_bound n stop) xs.

(** [df.iloc[start:stop]] *)
Definition df_iloc (df : DataFrame) (start stop : Z) : DataFrame :=
  let n := Z.of_nat (df_len df) in
  mkDF (py_bound n stop - py_bound n start)
       (map (fun kv => (fst kv, py_slice_Z start stop (snd kv))) (df_columns df)).

(** [range(n)] *)
Definition py_range (n : Z) : list Z := map Z.of_nat (seq 0 (Z.to_nat n)).

Definition string_in (c : string) (l : list string) : bool :=
  existsb (String.eqb c) l.

(** A workbook: its sheets, in the order written. *)
Definition workbook := list (string * DataFrame).

(** The sheet written in iteration [i] of the split. *)
Definition split_sheet (df : DataFrame) (sheet_name : string)
    (max_rows_per_sheet num_sheets : Z) (i : Z) : string * DataFrame :=
  let start_idx := i * max_rows_per_sheet in
  let end_idx := Z.min ((i + 1) * max_rows_per_sheet) (Z.of_nat (df_len df)) in
  let sheet_df := df_iloc df start_idx end_idx in
  let current_sheet_name :=
    if num_sheets >? 1 then (sheet_name ++ "_" ++ str_of_int (i + 1))%string
    else sheet_name in
  (current_sheet_name, sheet_df).

(** [df = pd.DataFrame(data_dict)] with "lat" and "lon" moved to the
    front. *)
Definition build_frame (data_dict : list (string * list val)) : result DataFrame :=
  match pd_DataFrame data_dict with
  | Raise e => Raise e
  | Ok df =>
      let cols := ["lat"; "lon"]
                  ++ filter (fun c => negb (string_in c ["lat"; "lon"]))
                            (df_column_names df) in
      df_select df cols
  end.

(** ** Sheets: what pandas and openpyxl accept

    openpyxl is the Excel engine of both branches of the writer (the
    split names it; the single sheet gets it as the engine installed
    for .xlsx files). *)

(** pandas refuses to write a frame with more rows or columns than a
    sheet holds: 2**20 rows, 2**14 columns. *)
Definition sheet_too_large (df : DataFrame) : bool :=
  (1048576 <? Z.of_nat (df_len df))
  || (16384 <? Z.of_nat (length (df_columns df))).

Definition has_character (p : ascii -> bool) (s : string) : bool :=
  existsb p (list_ascii_of_string s).

(** The characters openpyxl refuses in a sheet title. *)
Definition invalid_title_character (c : ascii) : bool :=
  existsb (Ascii.eqb c) ["\"; "*"; "?"; ":"; "/"; "["; "]"]%char.

(** The control characters openpyxl refuses in the string of a cell:
    0 to 8, 11, 12 and 14 to 31. *)
Definition illegal_character (c : ascii) : bool :=
  let n := nat_of_ascii c in
  (n <=? 8)%nat || (n =? 11)%nat || (n =? 12)%nat
  || ((14 <=? n) && (n <=? 31))%nat.

(** [s.lower()], as far as the ASCII letters go. *)
Definition ascii_lower (c : ascii) : ascii :=
  let n := nat_of_ascii c in
  if ((65 <=? n) && (n <=? 90))%nat then ascii_of_nat (n + 32) else c.

Fixpoint lower (s : string) : string :=
  match s with
  | EmptyString => EmptyString
  | String c s' => String (ascii_lower c) (lower s')
  end.

(** [wks = book.create_sheet(); wks.title = value], for a book whose
    sheets are titled [existing]: the title the new sheet ends with.
    openpyxl first names the new sheet "Sheet"; the setter refuses an
    empty title and a title with an invalid character, and it appends a
    number to a title that a sheet of the book holds already, upper and
    lower case counting as the same.  The new sheet itself counts while
    it is called "Sheet": a title that differs from "Sheet" by case only
    gets the number 1.  The renaming of a title that clashes with another
    sheet of the book is not modelled (the titles of one split differ by
    their numbers). *)
Definition set_title (existing : list string) (value : string) : result string :=
  if String.eqb value "" then Raise ValueError_TitleEmpty
  else if has_character invalid_title_character value
  then Raise (ValueError_InvalidTitleCharacter value)
  else if existsb (fun t => String.eqb (lower t) (lower value)
                            || String.eqb (lower t) "sheet") existing
  then Raise NotModelled_TitleClash
  else if String.eqb (lower value) "sheet" && negb (String.eqb value "Sheet")
  then Ok (value ++ "1")%string
  else Ok value.

(** The columns whose header cell is written before the first one that
    openpyxl refuses. *)
Fixpoint headers_until_illegal (cols : list (string * list val))
  : list (string * list val) :=
  match cols with
  | [] => []
  | (name, _) :: cols' =>
      if has_character illegal_character name then []
      else (name, []) :: headers_until_illegal cols'
  end.

(** [df.to_excel(writer, sheet_name=sheet_name, index=False)] on a writer
    whose book holds the sheets [book]: the book afterwards and the
    outcome.  pandas checks the size before it touches the book; then a
    sheet is added and titled, and the header cells and the rows are
    written; a header with an illegal character stops the writing. *)
Definition to_excel (book : workbook) (df : DataFrame) (sheet_name : string)
  : workbook * result unit :=
  if sheet_too_large df then (book, Raise ValueError_SheetTooLarge)
  else
    match set_title (map fst book) sheet_name with
    | Raise e => (book ++ [("Sheet", mkDF 0 [])], Raise e)
    | Ok title =>
        match find (has_character illegal_character) (df_column_names df) with
        | Some name =>
            (book ++ [(title, mkDF 0 (headers_until_illegal (df_columns df)))],
             Raise (IllegalCharacterError name))
        | None => (book ++ [(title, df)], Ok tt)
        end
    end.

(** Closing the writer saves the book, whether or not the writing
    raised; openpyxl refuses to save a book without sheets, and that
    error replaces the one of the writing. *)
Definition close_writer (state : workbook * result unit) : result workbook :=
  match state with
  | ([], _) => Raise IndexError_NoVisibleSheet
  | (book, Ok _) => Ok book
  | (_, Raise e) => Raise e
  end.

(** [df.to_excel(output_path, sheet_name=sheet_name, index=False)]: the
    size is checked before a writer is made for the path. *)
Definition to_excel_path (df : DataFrame) (sheet_name : string)
  : result workbook :=
  if sheet_too_large df then Raise ValueError_SheetTooLarge
  else close_writer (to_excel [] df sheet_name).

(** The loop over [range(num_sheets)] inside the [with] block: it stops
    at the first sheet that fails. *)
Fixpoint write_split (df : DataFrame) (sheet_name : string)
    (max_rows_per_sheet num_sheets : Z) (indices : list Z) (book : workbook)
  : workbook * result unit :=
  match indices with
  | [] => (book, Ok tt)
  | i :: indices' =>
      let sheet := split_sheet df sheet_name max_rows_per_sheet num_sheets i in
      match to_excel book (snd sheet) (fst sheet) with
      | (book', Ok _) =>
          write_split df sheet_name max_rows_per_sheet num_sheets indices' book'
      | (book', Raise e) => (book', Raise e)
      end
  end.

(** The sheets written for a frame: one, or the split. *)
Definition write_sheets (df : DataFrame) (sheet_name : string)
    (max_rows_per_sheet : Z) : M workbook :=
  if Z.of_nat (df_len df) >? max_rows_per_sheet then
    print Msg_SplittingSheets ;;
    if max_rows_per_sheet =? 0 then raise ZeroDivisionError
    else
      let num_sheets :=
        (Z.of_nat (df_len df) + max_rows_per_sheet - 1) / max_rows_per_sheet in
      lift (close_writer
              (write_split df sheet_name max_rows_per_sheet num_sheets
                 (py_range num_sheets) []))
  else lift (to_excel_path df sheet_name).

(** The result is the workbook saved at [output_path]. *)
Definition write_to_excel (data_dict : list (string * list val))
    (sheet_name : option string) (max_rows_per_sheet : option Z) : M workbook :=
  if negb (string_in "lat" (dict_keys data_dict))
     || negb (string_in "lon" (dict_keys data_dict))
  then raise ValueError_MissingLatLon
  else
    let sheet_name :=
      match sheet_name with None => config.EXCEL_SHEET_NAME | Some s => s end in
    let max_rows_per_sheet :=
      match max_rows_per_sheet with
      | None => config.EXCEL_MAX_ROWS_PER_SHEET
      | Some m => m
      end in
    df <- lift (build_frame data_dict) ;;
    write_sheets df sheet_name max_rows_per_sheet.

(* ================================================================== *)
(** * merge_nc_to_excel.py: the driver *)
(* ================================================================== *)

(** What the run can observe of its environment. *)
Record world : Type := mkWorld {
  w_dirs : dirs;
  w_files : ncfiles;
  w_netCDF4 : bool;          (* can [netCDF4] be imported *)
  w_readback : bool          (* can the written file be read back *)
}.

(** [get_file_info]: a second discovery of the same directory. *)
Definition get_file_info (fs : dirs) (model scenario variable : string)
  : M (string * nat * list Z) :=
  let input_dir := config.get_input_directory model scenario variable in
  files_with_years <- discover_nc_files fs model scenario variable ;;
  ret (input_dir, length files_with_years, map snd files_with_years).

(** [try: c except Exception as e: print(...); sys.exit(1)] *)
Definition or_exit {A} (stage : string) (c : M A) : M A :=
  try_except c (fun e => print (Msg_FailedTo stage e) ;; raise (SystemExit 1)).

(** Steps 5 and 6: tabulate and write. *)
Definition steps_5_to_6 (readback : bool) (model scenario variable : string)
    (lat lon : list Qc) (data_dict : list (Z * ndarray))
  : M (string * workbook) :=
  print (Msg_Step 5) ;;
  dataframe_data <- or_exit "prepare DataFrame data"
                      (prepare_dataframe_data lat lon data_dict variable) ;;
  print (Msg_Step 6) ;;
  or_exit "export to Excel"
    (let output_path := config.get_output_path model scenario variable in
     wb <- write_to_excel dataframe_data None None ;;
     (if readback then print Msg_Success
      else print Warn_ExcelValidationFailed) ;;
     ret (output_path, wb)).

(** Steps 4 to 6: aggregate, then tabulate and write. The progress
    lines of step 4 print [lat.min()] and [lon.min()], which raise on an
    empty array. *)
Definition steps_4_to_6 (readback : bool) (model scenario variable : string)
    (aggregation : string) (merged_data : DataArray) (time_years : list Z)
  : M (string * workbook) :=
  print (Msg_Step 4) ;;
  extracted <- or_exit "extract coordinate data"
                 (r <- extract_coordinate_data merged_data time_years aggregation ;;
                  let '(lat, lon, _) := r in
                  match lat, lon with
                  | _ :: _, _ :: _ => ret r
                  | _, _ => raise ValueError_ZeroSizeReduction
                  end) ;;
  let '(lat, lon, data_dict) := extracted in
  steps_5_to_6 readback model scenario variable lat lon data_dict.

(** Step 3 onwards: read and merge, then steps 4 to 6. *)
Definition steps_3_to_6 (w : world) (model scenario variable : string)
    (aggregation : string) (files_with_years : list (FilePath * Z))
  : M (string * workbook) :=
  let file_paths := map fst files_with_years in
  let years := map snd files_with_years in
  print (Msg_Step 3) ;;
  merged <- or_exit "merge files"
              (merge_nc_files (w_files w) file_paths variable (Some years)) ;;
  let (merged_data, time_years) := merged in
  steps_4_to_6 (w_readback w) model scenario variable aggregation
    merged_data time_years.

(** Step 1: discovery (the handler catches FileNotFoundError and
    ValueError, the only exceptions discovery raises). *)
Definition step_1 (w : world) (model scenario variable : string)
  : M (list (FilePath * Z)) :=
  print (Msg_Step 1) ;;
  try_except
    (files_with_years <- discover_nc_files (w_dirs w) model scenario variable ;;
     _ <- get_file_info (w_dirs w) model scenario variable ;;
     ret files_with_years)
    (fun e => print (Msg_Error e) ;; raise (SystemExit 1)).

(** Step 2: the lightweight check; its verdict only selects a message. *)
Definition step_2 (w : world) (file_paths : list FilePath) : M unit :=
  print (Msg_Step 2) ;;
  ok <- validate_coordinate_consistency (w_netCDF4 w) (w_files w) file_paths ;;
  if negb ok then print Warn_ProceedingAnyway else print Msg_ValidationPassed.

Definition process_files (w : world) (model scenario variable : string)
    (aggregation : option string) : M (string * workbook) :=
  let aggregation :=
    match aggregation with None => config.EXCEL_AGGREGATION | Some a => a end in
  files_with_years <- step_1 w model scenario variable ;;
  step_2 w (map fst files_with_years) ;;
  steps_3_to_6 w model scenario variable aggregation files_with_years.

(* ================================================================== *)
(** * Notions used to state the properties *)
(* ================================================================== *)

(** ** Discovery *)

(** The encoding of one decimal digit, and the value of the digit. *)
Definition decimal_digit (a : string) : Prop :=
  exists v, digit_here a = Some (v, "").

Definition digit_value (a : string) : Z :=
  match digit_here a with
  | Some (v, _) => v
  | None => 0
  end.

(** A name that carries a year token after [pre]: an underscore, four
    characters, an underscore. *)
Definition with_year_token (pre a b c d post : string) : string :=
  (pre ++ "_" ++ a ++ b ++ c ++ d ++ "_" ++ post)%string.

Definition four_digits (a b c d : string) : Prop :=
  decimal_digit a /\ decimal_digit b /\ decimal_digit c /\ decimal_digit d.

(** A name matches the year pattern when it contains an underscore, four
    digits and an underscore in a row. *)
Definition matches_year_pattern (name : string) : Prop :=
  exists pre a b c d post,
    name = with_year_token pre a b c d post /\ four_digits a b c d.

Definition has_year (name : string) : bool :=
  match re_search_year name with Some _ => true | None => false end.

(** What the loop over the enumerated files collects and prints. *)
Definition year_pairs (dir : string) (names : list string) : list (FilePath * Z) :=
  flat_map (fun n => match re_search_year n with
                     | Some y => [(mkPath dir n, y)]
                     | None => []
                     end) names.

Definition skip_warnings (names : list string) : list event :=
  flat_map (fun n => match re_search_year n with
                     | Some _ => []
                     | None => [EvPrint (Warn_SkippingFile n)]
                     end) names.

(** Sample directories. *)
Definition sample_dirs_same_year : dirs :=
  fun _ => Some ["a_2035_x.nc"; "b_2035_y.nc"].

Definition sample_dirs_mixed : dirs :=
  fun _ => Some ["tasmax_2036_a.nc"; "notes.txt"; "tasmax_2035_a.nc"; "readme.nc"].

(** ** The lightweight coordinate check *)

(** The files a run opened through [netCDF4], in order. *)
Definition opened_nc (log : list event) : list FilePath :=
  flat_map (fun ev => match ev with EvOpenNc p => [p] | _ => [] end) log.

(** The aggregation the driver runs with. *)
Definition default_aggregation (aggregation : option string) : string :=
  match aggregation with None => config.EXCEL_AGGREGATION | Some a => a end.

(** ** Tables *)

(** Row [r] of a frame, and all its rows in order. *)
Definition df_row (df : DataFrame) (r : nat) : list val :=
  map (fun kv => nth r (snd kv) NaN) (df_columns df).

Definition df_rows (df : DataFrame) : list (list val) :=
  map (df_row df) (seq 0 (df_len df)).

(** Every column has the length of the index. *)
Definition df_wf (df : DataFrame) : Prop :=
  Forall (fun kv => length (snd kv) = df_len df) (df_columns df).

(** A table as handed to the writer: a dict of equally long columns
    with distinct names, among them "lat" and "lon". *)
Definition table_ok (data_dict : list (string * list val)) (rows : nat) : Prop :=
  NoDup (dict_keys data_dict)
  /\ In "lat" (dict_keys data_dict)
  /\ In "lon" (dict_keys data_dict)
  /\ Forall (fun kv => length (snd kv) = rows) data_dict.

(** The characters of [str(n)]: ASCII digits and the minus sign. *)
Definition number_character (c : ascii) : Prop :=
  In c ["0"; "1"; "2"; "3"; "4"; "5"; "6"; "7"; "8"; "9"; "-"]%char.

(** A sheet name every character of which openpyxl accepts in a
    title. *)
Definition valid_title_characters (s : string) : Prop :=
  has_character invalid_title_character s = false.

(** A sheet name that openpyxl keeps as it is for the only sheet of a
    book: it is not empty, has valid characters only, and is not "Sheet"
    in another case. *)
Definition title_kept (s : string) : Prop :=
  s <> "" /\ valid_title_characters s /\ (lower s = "sheet" -> s = "Sheet").

(** Column names free of the control characters that openpyxl refuses in
    a cell. *)
Definition legal_headers (names : list string) : Prop :=
  Forall (fun n => has_character illegal_character n = false) names.

(** The frame written for a table: "lat" and "lon" first, the other
    columns in the order of the dict. *)
Definition frame_of (data_dict : list (string * list val)) (rows : nat) : DataFrame :=
  mkDF rows
    (map (fun c => (c, match dict_get String.eqb data_dict c with
                       | Some v => v
                       | None => []
                       end))
         (["lat"; "lon"]
          ++ filter (fun c => negb (string_in c ["lat"; "lon"])) (dict_keys data_dict))).


(** A sample table of three rows. *)
Definition sample_table : list (string * list val) :=
  [("tasmax_2035", [Num (Qc_of_Z 7); Num (Qc_of_Z 8); NaN]);
   ("lat", [Num (Qc_of_Z 10); Num (Qc_of_Z 10); Num (Qc_of_Z 20)]);
   ("lon", [Num (Qc_of_Z 1); Num (Qc_of_Z 2); Num (Qc_of_Z 1)])].

(** A yearly aggregate over an M x N grid: a 2-D (lat, lon) array, or a
    3-D (day, lat, lon) array over a grid with at least one cell. *)
Definition aggregate_on_grid (m n : nat) (a : ndarray) : Prop :=
  (shape a = [m; n] /\ length (buf a) = (m * n)%nat)
  \/ (exists t, shape a = [t; m; n] /\ length (buf a) = (t * (m * n))%nat
                /\ (0 < m * n)%nat).

(** The year columns of a table, for the items in the order given. *)
Definition year_columns (m n : nat) (variable_name : string)
    (items : list (Z * ndarray)) : list (string * list val) :=
  map (fun item => (column_name variable_name (fst item),
                    match flatten_year m n (snd item) with
                    | Ok c => c
                    | Raise _ => []
                    end)) items.

(** The table the tabulator builds. *)
Definition table_for (lat lon : list Qc) (data_dict : list (Z * ndarray))
    (variable_name : string) : list (string * list val) :=
  ("lat", np_flatten (snd (np_meshgrid lon lat)))
    :: ("lon", np_flatten (fst (np_meshgrid lon lat)))
    :: year_columns (length lat) (length lon) variable_name
         (sort_key fst data_dict).

(** A sample 2 x 2 grid with one aggregated year. *)
Definition sample_lat : list Qc := [Qc_of_Z (-30); Qc_of_Z (-29)].
Definition sample_lon : list Qc := [Qc_of_Z 150; Qc_of_Z 151].
Definition sample_aggregate : list (Z * ndarray) :=
  [(2035, mkNd [2%nat; 2%nat]
            [Num (Qc_of_Z 1); Num (Qc_of_Z 2); Num (Qc_of_Z 3); NaN])].

(** ** Aggregation *)

(** A DataArray whose slices all have the (lat, lon) shape. *)
Definition da_wf (da : DataArray) : Prop :=
  Forall (fun slice =>
            length slice = length (da_lat da)
            /\ Forall (fun row => length row = length (da_lon da)) slice)
         (da_values da).

(** A slice of [m] rows of [n] values. *)
Definition slice_shape (m n : nat) (slice : list (list val)) : Prop :=
  length slice = m /\ Forall (fun row => length row = n) slice.

(** The value at time [t], latitude index [i], longitude index [j]. *)
Definition cell (da : DataArray) (t i j : nat) : val :=
  nth j (nth i (nth t (da_values da) []) []) NaN.

(** A cell of a 2-D array. *)
Definition nd_get2 (a : ndarray) (i j : nat) : val :=
  match shape a with
  | [_; n] => nth (i * n + j) (buf a) NaN
  | _ => NaN
  end.

(** The time indices mapped to a year, ascending. *)
Definition year_times (years : list Z) (year : Z) : list nat :=
  filter (fun t => nth t years 0 =? year) (seq 0 (length years)).

(** The time steps of a year, as [isel] selects them. *)
Definition year_slice (da : DataArray) (years : list Z) (year : Z) : DataArray :=
  mkDA (map (fun t => nth t (da_time da) CFTime) (year_times years year))
       (da_lat da) (da_lon da)
       (map (fun t => nth t (da_values da) []) (year_times years year)).

(** The numbers among some values. *)
Fixpoint numbers (vs : list val) : list Qc :=
  match vs with
  | [] => []
  | NaN :: vs' => numbers vs'
  | Num q :: vs' => q :: numbers vs'
  end.

Definition Qc_sum (qs : list Qc) : Qc := fold_right Qcplus 0%Qc qs.

(** The arithmetic mean of some numbers. *)
Definition arithmetic_mean (qs : list Qc) : Qc :=
  (Qc_sum qs / Qc_of_nat (length qs))%Qc.

(** The arithmetic mean of float values: NaN as soon as one is NaN. *)
Definition float_mean (vs : list val) : val :=
  if (length (numbers vs) =? length vs)%nat
  then match vs with
       | [] => NaN
       | _ => Num (arithmetic_mean (numbers vs))
       end
  else NaN.

(** The mean of the numbers among the values, NaN when there is none. *)
Definition nan_mean (vs : list val) : val :=
  match numbers vs with
  | [] => NaN
  | qs => Num (arithmetic_mean qs)
  end.

Definition known_aggregation (mode : string) : Prop :=
  mode = "mean" \/ mode = "max" \/ mode = "min" \/ mode = "all".

(** A sample series: a 2 x 2 grid over three days of one year, and the
    same grid without any time step. *)
Definition sample_series : DataArray :=
  mkDA [Datetime 2035; Datetime 2035; Datetime 2035] sample_lat sample_lon
       [[[Num (Qc_of_Z 1); Num (Qc_of_Z 2)]; [Num (Qc_of_Z 3); NaN]];
        [[Num (Qc_of_Z 2); Num (Qc_of_Z 4)]; [Num (Qc_of_Z 6); NaN]];
        [[Num (Qc_of_Z 6); Num (Qc_of_Z 0)]; [Num (Qc_of_Z 0); NaN]]].

Definition sample_years : list Z := [2035; 2035; 2035].

Definition empty_series : DataArray := mkDA [] sample_lat sample_lon [].

(** A 1 x 1 series of two days of one year, the second day missing. *)
Definition gappy_series : DataArray :=
  mkDA [Datetime 2035; Datetime 2035] [Qc_of_Z (-30)] [Qc_of_Z 150]
       [[[Num (Qc_of_Z 1)]]; [[NaN]]].

Definition gappy_years : list Z := [2035; 2035].

(** Within every year, every cell is missing on all days or on none. *)
Definition nan_uniform (da : DataArray) (years : list Z) : Prop :=
  forall year i j,
    In year years ->
    (i < length (da_lat da))%nat -> (j < length (da_lon da))%nat ->
    let vs := map (fun t => cell da t i j) (year_times years year) in
    numbers vs = [] \/ length (numbers vs) = length vs.

(** ** Merging *)

(** What reading a file for a variable yields. *)
Definition reads (files : ncfiles) (variable : string) (p : FilePath)
    (da : DataArray) : Prop :=
  exists nc values,
    files p = Some nc
    /\ dict_get String.eqb (nc_vars nc) variable = Some values
    /\ da = mkDA (nc_time nc) (nc_lat nc) (nc_lon nc) values.

(** The distance the merge tolerates at a reference label: the absolute
    0.01, plus numpy's default relative part. *)
Definition tolerance_at (ref : Qc) : Qc :=
  (tol_abs + np_default_rtol * Qcabs ref)%Qc.

(** Two label arrays of equal length agree within the tolerance at every
    position, or differ beyond it at some position. *)
Definition within_tolerance (a ref : list Qc) : Prop :=
  length a = length ref
  /\ forall p, (p < length a)%nat ->
       (Qcabs (nth p a 0 - nth p ref 0) <= tolerance_at (nth p ref 0))%Qc.

Definition beyond_tolerance (a ref : list Qc) : Prop :=
  length a = length ref
  /\ exists p, (p < length a)%nat
       /\ (tolerance_at (nth p ref 0) < Qcabs (nth p a 0 - nth p ref 0))%Qc.

(** The grid of a file agrees with the reference grid. *)
Definition grid_within_tolerance (ref da : DataArray) : Prop :=
  within_tolerance (da_lat da) (da_lat ref)
  /\ within_tolerance (da_lon da) (da_lon ref).

(** Label arrays that [xr.concat] can align: they are all the same
    array, or none of them holds a label twice. *)
Definition alignable (arrays : list (list Qc)) : Prop :=
  Forall (fun a => a = hd [] arrays) arrays \/ Forall (@NoDup Qc) arrays.

Definition grids_alignable (datasets : list DataArray) : Prop :=
  alignable (map da_lat datasets) /\ alignable (map da_lon datasets).

(** The time steps contributed by the files before position [k]. *)
Definition time_offset (datasets : list DataArray) (k : nat) : nat :=
  list_sum (map da_len (firstn k datasets)).

(** The labels of the merged time axis: each file's year, once per time
    step of the file. *)
Definition replicated_years (datasets : list DataArray) (years : list Z) : list Z :=
  concat (map (fun p => repeat (snd p) (da_len (fst p))) (combine datasets years)).

(** Sample files: two years on one grid, of two and of three days; and
    a file whose longitude is 0.011 away from the first file's. *)
Definition file_2035 : NcFile :=
  mkNc [Datetime 2035; Datetime 2035] [Qc_of_Z (-30)] [Qc_of_Z 150]
       [("tasmax", [[[Num (Qc_of_Z 1)]]; [[Num (Qc_of_Z 2)]]])].

Definition file_2036 : NcFile :=
  mkNc [Datetime 2036; Datetime 2036; Datetime 2036] [Qc_of_Z (-30)] [Qc_of_Z 150]
       [("tasmax", [[[Num (Qc_of_Z 3)]]; [[Num (Qc_of_Z 4)]]; [[Num (Qc_of_Z 5)]]])].

Definition file_shifted : NcFile :=
  mkNc [Datetime 2036] [Qc_of_Z (-30)] [Q2Qc (150011 # 1000)]
       [("tasmax", [[[Num (Qc_of_Z 3)]]])].

Definition file_far : NcFile :=
  mkNc [Datetime 2036] [Qc_of_Z (-30)] [Qc_of_Z 151]
       [("tasmax", [[[Num (Qc_of_Z 3)]]])].

Definition path_2035 : FilePath := mkPath "in" "tasmax_2035_a.nc".
Definition path_2036 : FilePath := mkPath "in" "tasmax_2036_a.nc".

Definition sample_files (second : NcFile) : ncfiles :=
  fun p =>
    if String.eqb (fp_name p) "tasmax_2035_a.nc" then Some file_2035
    else if String.eqb (fp_name p) "tasmax_2036_a.nc" then Some second
    else None.

Definition data_array_of (nc : NcFile) (values : cube) : DataArray :=
  mkDA (nc_time nc) (nc_lat nc) (nc_lon nc) values.

(** A value shown as a reduced fraction, [None] for NaN. *)
Definition val_Q (v : val) : option Q :=
  match v with
  | NaN => None
  | Num q => Some (this q)
  end.

(** Tolerances between concrete one-label arrays, by computation. *)
Ltac one_label_within :=
  split; [reflexivity|];
  let p := fresh "p" in let Hp := fresh "Hp" in
  intros p Hp; destruct p as [|p];
  [unfold Qcle; vm_compute; discriminate|simpl in Hp; lia].

(** ** Year tokens in file names *)

(** The number the four digits spell. *)
Definition token_value (a b c d : string) : Z :=
  1000 * digit_value a + 100 * digit_value b + 10 * digit_value c
  + digit_value d.

(** The year of a name, compared with a given year. *)
Definition name_has_year (y : Z) (name : string) : bool :=
  match re_search_year name with
  | Some y' => y' =? y
  | None => false
  end.

(** How often an event occurs in a log. *)
Definition is_skip_warning (n : string) (ev : event) : bool :=
  match ev with
  | EvPrint (Warn_SkippingFile n') => String.eqb n n'
  | _ => false
  end.

Definition skip_warning_count (n : string) (log : list event) : nat :=
  length (filter (is_skip_warning n) log).

(** ** The lightweight check, file by file *)

(** Label arrays the lightweight check accepts: equally long, not empty,
    and less than 0.01 apart at every position. *)
Definition strictly_close (a ref : list Qc) : Prop :=
  length a = length ref /\ a <> []
  /\ forall p, (p < length a)%nat ->
       (Qcabs (nth p a 0 - nth p ref 0) < tol_abs)%Qc.

(** Equally long label arrays that are 0.01 or more apart somewhere. *)
Definition apart (a ref : list Qc) : Prop :=
  length a = length ref
  /\ exists p, (p < length a)%nat
       /\ (tol_abs <= Qcabs (nth p a 0 - nth p ref 0))%Qc.

(** The grid of a file against the grid of the reference file. *)
Definition light_accepts (ref nc : NcFile) : Prop :=
  strictly_close (nc_lat nc) (nc_lat ref)
  /\ strictly_close (nc_lon nc) (nc_lon ref).

Definition light_rejects (ref nc : NcFile) : Prop :=
  length (nc_lat nc) <> length (nc_lat ref)
  \/ length (nc_lon nc) <> length (nc_lon ref)
  \/ apart (nc_lat nc) (nc_lat ref)
  \/ (strictly_close (nc_lat nc) (nc_lat ref)
      /\ apart (nc_lon nc) (nc_lon ref)).

(** The path at position [k] can be opened and holds [nc]. *)
Definition opens_at (files : ncfiles) (file_paths : list FilePath) (k : nat)
    (nc : NcFile) : Prop :=
  exists p, nth_error file_paths k = Some p /\ files p = Some nc.


(** ** Grids of different sizes *)

(** Two 1-D arrays that numpy cannot broadcast against each other: their
    lengths differ and neither is 1. *)
Definition not_broadcastable (a b : list Qc) : Prop :=
  length a <> length b /\ length a <> 1%nat /\ length b <> 1%nat.

(** Two files with grids of different sizes: three latitudes in the
    one, two latitudes in the other. *)
Definition file_wide : NcFile :=
  mkNc [Datetime 2036] [Qc_of_Z (-30); Qc_of_Z (-29); Qc_of_Z (-28)]
       [Qc_of_Z 150]
       [("tasmax", [[[Num (Qc_of_Z 3)]; [Num (Qc_of_Z 4)]; [Num (Qc_of_Z 5)]]])].

Definition file_2035_wide : NcFile :=
  mkNc [Datetime 2035] [Qc_of_Z (-30); Qc_of_Z (-29)] [Qc_of_Z 150]
       [("tasmax", [[[Num (Qc_of_Z 1)]; [Num (Qc_of_Z 2)]]])].

Definition wide_files : ncfiles :=
  fun p =>
    if String.eqb (fp_name p) "tasmax_2035_a.nc" then Some file_2035_wide
    else if String.eqb (fp_name p) "tasmax_2036_a.nc" then Some file_wide
    else None.

(** ** Extremes *)

(** The largest of the numbers among some values, and the smallest; NaN
    when there is no number among them. *)
Definition largest_number (vs : list val) (r : val) : Prop :=
  match numbers vs with
  | [] => r = NaN
  | _ :: _ =>
      exists q, r = Num q /\ In q (numbers vs)
                /\ forall x, In x (numbers vs) -> (x <= q)%Qc
  end.

Definition smallest_number (vs : list val) (r : val) : Prop :=
  match numbers vs with
  | [] => r = NaN
  | _ :: _ =>
      exists q, r = Num q /\ In q (numbers vs)
                /\ forall x, In x (numbers vs) -> (q <= x)%Qc
  end.

(** The values of a cell over the time steps of a year. *)
Definition cell_values (da : DataArray) (years : list Z) (year : Z)
    (i j : nat) : list val :=
  map (fun t => cell da t i j) (year_times years year).

(** The reductions a run performed, in order. *)
Definition reductions (log : list event) : list (reduction * Z) :=
  flat_map (fun ev => match ev with EvReduce r y => [(r, y)] | _ => [] end) log.

(** ** The driver *)

(** The messages the driver prints before it exits: the error of step 1,
    or the stage that failed and its error. *)
Definition failure_message (m : message) : Prop :=
  (exists e, m = Msg_Error e)
  \/ (exists stage e,
        m = Msg_FailedTo stage e
        /\ In stage ["merge files"; "extract coordinate data";
                     "prepare DataFrame data"; "export to Excel"]).

(** A file that holds the variable over the grid (lat, lon), with at
    least one time step, every time slice having the shape of the grid. *)
Definition holds_on_grid (variable : string) (lat lon : list Qc) (nc : NcFile)
  : Prop :=
  nc_lat nc = lat /\ nc_lon nc = lon
  /\ exists values,
       dict_get String.eqb (nc_vars nc) variable = Some values
       /\ values <> []
       /\ Forall (slice_shape (length lat) (length lon)) values.

(** A directory with the two sample files, and the world around it. *)
Definition sample_world : world :=
  mkWorld (fun _ => Some ["tasmax_2036_a.nc"; "notes.txt"; "tasmax_2035_a.nc"])
          (sample_files file_2036) true true.

(** A variable whose name starts with the control character BEL, a file
    that holds it, and the world around that file. *)
Definition bell_variable : string := String "007"%char "tas".

Definition bell_world : world :=
  mkWorld (fun _ => Some ["tas_2035_a.nc"])
          (fun _ => Some (mkNc [Datetime 2035] [Qc_of_Z (-30)] [Qc_of_Z 150]
                            [(bell_variable, [[[Num (Qc_of_Z 1)]]])]))
          true true.

(** A run that, if it raises, raises [SystemExit(1)] right after a
    failure message. *)
Definition exits_after_message {A} (c : M A) : Prop :=
  forall e, outcome c = Raise e ->
    e = SystemExit 1
    /\ exists l m, log_of c = l ++ [EvPrint m] /\ failure_message m.

(* ================================================================== *)
(** * Facts about the built-ins *)
(* ================================================================== *)

(** ** The stable sort *)

Section SortKey.
Context {A : Type} (key : A -> Z).

Lemma insert_key_perm (x : A) (l : list A) :
  Permutation (x :: l) (insert_key key x l).
Proof.
  induction l as [|y l IH]; simpl.
  - apply Permutation_refl.
  - destruct (key x <=? key y).
    + apply Permutation_refl.
    + eapply perm_trans; [apply perm_swap|]. apply perm_skip, IH.
Qed.

Lemma sort_key_perm (l : list A) : Permutation l (sort_key key l).
Proof.
  induction l as [|x l IH]; simpl.
  - constructor.
  - eapply perm_trans; [apply perm_skip, IH|]. apply insert_key_perm.
Qed.

Lemma sort_key_length (l : list A) : length (sort_key key l) = length l.
Proof. symmetry. apply Permutation_length, sort_key_perm. Qed.

Lemma sort_key_in (x : A) (l : list A) : In x (sort_key key l) <-> In x l.
Proof.
  split; intro H.
  - eapply Permutation_in; [apply Permutation_sym, sort_key_perm|exact H].
  - eapply Permutation_in; [apply sort_key_perm|exact H].
Qed.

Lemma insert_key_sorted (x : A) (l : list A) :
  Sorted Z.le (map key l) -> Sorted Z.le (map key (insert_key key x l)).
Proof.
  induction l as [|y l IH]; simpl; intro Hs.
  - repeat constructor.
  - destruct (Z.leb_spec (key x) (key y)) as [Hle|Hlt]; simpl.
    + constructor; [exact Hs|]. constructor. exact Hle.
    + inversion Hs as [|? ? Hs' Hhd]; subst.
      constructor; [apply IH, Hs'|].
      destruct l as [|z l]; simpl.
      * constructor. lia.
      * destruct (Z.leb_spec (key x) (key z)); simpl; constructor.
        -- lia.
        -- inversion Hhd; subst. assumption.
Qed.

Lemma sort_key_sorted (l : list A) : Sorted Z.le (map key (sort_key key l)).
Proof.
  induction l as [|x l IH]; simpl.
  - constructor.
  - apply insert_key_sorted, IH.
Qed.

(** A sorted list stays as it is. *)
Lemma insert_key_below (x : A) (l : list A) :
  Forall (fun y => key x <= key y) l -> insert_key key x l = x :: l.
Proof.
  destruct l as [|y l]; simpl; [reflexivity|].
  intro H. inversion H; subst.
  destruct (Z.leb_spec (key x) (key y)); [reflexivity|lia].
Qed.

Lemma sort_key_of_sorted (l : list A) :
  StronglySorted Z.le (map key l) -> sort_key key l = l.
Proof.
  induction l as [|x l IH]; simpl; intro Hs; [reflexivity|].
  inversion Hs as [|? ? Hs' Hall]; subst.
  rewrite IH by exact Hs'. apply insert_key_below.
  rewrite Forall_map in Hall. exact Hall.
Qed.
End SortKey.

(** An ascending list without repeats is strictly ascending. *)
Lemma sorted_nodup_strict (l : list Z) :
  Sorted Z.le l -> NoDup l -> StronglySorted Z.lt l.
Proof.
  intros Hs Hn.
  apply Sorted_StronglySorted in Hs; [|intros a b c; apply Z.le_trans].
  induction l as [|x l IH]; [constructor|].
  inversion Hs as [|? ? Hs' Hall]; subst.
  inversion Hn as [|? ? Hnotin Hn']; subst.
  constructor; [apply IH; assumption|].
  rewrite Forall_forall in *. intros y Hy.
  specialize (Hall y Hy).
  assert (x <> y) by (intros ->; contradiction).
  lia.
Qed.

(* ================================================================== *)
(** * Discovery *)
(* ================================================================== *)

Lemma is_underscore_true (c : ascii) : is_underscore c = true -> c = "_"%char.
Proof. unfold is_underscore. apply Ascii.eqb_eq. Qed.

Lemma append_nil_r (s : string) : (s ++ "")%string = s.
Proof. induction s as [|c s IH]; simpl; congruence. Qed.

Lemma append_assoc (s t u : string) :
  ((s ++ t) ++ u)%string = (s ++ t ++ u)%string.
Proof. induction s as [|c s IH]; simpl; congruence. Qed.

(** A character at the head of a string is read from its own bytes,
    whatever follows. *)
Lemma utf8_head_split (s : string) (cp : N) (rest : string) :
  utf8_head s = Some (cp, rest) ->
  exists a, s = (a ++ rest)%string
            /\ forall rest', utf8_head (a ++ rest') = Some (cp, rest').
Proof.
  unfold utf8_head. destruct s as [|c0 s1]; [discriminate|]. cbv zeta.
  destruct (byte c0 <? 128)%N eqn:E1.
  { intros [= <- <-]. exists (String c0 ""). split; [reflexivity|].
    intro r. cbn [append]. rewrite E1. reflexivity. }
  destruct (byte c0 <? 194)%N eqn:E2; [discriminate|].
  destruct (byte c0 <? 224)%N eqn:E3.
  { destruct s1 as [|c1 s2]; [discriminate|].
    destruct (is_continuation c1) eqn:K; [|discriminate].
    intros [= <- <-]. exists (String c0 (String c1 "")). split; [reflexivity|].
    intro r. cbn [append]. rewrite E1, E2, E3, K. reflexivity. }
  destruct (byte c0 <? 240)%N eqn:E4.
  { destruct s1 as [|c1 [|c2 s3]]; try discriminate.
    match goal with |- context [if ?c then _ else _] => destruct c eqn:K end;
      [|discriminate].
    intros [= <- <-]. exists (String c0 (String c1 (String c2 ""))).
    split; [reflexivity|].
    intro r. cbn [append]. rewrite E1, E2, E3, E4, K. reflexivity. }
  destruct (byte c0 <? 245)%N eqn:E5; [|discriminate].
  destruct s1 as [|c1 [|c2 [|c3 s4]]]; try discriminate.
  match goal with |- context [if ?c then _ else _] => destruct c eqn:K end;
    [|discriminate].
  intros [= <- <-]. exists (String c0 (String c1 (String c2 (String c3 "")))).
  split; [reflexivity|].
  intro r. cbn [append]. rewrite E1, E2, E3, E4, E5, K. reflexivity.
Qed.

Lemma digit_here_split (s : string) (v : Z) (rest : string) :
  digit_here s = Some (v, rest) ->
  exists a, s = (a ++ rest)%string
            /\ forall rest', digit_here (a ++ rest') = Some (v, rest').
Proof.
  unfold digit_here. destruct (utf8_head s) as [[cp r]|] eqn:Hh; [|discriminate].
  destruct (unicode_decimal cp) as [v'|] eqn:Hd; [|discriminate].
  intros [= <- <-]. destruct (utf8_head_split s cp r Hh) as (a & -> & Ha).
  exists a. split; [reflexivity|]. intro r'. rewrite Ha, Hd. reflexivity.
Qed.

Lemma digit_here_app (a : string) (v : Z) (rest : string) :
  digit_here a = Some (v, "") -> digit_here (a ++ rest) = Some (v, rest).
Proof.
  intro H. destruct (digit_here_split a v "" H) as (a0 & E & Ha).
  rewrite append_nil_r in E. subst a0. apply Ha.
Qed.

Lemma decimal_digit_app (a rest : string) :
  decimal_digit a -> digit_here (a ++ rest) = Some (digit_value a, rest).
Proof.
  intros [v Hv]. unfold digit_value. rewrite Hv. apply digit_here_app, Hv.
Qed.

Lemma digit_here_digit (s : string) (v : Z) (rest : string) :
  digit_here s = Some (v, rest) ->
  exists a, s = (a ++ rest)%string /\ decimal_digit a /\ digit_value a = v.
Proof.
  intro H. destruct (digit_here_split s v rest H) as (a & E & Ha).
  specialize (Ha ""). rewrite append_nil_r in Ha.
  exists a. split; [exact E|]. split; [exists v; exact Ha|].
  unfold digit_value. rewrite Ha. reflexivity.
Qed.

(** The pattern at the head of a string. *)
Lemma match_year_here_token (s : string) (y : Z) :
  match_year_here s = Some y <->
  exists a b c d post,
    s = with_year_token "" a b c d post /\ four_digits a b c d
    /\ y = 1000 * digit_value a + 100 * digit_value b + 10 * digit_value c
           + digit_value d.
Proof.
  unfold with_year_token, four_digits. split.
  - unfold match_year_here. destruct s as [|u s1]; [discriminate|].
    destruct (is_underscore u) eqn:Hu; [|discriminate].
    destruct (digit_here s1) as [[va s2]|] eqn:Da; [|discriminate].
    destruct (digit_here s2) as [[vb s3]|] eqn:Db; [|discriminate].
    destruct (digit_here s3) as [[vc s4]|] eqn:Dc; [|discriminate].
    destruct (digit_here s4) as [[vd [|v post]]|] eqn:Dd; try discriminate.
    destruct (is_underscore v) eqn:Hv; [|discriminate].
    intros [= <-]. apply is_underscore_true in Hu, Hv. subst u v.
    apply digit_here_digit in Da, Db, Dc, Dd.
    destruct Da as (a & -> & Ha & <-). destruct Db as (b & -> & Hb & <-).
    destruct Dc as (c & -> & Hc & <-). destruct Dd as (d & -> & Hd & <-).
    exists a, b, c, d, post. repeat split; assumption.
  - intros (a & b & c & d & post & -> & (Ha & Hb & Hc & Hd) & ->).
    cbn [append]. unfold match_year_here.
    change (is_underscore "_") with true. cbv iota.
    rewrite (decimal_digit_app a _ Ha), (decimal_digit_app b _ Hb),
      (decimal_digit_app c _ Hc), (decimal_digit_app d _ Hd).
    reflexivity.
Qed.

Lemma match_year_here_some (s : string) (y : Z) :
  match_year_here s = Some y -> matches_year_pattern s.
Proof.
  intro H. apply match_year_here_token in H.
  destruct H as (a & b & c & d & post & E & Hd & _).
  exists EmptyString, a, b, c, d, post. auto.
Qed.

Lemma match_year_here_pattern (a b c d post : string) :
  four_digits a b c d ->
  exists y, match_year_here (with_year_token "" a b c d post) = Some y.
Proof.
  intro Hd. eexists. apply match_year_here_token.
  exists a, b, c, d, post. split; [reflexivity|]. split; [exact Hd|reflexivity].
Qed.

Lemma re_search_year_eq (s : string) :
  re_search_year s =
  match match_year_here s with
  | Some y => Some y
  | None => match s with
            | EmptyString => None
            | String _ s' => re_search_year s'
            end
  end.
Proof. destruct s; reflexivity. Qed.

Lemma re_search_year_some (s : string) (y : Z) :
  re_search_year s = Some y -> matches_year_pattern s.
Proof.
  induction s as [|ch s IH]; rewrite re_search_year_eq.
  - discriminate.
  - destruct (match_year_here (String ch s)) as [y'|] eqn:Hm.
    + intros _. eapply match_year_here_some; eauto.
    + intro H. destruct (IH H) as (pre & a & b & c & d & post & -> & Hd).
      exists (String ch pre), a, b, c, d, post. split; [reflexivity|exact Hd].
Qed.

Lemma re_search_year_pattern (s : string) :
  matches_year_pattern s -> exists y, re_search_year s = Some y.
Proof.
  intros (pre & a & b & c & d & post & -> & Hd).
  induction pre as [|ch pre IH].
  - destruct (match_year_here_pattern a b c d post Hd) as [y Hy].
    exists y. rewrite re_search_year_eq, Hy. reflexivity.
  - destruct IH as [y Hy]. rewrite re_search_year_eq.
    change (with_year_token (String ch pre) a b c d post)
      with (String ch (with_year_token pre a b c d post)).
    destruct (match_year_here _) as [y'|].
    + exists y'. reflexivity.
    + exists y. exact Hy.
Qed.

Lemma has_year_iff (name : string) :
  has_year name = true <-> matches_year_pattern name.
Proof.
  unfold has_year. split.
  - destruct (re_search_year name) eqn:H; [|discriminate].
    intros _. eapply re_search_year_some; eauto.
  - intro H. destruct (re_search_year_pattern _ H) as [y ->]. reflexivity.
Qed.

Lemma discover_loop (dir : string) (names : list string) (acc : list (FilePath * Z)) :
  fold_M names (discover_step dir) acc
  = (skip_warnings names, Ok (acc ++ year_pairs dir names)).
Proof.
  revert acc. induction names as [|n names IH]; intro acc; simpl.
  - unfold ret. rewrite app_nil_r. reflexivity.
  - unfold discover_step, extract_year_from_filename, skip_warnings, year_pairs.
    simpl. destruct (re_search_year n) as [y|]; simpl.
    + rewrite IH. simpl. rewrite <- app_assoc. reflexivity.
    + rewrite IH. reflexivity.
Qed.

Lemma year_pairs_names (dir : string) (names : list string) :
  map (fun pr => fp_name (fst pr)) (year_pairs dir names) = filter has_year names.
Proof.
  induction names as [|n names IH]; simpl; [reflexivity|].
  unfold has_year at 1. destruct (re_search_year n); simpl; congruence.
Qed.

Lemma year_pairs_in (dir : string) (names : list string) (p : FilePath) (y : Z) :
  In (p, y) (year_pairs dir names) <->
  fp_dir p = dir /\ In (fp_name p) names /\ re_search_year (fp_name p) = Some y.
Proof.
  unfold year_pairs. rewrite in_flat_map. split.
  - intros (n & Hn & Hin). destruct (re_search_year n) as [y'|] eqn:Hy.
    + destruct Hin as [Heq|[]]. inversion Heq; subst. simpl. auto.
    + destruct Hin.
  - intros (Hd & Hn & Hy). exists (fp_name p). split; [exact Hn|].
    rewrite Hy. left. destruct p; simpl in *. subst. reflexivity.
Qed.

Lemma year_pairs_nil (dir : string) (names : list string) :
  year_pairs dir names = [] <-> filter has_year names = [].
Proof.
  rewrite <- (year_pairs_names dir). split.
  - intros ->. reflexivity.
  - destruct (year_pairs dir names); [reflexivity|discriminate].
Qed.

(** The complete behaviour of discovery, by cases on the directory. *)
Lemma discover_nc_files_cases (fs : dirs) (model scenario variable : string) :
  let dir := config.get_input_directory model scenario variable in
  discover_nc_files fs model scenario variable =
  match fs dir with
  | None => ([EvDirExists dir], Raise (FileNotFoundError_InputDirectory dir))
  | Some entries =>
      match glob_nc entries with
      | [] => ([EvDirExists dir; EvGlob dir], Raise (ValueError_NoNetCDFFiles dir))
      | nc_files =>
          (EvDirExists dir :: EvGlob dir :: skip_warnings nc_files,
           match year_pairs dir nc_files with
           | [] => Raise (ValueError_NoYearsExtracted dir)
           | pairs => Ok (sort_key snd pairs)
           end)
      end
  end.
Proof.
  intro dir. unfold discover_nc_files. fold dir.
  destruct (fs dir) as [entries|]; [|reflexivity].
  destruct (glob_nc entries) as [|n ns] eqn:Hg; [reflexivity|].
  rewrite discover_loop.
  change ([] ++ year_pairs dir (n :: ns)) with (year_pairs dir (n :: ns)).
  generalize (year_pairs dir (n :: ns)) (skip_warnings (n :: ns)).
  intros pairs ws.
  destruct pairs; unfold bind, emit, raise, ret; simpl;
    rewrite ?app_nil_r; reflexivity.
Qed.

Lemma in_skip_warnings (n : string) (names : list string) :
  In (EvPrint (Warn_SkippingFile n)) (skip_warnings names)
  <-> In n names /\ has_year n = false.
Proof.
  unfold skip_warnings, has_year. rewrite in_flat_map. split.
  - intros (m & Hm & Hin). destruct (re_search_year m) eqn:Hy; [destruct Hin|].
    destruct Hin as [Heq|[]]. inversion Heq; subst. rewrite Hy. auto.
  - intros [Hn Hy]. exists n. split; [exact Hn|].
    destruct (re_search_year n); [discriminate|]. left. reflexivity.
Qed.

Lemma in_discover_log (n : string) (dir : string) (names : list string) :
  In (EvPrint (Warn_SkippingFile n))
     (EvDirExists dir :: EvGlob dir :: skip_warnings names)
  <-> In n names /\ has_year n = false.
Proof.
  rewrite <- in_skip_warnings. split.
  - intro H. apply in_inv in H. destruct H as [H|H]; [discriminate|].
    apply in_inv in H. destruct H as [H|H]; [discriminate|exact H].
  - intro H. apply in_cons, in_cons, H.
Qed.

Lemma discover_failure_cases_aux
    (fs : dirs) (model scenario variable : string) (entries : list string) :
  let dir := config.get_input_directory model scenario variable in
  fs dir = Some entries ->
  filter has_year (glob_nc entries) <> [] ->
  outcome (discover_nc_files fs model scenario variable)
  = Ok (sort_key snd (year_pairs dir (glob_nc entries)))
  /\ log_of (discover_nc_files fs model scenario variable)
     = EvDirExists dir :: EvGlob dir :: skip_warnings (glob_nc entries).
Proof.
  intros dir Hfs Hsome.
  pose proof (discover_nc_files_cases fs model scenario variable) as E.
  fold dir in E. rewrite E. clear E. rewrite Hfs.
  destruct (glob_nc entries) as [|n0 ns] eqn:Hg; [contradiction Hsome; reflexivity|].
  cbv beta iota zeta. split; [|reflexivity].
  destruct (year_pairs dir (n0 :: ns)) as [|p ps] eqn:Hp; [|reflexivity].
  apply year_pairs_nil in Hp. contradiction.
Qed.

(** C9. Discovery tells its failures apart. An absent input directory
    raises FileNotFoundError after the existence test alone, before any
    enumeration. A directory without [*.nc] files raises the "No NetCDF
    files found" ValueError. When every enumerated file is skipped for
    lack of a year, a different ValueError ("Could not extract years") is
    raised, after one warning per file. Otherwise a file without a year
    is skipped with a warning and the run continues with the others. *)
Theorem discover_failure_cases (fs : dirs) (model scenario variable : string) :
  let dir := config.get_input_directory model scenario variable in
  let run := discover_nc_files fs model scenario variable in
  (fs dir = None ->
     outcome run = Raise (FileNotFoundError_InputDirectory dir)
     /\ log_of run = [EvDirExists dir]
     /\ ~ In (EvGlob dir) (log_of run))
  /\ (forall entries, fs dir = Some entries -> glob_nc entries = [] ->
        outcome run = Raise (ValueError_NoNetCDFFiles dir))
  /\ (forall entries, fs dir = Some entries -> glob_nc entries <> [] ->
        filter has_year (glob_nc entries) = [] ->
        outcome run = Raise (ValueError_NoYearsExtracted dir)
        /\ ValueError_NoYearsExtracted dir <> ValueError_NoNetCDFFiles dir
        /\ forall n, In n (glob_nc entries) ->
                     In (EvPrint (Warn_SkippingFile n)) (log_of run))
  /\ (forall entries, fs dir = Some entries ->
        filter has_year (glob_nc entries) <> [] ->
        outcome run = Ok (sort_key snd (year_pairs dir (glob_nc entries)))
        /\ forall n, In (EvPrint (Warn_SkippingFile n)) (log_of run)
                     <-> In n (glob_nc entries) /\ has_year n = false).
Proof.
  intros dir run. subst run.
  pose proof (discover_nc_files_cases fs model scenario variable) as E.
  fold dir in E. rewrite E. clear E.
  split; [|split; [|split]].
  - intros Hfs. rewrite Hfs. repeat split.
    simpl. intros [Hc|[]]. discriminate.
  - intros entries Hfs Hg. rewrite Hfs, Hg. reflexivity.
  - intros entries Hfs Hne Hnone. rewrite Hfs.
    destruct (glob_nc entries) as [|n0 ns] eqn:Hg; [congruence|].
    cbv beta iota zeta.
    pose proof (proj2 (year_pairs_nil dir (n0 :: ns)) Hnone) as Hp.
    rewrite Hp. split; [reflexivity|]. split; [discriminate|].
    intros n Hn. unfold log_of, fst. apply in_discover_log.
    split; [exact Hn|].
    destruct (has_year n) eqn:Hy; [|reflexivity].
    assert (Hin : In n (filter has_year (n0 :: ns))) by (apply filter_In; auto).
    rewrite Hnone in Hin. destruct Hin.
  - intros entries Hfs Hsome. rewrite Hfs.
    destruct (glob_nc entries) as [|n0 ns] eqn:Hg; [contradiction Hsome; reflexivity|].
    cbv beta iota zeta. split.
    + destruct (year_pairs dir (n0 :: ns)) as [|p ps] eqn:Hp; [|reflexivity].
      apply year_pairs_nil in Hp. contradiction.
    + intro n. unfold log_of, fst. apply in_discover_log.
Qed.

(** C5, as amended. For an existing input directory with at least one
    [*.nc] file whose name matches the year pattern, discovery returns
    exactly one (path, year) pair per such file - N pairs for N matching
    [*.nc] files - in ascending order of year; the order is strict when
    the years are pairwise distinct. Files that do not match are left
    out. *)
Theorem discover_returns_matching_sorted
    (fs : dirs) (model scenario variable : string) (entries : list string) :
  let dir := config.get_input_directory model scenario variable in
  let matching := filter has_year (glob_nc entries) in
  fs dir = Some entries ->
  matching <> [] ->
  exists res,
    outcome (discover_nc_files fs model scenario variable) = Ok res
    /\ length res = length matching
    /\ Permutation (map (fun pr => fp_name (fst pr)) res) matching
    /\ (forall p y, In (p, y) res ->
          fp_dir p = dir /\ In (fp_name p) entries
          /\ endswith (fp_name p) ".nc" = true
          /\ matches_year_pattern (fp_name p)
          /\ re_search_year (fp_name p) = Some y)
    /\ Sorted Z.le (map snd res)
    /\ (NoDup (map snd res) -> StronglySorted Z.lt (map snd res))
    /\ (forall n, In n matching <->
                  In n entries /\ endswith n ".nc" = true /\ matches_year_pattern n).
Proof.
  intros dir matching Hfs Hne.
  destruct (discover_failure_cases_aux fs model scenario variable entries Hfs Hne)
    as [Hout _].
  fold dir in Hout.
  exists (sort_key snd (year_pairs dir (glob_nc entries))).
  split; [exact Hout|].
  split.
  { rewrite sort_key_length. unfold matching.
    rewrite <- (year_pairs_names dir). rewrite length_map. reflexivity. }
  split.
  { unfold matching. rewrite <- (year_pairs_names dir).
    apply Permutation_map, Permutation_sym, sort_key_perm. }
  split.
  { intros p y Hin. apply sort_key_in in Hin. apply year_pairs_in in Hin.
    destruct Hin as (Hd & Hn & Hy). unfold glob_nc in Hn.
    apply filter_In in Hn. destruct Hn as [Hn He].
    repeat split; try assumption. eapply re_search_year_some; eauto. }
  split.
  { apply sort_key_sorted. }
  split.
  { intro Hnd. apply sorted_nodup_strict; [apply sort_key_sorted|exact Hnd]. }
  intro n. unfold matching, glob_nc. rewrite !filter_In, has_year_iff. tauto.
Qed.

Lemma discover_returns_matching_sorted_witness :
  let entries := ["tasmax_2036_a.nc"; "notes.txt"; "tasmax_2035_a.nc"; "readme.nc"] in
  let dir := config.get_input_directory "ACCESS CM2" "SSP585" "tasmax" in
  let matching := filter has_year (glob_nc entries) in
  exists res,
    outcome (discover_nc_files sample_dirs_mixed "ACCESS CM2" "SSP585" "tasmax") = Ok res
    /\ length res = length matching
    /\ Permutation (map (fun pr => fp_name (fst pr)) res) matching
    /\ (forall p y, In (p, y) res ->
          fp_dir p = dir /\ In (fp_name p) entries
          /\ endswith (fp_name p) ".nc" = true
          /\ matches_year_pattern (fp_name p)
          /\ re_search_year (fp_name p) = Some y)
    /\ Sorted Z.le (map snd res)
    /\ (NoDup (map snd res) -> StronglySorted Z.lt (map snd res))
    /\ (forall n, In n matching <->
                  In n entries /\ endswith n ".nc" = true /\ matches_year_pattern n).
Proof.
  intros entries dir matching.
  apply (discover_returns_matching_sorted sample_dirs_mixed
           "ACCESS CM2" "SSP585" "tasmax" entries).
  - reflexivity.
  - vm_compute. discriminate.
Defined.

(** C5, as stated, fails: two [*.nc] files that carry the same year are
    both returned, so the years are not strictly ascending. *)
Lemma discover_same_year_not_strict :
  exists res,
    outcome (discover_nc_files sample_dirs_same_year "ACCESS CM2" "SSP585" "tasmax")
      = Ok res
    /\ length res = 2%nat
    /\ length (filter has_year ["a_2035_x.nc"; "b_2035_y.nc"]) = 2%nat
    /\ map snd res = [2035; 2035]
    /\ ~ StronglySorted Z.lt (map snd res).
Proof.
  eexists. split; [vm_compute; reflexivity|].
  split; [reflexivity|]. split; [reflexivity|]. split; [reflexivity|].
  simpl. intro H. inversion H as [|? ? _ Hall]; subst.
  inversion Hall; subst. lia.
Qed.

(* ================================================================== *)
(** * The lightweight coordinate check *)
(* ================================================================== *)

Lemma opened_nc_app (l1 l2 : list event) :
  opened_nc (l1 ++ l2) = opened_nc l1 ++ opened_nc l2.
Proof. unfold opened_nc. apply flat_map_app. Qed.

(** One iteration of the loop, spelled out. *)
Lemma validate_loop_cons (files : ncfiles) (first_lat first_lon : list Qc)
    (p : FilePath) (rest : list FilePath) :
  validate_loop files first_lat first_lon (p :: rest) =
  match files p with
  | None => ([EvOpenNc p], Raise (OSError_CannotOpen p))
  | Some nc =>
      if negb ((length (nc_lat nc) =? length first_lat)%nat
               && (length (nc_lon nc) =? length first_lon)%nat)
      then ([EvOpenNc p; EvPrint Warn_DimensionsDiffer], Ok false)
      else
        match abs_diff_max (nc_lat nc) first_lat with
        | Raise e => ([EvOpenNc p], Raise e)
        | Ok mlat =>
            if Qcltb mlat tol_abs then
              match abs_diff_max (nc_lon nc) first_lon with
              | Raise e => ([EvOpenNc p], Raise e)
              | Ok mlon =>
                  if Qcltb mlon tol_abs then
                    (EvOpenNc p :: log_of (validate_loop files first_lat first_lon rest),
                     outcome (validate_loop files first_lat first_lon rest))
                  else ([EvOpenNc p; EvPrint Warn_ValuesDiffer], Ok false)
              end
            else ([EvOpenNc p; EvPrint Warn_ValuesDiffer], Ok false)
        end
  end.
Proof.
  cbn [validate_loop]. unfold open_nc_coords, abs_diff_max_lt.
  generalize (validate_loop files first_lat first_lon rest) as rec.
  intros [lrec rrec].
  destruct (files p) as [nc|]; [|reflexivity].
  unfold bind, ret, raise, emit, print, lift, outcome, log_of.
  cbv beta iota zeta. cbn [fst snd app].
  destruct (negb _); [reflexivity|].
  destruct (abs_diff_max (nc_lat nc) first_lat) as [mlat|e]; [|reflexivity].
  cbn [app]. destruct (Qcltb mlat tol_abs); cbn [andb negb app]; [|reflexivity].
  destruct (abs_diff_max (nc_lon nc) first_lon) as [mlon|e]; [|reflexivity].
  cbn [app]. destruct (Qcltb mlon tol_abs); cbn [andb negb app]; reflexivity.
Qed.

(** The loop opens a prefix of the paths it is given. *)
Lemma validate_loop_opens_prefix (files : ncfiles) (first_lat first_lon : list Qc)
    (paths : list FilePath) :
  exists k, (k <= length paths)%nat
    /\ opened_nc (log_of (validate_loop files first_lat first_lon paths))
       = firstn k paths.
Proof.
  induction paths as [|p rest IH].
  - exists O. split; [apply Nat.le_0_l|reflexivity].
  - destruct IH as (k & Hk & IH).
    assert (Hone : forall m, exists k', (k' <= length (p :: rest))%nat
                     /\ opened_nc (EvOpenNc p :: map EvPrint m) = firstn k' (p :: rest)).
    { intro m. exists 1%nat. split; [simpl; lia|]. simpl. f_equal.
      induction m; simpl; auto. }
    rewrite validate_loop_cons.
    destruct (files p) as [nc|]; [|apply (Hone [])].
    destruct (negb _); [apply (Hone [Warn_DimensionsDiffer])|].
    destruct (abs_diff_max (nc_lat nc) first_lat) as [mlat|e]; [|apply (Hone [])].
    destruct (Qcltb mlat tol_abs); [|apply (Hone [Warn_ValuesDiffer])].
    destruct (abs_diff_max (nc_lon nc) first_lon) as [mlon|e]; [|apply (Hone [])].
    destruct (Qcltb mlon tol_abs); [|apply (Hone [Warn_ValuesDiffer])].
    exists (S k). split; [simpl; lia|].
    unfold log_of at 1. cbn [fst]. simpl. f_equal. exact IH.
Qed.

(** The [try] block, spelled out. *)
Lemma validate_try_cases (inst : bool) (files : ncfiles) (file_paths : list FilePath) :
  validate_try inst files file_paths =
  if inst then
    match file_paths with
    | [] => ([], Raise IndexError)
    | p0 :: _ =>
        match files p0 with
        | None => ([EvOpenNc p0], Raise (OSError_CannotOpen p0))
        | Some nc =>
            let loop := validate_loop files (nc_lat nc) (nc_lon nc)
                          (py_slice 1 (Nat.min 5 (length file_paths)) file_paths) in
            (EvOpenNc p0 :: log_of loop, outcome loop)
        end
    end
  else ([], Raise ImportError_netCDF4).
Proof.
  unfold validate_try. destruct inst; [|reflexivity].
  destruct file_paths as [|p0 rest]; [reflexivity|].
  unfold open_nc_coords. destruct (files p0) as [nc|]; [|reflexivity].
  unfold bind, ret, emit, raise. cbv beta iota zeta.
  generalize (validate_loop files (nc_lat nc) (nc_lon nc)
                (py_slice 1 (Nat.min 5 (length (p0 :: rest))) (p0 :: rest))).
  intros [l r]. reflexivity.
Qed.

Lemma validate_short (inst : bool) (files : ncfiles) (file_paths : list FilePath) :
  (length file_paths < 2)%nat ->
  validate_coordinate_consistency inst files file_paths = ([], Ok true).
Proof.
  intro H. unfold validate_coordinate_consistency.
  apply Nat.ltb_lt in H. rewrite H. reflexivity.
Qed.

Lemma validate_total (inst : bool) (files : ncfiles) (file_paths : list FilePath) :
  exists b, outcome (validate_coordinate_consistency inst files file_paths) = Ok b.
Proof.
  unfold validate_coordinate_consistency.
  destruct (length file_paths <? 2)%nat; [exists true; reflexivity|].
  destruct (validate_try inst files file_paths) as [l [b|e]].
  - exists b. reflexivity.
  - exists true. reflexivity.
Qed.

Lemma validate_exception_true (inst : bool) (files : ncfiles)
    (file_paths : list FilePath) (e : exn) :
  (2 <= length file_paths)%nat ->
  outcome (validate_try inst files file_paths) = Raise e ->
  outcome (validate_coordinate_consistency inst files file_paths) = Ok true
  /\ In (EvPrint (Warn_CouldNotValidate e))
        (log_of (validate_coordinate_consistency inst files file_paths)).
Proof.
  intros Hlen Hraise. unfold validate_coordinate_consistency.
  destruct (Nat.ltb_spec (length file_paths) 2) as [Hlt|_]; [lia|].
  destruct (validate_try inst files file_paths) as [l r].
  unfold outcome in Hraise. simpl in Hraise. subst r.
  split; [reflexivity|].
  unfold log_of, try_except, print, emit, bind, ret. simpl.
  apply in_or_app. right. left. reflexivity.
Qed.

Lemma validate_opens_prefix (inst : bool) (files : ncfiles) (file_paths : list FilePath) :
  exists k, (k <= 5)%nat
    /\ opened_nc (log_of (validate_coordinate_consistency inst files file_paths))
       = firstn k file_paths.
Proof.
  unfold validate_coordinate_consistency.
  destruct (length file_paths <? 2)%nat.
  { exists O. split; [lia|reflexivity]. }
  assert (Hbody : exists k, (k <= 5)%nat
            /\ opened_nc (log_of (validate_try inst files file_paths))
               = firstn k file_paths).
  { rewrite validate_try_cases. destruct inst; [|exists O; split; [lia|reflexivity]].
    destruct file_paths as [|p0 rest]; [exists O; split; [lia|reflexivity]|].
    destruct (files p0) as [nc|]; [|exists 1%nat; split; [lia|reflexivity]].
    cbv zeta.
    destruct (validate_loop_opens_prefix files (nc_lat nc) (nc_lon nc)
                (py_slice 1 (Nat.min 5 (length (p0 :: rest))) (p0 :: rest)))
      as (k & Hk & Hopen).
    unfold log_of at 1. cbn [fst]. unfold opened_nc at 1. cbn [flat_map app].
    fold (opened_nc (log_of (validate_loop files (nc_lat nc) (nc_lon nc)
            (py_slice 1 (Nat.min 5 (length (p0 :: rest))) (p0 :: rest))))).
    rewrite Hopen. unfold py_slice. cbn [skipn].
    rewrite firstn_firstn.
    exists (S (Nat.min k (Nat.min 5 (length (p0 :: rest)) - 1))).
    split; [lia|reflexivity]. }
  destruct Hbody as (k & Hk & Hopen). exists k. split; [exact Hk|].
  destruct (validate_try inst files file_paths) as [l [b|e]].
  - exact Hopen.
  - unfold try_except, print, emit, bind, ret, log_of in *. cbn [fst] in *.
    rewrite opened_nc_app. rewrite Hopen. simpl. apply app_nil_r.
Qed.

(** Step 2 of the driver always completes; its log is the check's log
    followed by one message chosen by the verdict. *)
Lemma step_2_run (w : world) (file_paths : list FilePath) :
  exists b,
    outcome (validate_coordinate_consistency (w_netCDF4 w) (w_files w) file_paths)
    = Ok b
    /\ step_2 w file_paths =
       (EvPrint (Msg_Step 2)
          :: log_of (validate_coordinate_consistency (w_netCDF4 w) (w_files w) file_paths)
          ++ [EvPrint (if negb b then Warn_ProceedingAnyway else Msg_ValidationPassed)],
        Ok tt).
Proof.
  destruct (validate_total (w_netCDF4 w) (w_files w) file_paths) as [b Hb].
  exists b. split; [exact Hb|]. unfold step_2.
  destruct (validate_coordinate_consistency (w_netCDF4 w) (w_files w) file_paths)
    as [l r].
  unfold outcome in Hb. simpl in Hb. subst r.
  unfold bind, print, emit, log_of. cbn [fst snd app].
  destruct b; reflexivity.
Qed.

Lemma process_files_after_step_1 (w : world) (model scenario variable : string)
    (aggregation : option string) (fwy : list (FilePath * Z)) :
  outcome (step_1 w model scenario variable) = Ok fwy ->
  process_files w model scenario variable aggregation =
  (log_of (step_1 w model scenario variable)
     ++ log_of (step_2 w (map fst fwy))
     ++ log_of (steps_3_to_6 w model scenario variable
                  (default_aggregation aggregation) fwy),
   outcome (steps_3_to_6 w model scenario variable
              (default_aggregation aggregation) fwy)).
Proof.
  intro H1. unfold process_files. fold (default_aggregation aggregation).
  destruct (step_1 w model scenario variable) as [l1 r1].
  unfold outcome in H1. simpl in H1. subst r1.
  destruct (step_2_run w (map fst fwy)) as (b & _ & E2).
  unfold bind. cbv beta iota. rewrite E2.
  generalize (steps_3_to_6 w model scenario variable
                (default_aggregation aggregation) fwy).
  intros [l3 r3]. unfold log_of, outcome. cbn [fst snd]. reflexivity.
Qed.

(** C10. The lightweight coordinate check never halts the pipeline. It
    always returns a verdict and never raises; with fewer than two paths
    the verdict is True and no file is opened; the files it opens are a
    prefix of at most five of the paths (the reference file and up to
    four after it); an exception inside the check yields True after a
    warning. In the driver the verdict only selects the message printed:
    after a False verdict the warning is printed and steps 3 to 6 run as
    they would have otherwise. *)
Theorem lightweight_check_never_halts :
  (forall (inst : bool) (files : ncfiles) (file_paths : list FilePath),
     let run := validate_coordinate_consistency inst files file_paths in
     (exists b, outcome run = Ok b)
     /\ ((length file_paths < 2)%nat -> run = ([], Ok true))
     /\ (exists k, (k <= 5)%nat /\ opened_nc (log_of run) = firstn k file_paths)
     /\ (forall e, (2 <= length file_paths)%nat ->
           outcome (validate_try inst files file_paths) = Raise e ->
           outcome run = Ok true
           /\ In (EvPrint (Warn_CouldNotValidate e)) (log_of run)))
  /\ (forall (w : world) (model scenario variable : string)
        (aggregation : option string) (fwy : list (FilePath * Z)),
        let check := validate_coordinate_consistency (w_netCDF4 w) (w_files w)
                       (map fst fwy) in
        let rest := steps_3_to_6 w model scenario variable
                      (default_aggregation aggregation) fwy in
        let run := process_files w model scenario variable aggregation in
        outcome (step_1 w model scenario variable) = Ok fwy ->
        outcome run = outcome rest
        /\ (outcome check = Ok false ->
              log_of run =
              log_of (step_1 w model scenario variable)
                ++ (EvPrint (Msg_Step 2) :: log_of check
                      ++ [EvPrint Warn_ProceedingAnyway])
                ++ log_of rest)).
Proof.
  split.
  - intros inst files file_paths run. subst run.
    split; [apply validate_total|].
    split; [apply validate_short|].
    split; [apply validate_opens_prefix|].
    intros e. apply validate_exception_true.
  - intros w model scenario variable aggregation fwy check rest run H1.
    subst run. rewrite (process_files_after_step_1 _ _ _ _ _ _ H1).
    split; [reflexivity|].
    intro Hfalse. unfold log_of at 1. cbn [fst].
    destruct (step_2_run w (map fst fwy)) as (b & Hb & E2).
    fold check in Hb, E2. rewrite Hb in Hfalse. inversion Hfalse; subst b.
    rewrite E2. reflexivity.
Qed.

(* ================================================================== *)
(** * Lists cut into pieces *)
(* ================================================================== *)

Lemma firstn_seq (n start len : nat) :
  firstn n (seq start len) = seq start (Nat.min n len).
Proof.
  revert start len. induction n as [|n IH]; intros start [|len]; simpl;
    try reflexivity.
  f_equal. apply IH.
Qed.

Lemma seq_from (start len : nat) :
  seq start len = map (fun r => (start + r)%nat) (seq 0 len).
Proof.
  revert start. induction len as [|len IH]; intro start; simpl; [reflexivity|].
  rewrite Nat.add_0_r. f_equal.
  rewrite (IH (S start)), <- (seq_shift len 0), map_map.
  apply map_ext. intro r. lia.
Qed.

(** Cutting a list into [n] consecutive pieces of [c] elements loses
    nothing when [n * c] covers the list. *)
Lemma pieces_concat {A} (c n : nat) (l : list A) :
  (length l <= n * c)%nat ->
  concat (map (fun k => firstn c (skipn (k * c) l)) (seq 0 n)) = l.
Proof.
  revert l. induction n as [|n IH]; intros l Hlen.
  - simpl in *. destruct l; [reflexivity|simpl in Hlen; lia].
  - cbn [seq map concat]. rewrite <- seq_shift, map_map.
    rewrite (map_ext _ (fun k => firstn c (skipn (k * c) (skipn c l)))).
    + rewrite IH; [apply firstn_skipn|].
      rewrite length_skipn. simpl in Hlen. lia.
    + intro k. rewrite skipn_skipn. f_equal. f_equal. lia.
Qed.

(* ================================================================== *)
(** * Frames and sheets *)
(* ================================================================== *)

Lemma py_bound_in_range (n : nat) (i : nat) :
  (i <= n)%nat -> py_bound (Z.of_nat n) (Z.of_nat i) = i.
Proof.
  intro H. unfold py_bound.
  destruct (Z.ltb_spec (Z.of_nat i) 0); [lia|].
  rewrite Z.min_l by lia. apply Nat2Z.id.
Qed.

Lemma df_rows_length (df : DataFrame) : length (df_rows df) = df_len df.
Proof. unfold df_rows. rewrite length_map, length_seq. reflexivity. Qed.

(** [df.iloc[a:b]] holds rows [a] to [b - 1], in order. *)
Lemma df_iloc_rows (df : DataFrame) (a b : nat) :
  df_wf df -> (a <= b)%nat -> (b <= df_len df)%nat ->
  df_len (df_iloc df (Z.of_nat a) (Z.of_nat b)) = (b - a)%nat
  /\ df_column_names (df_iloc df (Z.of_nat a) (Z.of_nat b)) = df_column_names df
  /\ df_rows (df_iloc df (Z.of_nat a) (Z.of_nat b))
     = firstn (b - a) (skipn a (df_rows df)).
Proof.
  intros Hwf Hab Hb.
  assert (Hlen : df_len (df_iloc df (Z.of_nat a) (Z.of_nat b)) = (b - a)%nat).
  { unfold df_iloc. cbn [df_len].
    rewrite !py_bound_in_range by lia. reflexivity. }
  split; [exact Hlen|]. split.
  { unfold df_iloc, df_column_names. cbn [df_columns]. rewrite map_map.
    reflexivity. }
  unfold df_rows at 1. rewrite Hlen.
  unfold df_rows. rewrite skipn_map, firstn_map, skipn_seq, firstn_seq.
  rewrite Nat.min_l by lia. cbn [Nat.add].
  rewrite (seq_from a), map_map.
  apply map_ext_in. intros r Hr. apply in_seq in Hr.
  unfold df_row, df_iloc. cbn [df_columns]. rewrite map_map.
  apply map_ext_in. intros [name col] Hcol. cbn [fst snd].
  unfold df_wf in Hwf. rewrite Forall_forall in Hwf.
  specialize (Hwf _ Hcol). cbn [snd] in Hwf.
  unfold py_slice_Z. rewrite Hwf. rewrite !py_bound_in_range by lia.
  unfold py_slice. rewrite nth_firstn.
  destruct (Nat.ltb_spec r (b - a)); [|lia].
  apply nth_skipn.
Qed.

Lemma string_in_In (c : string) (l : list string) :
  string_in c l = true <-> In c l.
Proof.
  unfold string_in. rewrite existsb_exists. split.
  - intros (x & Hx & He). apply String.eqb_eq in He. subst. exact Hx.
  - intro H. exists c. split; [exact H|apply String.eqb_refl].
Qed.

Lemma dict_get_in {V} (d : list (string * V)) (k : string) :
  In k (dict_keys d) -> exists v, dict_get String.eqb d k = Some v /\ In (k, v) d.
Proof.
  induction d as [|[k' v'] d IH]; simpl; [intros []|].
  intros [Hk|Hk].
  - subst. rewrite String.eqb_refl. eauto.
  - destruct (String.eqb_spec k' k) as [->|Hne]; [eauto|].
    destruct (IH Hk) as (v & Hv & Hin). eauto.
Qed.

Lemma df_select_columns_ok (cols : list (string * list val)) (names : list string) :
  (forall c, In c names -> In c (dict_keys cols)) ->
  df_select_columns cols names
  = Ok (map (fun c => (c, match dict_get String.eqb cols c with
                          | Some v => v
                          | None => []
                          end)) names).
Proof.
  induction names as [|c names IH]; intro Hin; [reflexivity|].
  cbn [df_select_columns map].
  destruct (dict_get_in cols c (Hin c (or_introl eq_refl))) as (v & Hv & _).
  rewrite Hv. rewrite IH; [reflexivity|].
  intros c' Hc'. apply Hin. right. exact Hc'.
Qed.

Lemma build_frame_ok (data_dict : list (string * list val)) (rows : nat) :
  table_ok data_dict rows ->
  build_frame data_dict = Ok (frame_of data_dict rows).
Proof.
  intros (Hnd & Hlat & Hlon & Hlen). unfold build_frame.
  assert (Hdf : pd_DataFrame data_dict = Ok (mkDF rows data_dict)).
  { unfold pd_DataFrame. destruct data_dict as [|[k c] rest]; [destruct Hlat|].
    inversion Hlen as [|? ? Hc Hrest]; subst. cbn [snd] in *.
    replace (forallb _ rest) with true; [reflexivity|].
    symmetry. apply forallb_forall. intros kv Hkv.
    rewrite Forall_forall in Hrest. rewrite (Hrest kv Hkv).
    apply Nat.eqb_refl. }
  rewrite Hdf. unfold df_select, df_column_names. cbn [df_columns df_len].
  rewrite df_select_columns_ok; [reflexivity|].
  intros c Hc. apply in_app_or in Hc. destruct Hc as [Hc|Hc].
  - destruct Hc as [<-|[<-|[]]]; assumption.
  - apply filter_In in Hc. apply Hc.
Qed.

Lemma frame_of_wf (data_dict : list (string * list val)) (rows : nat) :
  table_ok data_dict rows -> df_wf (frame_of data_dict rows).
Proof.
  intros (Hnd & Hlat & Hlon & Hlen). unfold df_wf, frame_of.
  cbn [df_columns df_len]. rewrite Forall_map. apply Forall_forall.
  intros c Hc. cbn [snd].
  assert (Hin : In c (dict_keys data_dict)).
  { apply in_app_or in Hc. destruct Hc as [Hc|Hc].
    - destruct Hc as [<-|[<-|[]]]; assumption.
    - apply filter_In in Hc. apply Hc. }
  destruct (dict_get_in data_dict c Hin) as (v & Hv & Hcv). rewrite Hv.
  rewrite Forall_forall in Hlen. apply (Hlen _ Hcv).
Qed.



Lemma frame_of_column_names (data_dict : list (string * list val)) (rows : nat) :
  df_column_names (frame_of data_dict rows)
  = "lat" :: "lon"
      :: filter (fun c => negb (string_in c ["lat"; "lon"])) (dict_keys data_dict).
Proof.
  unfold df_column_names, frame_of. cbn [df_columns].
  rewrite map_map. cbn [fst]. rewrite map_id. reflexivity.
Qed.

(** The frame has as many columns as the table. *)
Lemma frame_of_columns_length (data_dict : list (string * list val)) (rows : nat) :
  table_ok data_dict rows ->
  length (df_columns (frame_of data_dict rows)) = length data_dict.
Proof.
  intros (Hnd & Hlat & Hlon & _).
  change (length (df_columns (frame_of data_dict rows)))
    with (length (map fst (df_columns (frame_of data_dict rows)))) at 1
    || rewrite <- (length_map fst (df_columns (frame_of data_dict rows))).
  fold (df_column_names (frame_of data_dict rows)).
  rewrite frame_of_column_names. cbn [length].
  set (p := fun c => string_in c ["lat"; "lon"]).
  pose proof (filter_length p (dict_keys data_dict)) as Hsplit.
  assert (Hin : forall c, In c (filter p (dict_keys data_dict))
                          <-> In c ["lat"; "lon"]).
  { intro c. rewrite filter_In. unfold p. rewrite string_in_In.
    split; [tauto|]. intros Hc. split; [|exact Hc].
    destruct Hc as [<-|[<-|[]]]; assumption. }
  assert (H2 : length (filter p (dict_keys data_dict)) = 2%nat).
  { apply Nat.le_antisymm.
    - apply (NoDup_incl_length (l' := ["lat"; "lon"])).
      + apply NoDup_filter, Hnd.
      + intros c Hc. apply Hin, Hc.
    - apply (NoDup_incl_length (l := ["lat"; "lon"])).
      + repeat constructor; simpl; intuition discriminate.
      + intros c Hc. apply Hin, Hc. }
  unfold dict_keys in *. rewrite length_map in Hsplit.
  fold p. change (fun c => negb (string_in c ["lat"; "lon"]))
    with (fun c => negb (p c)). lia.
Qed.

Lemma frame_of_legal_headers (data_dict : list (string * list val)) (rows : nat) :
  table_ok data_dict rows ->
  legal_headers (dict_keys data_dict) ->
  legal_headers (df_column_names (frame_of data_dict rows)).
Proof.
  intros (_ & Hlat & Hlon & _) Hleg. unfold legal_headers in *.
  rewrite Forall_forall in *. intros c Hc. apply Hleg.
  rewrite frame_of_column_names in Hc.
  destruct Hc as [<-|[<-|Hc]]; try assumption.
  apply filter_In in Hc. apply Hc.
Qed.

Lemma firstn_min_length {A} (n : nat) (l : list A) :
  firstn (Nat.min n (length l)) l = firstn n l.
Proof.
  destruct (Nat.le_ge_cases n (length l)) as [H|H].
  - rewrite Nat.min_l by exact H. reflexivity.
  - rewrite Nat.min_r by exact H. rewrite firstn_all, firstn_all2; auto.
Qed.

Lemma py_range_length (n : Z) : length (py_range n) = Z.to_nat n.
Proof. unfold py_range. rewrite length_map, length_seq. reflexivity. Qed.


(** The number of sheets of a split: the ceiling of rows / ceiling. *)
Lemma num_sheets_bounds (rows ceiling : Z) :
  0 < ceiling -> ceiling < rows ->
  let num := (rows + ceiling - 1) / ceiling in
  2 <= num /\ rows <= ceiling * num /\ ceiling * (num - 1) <= rows - 1.
Proof.
  intros Hc Hr num.
  pose proof (Z.mul_div_le (rows + ceiling - 1) ceiling Hc) as H1.
  pose proof (Z.mul_succ_div_gt (rows + ceiling - 1) ceiling Hc) as H2.
  fold num in H1, H2.
  assert (2 <= num).
  { unfold num. apply Z.div_le_lower_bound; lia. }
  split; [assumption|]. split; nia.
Qed.

(** The sheet of iteration [k], for a frame longer than the ceiling. *)
Lemma split_sheet_rows (df : DataFrame) (sheet_name : string) (c k : nat) (num : Z) :
  df_wf df -> (0 < c)%nat -> (k * c <= df_len df)%nat -> 2 <= num ->
  let sheet := split_sheet df sheet_name (Z.of_nat c) num (Z.of_nat k) in
  fst sheet = (sheet_name ++ "_" ++ str_of_int (Z.of_nat k + 1))%string
  /\ df_column_names (snd sheet) = df_column_names df
  /\ df_rows (snd sheet) = firstn c (skipn (k * c) (df_rows df))
  /\ df_len (snd sheet) = Nat.min c (df_len df - k * c).
Proof.
  intros Hwf Hc Hk Hnum sheet. subst sheet. unfold split_sheet. cbn [fst snd].
  destruct (Z.gtb_spec num 1) as [_|Hle]; [|lia].
  split; [reflexivity|].
  replace (Z.of_nat k * Z.of_nat c) with (Z.of_nat (k * c)) by lia.
  replace (Z.min ((Z.of_nat k + 1) * Z.of_nat c) (Z.of_nat (df_len df)))
    with (Z.of_nat (Nat.min ((k + 1) * c) (df_len df))) by lia.
  destruct (df_iloc_rows df (k * c) (Nat.min ((k + 1) * c) (df_len df)) Hwf)
    as (Hlen & Hnames & Hrows); [lia|lia|].
  split; [exact Hnames|].
  assert (Hcut : (Nat.min ((k + 1) * c) (df_len df) - k * c
                  = Nat.min c (df_len df - k * c))%nat) by lia.
  rewrite Hcut in Hlen, Hrows. split; [|exact Hlen].
  rewrite Hrows.
  rewrite <- (firstn_min_length c (skipn (k * c) (df_rows df))).
  rewrite length_skipn, df_rows_length. reflexivity.
Qed.

(** ** Numbers as strings *)

Lemma to_int_not_nil (z : Z) :
  Z.to_int z <> Decimal.Pos Decimal.Nil /\ Z.to_int z <> Decimal.Neg Decimal.Nil.
Proof.
  destruct z as [|p|p]; simpl; split; try discriminate;
    intro H; injection H; apply DecimalPos.Unsigned.to_uint_nonnil.
Qed.

Lemma str_of_int_inj (a b : Z) : str_of_int a = str_of_int b -> a = b.
Proof.
  unfold str_of_int. intro H.
  destruct (to_int_not_nil a) as [Ha1 Ha2].
  destruct (to_int_not_nil b) as [Hb1 Hb2].
  pose proof (NilZero.isi _ Ha1 Ha2) as Ia.
  pose proof (NilZero.isi _ Hb1 Hb2) as Ib.
  rewrite H in Ia. rewrite Ia in Ib. injection Ib as Ib.
  apply DecimalZ.to_int_inj. exact Ib.
Qed.

Lemma append_inj_l (v s t : string) : (v ++ s = v ++ t)%string -> s = t.
Proof.
  induction v as [|c v IH]; simpl; intro H; [exact H|].
  injection H as H. apply IH, H.
Qed.

(** ** Titles and headers *)

Lemma has_character_app (p : ascii -> bool) (s t : string) :
  has_character p (s ++ t) = has_character p s || has_character p t.
Proof.
  unfold has_character. induction s as [|c s IH]; cbn [append list_ascii_of_string existsb].
  - reflexivity.
  - rewrite IH. apply orb_assoc.
Qed.

Lemma lower_app (s t : string) : lower (s ++ t) = (lower s ++ lower t)%string.
Proof. induction s as [|c s IH]; cbn [append lower]; congruence. Qed.

Lemma string_of_uint_characters (Q : string -> Prop) :
  Q "" ->
  (forall c s, number_character c -> Q s -> Q (String c s)) ->
  forall d, Q (NilEmpty.string_of_uint d).
Proof.
  intros Hnil Hcons. unfold number_character in Hcons.
  induction d; cbn [NilEmpty.string_of_uint];
    try exact Hnil; apply Hcons; try exact IHd; simpl; tauto.
Qed.

Lemma str_of_int_characters (Q : string -> Prop) :
  Q "" ->
  (forall c s, number_character c -> Q s -> Q (String c s)) ->
  forall n, Q (str_of_int n).
Proof.
  intros Hnil Hcons n. unfold str_of_int, NilZero.string_of_int.
  assert (Hu : forall d, Q (NilZero.string_of_uint d)).
  { intro d. unfold NilZero.string_of_uint.
    destruct d; try (apply (string_of_uint_characters Q Hnil Hcons)).
    apply Hcons; [unfold number_character; simpl; tauto|exact Hnil]. }
  destruct (Z.to_int n) as [d|d]; [apply Hu|].
  apply Hcons; [unfold number_character; simpl; tauto|apply Hu].
Qed.

Lemma number_character_cases (p : ascii -> bool) :
  forallb (fun c => negb (p c))
          ["0"; "1"; "2"; "3"; "4"; "5"; "6"; "7"; "8"; "9"; "-"]%char = true ->
  forall c, number_character c -> p c = false.
Proof.
  intros H c Hc. rewrite forallb_forall in H. specialize (H c Hc).
  destruct (p c); [discriminate|reflexivity].
Qed.

Lemma has_character_str_of_int (p : ascii -> bool) (n : Z) :
  forallb (fun c => negb (p c))
          ["0"; "1"; "2"; "3"; "4"; "5"; "6"; "7"; "8"; "9"; "-"]%char = true ->
  has_character p (str_of_int n) = false.
Proof.
  intro H. apply (str_of_int_characters (fun s => has_character p s = false)).
  - reflexivity.
  - intros c s Hc Hs. unfold has_character in *.
    cbn [list_ascii_of_string existsb].
    rewrite (number_character_cases p H c Hc), Hs. reflexivity.
Qed.

Lemma lower_str_of_int (n : Z) : lower (str_of_int n) = str_of_int n.
Proof.
  apply (str_of_int_characters (fun s => lower s = s)).
  - reflexivity.
  - intros c s Hc Hs. cbn [lower]. rewrite Hs. f_equal.
    unfold number_character in Hc. simpl in Hc.
    repeat (destruct Hc as [<-|Hc]; [reflexivity|]). contradiction.
Qed.

(** The numbered title of a sheet of a split. *)
Lemma numbered_title_valid (s : string) (n : Z) :
  valid_title_characters s ->
  valid_title_characters (s ++ "_" ++ str_of_int n).
Proof.
  unfold valid_title_characters. intro H.
  rewrite !has_character_app, H, has_character_str_of_int by reflexivity.
  reflexivity.
Qed.

Lemma numbered_title_legal (s : string) (n : Z) :
  has_character illegal_character s = false ->
  has_character illegal_character (s ++ "_" ++ str_of_int n) = false.
Proof.
  intro H.
  rewrite !has_character_app, H, has_character_str_of_int by reflexivity.
  reflexivity.
Qed.

Lemma numbered_title_not_empty (s t : string) : (s ++ "_" ++ t)%string <> "".
Proof. destruct s; discriminate. Qed.

Lemma numbered_title_not_sheet (s t : string) :
  lower (s ++ "_" ++ t) <> "sheet".
Proof.
  rewrite lower_app. cbn [append lower].
  change (ascii_lower "_") with "_"%char.
  destruct (lower s) as [|a [|b [|c [|d [|e [|f l]]]]]];
    cbn [append]; intro H; inversion H.
Qed.

Lemma numbered_title_distinct (s : string) (a b : Z) :
  lower (s ++ "_" ++ str_of_int a) = lower (s ++ "_" ++ str_of_int b) -> a = b.
Proof.
  rewrite !lower_app, !lower_str_of_int. intro H.
  apply append_inj_l in H. cbn [lower append] in H.
  injection H as H. apply str_of_int_inj, H.
Qed.

Lemma set_title_numbered (existing : list string) (s : string) (a : Z) :
  valid_title_characters s ->
  Forall (fun t => exists b, t = (s ++ "_" ++ str_of_int b)%string /\ b <> a)
         existing ->
  set_title existing (s ++ "_" ++ str_of_int a)
  = Ok (s ++ "_" ++ str_of_int a)%string.
Proof.
  intros Hs Hex. unfold set_title.
  destruct (String.eqb_spec (s ++ "_" ++ str_of_int a) "") as [E|_].
  { exfalso. exact (numbered_title_not_empty _ _ E). }
  rewrite (numbered_title_valid s a Hs).
  assert (Hclash : existsb
            (fun t => String.eqb (lower t) (lower (s ++ "_" ++ str_of_int a))
                      || String.eqb (lower t) "sheet") existing = false).
  { induction Hex as [|t ts (b & -> & Hb) _ IH]; cbn [existsb]; [reflexivity|].
    rewrite IH, orb_false_r.
    destruct (String.eqb_spec (lower (s ++ "_" ++ str_of_int b))
                (lower (s ++ "_" ++ str_of_int a))) as [E|_].
    { exfalso. apply Hb. exact (numbered_title_distinct s b a E). }
    destruct (String.eqb_spec (lower (s ++ "_" ++ str_of_int b)) "sheet")
      as [E|_]; [|reflexivity].
    exfalso. exact (numbered_title_not_sheet _ _ E). }
  rewrite Hclash.
  destruct (String.eqb_spec (lower (s ++ "_" ++ str_of_int a)) "sheet") as [E|_].
  { exfalso. exact (numbered_title_not_sheet _ _ E). }
  reflexivity.
Qed.

Lemma set_title_kept (value : string) :
  title_kept value -> set_title [] value = Ok value.
Proof.
  intros (Hne & Hval & Hcase). unfold set_title.
  destruct (String.eqb_spec value "") as [E|_]; [contradiction|].
  unfold valid_title_characters in Hval. rewrite Hval. cbn [existsb].
  destruct (String.eqb_spec (lower value) "sheet") as [E|_]; [|reflexivity].
  rewrite (Hcase E). reflexivity.
Qed.

Lemma legal_headers_find (names : list string) :
  legal_headers names -> find (has_character illegal_character) names = None.
Proof.
  induction 1 as [|n names Hn _ IH]; cbn [find]; [reflexivity|].
  rewrite Hn. exact IH.
Qed.

Lemma to_excel_written (book : workbook) (df : DataFrame)
    (sheet_name title : string) :
  sheet_too_large df = false ->
  set_title (map fst book) sheet_name = Ok title ->
  legal_headers (df_column_names df) ->
  to_excel book df sheet_name = (book ++ [(title, df)], Ok tt).
Proof.
  intros Hsize Htitle Hleg. unfold to_excel.
  rewrite Hsize, Htitle, (legal_headers_find _ Hleg). reflexivity.
Qed.

Lemma df_iloc_column_names (df : DataFrame) (start stop : Z) :
  df_column_names (df_iloc df start stop) = df_column_names df.
Proof.
  unfold df_column_names, df_iloc. cbn [df_columns].
  rewrite map_map. reflexivity.
Qed.

Lemma df_iloc_columns_length (df : DataFrame) (start stop : Z) :
  length (df_columns (df_iloc df start stop)) = length (df_columns df).
Proof. unfold df_iloc. cbn [df_columns]. apply length_map. Qed.

(** ** The sheets of a split *)

(** When every sheet is accepted, the loop writes them all, in order. *)
Lemma write_split_all (df : DataFrame) (sheet_name : string) (c num : Z)
    (bound : nat) :
  (forall k, (k < bound)%nat ->
     let sheet := split_sheet df sheet_name c num (Z.of_nat k) in
     to_excel (map (split_sheet df sheet_name c num) (map Z.of_nat (seq 0 k)))
              (snd sheet) (fst sheet)
     = (map (split_sheet df sheet_name c num) (map Z.of_nat (seq 0 (S k))),
        Ok tt)) ->
  forall len a, (a + len <= bound)%nat ->
    write_split df sheet_name c num (map Z.of_nat (seq a len))
      (map (split_sheet df sheet_name c num) (map Z.of_nat (seq 0 a)))
    = (map (split_sheet df sheet_name c num) (map Z.of_nat (seq 0 (a + len))),
       Ok tt).
Proof.
  intros Hstep. induction len as [|len IH]; intros a Ha.
  - rewrite Nat.add_0_r. reflexivity.
  - cbn [seq map write_split]. cbv zeta.
    rewrite (Hstep a) by lia.
    rewrite (IH (S a)) by lia.
    replace (S a + len)%nat with (a + S len)%nat by lia. reflexivity.
Qed.

Lemma write_split_numbered (df : DataFrame) (sheet_name : string) (c : nat)
    (num : Z) :
  df_wf df -> (0 < c)%nat -> 2 <= num ->
  (Z.to_nat num * c < df_len df + c)%nat ->
  valid_title_characters sheet_name ->
  legal_headers (df_column_names df) ->
  Z.of_nat c <= 1048576 ->
  Z.of_nat (length (df_columns df)) <= 16384 ->
  write_split df sheet_name (Z.of_nat c) num (py_range num) []
  = (map (split_sheet df sheet_name (Z.of_nat c) num) (py_range num), Ok tt).
Proof.
  intros Hwf Hc Hnum Hfit Hval Hleg Hrows Hcols.
  unfold py_range.
  refine (write_split_all df sheet_name (Z.of_nat c) num (Z.to_nat num)
            _ (Z.to_nat num) 0%nat (Nat.le_refl _)).
  intros k Hk sheet.
  assert (Hkc : (k * c <= df_len df)%nat) by nia.
  destruct (split_sheet_rows df sheet_name c k num Hwf Hc Hkc Hnum)
    as (Hname & Hnames & _ & Hlen).
  fold sheet in Hname, Hnames, Hlen.
  rewrite seq_S, !map_app. cbn [map Nat.add].
  fold sheet. rewrite (surjective_pairing sheet) at 3.
  rewrite Hname at 2.
  apply to_excel_written.
  - unfold sheet_too_large. rewrite Hlen.
    unfold sheet, split_sheet. cbn [snd]. rewrite df_iloc_columns_length.
    apply orb_false_iff. split; apply Z.ltb_ge; lia.
  - rewrite Hname. apply set_title_numbered; [exact Hval|].
    apply Forall_forall. intros t Ht. rewrite !map_map in Ht.
    apply in_map_iff in Ht. destruct Ht as (i & <- & Hi). apply in_seq in Hi.
    assert (Hic : (i * c <= df_len df)%nat) by nia.
    destruct (split_sheet_rows df sheet_name c i num Hwf Hc Hic Hnum)
      as (Hname' & _).
    exists (Z.of_nat i + 1). split; [exact Hname'|lia].
  - rewrite Hnames. exact Hleg.
Qed.

Lemma write_sheets_split (df : DataFrame) (sheet_name : string) (ceiling : Z) :
  df_wf df ->
  0 < ceiling -> ceiling < Z.of_nat (df_len df) ->
  valid_title_characters sheet_name ->
  legal_headers (df_column_names df) ->
  ceiling <= 1048576 ->
  Z.of_nat (length (df_columns df)) <= 16384 ->
  let num := (Z.of_nat (df_len df) + ceiling - 1) / ceiling in
  write_sheets df sheet_name ceiling
  = ([EvPrint Msg_SplittingSheets],
     Ok (map (split_sheet df sheet_name ceiling num) (py_range num))).
Proof.
  intros Hwf Hc Hr Hval Hleg Hrows Hcols num. unfold write_sheets.
  destruct (Z.gtb_spec (Z.of_nat (df_len df)) ceiling) as [_|Hle]; [|lia].
  destruct (Z.eqb_spec ceiling 0) as [He|_]; [lia|].
  fold num.
  destruct (num_sheets_bounds _ _ Hc Hr) as (Hnum & Hup & Hlow).
  fold num in Hnum, Hup, Hlow.
  replace ceiling with (Z.of_nat (Z.to_nat ceiling)) by lia.
  rewrite write_split_numbered; try assumption; try lia; try nia.
  replace (Z.of_nat (Z.to_nat ceiling)) with ceiling by lia.
  destruct (map (split_sheet df sheet_name ceiling num) (py_range num)) eqn:Hm.
  - apply (f_equal (@length _)) in Hm.
    rewrite length_map, py_range_length in Hm. simpl in Hm. lia.
  - reflexivity.
Qed.

Lemma write_to_excel_table (data_dict : list (string * list val)) (rows : nat)
    (sheet_name : string) (ceiling : Z) :
  table_ok data_dict rows ->
  write_to_excel data_dict (Some sheet_name) (Some ceiling)
  = write_sheets (frame_of data_dict rows) sheet_name ceiling.
Proof.
  intro Hok. unfold write_to_excel.
  destruct Hok as (Hnd & Hlat & Hlon & Hlen).
  rewrite (proj2 (string_in_In "lat" _) Hlat), (proj2 (string_in_In "lon" _) Hlon).
  cbn [negb orb].
  rewrite (build_frame_ok data_dict rows) by (repeat split; assumption).
  unfold lift, bind.
  destruct (write_sheets (frame_of data_dict rows) sheet_name ceiling).
  reflexivity.
Qed.


Lemma sample_table_ok : table_ok sample_table 3.
Proof.
  unfold table_ok, sample_table, dict_keys. cbn [map fst].
  split.
  { repeat constructor; simpl; intuition discriminate. }
  split; [simpl; auto|]. split; [simpl; auto|].
  repeat constructor.
Defined.


(* ================================================================== *)
(** * Column names *)
(* ================================================================== *)

Lemma column_name_inj (v : string) (a b : Z) :
  column_name v a = column_name v b -> a = b.
Proof.
  unfold column_name. intro H. apply append_inj_l in H.
  injection H as H. apply str_of_int_inj, H.
Qed.

Lemma column_name_not_lat (v : string) (y : Z) : column_name v y <> "lat".
Proof.
  unfold column_name.
  destruct v as [|a [|b [|c [|d v]]]]; simpl; intro H; inversion H.
Qed.

Lemma column_name_not_lon (v : string) (y : Z) : column_name v y <> "lon".
Proof.
  unfold column_name.
  destruct v as [|a [|b [|c [|d v]]]]; simpl; intro H; inversion H.
Qed.

(* ================================================================== *)
(** * Arrays *)
(* ================================================================== *)

Lemma map2_length {A B C} (f : A -> B -> C) (a : list A) (b : list B) :
  length (map2 f a b) = Nat.min (length a) (length b).
Proof. unfold map2. rewrite length_map, length_combine. reflexivity. Qed.

Lemma map2_nth {A B C} (f : A -> B -> C) (a : list A) (b : list B)
    (i : nat) (da : A) (db : B) (dc : C) :
  (i < length a)%nat -> (i < length b)%nat ->
  nth i (map2 f a b) dc = f (nth i a da) (nth i b db).
Proof.
  revert b i. induction a as [|x a IH]; intros [|y b] i Ha Hb;
    simpl in *; try lia.
  destruct i as [|i]; [reflexivity|].
  apply IH; lia.
Qed.

Lemma in_map2 {A B C} (f : A -> B -> C) (a : list A) (b : list B) (c : C) :
  In c (map2 f a b) -> exists x y, In x a /\ In y b /\ c = f x y.
Proof.
  unfold map2. intro H. apply in_map_iff in H.
  destruct H as ([x y] & <- & Hin). exists x, y.
  split; [eapply in_combine_l; eauto|].
  split; [eapply in_combine_r; eauto|reflexivity].
Qed.

(** A cell of a nest of equally long rows, read from the flat buffer. *)
Lemma nth_concat_rows {A} (rows : list (list A)) (n i j : nat) (d : A) :
  Forall (fun row => length row = n) rows ->
  (i < length rows)%nat -> (j < n)%nat ->
  nth (i * n + j) (concat rows) d = nth j (nth i rows []) d.
Proof.
  revert i. induction rows as [|row rows IH]; intros i Hall Hi Hj.
  - simpl in Hi. lia.
  - inversion Hall as [|? ? Hrow Hrest]; subst.
    destruct i as [|i]; simpl.
    + apply app_nth1. lia.
    + rewrite app_nth2 by lia.
      replace (length row + i * length row + j - length row)%nat
        with (i * length row + j)%nat by lia.
      apply IH; [exact Hrest|simpl in Hi; lia|exact Hj].
Qed.

Lemma concat_rows_length {A} (rows : list (list A)) (n : nat) :
  Forall (fun row => length row = n) rows ->
  length (concat rows) = (length rows * n)%nat.
Proof.
  induction 1 as [|row rows Hrow _ IH]; simpl; [reflexivity|].
  rewrite length_app, IH, Hrow. reflexivity.
Qed.

(** The rows of a buffer that holds [r] rows of [k] values. *)
Lemma chunks_spec (r k : nat) (b : list val) :
  length b = (r * k)%nat ->
  length (chunks r k b) = r
  /\ Forall (fun row => length row = k) (chunks r k b)
  /\ concat (chunks r k b) = b.
Proof.
  revert b. induction r as [|r IH]; intros b Hb; simpl in *.
  - destruct b; [|discriminate]. repeat split. constructor.
  - destruct (IH (skipn k b)) as (Hl & Hall & Hc).
    { rewrite length_skipn. lia. }
    split; [lia|]. split.
    + constructor; [|exact Hall]. rewrite length_firstn. lia.
    + rewrite Hc. apply firstn_skipn.
Qed.

Lemma chunks_concat (k : nat) (rows : list (list val)) :
  Forall (fun row => length row = k) rows ->
  chunks (length rows) k (concat rows) = rows.
Proof.
  induction 1 as [|row rows Hrow _ IH]; simpl; [reflexivity|].
  assert (Hf : firstn k (row ++ concat rows) = row).
  { rewrite <- Hrow, firstn_app, firstn_all, Nat.sub_diag. simpl.
    apply app_nil_r. }
  assert (Hs : skipn k (row ++ concat rows) = concat rows).
  { rewrite <- Hrow, skipn_app, skipn_all, Nat.sub_diag. reflexivity. }
  rewrite Hf, Hs, IH. reflexivity.
Qed.

Lemma fold_map2_length {S B} (step : S -> B -> S) (rows : list (list B))
    (acc : list S) :
  Forall (fun row => length row = length acc) rows ->
  length (fold_left (map2 step) rows acc) = length acc.
Proof.
  revert acc. induction rows as [|row rows IH]; intros acc Hall; simpl;
    [reflexivity|].
  inversion Hall as [|? ? Hrow Hrest]; subst.
  rewrite IH; rewrite map2_length, Hrow, Nat.min_id; [reflexivity|].
  exact Hrest.
Qed.

(** The value of a position-wise fold at one position. *)
Lemma fold_map2_nth {S B} (step : S -> B -> S) (rows : list (list B))
    (acc : list S) (j : nat) (ds : S) (db : B) :
  Forall (fun row => length row = length acc) rows ->
  (j < length acc)%nat ->
  nth j (fold_left (map2 step) rows acc) ds
  = fold_left step (map (fun row => nth j row db) rows) (nth j acc ds).
Proof.
  revert acc. induction rows as [|row rows IH]; intros acc Hall Hj; simpl;
    [reflexivity|].
  inversion Hall as [|? ? Hrow Hrest]; subst.
  rewrite IH.
  - f_equal. apply map2_nth; lia.
  - rewrite map2_length, Hrow, Nat.min_id. exact Hrest.
  - rewrite map2_length, Hrow, Nat.min_id. exact Hj.
Qed.

(* ================================================================== *)
(** * The tabulator *)
(* ================================================================== *)

Lemma np_mean_axis0_length (r k : nat) (b : list val) :
  length b = (r * k)%nat ->
  exists col, np_mean_axis0 (mkNd [r; k] b) = Ok (mkNd [k] col)
              /\ length col = k.
Proof.
  intro Hb. unfold np_mean_axis0. cbn [shape buf].
  eexists. split; [reflexivity|].
  destruct (chunks_spec r k b Hb) as (_ & Hall & _).
  rewrite length_map, fold_map2_length; rewrite repeat_length; [reflexivity|].
  exact Hall.
Qed.

Lemma flatten_year_ok (m n : nat) (a : ndarray) :
  aggregate_on_grid m n a ->
  exists col, flatten_year m n a = Ok col /\ length col = (m * n)%nat.
Proof.
  intros [[Hs Hb]|(t & Hs & Hb & Hpos)]; unfold flatten_year, ndim; rewrite Hs.
  - simpl. exists (buf a). split; [reflexivity|exact Hb].
  - cbn [length Nat.eqb]. unfold np_reshape_rows. rewrite Hb.
    destruct (Nat.eqb_spec (m * n) 0) as [He|_]; [lia|].
    rewrite Nat.Div0.mod_mul, Nat.eqb_refl. cbn [negb orb].
    rewrite Nat.div_mul by lia.
    destruct (np_mean_axis0_length t (m * n) (buf a) Hb) as (col & Hcol & Hl).
    rewrite Hcol. exists col. split; [reflexivity|exact Hl].
Qed.

Lemma dict_set_fresh {V} (d : list (string * V)) (k : string) (v : V) :
  ~ In k (dict_keys d) -> dict_set String.eqb d k v = d ++ [(k, v)].
Proof.
  induction d as [|[k' v'] d IH]; simpl; intro H; [reflexivity|].
  destruct (String.eqb_spec k' k) as [->|_]; [exfalso; auto|].
  rewrite IH; [reflexivity|]. intro Hin. apply H. right. exact Hin.
Qed.

(** The loop over the sorted items appends one column per item. *)
Lemma prepare_loop (m n : nat) (v : string) (items : list (Z * ndarray))
    (res : list (string * list val)) :
  Forall (fun item => aggregate_on_grid m n (snd item)) items ->
  NoDup (map fst items) ->
  (forall item, In item items -> ~ In (column_name v (fst item)) (dict_keys res)) ->
  fold_M items (add_year_column m n v) res
  = ([], Ok (res ++ year_columns m n v items)).
Proof.
  revert res. induction items as [|[y a] items IH]; intros res Hall Hnd Hfresh.
  - simpl. unfold ret. rewrite app_nil_r. reflexivity.
  - inversion Hall as [|? ? Ha Hrest]; subst. cbn [snd] in Ha.
    inversion Hnd as [|? ? Hy Hnd']; subst. cbn [fst] in Hy.
    destruct (flatten_year_ok m n a Ha) as (col & Hcol & _).
    cbn [fold_M]. unfold add_year_column at 1. rewrite Hcol.
    unfold lift, ret, bind. cbv beta iota.
    rewrite dict_set_fresh by (apply (Hfresh (y, a)); left; reflexivity).
    rewrite IH; [|exact Hrest|exact Hnd'|].
    + unfold year_columns. cbn [map fst snd app]. rewrite Hcol.
      rewrite <- app_assoc. reflexivity.
    + intros item Hitem Hin. unfold dict_keys in Hin.
      rewrite map_app in Hin. apply in_app_or in Hin.
      destruct Hin as [Hin|Hin].
      * apply (Hfresh item); [right; exact Hitem|exact Hin].
      * destruct Hin as [Heq|[]]. cbn [fst] in Heq.
        apply column_name_inj in Heq. subst y. apply Hy.
        apply in_map. exact Hitem.
Qed.

Lemma sorted_items (data_dict : list (Z * ndarray)) :
  NoDup (dict_keys data_dict) ->
  NoDup (map fst (sort_key fst data_dict))
  /\ StronglySorted Z.lt (map fst (sort_key fst data_dict))
  /\ Permutation (dict_keys data_dict) (map fst (sort_key fst data_dict)).
Proof.
  intro Hnd.
  assert (Hp : Permutation (dict_keys data_dict) (map fst (sort_key fst data_dict))).
  { apply Permutation_map, sort_key_perm. }
  assert (Hnd' : NoDup (map fst (sort_key fst data_dict))).
  { eapply Permutation_NoDup; eauto. }
  split; [exact Hnd'|]. split; [|exact Hp].
  apply sorted_nodup_strict; [apply sort_key_sorted|exact Hnd'].
Qed.

Lemma prepare_dataframe_data_ok (lat lon : list Qc)
    (data_dict : list (Z * ndarray)) (v : string) :
  NoDup (dict_keys data_dict) ->
  Forall (fun item => aggregate_on_grid (length lat) (length lon) (snd item))
         data_dict ->
  prepare_dataframe_data lat lon data_dict v
  = ([], Ok (table_for lat lon data_dict v)).
Proof.
  intros Hnd Hall. unfold prepare_dataframe_data, table_for.
  cbv zeta. unfold np_meshgrid. cbv beta iota. cbn [fst snd].
  rewrite prepare_loop.
  - reflexivity.
  - apply Forall_forall. intros item Hin. apply sort_key_in in Hin.
    rewrite Forall_forall in Hall. apply Hall, Hin.
  - apply sorted_items, Hnd.
  - intros item _ Hin. cbn in Hin.
    destruct Hin as [H|[H|[]]]; symmetry in H.
    + apply column_name_not_lat in H. exact H.
    + apply column_name_not_lon in H. exact H.
Qed.

Lemma meshgrid_lat_nth (lat lon : list Qc) (i j : nat) :
  (i < length lat)%nat -> (j < length lon)%nat ->
  nth (i * length lon + j) (np_flatten (snd (np_meshgrid lon lat))) NaN
  = Num (nth i lat 0%Qc).
Proof.
  intros Hi Hj. unfold np_meshgrid, np_flatten. cbn [fst snd buf].
  rewrite (nth_concat_rows _ (length lon)).
  - rewrite (nth_indep _ [] (map (fun _ => Num 0%Qc) lon))
      by (rewrite length_map; exact Hi).
    rewrite (map_nth (fun la => map (fun _ => Num la) lon) lat 0%Qc i).
    rewrite (nth_indep _ NaN ((fun _ => Num (nth i lat 0%Qc)) 0%Qc))
      by (rewrite length_map; exact Hj).
    rewrite (map_nth (fun _ => Num (nth i lat 0%Qc)) lon 0%Qc j). reflexivity.
  - apply Forall_forall. intros row Hrow. apply in_map_iff in Hrow.
    destruct Hrow as (la & <- & _). apply length_map.
  - rewrite length_map. exact Hi.
  - exact Hj.
Qed.

Lemma meshgrid_lon_nth (lat lon : list Qc) (i j : nat) :
  (i < length lat)%nat -> (j < length lon)%nat ->
  nth (i * length lon + j) (np_flatten (fst (np_meshgrid lon lat))) NaN
  = Num (nth j lon 0%Qc).
Proof.
  intros Hi Hj. unfold np_meshgrid, np_flatten. cbn [fst snd buf].
  rewrite (nth_concat_rows _ (length lon)).
  - rewrite (nth_indep _ [] ((fun _ => map Num lon) 0%Qc))
      by (rewrite length_map; exact Hi).
    rewrite (map_nth (fun _ => map Num lon) lat 0%Qc i).
    rewrite (nth_indep _ NaN (Num 0%Qc)) by (rewrite length_map; exact Hj).
    apply (map_nth Num).
  - apply Forall_forall. intros row Hrow. apply in_map_iff in Hrow.
    destruct Hrow as (la & <- & _). apply length_map.
  - rewrite length_map. exact Hi.
  - exact Hj.
Qed.

Lemma meshgrid_lengths (lat lon : list Qc) :
  length (np_flatten (snd (np_meshgrid lon lat))) = (length lat * length lon)%nat
  /\ length (np_flatten (fst (np_meshgrid lon lat))) = (length lat * length lon)%nat.
Proof.
  unfold np_meshgrid, np_flatten. cbn [fst snd buf]. split.
  - rewrite (concat_rows_length _ (length lon)); [rewrite length_map; reflexivity|].
    apply Forall_forall. intros row Hrow. apply in_map_iff in Hrow.
    destruct Hrow as (la & <- & _). apply length_map.
  - rewrite (concat_rows_length _ (length lon)); [rewrite length_map; reflexivity|].
    apply Forall_forall. intros row Hrow. apply in_map_iff in Hrow.
    destruct Hrow as (la & <- & _). apply length_map.
Qed.

Lemma NoDup_map_injective {A B} (f : A -> B) (l : list A) :
  (forall a b, f a = f b -> a = b) -> NoDup l -> NoDup (map f l).
Proof.
  intros Hinj. induction 1 as [|x l Hx _ IH]; simpl; constructor; [|exact IH].
  intro Hin. apply in_map_iff in Hin. destruct Hin as (y & Hy & Hin).
  apply Hinj in Hy. subst y. contradiction.
Qed.

Lemma filter_keep_all {A} (f : A -> bool) (l : list A) :
  (forall x, In x l -> f x = true) -> filter f l = l.
Proof.
  induction l as [|x l IH]; intro H; simpl; [reflexivity|].
  rewrite (H x (or_introl eq_refl)). f_equal. apply IH.
  intros y Hy. apply H. right. exact Hy.
Qed.

Lemma year_columns_keys (m n : nat) (v : string) (items : list (Z * ndarray)) :
  dict_keys (year_columns m n v items) = map (column_name v) (map fst items).
Proof. unfold dict_keys, year_columns. rewrite !map_map. reflexivity. Qed.

Lemma table_for_keys (lat lon : list Qc) (data_dict : list (Z * ndarray)) (v : string) :
  dict_keys (table_for lat lon data_dict v)
  = "lat" :: "lon" :: map (column_name v) (map fst (sort_key fst data_dict)).
Proof.
  unfold table_for.
  change (dict_keys (?a :: ?b :: ?l)) with (fst a :: fst b :: dict_keys l).
  cbn [fst]. rewrite year_columns_keys. reflexivity.
Qed.

Lemma table_for_ok (lat lon : list Qc) (data_dict : list (Z * ndarray)) (v : string) :
  NoDup (dict_keys data_dict) ->
  Forall (fun item => aggregate_on_grid (length lat) (length lon) (snd item))
         data_dict ->
  table_ok (table_for lat lon data_dict v) (length lat * length lon).
Proof.
  intros Hnd Hall. destruct (sorted_items data_dict Hnd) as (Hnd' & _ & _).
  unfold table_ok. rewrite table_for_keys.
  split.
  { constructor.
    - intros [H|H]; [discriminate|]. apply in_map_iff in H.
      destruct H as (y & Hy & _). apply column_name_not_lat in Hy. exact Hy.
    - constructor.
      + intro H. apply in_map_iff in H.
        destruct H as (y & Hy & _). apply column_name_not_lon in Hy. exact Hy.
      + apply NoDup_map_injective; [apply column_name_inj|exact Hnd']. }
  split; [left; reflexivity|]. split; [right; left; reflexivity|].
  destruct (meshgrid_lengths lat lon) as [Hlat Hlon]. unfold table_for.
  constructor; [exact Hlat|]. constructor; [exact Hlon|].
  unfold year_columns. rewrite Forall_map. apply Forall_forall.
  intros item Hin. cbn [snd]. apply sort_key_in in Hin.
  rewrite Forall_forall in Hall.
  destruct (flatten_year_ok _ _ _ (Hall item Hin)) as (col & -> & Hl). exact Hl.
Qed.

Lemma table_for_frame_columns (lat lon : list Qc) (data_dict : list (Z * ndarray))
    (v : string) (rows : nat) :
  df_columns (frame_of (table_for lat lon data_dict v) rows)
  = ("lat", np_flatten (snd (np_meshgrid lon lat)))
      :: ("lon", np_flatten (fst (np_meshgrid lon lat)))
      :: map (fun c => (c, match dict_get String.eqb
                                   (table_for lat lon data_dict v) c with
                           | Some col => col
                           | None => []
                           end))
             (map (column_name v) (map fst (sort_key fst data_dict))).
Proof.
  unfold frame_of. cbn [df_columns]. rewrite table_for_keys.
  cbn [filter string_in existsb String.eqb Ascii.eqb Bool.eqb andb orb negb].
  rewrite filter_keep_all.
  - cbn [app map]. f_equal.
  - intros c Hc. apply in_map_iff in Hc. destruct Hc as (y & <- & _).
    destruct (String.eqb_spec (column_name v y) "lat") as [E|_];
      [apply column_name_not_lat in E; destruct E|].
    destruct (String.eqb_spec (column_name v y) "lon") as [E|_];
      [apply column_name_not_lon in E; destruct E|].
    reflexivity.
Qed.

(** C2. For a grid of M latitudes and N longitudes and a year-to-array
    mapping over that grid, the tabulator produces a table of exactly
    M * N rows; row [i * N + j] starts with the pair (lat[i], lon[j]), so
    every combination of a latitude index and a longitude index has
    exactly one row, in lat-major order; the columns are "lat", "lon",
    then one column "<variable>_<year>" per year, in strictly ascending
    order of year. *)
Theorem tabulator_layout
    (lat lon : list Qc) (data_dict : list (Z * ndarray)) (variable : string) :
  NoDup (dict_keys data_dict) ->
  Forall (fun item => aggregate_on_grid (length lat) (length lon) (snd item))
         data_dict ->
  let m := length lat in
  let n := length lon in
  let years := map fst (sort_key fst data_dict) in
  exists table df,
    outcome (prepare_dataframe_data lat lon data_dict variable) = Ok table
    /\ build_frame table = Ok df
    /\ length (df_rows df) = (m * n)%nat
    /\ (forall i j, (i < m)%nat -> (j < n)%nat ->
          exists rest,
            nth_error (df_rows df) (i * n + j)
            = Some (Num (nth i lat 0%Qc) :: Num (nth j lon 0%Qc) :: rest)
            /\ length rest = length years)
    /\ (forall r, (r < m * n)%nat ->
          exists i j, (i < m)%nat /\ (j < n)%nat /\ r = (i * n + j)%nat
            /\ forall i' j', (i' < m)%nat -> (j' < n)%nat ->
                 r = (i' * n + j')%nat -> i' = i /\ j' = j)
    /\ df_column_names df = "lat" :: "lon" :: map (column_name variable) years
    /\ StronglySorted Z.lt years
    /\ Permutation (dict_keys data_dict) years.
Proof.
  intros Hnd Hall m n years.
  pose proof (table_for_ok lat lon data_dict variable Hnd Hall) as Hok.
  fold m n in Hok.
  exists (table_for lat lon data_dict variable),
         (frame_of (table_for lat lon data_dict variable) (m * n)).
  split; [rewrite prepare_dataframe_data_ok by assumption; reflexivity|].
  split; [apply build_frame_ok, Hok|].
  split; [apply df_rows_length|].
  split.
  { intros i j Hi Hj.
    assert (Hr : (i * n + j < m * n)%nat) by nia.
    unfold df_rows. cbn [df_len frame_of].
    rewrite nth_error_map.
    rewrite (nth_error_nth' _ O) by (rewrite length_seq; exact Hr).
    rewrite seq_nth by exact Hr. cbn [Nat.add option_map].
    unfold df_row. rewrite table_for_frame_columns. cbn [map snd].
    unfold n at 1 2. rewrite meshgrid_lat_nth, meshgrid_lon_nth by assumption.
    eexists. split; [reflexivity|].
    unfold years. rewrite !length_map. reflexivity. }
  split.
  { intros r Hr. assert (Hn : (0 < n)%nat) by nia.
    exists (r / n)%nat, (r mod n)%nat.
    pose proof (Nat.div_mod_eq r n) as Hdm.
    pose proof (Nat.mod_upper_bound r n) as Hmod.
    assert (Hdiv : (r / n < m)%nat).
    { apply Nat.Div0.div_lt_upper_bound. lia. }
    split; [exact Hdiv|]. split; [lia|]. split; [lia|].
    intros i' j' Hi' Hj' Heq.
    assert (Hi : i' = (r / n)%nat).
    { apply (Nat.div_unique r n i' j'); lia. }
    split; [exact Hi|]. subst i'.
    assert (Hmul : (n * (r / n) = r / n * n)%nat) by apply Nat.mul_comm.
    lia. }
  split.
  { unfold df_column_names. rewrite table_for_frame_columns.
    cbn [map fst]. rewrite map_map. cbn [fst]. rewrite map_id. reflexivity. }
  destruct (sorted_items data_dict Hnd) as (_ & Hs & Hp).
  split; assumption.
Qed.

Lemma sample_aggregate_on_grid :
  Forall (fun item => aggregate_on_grid (length sample_lat) (length sample_lon)
                        (snd item)) sample_aggregate.
Proof.
  repeat constructor.
Defined.

Lemma tabulator_layout_witness :
  let m := length sample_lat in
  let n := length sample_lon in
  let years := map fst (sort_key fst sample_aggregate) in
  exists table df,
    outcome (prepare_dataframe_data sample_lat sample_lon sample_aggregate "tasmax")
      = Ok table
    /\ build_frame table = Ok df
    /\ length (df_rows df) = (m * n)%nat
    /\ (forall i j, (i < m)%nat -> (j < n)%nat ->
          exists rest,
            nth_error (df_rows df) (i * n + j)
            = Some (Num (nth i sample_lat 0%Qc) :: Num (nth j sample_lon 0%Qc) :: rest)
            /\ length rest = length years)
    /\ (forall r, (r < m * n)%nat ->
          exists i j, (i < m)%nat /\ (j < n)%nat /\ r = (i * n + j)%nat
            /\ forall i' j', (i' < m)%nat -> (j' < n)%nat ->
                 r = (i' * n + j')%nat -> i' = i /\ j' = j)
    /\ df_column_names df = "lat" :: "lon" :: map (column_name "tasmax") years
    /\ StronglySorted Z.lt years
    /\ Permutation (dict_keys sample_aggregate) years.
Proof.
  apply (tabulator_layout sample_lat sample_lon sample_aggregate "tasmax").
  - repeat constructor. simpl. intros [].
  - exact sample_aggregate_on_grid.
Defined.

(* ================================================================== *)
(** * The aggregator *)
(* ================================================================== *)

(** ** [np.unique] and [np.where] *)

Lemma drop_repeats_in (x : Z) (l : list Z) : In x (drop_repeats l) <-> In x l.
Proof.
  induction l as [|a l IH]; [reflexivity|].
  cbn [drop_repeats]. destruct l as [|b l]; [reflexivity|].
  destruct (Z.eqb_spec a b) as [->|Hne].
  - rewrite IH. simpl. tauto.
  - cbn [In]. rewrite IH. reflexivity.
Qed.

Lemma drop_repeats_sorted (l : list Z) :
  StronglySorted Z.le l -> StronglySorted Z.lt (drop_repeats l).
Proof.
  induction l as [|a l IH]; intro Hs; [constructor|].
  inversion Hs as [|? ? Hs' Hall]; subst. specialize (IH Hs').
  cbn [drop_repeats]. destruct l as [|b l]; [repeat constructor|].
  destruct (Z.eqb_spec a b) as [->|Hne]; [exact IH|].
  constructor; [exact IH|].
  apply Forall_forall. intros z Hz.
  apply (proj1 (drop_repeats_in z (b :: l))) in Hz.
  rewrite Forall_forall in Hall.
  pose proof (Hall b (or_introl eq_refl)) as Hab.
  apply in_inv in Hz. destruct Hz as [<-|Hz]; [lia|].
  inversion Hs' as [|? ? _ Hall']; subst. rewrite Forall_forall in Hall'.
  specialize (Hall' z Hz). lia.
Qed.

Lemma strict_sorted_nodup (l : list Z) : StronglySorted Z.lt l -> NoDup l.
Proof.
  induction l as [|a l IH]; intro Hs; [constructor|].
  inversion Hs as [|? ? Hs' Hall]; subst. constructor; [|apply IH, Hs'].
  intro Hin. rewrite Forall_forall in Hall. specialize (Hall a Hin). lia.
Qed.

Lemma np_unique_spec (years : list Z) :
  StronglySorted Z.lt (np_unique years)
  /\ NoDup (np_unique years)
  /\ forall y, In y (np_unique years) <-> In y years.
Proof.
  assert (Hs : StronglySorted Z.lt (np_unique years)).
  { unfold np_unique. apply drop_repeats_sorted.
    apply Sorted_StronglySorted; [intros a b c; apply Z.le_trans|].
    rewrite <- (map_id (sort_key _ _)). apply (sort_key_sorted (fun x => x)). }
  split; [exact Hs|]. split; [apply strict_sorted_nodup, Hs|].
  intro y. unfold np_unique. rewrite drop_repeats_in. apply sort_key_in.
Qed.

Lemma np_where_from_spec {A} (f : A -> bool) (d : A) (l : list A) (s : nat) :
  np_where_from s (map f l)
  = filter (fun t => f (nth (t - s) l d)) (seq s (length l)).
Proof.
  revert s. induction l as [|x l IH]; intro s; [reflexivity|].
  cbn [map np_where_from length seq filter]. rewrite Nat.sub_diag. cbn [nth].
  rewrite IH.
  rewrite (filter_ext_in (fun t => f (nth (t - s) (x :: l) d))
                         (fun t => f (nth (t - S s) l d))).
  - reflexivity.
  - intros t Ht. apply in_seq in Ht.
    replace (t - s)%nat with (S (t - S s)) by lia. reflexivity.
Qed.

(** The indices the aggregator selects for a year are exactly the time
    indices mapped to that year. *)
Lemma year_indices_spec (years : list Z) (year : Z) :
  np_where (map (fun y => y =? year) years) = year_times years year.
Proof.
  unfold np_where, year_times. rewrite (np_where_from_spec _ 0).
  apply filter_ext. intro t. rewrite Nat.sub_0_r. reflexivity.
Qed.

Lemma year_times_spec (years : list Z) (year : Z) (t : nat) :
  In t (year_times years year)
  <-> (t < length years)%nat /\ nth t years 0 = year.
Proof.
  unfold year_times. rewrite filter_In, in_seq, Z.eqb_eq. intuition lia.
Qed.

Lemma year_times_nodup (years : list Z) (year : Z) :
  NoDup (year_times years year).
Proof. unfold year_times. apply NoDup_filter, seq_NoDup. Qed.

Lemma year_times_nonempty (years : list Z) (year : Z) :
  In year years -> year_times years year <> [].
Proof.
  intros Hin Hnil. destruct (In_nth _ _ 0 Hin) as (t & Ht & Hy).
  assert (H : In t (year_times years year)) by (apply year_times_spec; auto).
  rewrite Hnil in H. destruct H.
Qed.

(** ** [isel] *)

Lemma isel_year (da : DataArray) (years : list Z) (year : Z) :
  (length years <= da_len da)%nat ->
  isel_time da (year_times years year) = Ok (year_slice da years year).
Proof.
  intro Hlen. unfold isel_time.
  replace (forallb _ _) with true; [reflexivity|].
  symmetry. apply forallb_forall. intros t Ht.
  apply year_times_spec in Ht. apply Nat.ltb_lt. lia.
Qed.

(** ** The loop over the years *)

Lemma dict_set_fresh_Z {V} (d : list (Z * V)) (k : Z) (v : V) :
  ~ In k (dict_keys d) -> dict_set Z.eqb d k v = d ++ [(k, v)].
Proof.
  induction d as [|[k' v'] d IH]; simpl; intro H; [reflexivity|].
  destruct (Z.eqb_spec k' k) as [->|_]; [exfalso; auto|].
  rewrite IH; [reflexivity|]. intro Hin. apply H. right. exact Hin.
Qed.

Lemma dict_get_map_Z {V} (f : Z -> V) (ys : list Z) (y : Z) :
  In y ys -> dict_get Z.eqb (map (fun y => (y, f y)) ys) y = Some (f y).
Proof.
  induction ys as [|a ys IH]; simpl; [intros []|].
  intros [->|Hin].
  - rewrite Z.eqb_refl. reflexivity.
  - destruct (Z.eqb_spec a y) as [->|_]; [reflexivity|]. apply IH, Hin.
Qed.

Lemma aggregate_loop (da : DataArray) (years : list Z) (mode : string)
    (agg : Z -> ndarray) (ev : Z -> list event) (ys : list Z)
    (dict : list (Z * ndarray)) :
  (forall y d, In y ys ->
     aggregate_year da years mode d y
     = (ev y, Ok (dict_set Z.eqb d y (agg y)))) ->
  NoDup ys ->
  (forall y, In y ys -> ~ In y (dict_keys dict)) ->
  fold_M ys (aggregate_year da years mode) dict
  = (flat_map ev ys, Ok (dict ++ map (fun y => (y, agg y)) ys)).
Proof.
  revert dict. induction ys as [|y ys IH]; intros dict Hstep Hnd Hfresh.
  - simpl. unfold ret. rewrite app_nil_r. reflexivity.
  - inversion Hnd as [|? ? Hy Hnd']; subst.
    cbn [fold_M]. rewrite Hstep by (left; reflexivity).
    rewrite dict_set_fresh_Z by (apply Hfresh; left; reflexivity).
    unfold bind. rewrite IH.
    + cbn [flat_map map]. rewrite <- app_assoc. reflexivity.
    + intros y' d Hin. apply Hstep. right. exact Hin.
    + exact Hnd'.
    + intros y' Hin Hk. unfold dict_keys in Hk. rewrite map_app in Hk.
      apply in_app_or in Hk. destruct Hk as [Hk|[Hk|[]]].
      * apply (Hfresh y'); [right; exact Hin|exact Hk].
      * cbn [fst] in Hk. subst y'. contradiction.
Qed.

Lemma aggregate_year_mean (da : DataArray) (years : list Z)
    (d : list (Z * ndarray)) (y : Z) :
  (length years <= da_len da)%nat ->
  aggregate_year da years "mean" d y
  = ([EvReduce RedMean y],
     Ok (dict_set Z.eqb d y (xr_mean_time_values (year_slice da years y)))).
Proof.
  intro Hlen. unfold aggregate_year.
  rewrite year_indices_spec, isel_year by exact Hlen. reflexivity.
Qed.

Lemma aggregate_year_all (da : DataArray) (years : list Z)
    (d : list (Z * ndarray)) (y : Z) :
  (length years <= da_len da)%nat ->
  aggregate_year da years "all" d y
  = ([], Ok (dict_set Z.eqb d y (da_values_nd (year_slice da years y)))).
Proof.
  intro Hlen. unfold aggregate_year.
  rewrite year_indices_spec, isel_year by exact Hlen. reflexivity.
Qed.

Lemma aggregate_year_unknown (da : DataArray) (years : list Z) (mode : string)
    (d : list (Z * ndarray)) (y : Z) :
  ~ known_aggregation mode ->
  (length years <= da_len da)%nat ->
  aggregate_year da years mode d y
  = ([], Raise (ValueError_UnknownAggregation mode)).
Proof.
  intros Hmode Hlen. unfold aggregate_year.
  rewrite year_indices_spec, isel_year by exact Hlen.
  unfold known_aggregation in Hmode.
  destruct (String.eqb_spec mode "mean") as [E|_]; [tauto|].
  destruct (String.eqb_spec mode "max") as [E|_]; [tauto|].
  destruct (String.eqb_spec mode "min") as [E|_]; [tauto|].
  destruct (String.eqb_spec mode "all") as [E|_]; [tauto|].
  reflexivity.
Qed.

Lemma extract_mean (da : DataArray) (years : list Z) :
  (length years <= da_len da)%nat ->
  extract_coordinate_data da years "mean"
  = (map (EvReduce RedMean) (np_unique years),
     Ok (da_lat da, da_lon da,
         map (fun y => (y, xr_mean_time_values (year_slice da years y)))
             (np_unique years))).
Proof.
  intro Hlen. unfold extract_coordinate_data. cbv zeta.
  rewrite (aggregate_loop da years "mean"
             (fun y => xr_mean_time_values (year_slice da years y))
             (fun y => [EvReduce RedMean y])).
  - unfold bind, ret. cbn [app]. rewrite app_nil_r.
    rewrite flat_map_concat_map, <- (map_map (EvReduce RedMean) (fun e => [e])).
    f_equal. induction (map (EvReduce RedMean) (np_unique years)); simpl; congruence.
  - intros y d _. apply aggregate_year_mean, Hlen.
  - apply np_unique_spec.
  - intros y _ [].
Qed.

Lemma extract_all (da : DataArray) (years : list Z) :
  (length years <= da_len da)%nat ->
  extract_coordinate_data da years "all"
  = ([],
     Ok (da_lat da, da_lon da,
         map (fun y => (y, da_values_nd (year_slice da years y)))
             (np_unique years))).
Proof.
  intro Hlen. unfold extract_coordinate_data. cbv zeta.
  rewrite (aggregate_loop da years "all"
             (fun y => da_values_nd (year_slice da years y))
             (fun y => [])).
  - unfold bind, ret. cbn [app]. rewrite app_nil_r. f_equal.
    induction (np_unique years); simpl; auto.
  - intros y d _. apply aggregate_year_all, Hlen.
  - apply np_unique_spec.
  - intros y _ [].
Qed.

(** X27. An unknown mode on a series with time steps. For a merged
    series with at least one time step
    (a non-empty time-to-year mapping, no longer than the time axis) and
    an aggregation mode outside "mean", "max", "min" and "all", the
    aggregator fails with the "Unknown aggregation method" ValueError, and
    no reduction has been attempted: the log of the run is empty. *)
Theorem unknown_aggregation_fails
    (da : DataArray) (years : list Z) (mode : string) :
  ~ known_aggregation mode ->
  years <> [] ->
  (length years <= da_len da)%nat ->
  outcome (extract_coordinate_data da years mode)
  = Raise (ValueError_UnknownAggregation mode)
  /\ log_of (extract_coordinate_data da years mode) = []
  /\ forall r y, ~ In (EvReduce r y) (log_of (extract_coordinate_data da years mode)).
Proof.
  intros Hmode Hne Hlen.
  assert (E : extract_coordinate_data da years mode
              = ([], Raise (ValueError_UnknownAggregation mode))).
  { unfold extract_coordinate_data. cbv zeta.
    destruct (np_unique years) as [|y0 ys] eqn:Hu.
    - exfalso. destruct years as [|y years]; [congruence|].
      destruct (np_unique_spec (y :: years)) as (_ & _ & Hin).
      rewrite Hu in Hin. apply (Hin y). left. reflexivity.
    - cbn [fold_M]. rewrite aggregate_year_unknown by assumption. reflexivity. }
  rewrite E. split; [reflexivity|]. split; [reflexivity|]. intros r y [].
Qed.

Lemma unknown_aggregation_fails_witness :
  outcome (extract_coordinate_data sample_series sample_years "median")
  = Raise (ValueError_UnknownAggregation "median")
  /\ log_of (extract_coordinate_data sample_series sample_years "median") = []
  /\ forall r y, ~ In (EvReduce r y)
                      (log_of (extract_coordinate_data sample_series sample_years "median")).
Proof.
  apply (unknown_aggregation_fails sample_series sample_years "median").
  - unfold known_aggregation. intros [H|[H|[H|H]]]; discriminate.
  - discriminate.
  - unfold sample_years, sample_series, da_len. simpl. lia.
Defined.

(** C8. An unknown mode goes unnoticed on a series without time steps:
    the mode is tested inside the loop over the years only, the loop
    never runs, and the aggregator returns an empty mapping instead of
    the "Unknown aggregation method" error. *)
Lemma unknown_aggregation_unnoticed :
  ~ known_aggregation "median"
  /\ extract_coordinate_data empty_series [] "median"
     = ([], Ok (sample_lat, sample_lon, [])).
Proof.
  split.
  - unfold known_aggregation. intros [H|[H|[H|H]]]; discriminate.
  - reflexivity.
Qed.

(** ** Reduction over time, cell by cell *)

Lemma reduce_time_shape {S} (m n : nat) (init : S) (step : S -> val -> S)
    (slices : cube) :
  Forall (slice_shape m n) slices ->
  length (reduce_time m n init step slices) = m
  /\ Forall (fun row => length row = n) (reduce_time m n init step slices).
Proof.
  unfold reduce_time.
  assert (Hinit : length (repeat (repeat init n) m) = m
                  /\ Forall (fun row => length row = n) (repeat (repeat init n) m)).
  { split; [apply repeat_length|]. apply Forall_forall. intros row Hrow.
    apply repeat_spec in Hrow. subst. apply repeat_length. }
  revert Hinit. generalize (repeat (repeat init n) m) as acc.
  induction slices as [|slice slices IH]; intros acc Hacc Hall; [exact Hacc|].
  inversion Hall as [|? ? [Hm Hrows] Hrest]; subst. cbn [fold_left].
  apply IH; [|exact Hrest]. destruct Hacc as [Hlen Hacc]. split.
  - rewrite map2_length, Hlen. apply Nat.min_id.
  - apply Forall_forall. intros row Hrow. apply in_map2 in Hrow.
    destruct Hrow as (a & r & Ha & Hr & ->). rewrite map2_length.
    rewrite Forall_forall in Hacc, Hrows.
    rewrite (Hacc a Ha), (Hrows r Hr). apply Nat.min_id.
Qed.

Lemma reduce_time_cell {S} (m n : nat) (init : S) (step : S -> val -> S)
    (slices : cube) (i j : nat) :
  Forall (slice_shape m n) slices ->
  (i < m)%nat -> (j < n)%nat ->
  nth j (nth i (reduce_time m n init step slices) []) init
  = fold_left step (map (fun slice => nth j (nth i slice []) NaN) slices) init.
Proof.
  intros Hall Hi Hj. unfold reduce_time.
  rewrite (fold_map2_nth (map2 step) slices _ i [] []).
  - rewrite nth_repeat_lt by exact Hi.
    rewrite (fold_map2_nth step _ _ j init NaN).
    + rewrite nth_repeat_lt by exact Hj. rewrite map_map. reflexivity.
    + rewrite Forall_map. apply Forall_forall. intros slice Hs.
      rewrite Forall_forall in Hall. destruct (Hall slice Hs) as [Hm Hrows].
      rewrite repeat_length. rewrite Forall_forall in Hrows. apply Hrows.
      apply nth_In. lia.
    + rewrite repeat_length. exact Hj.
  - apply Forall_forall. intros slice Hs. rewrite repeat_length.
    rewrite Forall_forall in Hall. apply (Hall slice Hs).
  - rewrite repeat_length. exact Hi.
Qed.

(** A cell of a reduced array: the final value of the accumulator fed
    with the values of that cell over time. *)
Lemma xr_reduce_cell {S} (init : S) (step : S -> val -> S) (final : S -> val)
    (da : DataArray) (i j : nat) :
  da_wf da ->
  (i < length (da_lat da))%nat -> (j < length (da_lon da))%nat ->
  nd_get2 (xr_reduce_values init step final da) i j
  = final (fold_left step
             (map (fun slice => nth j (nth i slice []) NaN) (da_values da)) init).
Proof.
  intros Hwf Hi Hj. unfold xr_reduce_values, nd_get2. cbn [shape buf].
  set (m := length (da_lat da)) in *. set (n := length (da_lon da)) in *.
  assert (Hall : Forall (slice_shape m n) (da_values da)) by exact Hwf.
  destruct (reduce_time_shape m n init step _ Hall) as [Hlen Hrows].
  rewrite (nth_concat_rows _ n).
  - rewrite (nth_indep _ [] (map final [])) by (rewrite length_map, Hlen; exact Hi).
    rewrite map_nth.
    rewrite (nth_indep _ NaN (final init)).
    + rewrite map_nth. f_equal. apply reduce_time_cell; assumption.
    + rewrite length_map. rewrite Forall_forall in Hrows.
      rewrite (Hrows (nth i (reduce_time m n init step (da_values da)) []));
        [exact Hj|]. apply nth_In. rewrite Hlen. exact Hi.
  - rewrite Forall_map. apply Forall_forall. intros row Hrow.
    rewrite length_map. rewrite Forall_forall in Hrows. apply Hrows, Hrow.
  - rewrite length_map, Hlen. exact Hi.
  - exact Hj.
Qed.

(** ** The NaN-skipping mean *)

Lemma mean_fold (vs : list val) (s : Qc) (c : nat) :
  fold_left mean_step vs (s, c)
  = ((s + Qc_sum (numbers vs))%Qc, (c + length (numbers vs))%nat).
Proof.
  revert s c. induction vs as [|[|q] vs IH]; intros s c; cbn [fold_left numbers].
  - unfold Qc_sum. simpl. f_equal; [ring|lia].
  - unfold mean_step at 2. apply IH.
  - unfold mean_step at 2. cbn [fst snd]. rewrite IH.
    unfold Qc_sum. cbn [fold_right length]. f_equal; [ring|lia].
Qed.

Lemma mean_of_cell (vs : list val) :
  mean_final (fold_left mean_step vs (0%Qc, O)) = nan_mean vs.
Proof.
  rewrite mean_fold. unfold mean_final, nan_mean, arithmetic_mean. cbn [fst snd].
  destruct (numbers vs) as [|q qs]; [reflexivity|].
  cbn [Nat.add length]. f_equal. f_equal. ring.
Qed.

Lemma numbers_of_nums (qs : list Qc) : numbers (map Num qs) = qs.
Proof. induction qs as [|q qs IH]; simpl; congruence. Qed.

Lemma year_slice_wf (da : DataArray) (years : list Z) (y : Z) :
  da_wf da -> (length years <= da_len da)%nat -> da_wf (year_slice da years y).
Proof.
  intros Hwf Hlen. unfold da_wf, year_slice. cbn [da_values da_lat da_lon].
  rewrite Forall_map. apply Forall_forall. intros t Ht.
  apply year_times_spec in Ht. unfold da_wf in Hwf.
  rewrite Forall_forall in Hwf. apply Hwf. apply nth_In.
  unfold da_len in Hlen. lia.
Qed.

Lemma year_slice_cells (da : DataArray) (years : list Z) (y : Z) (i j : nat) :
  map (fun slice => nth j (nth i slice []) NaN) (da_values (year_slice da years y))
  = map (fun t => cell da t i j) (year_times years y).
Proof. unfold year_slice. cbn [da_values]. rewrite map_map. reflexivity. Qed.

(** C1, as amended. For a merged series and a year with T time steps
    mapped to it, aggregation in mode "mean" selects exactly the time
    indices whose mapped year is that year, and produces at every
    (lat, lon) cell the arithmetic mean of the numbers among those T
    values, missing values (NaN) being skipped; the cell is NaN when all T
    values are missing. Where none of the T values is missing this is the
    arithmetic mean of the T values. *)
Theorem mean_aggregation_per_cell (da : DataArray) (years : list Z) (year : Z) :
  da_wf da ->
  length years = da_len da ->
  In year years ->
  let times := year_times years year in
  exists data_dict arr,
    outcome (extract_coordinate_data da years "mean")
    = Ok (da_lat da, da_lon da, data_dict)
    /\ dict_get Z.eqb data_dict year = Some arr
    /\ np_where (map (fun y => y =? year) years) = times
    /\ (forall t, In t times <-> (t < length years)%nat /\ nth t years 0 = year)
    /\ NoDup times
    /\ times <> []
    /\ shape arr = [length (da_lat da); length (da_lon da)]
    /\ forall i j, (i < length (da_lat da))%nat -> (j < length (da_lon da))%nat ->
         nd_get2 arr i j = nan_mean (map (fun t => cell da t i j) times)
         /\ forall qs, map (fun t => cell da t i j) times = map Num qs ->
                       length qs = length times
                       /\ nd_get2 arr i j = Num (arithmetic_mean qs).
Proof.
  intros Hwf Hlen Hin times.
  assert (Hle : (length years <= da_len da)%nat) by lia.
  exists (map (fun y => (y, xr_mean_time_values (year_slice da years y)))
              (np_unique years)),
         (xr_mean_time_values (year_slice da years year)).
  split; [rewrite extract_mean by exact Hle; reflexivity|].
  split.
  { apply (dict_get_map_Z (fun y => xr_mean_time_values (year_slice da years y))).
    apply np_unique_spec, Hin. }
  split; [apply year_indices_spec|].
  split; [apply year_times_spec|].
  split; [apply year_times_nodup|].
  split; [apply year_times_nonempty, Hin|].
  split; [reflexivity|].
  intros i j Hi Hj.
  assert (Hcell : nd_get2 (xr_mean_time_values (year_slice da years year)) i j
                  = nan_mean (map (fun t => cell da t i j) times)).
  { unfold xr_mean_time_values.
    rewrite xr_reduce_cell; [|apply year_slice_wf; assumption|exact Hi|exact Hj].
    rewrite year_slice_cells. apply mean_of_cell. }
  split; [exact Hcell|].
  intros qs Hqs. rewrite Hcell, Hqs. unfold nan_mean. rewrite numbers_of_nums.
  assert (Hl : length qs = length times).
  { apply (f_equal (@length _)) in Hqs. rewrite !length_map in Hqs. auto. }
  split; [exact Hl|].
  destruct qs as [|q qs]; [|reflexivity].
  exfalso. apply (year_times_nonempty years year Hin).
  fold times. destruct times; [reflexivity|discriminate].
Qed.

Lemma sample_series_wf : da_wf sample_series.
Proof. repeat constructor. Defined.

Lemma mean_aggregation_per_cell_witness :
  let da := sample_series in
  let years := sample_years in
  let year := 2035 in
  let times := year_times years year in
  exists data_dict arr,
    outcome (extract_coordinate_data da years "mean")
    = Ok (da_lat da, da_lon da, data_dict)
    /\ dict_get Z.eqb data_dict year = Some arr
    /\ np_where (map (fun y => y =? year) years) = times
    /\ (forall t, In t times <-> (t < length years)%nat /\ nth t years 0 = year)
    /\ NoDup times
    /\ times <> []
    /\ shape arr = [length (da_lat da); length (da_lon da)]
    /\ forall i j, (i < length (da_lat da))%nat -> (j < length (da_lon da))%nat ->
         nd_get2 arr i j = nan_mean (map (fun t => cell da t i j) times)
         /\ forall qs, map (fun t => cell da t i j) times = map Num qs ->
                       length qs = length times
                       /\ nd_get2 arr i j = Num (arithmetic_mean qs).
Proof.
  apply (mean_aggregation_per_cell sample_series sample_years 2035).
  - exact sample_series_wf.
  - reflexivity.
  - left. reflexivity.
Defined.

(** C1, as stated, fails where a value is missing: of the two values 1
    and NaN of the cell, the aggregate is 1, while their arithmetic mean
    as floats is NaN. *)
Lemma mean_skips_missing_values :
  exists arr q,
    outcome (extract_coordinate_data gappy_series gappy_years "mean")
    = Ok (da_lat gappy_series, da_lon gappy_series, [(2035, arr)])
    /\ year_times gappy_years 2035 = [0%nat; 1%nat]
    /\ map (fun t => cell gappy_series t 0 0) (year_times gappy_years 2035)
       = [Num (Qc_of_Z 1); NaN]
    /\ nd_get2 arr 0 0 = Num q
    /\ q = Qc_of_Z 1
    /\ float_mean [Num (Qc_of_Z 1); NaN] = NaN
    /\ nd_get2 arr 0 0 <> float_mean [Num (Qc_of_Z 1); NaN].
Proof.
  eexists. eexists.
  split; [vm_compute; reflexivity|].
  split; [reflexivity|]. split; [reflexivity|].
  split; [vm_compute; reflexivity|].
  split; [apply Qc_is_canon; reflexivity|].
  split; [reflexivity|].
  vm_compute. discriminate.
Qed.

(** ** The NaN-propagating mean of the tabulator *)

Lemma add_fold_nan (vs : list val) : fold_left add_val vs NaN = NaN.
Proof. induction vs as [|v vs IH]; simpl; [reflexivity|exact IH]. Qed.

Lemma numbers_length_le (vs : list val) : (length (numbers vs) <= length vs)%nat.
Proof. induction vs as [|[|q] vs IH]; simpl; lia. Qed.

Lemma add_fold (vs : list val) (s : Qc) :
  fold_left add_val vs (Num s)
  = if (length (numbers vs) =? length vs)%nat
    then Num (s + Qc_sum (numbers vs))%Qc
    else NaN.
Proof.
  revert s. induction vs as [|[|q] vs IH]; intro s; cbn [fold_left numbers length].
  - simpl. f_equal. unfold Qc_sum. simpl. ring.
  - cbn [add_val]. rewrite add_fold_nan.
    pose proof (numbers_length_le vs).
    destruct (Nat.eqb_spec (length (numbers vs)) (S (length vs))); [lia|reflexivity].
  - cbn [add_val]. rewrite IH. cbn [Nat.eqb].
    destruct (length (numbers vs) =? length vs)%nat; [|reflexivity].
    f_equal. unfold Qc_sum. cbn [fold_right]. ring.
Qed.

Lemma float_mean_fold (vs : list val) :
  div_count (fold_left add_val vs (Num 0%Qc)) (length vs) = float_mean vs.
Proof.
  rewrite add_fold. unfold float_mean.
  destruct (length (numbers vs) =? length vs)%nat eqn:E; [|reflexivity].
  destruct vs as [|v vs]; [reflexivity|].
  apply Nat.eqb_eq in E. cbn [length div_count] in *.
  unfold arithmetic_mean. rewrite E. cbn [length]. f_equal. f_equal. ring.
Qed.

Lemma uniform_means_agree (vs : list val) :
  numbers vs = [] \/ length (numbers vs) = length vs ->
  float_mean vs = nan_mean vs.
Proof.
  unfold float_mean, nan_mean. intros [H|H].
  - rewrite H. destruct vs; reflexivity.
  - rewrite H, Nat.eqb_refl. destruct vs as [|v vs]; [reflexivity|].
    destruct (numbers (v :: vs)); [discriminate|reflexivity].
Qed.

(** ** The column of a year under the two modes *)

Lemma slice_flat_length (m n : nat) (slice : list (list val)) :
  slice_shape m n slice -> length (concat slice) = (m * n)%nat.
Proof.
  intros [Hm Hrows]. rewrite (concat_rows_length _ n Hrows), Hm. reflexivity.
Qed.

Lemma all_mode_column (da : DataArray) :
  da_wf da ->
  (0 < length (da_lat da) * length (da_lon da))%nat ->
  exists col,
    flatten_year (length (da_lat da)) (length (da_lon da)) (da_values_nd da) = Ok col
    /\ length col = (length (da_lat da) * length (da_lon da))%nat
    /\ forall i j, (i < length (da_lat da))%nat -> (j < length (da_lon da))%nat ->
         nth (i * length (da_lon da) + j) col NaN
         = float_mean (map (fun slice => nth j (nth i slice []) NaN) (da_values da)).
Proof.
  intros Hwf Hpos.
  set (m := length (da_lat da)) in *. set (n := length (da_lon da)) in *.
  assert (Hall : Forall (slice_shape m n) (da_values da)) by exact Hwf.
  set (rows := map (@concat val) (da_values da)).
  assert (Hrows : Forall (fun row => length row = (m * n)%nat) rows).
  { unfold rows. rewrite Forall_map. apply Forall_forall. intros slice Hs.
    rewrite Forall_forall in Hall. apply slice_flat_length, Hall, Hs. }
  assert (Hsize : length (concat rows) = (da_len da * (m * n))%nat).
  { rewrite (concat_rows_length _ _ Hrows). unfold rows, da_len.
    rewrite length_map. reflexivity. }
  unfold flatten_year, da_values_nd, ndim. cbn [shape length Nat.eqb buf].
  fold m n rows. unfold np_reshape_rows. cbn [buf]. rewrite Hsize.
  destruct (Nat.eqb_spec (m * n) 0) as [He|_]; [lia|].
  rewrite Nat.Div0.mod_mul, Nat.eqb_refl. cbn [negb orb].
  rewrite Nat.div_mul by lia.
  unfold np_mean_axis0. cbn [shape buf].
  assert (Hchunks : chunks (da_len da) (m * n) (concat rows) = rows).
  { replace (da_len da) with (length rows)
      by (unfold rows, da_len; apply length_map).
    apply chunks_concat, Hrows. }
  rewrite Hchunks. eexists. split; [reflexivity|].
  assert (Hsums : length (fold_left (map2 add_val) rows (repeat (Num 0%Qc) (m * n)))
                  = (m * n)%nat).
  { rewrite fold_map2_length; rewrite repeat_length; [reflexivity|exact Hrows]. }
  split; [rewrite length_map; exact Hsums|].
  intros i j Hi Hj.
  assert (Hc : (i * n + j < m * n)%nat) by nia.
  rewrite (nth_indep _ NaN (div_count (Num 0%Qc) (da_len da)))
    by (rewrite length_map, Hsums; exact Hc).
  rewrite (map_nth (fun s => div_count s (da_len da))).
  rewrite (fold_map2_nth add_val rows _ (i * n + j) (Num 0%Qc) NaN);
    [|rewrite repeat_length; exact Hrows|rewrite repeat_length; exact Hc].
  rewrite nth_repeat_lt by exact Hc.
  rewrite <- float_mean_fold. rewrite length_map. fold (da_len da).
  f_equal. f_equal. unfold rows. rewrite map_map.
  apply map_ext_in. intros slice Hs. rewrite Forall_forall in Hall.
  destruct (Hall slice Hs) as [Hm Hr].
  apply nth_concat_rows; [exact Hr|lia|exact Hj].
Qed.

Lemma mean_mode_column (da : DataArray) :
  da_wf da ->
  let a := xr_mean_time_values da in
  flatten_year (length (da_lat da)) (length (da_lon da)) a = Ok (buf a)
  /\ shape a = [length (da_lat da); length (da_lon da)]
  /\ length (buf a) = (length (da_lat da) * length (da_lon da))%nat
  /\ forall i j, (i < length (da_lat da))%nat -> (j < length (da_lon da))%nat ->
       nth (i * length (da_lon da) + j) (buf a) NaN
       = nan_mean (map (fun slice => nth j (nth i slice []) NaN) (da_values da)).
Proof.
  intros Hwf a. split; [reflexivity|]. split; [reflexivity|]. split.
  - unfold a, xr_mean_time_values, xr_reduce_values. cbn [buf].
    destruct (reduce_time_shape (length (da_lat da)) (length (da_lon da))
                (0%Qc, O) mean_step (da_values da) Hwf) as [Hlen Hrows].
    rewrite (concat_rows_length _ (length (da_lon da))).
    + rewrite length_map, Hlen. reflexivity.
    + rewrite Forall_map. apply Forall_forall. intros row Hrow.
      rewrite length_map. rewrite Forall_forall in Hrows. apply Hrows, Hrow.
  - intros i j Hi Hj.
    pose proof (xr_reduce_cell (0%Qc, O) mean_step mean_final da i j Hwf Hi Hj) as H.
    unfold nd_get2 in H. cbn [shape xr_reduce_values] in H.
    unfold a, xr_mean_time_values. rewrite H. apply mean_of_cell.
Qed.

Lemma year_column_agree (da : DataArray) (years : list Z) (year : Z) :
  da_wf da ->
  (length years <= da_len da)%nat ->
  nan_uniform da years ->
  In year years ->
  (0 < length (da_lat da) * length (da_lon da))%nat ->
  flatten_year (length (da_lat da)) (length (da_lon da))
    (da_values_nd (year_slice da years year))
  = flatten_year (length (da_lat da)) (length (da_lon da))
      (xr_mean_time_values (year_slice da years year)).
Proof.
  intros Hwf Hlen Huni Hin Hpos.
  pose proof (year_slice_wf da years year Hwf Hlen) as Hwf'.
  destruct (all_mode_column (year_slice da years year) Hwf' Hpos)
    as (col & Hcol & Hl & Hcells).
  destruct (mean_mode_column (year_slice da years year) Hwf')
    as (Hmean & _ & Hl' & Hcells').
  cbn [year_slice da_lat da_lon] in *.
  rewrite Hcol, Hmean. f_equal.
  apply (nth_ext _ _ NaN NaN); [rewrite Hl, Hl'; reflexivity|].
  intros c Hc. rewrite Hl in Hc.
  set (n := length (da_lon da)) in *.
  assert (Hn : (0 < n)%nat) by nia.
  pose proof (Nat.div_mod_eq c n) as Hdm.
  pose proof (Nat.mod_upper_bound c n) as Hmod.
  assert (Hdiv : (c / n < length (da_lat da))%nat).
  { apply Nat.Div0.div_lt_upper_bound. lia. }
  replace c with (c / n * n + c mod n)%nat by lia.
  rewrite Hcells, Hcells' by lia.
  apply uniform_means_agree. rewrite year_slice_cells.
  apply (Huni year (c / n)%nat (c mod n)%nat Hin Hdiv). lia.
Qed.

Lemma sort_key_map_sorted {V} (f : Z -> V) (ys : list Z) :
  StronglySorted Z.lt ys ->
  sort_key fst (map (fun y => (y, f y)) ys) = map (fun y => (y, f y)) ys.
Proof.
  intro Hs. apply sort_key_of_sorted. rewrite map_map. cbn [fst].
  rewrite map_id. clear f.
  induction Hs as [|a l _ IH Hall]; constructor; [exact IH|].
  eapply Forall_impl; [|exact Hall]. intros b Hb. lia.
Qed.

(** The two modes lead to the same table. *)
Lemma tables_agree (da : DataArray) (years : list Z) (v : string) :
  da_wf da ->
  (length years <= da_len da)%nat ->
  nan_uniform da years ->
  (0 < length (da_lat da) * length (da_lon da))%nat ->
  let all_dict := map (fun y => (y, da_values_nd (year_slice da years y)))
                      (np_unique years) in
  let mean_dict := map (fun y => (y, xr_mean_time_values (year_slice da years y)))
                       (np_unique years) in
  prepare_dataframe_data (da_lat da) (da_lon da) all_dict v
  = ([], Ok (table_for (da_lat da) (da_lon da) mean_dict v))
  /\ prepare_dataframe_data (da_lat da) (da_lon da) mean_dict v
     = ([], Ok (table_for (da_lat da) (da_lon da) mean_dict v)).
Proof.
  intros Hwf Hlen Huni Hpos all_dict mean_dict.
  destruct (np_unique_spec years) as (Hs & Hnd & Hin).
  assert (Hkeys : forall (f : Z -> ndarray),
            dict_keys (map (fun y => (y, f y)) (np_unique years)) = np_unique years).
  { intro f. unfold dict_keys. rewrite map_map. cbn [fst]. apply map_id. }
  split.
  - rewrite prepare_dataframe_data_ok.
    + f_equal. f_equal. unfold table_for. f_equal. f_equal.
      unfold all_dict, mean_dict. rewrite !sort_key_map_sorted by exact Hs.
      unfold year_columns. rewrite !map_map. cbn [fst snd].
      apply map_ext_in. intros y Hy. f_equal.
      rewrite year_column_agree; try assumption; [reflexivity|].
      apply Hin, Hy.
    + unfold all_dict. rewrite Hkeys. exact Hnd.
    + unfold all_dict. rewrite Forall_map. apply Forall_forall.
      intros y Hy. cbn [snd]. right.
      exists (da_len (year_slice da years y)). split; [reflexivity|].
      split; [|exact Hpos].
      unfold da_values_nd. cbn [buf].
      pose proof (year_slice_wf da years y Hwf Hlen) as Hwf'.
      rewrite (concat_rows_length _ (length (da_lat da) * length (da_lon da))).
      * rewrite length_map. reflexivity.
      * rewrite Forall_map. apply Forall_forall. intros slice Hsl.
        unfold da_wf in Hwf'. rewrite Forall_forall in Hwf'.
        apply slice_flat_length. apply (Hwf' slice Hsl).
  - rewrite prepare_dataframe_data_ok; [reflexivity| |].
    + unfold mean_dict. rewrite Hkeys. exact Hnd.
    + unfold mean_dict. rewrite Forall_map. apply Forall_forall.
      intros y Hy. cbn [snd]. left.
      pose proof (year_slice_wf da years y Hwf Hlen) as Hwf'.
      destruct (mean_mode_column (year_slice da years y) Hwf') as (_ & Hsh & Hl & _).
      split; [exact Hsh|exact Hl].
Qed.

(** ** Steps 4 to 6 of the driver *)

Lemma steps_4_to_6_outcome (readback : bool) (model scenario variable mode : string)
    (da : DataArray) (years : list Z) (l : list event) (dict : list (Z * ndarray)) :
  extract_coordinate_data da years mode = (l, Ok (da_lat da, da_lon da, dict)) ->
  outcome (steps_4_to_6 readback model scenario variable mode da years)
  = match da_lat da, da_lon da with
    | _ :: _, _ :: _ =>
        outcome (steps_5_to_6 readback model scenario variable
                   (da_lat da) (da_lon da) dict)
    | _, _ => Raise (SystemExit 1)
    end.
Proof.
  intro E. unfold steps_4_to_6. rewrite E.
  generalize (steps_5_to_6 readback model scenario variable) as k. intro k.
  destruct (da_lat da) as [|la lat]; [reflexivity|].
  destruct (da_lon da) as [|lo lon]; [reflexivity|].
  unfold or_exit, try_except, bind, print, emit, ret, outcome.
  cbv beta iota. cbn [snd].
  destruct (k (la :: lat) (lo :: lon) dict) as [l' r']. reflexivity.
Qed.

Lemma steps_5_to_6_outcome (readback : bool) (model scenario variable : string)
    (lat lon : list Qc) (dict1 dict2 : list (Z * ndarray))
    (table : list (string * list val)) :
  prepare_dataframe_data lat lon dict1 variable = ([], Ok table) ->
  prepare_dataframe_data lat lon dict2 variable = ([], Ok table) ->
  steps_5_to_6 readback model scenario variable lat lon dict1
  = steps_5_to_6 readback model scenario variable lat lon dict2.
Proof.
  intros E1 E2. unfold steps_5_to_6. rewrite E1, E2. reflexivity.
Qed.

Lemma all_mode_keeps_days (da : DataArray) (years : list Z) (year : Z) :
  In year years ->
  dict_get Z.eqb
    (map (fun y => (y, da_values_nd (year_slice da years y))) (np_unique years)) year
  = Some (da_values_nd (year_slice da years year))
  /\ shape (da_values_nd (year_slice da years year))
     = [length (year_times years year); length (da_lat da); length (da_lon da)].
Proof.
  intro Hin. split.
  - apply (dict_get_map_Z (fun y => da_values_nd (year_slice da years y))).
    apply np_unique_spec, Hin.
  - unfold da_values_nd, year_slice, da_len. cbn [shape da_values da_lat da_lon].
    rewrite length_map. reflexivity.
Qed.

(** X26. Where the two modes agree. For a merged series in which,
    within every year,
    every cell is missing (NaN) on all days or on none, steps 4 to 6 end
    the same way in mode "all" as in mode "mean": the same workbook is
    written, or the same failure occurs. In mode "all" the year arrays
    held in memory are 3-D (day, lat, lon); the tabulator turns each into
    the column of the per-cell means over the days, NaN as soon as one day
    is missing, so the daily values never reach the table. *)
Theorem all_mode_tabulates_like_mean
    (readback : bool) (model scenario variable : string)
    (da : DataArray) (years : list Z) :
  da_wf da ->
  length years = da_len da ->
  nan_uniform da years ->
  outcome (steps_4_to_6 readback model scenario variable "all" da years)
  = outcome (steps_4_to_6 readback model scenario variable "mean" da years)
  /\ exists all_dict mean_dict,
       outcome (extract_coordinate_data da years "all")
       = Ok (da_lat da, da_lon da, all_dict)
       /\ outcome (extract_coordinate_data da years "mean")
          = Ok (da_lat da, da_lon da, mean_dict)
       /\ (forall year, In year years ->
             exists arr,
               dict_get Z.eqb all_dict year = Some arr
               /\ shape arr = [length (year_times years year);
                               length (da_lat da); length (da_lon da)]
               /\ ((0 < length (da_lat da) * length (da_lon da))%nat ->
                   exists col,
                     flatten_year (length (da_lat da)) (length (da_lon da)) arr
                     = Ok col
                     /\ forall i j,
                          (i < length (da_lat da))%nat ->
                          (j < length (da_lon da))%nat ->
                          nth (i * length (da_lon da) + j) col NaN
                          = float_mean (map (fun t => cell da t i j)
                                            (year_times years year))))
       /\ ((0 < length (da_lat da) * length (da_lon da))%nat ->
           exists table,
             outcome (prepare_dataframe_data (da_lat da) (da_lon da) all_dict variable)
             = Ok table
             /\ outcome (prepare_dataframe_data (da_lat da) (da_lon da) mean_dict variable)
                = Ok table).
Proof.
  intros Hwf Hlen Huni.
  assert (Hle : (length years <= da_len da)%nat) by lia.
  pose proof (extract_all da years Hle) as Eall.
  pose proof (extract_mean da years Hle) as Emean.
  split.
  - rewrite (steps_4_to_6_outcome _ _ _ _ _ _ _ _ _ Eall).
    rewrite (steps_4_to_6_outcome _ _ _ _ _ _ _ _ _ Emean).
    destruct (da_lat da) as [|la lat] eqn:Hlat; [reflexivity|].
    destruct (da_lon da) as [|lo lon] eqn:Hlon; [reflexivity|].
    assert (Hpos : (0 < length (da_lat da) * length (da_lon da))%nat).
    { rewrite Hlat, Hlon. simpl. lia. }
    destruct (tables_agree da years variable Hwf Hle Huni Hpos) as [T1 T2].
    rewrite Hlat, Hlon in T1, T2.
    rewrite (steps_5_to_6_outcome _ _ _ _ _ _ _ _ _ T1 T2). reflexivity.
  - eexists. eexists.
    split; [rewrite Eall; reflexivity|].
    split; [rewrite Emean; reflexivity|].
    split.
    + intros year Hin. destruct (all_mode_keeps_days da years year Hin) as [Hg Hs].
      eexists. split; [exact Hg|]. split; [exact Hs|].
      intro Hpos.
      destruct (all_mode_column (year_slice da years year)
                  (year_slice_wf da years year Hwf Hle) Hpos)
        as (col & Hcol & _ & Hcells).
      exists col. split; [exact Hcol|].
      intros i j Hi Hj. rewrite <- year_slice_cells. apply Hcells; assumption.
    + intro Hpos.
      destruct (tables_agree da years variable Hwf Hle Huni Hpos) as [T1 T2].
      eexists. split; [rewrite T1; reflexivity|rewrite T2; reflexivity].
Qed.

Lemma sample_series_uniform : nan_uniform sample_series sample_years.
Proof.
  intros year i j Hin Hi Hj.
  assert (year = 2035) by (simpl in Hin; intuition).
  subst year.
  destruct i as [|[|i]]; [| |simpl in Hi; lia];
    (destruct j as [|[|j]]; [| |simpl in Hj; lia]); vm_compute; auto.
Defined.

Lemma all_mode_tabulates_like_mean_witness :
  let da := sample_series in
  let years := sample_years in
  outcome (steps_4_to_6 true "ACCESS CM2" "SSP585" "tasmax" "all" da years)
  = outcome (steps_4_to_6 true "ACCESS CM2" "SSP585" "tasmax" "mean" da years)
  /\ exists all_dict mean_dict,
       outcome (extract_coordinate_data da years "all")
       = Ok (da_lat da, da_lon da, all_dict)
       /\ outcome (extract_coordinate_data da years "mean")
          = Ok (da_lat da, da_lon da, mean_dict)
       /\ (forall year, In year years ->
             exists arr,
               dict_get Z.eqb all_dict year = Some arr
               /\ shape arr = [length (year_times years year);
                               length (da_lat da); length (da_lon da)]
               /\ ((0 < length (da_lat da) * length (da_lon da))%nat ->
                   exists col,
                     flatten_year (length (da_lat da)) (length (da_lon da)) arr
                     = Ok col
                     /\ forall i j,
                          (i < length (da_lat da))%nat ->
                          (j < length (da_lon da))%nat ->
                          nth (i * length (da_lon da) + j) col NaN
                          = float_mean (map (fun t => cell da t i j)
                                            (year_times years year))))
       /\ ((0 < length (da_lat da) * length (da_lon da))%nat ->
           exists table,
             outcome (prepare_dataframe_data (da_lat da) (da_lon da) all_dict "tasmax")
             = Ok table
             /\ outcome (prepare_dataframe_data (da_lat da) (da_lon da) mean_dict "tasmax")
                = Ok table).
Proof.
  apply (all_mode_tabulates_like_mean true "ACCESS CM2" "SSP585" "tasmax"
           sample_series sample_years).
  - exact sample_series_wf.
  - reflexivity.
  - exact sample_series_uniform.
Defined.

(** C7. The table of mode "all" is not the table of mode "mean" where a
    cell is missing on some days of a year only: of the values 1 and
    NaN, mode "mean" writes 1 (xarray's mean skips the missing day) and
    mode "all" writes NaN (the numpy mean of the tabulator lets it
    through). *)
Lemma all_mode_differs_on_gaps :
  exists path lat_col lon_col q,
    outcome (steps_4_to_6 true "ACCESS CM2" "SSP585" "tasmax" "all"
               gappy_series gappy_years)
    = Ok (path, [("Data", mkDF 1 [("lat", lat_col); ("lon", lon_col);
                                  ("tasmax_2035", [NaN])])])
    /\ outcome (steps_4_to_6 true "ACCESS CM2" "SSP585" "tasmax" "mean"
                  gappy_series gappy_years)
       = Ok (path, [("Data", mkDF 1 [("lat", lat_col); ("lon", lon_col);
                                     ("tasmax_2035", [Num q])])])
    /\ outcome (steps_4_to_6 true "ACCESS CM2" "SSP585" "tasmax" "all"
                  gappy_series gappy_years)
       <> outcome (steps_4_to_6 true "ACCESS CM2" "SSP585" "tasmax" "mean"
                     gappy_series gappy_years).
Proof.
  do 4 eexists.
  split; [vm_compute; reflexivity|].
  split; [vm_compute; reflexivity|].
  vm_compute. intro H. discriminate H.
Qed.

(* ================================================================== *)
(** * The merger *)
(* ================================================================== *)

(** ** [np.allclose] *)

Lemma Qcleb_le (a b : Qc) : Qcleb a b = true <-> (a <= b)%Qc.
Proof. unfold Qcleb, Qcle. apply Qle_bool_iff. Qed.

Lemma Qcleb_false_lt (a b : Qc) : Qcleb a b = false <-> (b < a)%Qc.
Proof.
  split.
  - intro H. apply Qcnot_le_lt. intro Hle. apply Qcleb_le in Hle. congruence.
  - intro H. destruct (Qcleb a b) eqn:E; [|reflexivity].
    apply Qcleb_le in E. exfalso. apply (Qclt_not_le _ _ H E).
Qed.

Lemma Qceqb_eq (a b : Qc) : Qceqb a b = true <-> a = b.
Proof.
  unfold Qceqb. rewrite Qeq_bool_iff. split.
  - apply Qc_is_canon.
  - intros ->. reflexivity.
Qed.

Lemma np_isclose_spec (a ref : Qc) :
  np_isclose np_default_rtol tol_abs a ref = true
  <-> (Qcabs (a - ref) <= tolerance_at ref)%Qc.
Proof. unfold np_isclose, tolerance_at. apply Qcleb_le. Qed.

Lemma forallb_combine_nth {A} (f : A * A -> bool) (a b : list A) (d : A) :
  length a = length b ->
  (forallb f (combine a b) = true
   <-> forall p, (p < length a)%nat -> f (nth p a d, nth p b d) = true).
Proof.
  revert b. induction a as [|x a IH]; intros [|y b] Hlen; simpl in *;
    try discriminate.
  - split; [intros _ p Hp; lia|reflexivity].
  - rewrite andb_true_iff, (IH b) by lia. split.
    + intros [Hx Hrest] [|p] Hp; [exact Hx|]. apply Hrest. lia.
    + intro H. split; [apply (H 0%nat); lia|].
      intros p Hp. apply (H (S p)). lia.
Qed.

Lemma np_allclose_within (a ref : list Qc) :
  within_tolerance a ref -> np_allclose a ref tol_abs = Ok true.
Proof.
  intros [Hlen Hall]. unfold np_allclose, np_broadcast.
  rewrite Hlen, Nat.eqb_refl. f_equal.
  apply (forallb_combine_nth _ a ref 0%Qc Hlen).
  intros p Hp. cbn [fst snd]. apply np_isclose_spec, Hall, Hp.
Qed.

Lemma np_allclose_beyond (a ref : list Qc) :
  beyond_tolerance a ref -> np_allclose a ref tol_abs = Ok false.
Proof.
  intros [Hlen (p & Hp & Hfar)]. unfold np_allclose, np_broadcast.
  rewrite Hlen, Nat.eqb_refl. f_equal.
  destruct (forallb _ (combine a ref)) eqn:E; [|reflexivity].
  exfalso.
  pose proof (proj1 (forallb_combine_nth _ a ref 0%Qc Hlen) E p Hp) as Hc.
  cbn [fst snd] in Hc. apply np_isclose_spec in Hc.
  apply (Qclt_not_le _ _ Hfar Hc).
Qed.

Lemma np_allclose_same_length (a ref : list Qc) :
  length a = length ref -> exists b, np_allclose a ref tol_abs = Ok b.
Proof.
  intro Hlen. unfold np_allclose, np_broadcast.
  rewrite Hlen, Nat.eqb_refl. eauto.
Qed.

(** ** Reading the files *)

Lemma read_nc_file_ok (files : ncfiles) (variable : string) (p : FilePath)
    (da : DataArray) :
  variable <> "" -> reads files variable p da ->
  read_nc_file files p variable = ([EvOpenDataset p], Ok (XDataArray da)).
Proof.
  intros Hv (nc & values & Hf & Hg & ->). unfold read_nc_file. rewrite Hf.
  destruct (String.eqb_spec variable "") as [E|_]; [contradiction|].
  cbn [negb]. rewrite Hg. reflexivity.
Qed.

Lemma read_loop (files : ncfiles) (variable : string)
    (file_paths : list FilePath) (datasets : list DataArray)
    (acc : list xr_object) :
  variable <> "" ->
  Forall2 (reads files variable) file_paths datasets ->
  fold_M file_paths
    (fun acc file_path =>
       try_except
         (da <- read_nc_file files file_path variable ;; ret (acc ++ [da]))
         (fun e => raise (RuntimeError_ReadingFile file_path e)))
    acc
  = (map EvOpenDataset file_paths, Ok (acc ++ map XDataArray datasets)).
Proof.
  intros Hv Hall. revert acc.
  induction Hall as [|p da ps das Hp _ IH]; intro acc.
  - simpl. unfold ret. rewrite app_nil_r. reflexivity.
  - cbn [fold_M]. rewrite (read_nc_file_ok _ _ _ _ Hv Hp).
    unfold try_except, bind, ret. cbv beta iota. rewrite IH.
    cbn [map app]. rewrite <- app_assoc. reflexivity.
Qed.

Lemma as_data_arrays_map (datasets : list DataArray) :
  as_data_arrays (map XDataArray datasets) = Some datasets.
Proof.
  induction datasets as [|da das IH]; simpl; [reflexivity|].
  rewrite IH. reflexivity.
Qed.

(** ** The coordinate check *)

Lemma check_coords_pass (ref : DataArray) (i : nat) (da : DataArray) :
  grid_within_tolerance ref da ->
  check_coords (da_lat ref) (da_lon ref) (i, da) = ([], Ok tt).
Proof.
  intros [Hlat Hlon]. unfold check_coords.
  rewrite (np_allclose_within _ _ Hlat), (np_allclose_within _ _ Hlon).
  reflexivity.
Qed.

Lemma check_coords_fail (ref : DataArray) (i : nat) (da : DataArray) :
  length (da_lat da) = length (da_lat ref) ->
  length (da_lon da) = length (da_lon ref) ->
  beyond_tolerance (da_lat da) (da_lat ref)
  \/ beyond_tolerance (da_lon da) (da_lon ref) ->
  check_coords (da_lat ref) (da_lon ref) (i, da)
  = ([], Raise (ValueError_CoordinateMismatch (i + 1))).
Proof.
  intros Hllat Hllon Hfar. unfold check_coords.
  destruct (np_allclose_same_length _ _ Hllat) as [blat Hblat].
  destruct (np_allclose_same_length _ _ Hllon) as [blon Hblon].
  rewrite Hblat, Hblon. unfold lift, bind, ret, raise. cbv beta iota.
  assert (Hb : blat && blon = false).
  { destruct Hfar as [H|H].
    - rewrite (np_allclose_beyond _ _ H) in Hblat. injection Hblat as <-.
      reflexivity.
    - rewrite (np_allclose_beyond _ _ H) in Hblon. injection Hblon as <-.
      apply andb_false_r. }
  rewrite Hb. reflexivity.
Qed.

Lemma enumerate_cons {A} (start : nat) (x : A) (xs : list A) :
  enumerate start (x :: xs) = (start, x) :: enumerate (S start) xs.
Proof. reflexivity. Qed.

Lemma check_loop_pass (ref : DataArray) (start : nat) (others : list DataArray) :
  Forall (grid_within_tolerance ref) others ->
  for_each (enumerate start others) (check_coords (da_lat ref) (da_lon ref))
  = ([], Ok tt).
Proof.
  intro Hall. revert start.
  induction Hall as [|da das Hda _ IH]; intro start; [reflexivity|].
  rewrite enumerate_cons. cbn [for_each].
  rewrite (check_coords_pass _ _ _ Hda). unfold bind. rewrite IH. reflexivity.
Qed.

(** The first file beyond the tolerance stops the merge. *)
Lemma check_loop_fail (ref : DataArray) (start : nat)
    (before : list DataArray) (bad : DataArray) (after : list DataArray) :
  Forall (grid_within_tolerance ref) before ->
  length (da_lat bad) = length (da_lat ref) ->
  length (da_lon bad) = length (da_lon ref) ->
  beyond_tolerance (da_lat bad) (da_lat ref)
  \/ beyond_tolerance (da_lon bad) (da_lon ref) ->
  for_each (enumerate start (before ++ bad :: after))
    (check_coords (da_lat ref) (da_lon ref))
  = ([], Raise (ValueError_CoordinateMismatch (start + length before + 1))).
Proof.
  intros Hall Hllat Hllon Hfar. revert start.
  induction Hall as [|da das Hda _ IH]; intro start.
  - cbn [app]. rewrite enumerate_cons. cbn [for_each].
    rewrite (check_coords_fail _ _ _ Hllat Hllon Hfar).
    cbn [length]. rewrite Nat.add_0_r. reflexivity.
  - cbn [app]. rewrite enumerate_cons. cbn [for_each].
    rewrite (check_coords_pass _ _ _ Hda). unfold bind. rewrite IH.
    cbn [length app]. f_equal. f_equal. f_equal. lia.
Qed.

(** ** Concatenation along time *)

Lemma has_duplicates_nodup (l : list Qc) : NoDup l -> has_duplicates l = false.
Proof.
  induction 1 as [|x l Hx _ IH]; [reflexivity|].
  cbn [has_duplicates]. rewrite IH, orb_false_r.
  destruct (existsb (Qceqb x) l) eqn:E; [|reflexivity].
  apply existsb_exists in E. destruct E as (y & Hy & He).
  apply Qceqb_eq in He. subst y. contradiction.
Qed.

Lemma labels_eqb_refl (l : list Qc) : labels_eqb l l = true.
Proof.
  unfold labels_eqb. rewrite Nat.eqb_refl. cbn [andb].
  induction l as [|x l IH]; [reflexivity|].
  cbn [combine forallb fst snd]. rewrite IH, andb_true_r.
  apply Qceqb_eq. reflexivity.
Qed.

Lemma reindex_like_len (new_lat new_lon : list Qc) (da : DataArray) :
  da_len (reindex_like new_lat new_lon da) = da_len da
  /\ da_time (reindex_like new_lat new_lon da) = da_time da.
Proof.
  unfold reindex_like, da_len. cbn [da_values da_time].
  rewrite length_map. split; reflexivity.
Qed.

(** With one and the same grid in every file nothing is re-indexed. *)
Lemma join_index_same (l0 : list Qc) (idxs : list (list Qc)) :
  idxs <> [] -> Forall (fun l => l = l0) idxs -> join_index idxs = l0.
Proof.
  intros Hne Hall. destruct idxs as [|i0 rest]; [contradiction|].
  inversion Hall as [|? ? H0 Hrest]; subst. cbn [join_index].
  replace (forallb (labels_eqb l0) rest) with true; [reflexivity|].
  symmetry. apply forallb_forall. intros l Hl.
  rewrite Forall_forall in Hrest. rewrite (Hrest l Hl). apply labels_eqb_refl.
Qed.

Lemma alignable_can_reindex (arrays : list (list Qc)) (a : list Qc) :
  alignable arrays -> In a arrays -> can_reindex a (join_index arrays) = true.
Proof.
  intros [Hsame|Hnd] Hin; unfold can_reindex.
  - assert (Hne : arrays <> []) by (intros ->; destruct Hin).
    rewrite (join_index_same _ arrays Hne Hsame).
    rewrite Forall_forall in Hsame. rewrite <- (Hsame a Hin).
    rewrite labels_eqb_refl. reflexivity.
  - rewrite Forall_forall in Hnd.
    rewrite (has_duplicates_nodup _ (Hnd a Hin)). apply orb_true_r.
Qed.

Lemma xr_concat_time_ok (datasets : list DataArray) :
  grids_alignable datasets ->
  exists merged,
    xr_concat_time datasets = Ok merged
    /\ da_time merged = concat (map da_time datasets)
    /\ da_values merged
       = concat (map (fun d => da_values
                                 (reindex_like (da_lat merged) (da_lon merged) d))
                     datasets)
    /\ da_len merged = list_sum (map da_len datasets)
    /\ da_lat merged = join_index (map da_lat datasets)
    /\ da_lon merged = join_index (map da_lon datasets).
Proof.
  intros [Hlat Hlon]. unfold xr_concat_time.
  set (new_lat := join_index (map da_lat datasets)).
  set (new_lon := join_index (map da_lon datasets)).
  replace (forallb _ datasets) with true.
  - eexists. split; [reflexivity|]. cbn [da_time da_values da_lat da_lon].
    split; [|split; [|split; [|split; reflexivity]]].
    + rewrite map_map. reflexivity.
    + rewrite map_map. reflexivity.
    + unfold da_len at 1. cbn [da_values].
      rewrite length_concat, !map_map. f_equal. apply map_ext. intro d.
      apply (reindex_like_len new_lat new_lon d).
  - symmetry. apply forallb_forall. intros d Hd. unfold new_lat, new_lon.
    rewrite (alignable_can_reindex _ _ Hlat) by (apply in_map, Hd).
    rewrite (alignable_can_reindex _ _ Hlon) by (apply in_map, Hd).
    reflexivity.
Qed.

Lemma reindex_like_same (da : DataArray) :
  da_values (reindex_like (da_lat da) (da_lon da) da) = da_values da.
Proof.
  unfold reindex_like, reindex_axis. cbn [da_values].
  rewrite !labels_eqb_refl.
  transitivity (map (fun slice : list (list val) => slice) (da_values da));
    [|apply map_id].
  apply map_ext. intro slice. apply map_id.
Qed.

(** ** The labels of the time steps *)

Lemma years_loop (pre rest : list DataArray) (years : list Z) (acc : list Z) :
  length years = length rest ->
  fold_M (enumerate (length pre) years) (years_step (pre ++ rest)) acc
  = ([], Ok (acc ++ replicated_years rest years)).
Proof.
  revert pre rest acc. induction years as [|y years IH]; intros pre rest acc Hlen.
  - destruct rest; [|discriminate]. simpl. unfold ret, replicated_years.
    simpl. rewrite app_nil_r. reflexivity.
  - destruct rest as [|d rest]; [discriminate|].
    rewrite enumerate_cons. cbn [fold_M]. unfold years_step at 1.
    rewrite nth_error_app2 by lia. rewrite Nat.sub_diag. cbn [nth_error].
    unfold bind, ret. cbv beta iota.
    replace (pre ++ d :: rest) with ((pre ++ [d]) ++ rest)
      by (rewrite <- app_assoc; reflexivity).
    replace (S (length pre)) with (length (pre ++ [d]))
      by (rewrite length_app; simpl; lia).
    rewrite IH by (simpl in Hlen; lia).
    unfold replicated_years. cbn [combine map concat fst snd app].
    rewrite <- app_assoc. reflexivity.
Qed.

Lemma replicated_years_length (datasets : list DataArray) (years : list Z) :
  length years = length datasets ->
  length (replicated_years datasets years) = list_sum (map da_len datasets).
Proof.
  revert years. induction datasets as [|d ds IH]; intros [|y ys] Hlen;
    try discriminate; [reflexivity|].
  unfold replicated_years in *. cbn [combine map concat fst snd list_sum].
  rewrite length_app, repeat_length, IH by (simpl in Hlen; lia). reflexivity.
Qed.

Lemma time_offset_S (d0 : DataArray) (ds : list DataArray) (k : nat) :
  time_offset (d0 :: ds) (S k) = (da_len d0 + time_offset ds k)%nat.
Proof. reflexivity. Qed.

(** The label at a position inside the block of file [k]. *)
Lemma replicated_years_nth (datasets : list DataArray) (years : list Z)
    (k t : nat) (d : DataArray) (y : Z) :
  nth_error datasets k = Some d ->
  nth_error years k = Some y ->
  (t < da_len d)%nat ->
  nth_error (replicated_years datasets years) (time_offset datasets k + t) = Some y.
Proof.
  revert years k. induction datasets as [|d0 ds IH]; intros years k Hd Hy Ht.
  - destruct k; discriminate.
  - destruct years as [|y0 ys]; [destruct k; discriminate|].
    unfold replicated_years in *. cbn [combine map concat fst snd].
    destruct k as [|k].
    + cbn [nth_error] in Hd, Hy. injection Hd as ->. injection Hy as ->.
      change (time_offset (d :: ds) 0) with O. cbn [Nat.add].
      rewrite nth_error_app1 by (rewrite repeat_length; exact Ht).
      rewrite (nth_error_nth' _ y) by (rewrite repeat_length; exact Ht).
      rewrite nth_repeat. reflexivity.
    + cbn [nth_error] in Hd, Hy. rewrite time_offset_S.
      rewrite nth_error_app2 by (rewrite repeat_length; lia).
      rewrite repeat_length.
      replace (da_len d0 + time_offset ds k + t - da_len d0)%nat
        with (time_offset ds k + t)%nat by lia.
      apply IH; assumption.
Qed.

(** ** The merge as a whole *)

Lemma merge_nc_files_read (files : ncfiles) (file_paths : list FilePath)
    (variable : string) (years : option (list Z)) (datasets : list DataArray) :
  file_paths <> [] ->
  variable <> "" ->
  Forall2 (reads files variable) file_paths datasets ->
  merge_nc_files files file_paths variable years
  = (map EvOpenDataset file_paths ++ log_of (merge_datasets datasets years),
     outcome (merge_datasets datasets years)).
Proof.
  intros Hne Hv Hreads. unfold merge_nc_files.
  destruct file_paths as [|p ps]; [contradiction|].
  rewrite (read_loop files variable (p :: ps) datasets [] Hv Hreads).
  cbn [app]. unfold bind. rewrite as_data_arrays_map.
  destruct (merge_datasets datasets years) as [l r]. reflexivity.
Qed.

Lemma merge_datasets_ok (d0 : DataArray) (others : list DataArray) (years : list Z) :
  Forall (grid_within_tolerance d0) others ->
  grids_alignable (d0 :: others) ->
  length years = length (d0 :: others) ->
  exists merged,
    xr_concat_time (d0 :: others) = Ok merged
    /\ merge_datasets (d0 :: others) (Some years)
       = ([], Ok (merged, replicated_years (d0 :: others) years)).
Proof.
  intros Hclose Huniq Hlen.
  destruct (xr_concat_time_ok _ Huniq) as (merged & Hm & _).
  exists merged. split; [exact Hm|].
  unfold merge_datasets. cbn [tl nth].
  assert (Hcheck : (if (1 <? length (d0 :: others))%nat
                    then for_each (enumerate 1 others)
                           (check_coords (da_lat d0) (da_lon d0))
                    else ret tt) = ([], Ok tt)).
  { destruct (1 <? length (d0 :: others))%nat; [|reflexivity].
    apply check_loop_pass, Hclose. }
  rewrite Hcheck, Hm.
  destruct years as [|y ys]; [discriminate|].
  pose proof (years_loop [] (d0 :: others) (y :: ys) [] Hlen) as Hy.
  cbn [length app] in Hy. unfold lift, bind, ret. cbv beta iota.
  rewrite Hy. reflexivity.
Qed.

Lemma merge_datasets_mismatch (d0 : DataArray) (before : list DataArray)
    (bad : DataArray) (after : list DataArray) (years : option (list Z)) :
  Forall (grid_within_tolerance d0) before ->
  length (da_lat bad) = length (da_lat d0) ->
  length (da_lon bad) = length (da_lon d0) ->
  beyond_tolerance (da_lat bad) (da_lat d0)
  \/ beyond_tolerance (da_lon bad) (da_lon d0) ->
  merge_datasets (d0 :: before ++ bad :: after) years
  = ([], Raise (ValueError_CoordinateMismatch (length before + 2))).
Proof.
  intros Hclose Hllat Hllon Hfar. unfold merge_datasets. cbn [tl nth].
  replace (1 <? length (d0 :: before ++ bad :: after))%nat with true.
  - rewrite (check_loop_fail d0 1 before bad after Hclose Hllat Hllon Hfar).
    unfold bind. f_equal. f_equal. f_equal. lia.
  - symmetry. apply Nat.ltb_lt. cbn [length]. rewrite length_app. simpl. lia.
Qed.

(** C3. For files that all hold the variable, whose grids agree with the
    first file's within the tolerance (in each dimension the label arrays
    being identical, or free of repeated labels), and one year label per
    file, the merge succeeds; the merged time axis is the files' time axes one after
    another, so its length is the sum of the files' time lengths; the
    time-to-year mapping carries each file's label once per time step of
    that file, so every position inside the block contributed by file [k]
    is labelled with the year of file [k]. *)
Theorem merge_time_axis_and_years
    (files : ncfiles) (file_paths : list FilePath) (variable : string)
    (years : list Z) (d0 : DataArray) (others : list DataArray) :
  variable <> "" ->
  Forall2 (reads files variable) file_paths (d0 :: others) ->
  length years = length file_paths ->
  Forall (grid_within_tolerance d0) others ->
  grids_alignable (d0 :: others) ->
  let datasets := d0 :: others in
  exists merged time_years,
    outcome (merge_nc_files files file_paths variable (Some years))
    = Ok (merged, time_years)
    /\ da_len merged = list_sum (map da_len datasets)
    /\ da_time merged = concat (map da_time datasets)
    /\ da_values merged
       = concat (map (fun d => da_values
                                 (reindex_like (da_lat merged) (da_lon merged) d))
                     datasets)
    /\ length time_years = da_len merged
    /\ time_years = replicated_years datasets years
    /\ (forall k t d y,
          nth_error datasets k = Some d -> nth_error years k = Some y ->
          (t < da_len d)%nat ->
          nth_error time_years (time_offset datasets k + t) = Some y)
    /\ ((forall d, In d datasets ->
           da_lat d = da_lat d0 /\ da_lon d = da_lon d0) ->
        da_values merged = concat (map da_values datasets)).
Proof.
  intros Hv Hreads Hlen Hclose Huniq datasets.
  assert (Hne : file_paths <> []).
  { inversion Hreads; discriminate. }
  assert (Hlen' : length years = length (d0 :: others)).
  { rewrite Hlen. eapply Forall2_length; eauto. }
  destruct (merge_datasets_ok d0 others years Hclose Huniq Hlen')
    as (merged & Hm & Hmerge).
  destruct (xr_concat_time_ok _ Huniq)
    as (merged' & Hm' & Htime & Hvalues & Hsum & Hlat & Hlon).
  rewrite Hm in Hm'. injection Hm' as <-.
  exists merged, (replicated_years datasets years).
  rewrite (merge_nc_files_read files file_paths variable (Some years)
             (d0 :: others) Hne Hv Hreads).
  unfold outcome at 1. cbn [snd]. rewrite Hmerge.
  split; [reflexivity|].
  split; [exact Hsum|]. split; [exact Htime|]. split; [exact Hvalues|].
  split; [rewrite Hsum; apply replicated_years_length, Hlen'|].
  split; [reflexivity|]. split.
  - intros k t d y Hd Hy Ht. apply (replicated_years_nth _ _ _ _ d); assumption.
  - intro Hsame. rewrite Hvalues. f_equal. apply map_ext_in. intros d Hd.
    destruct (Hsame d Hd) as [Ela Elo].
    assert (Jlat : da_lat merged = da_lat d0).
    { rewrite Hlat. apply join_index_same; [discriminate|].
      rewrite Forall_map. apply Forall_forall. intros d' Hd'.
      apply (Hsame d' Hd'). }
    assert (Jlon : da_lon merged = da_lon d0).
    { rewrite Hlon. apply join_index_same; [discriminate|].
      rewrite Forall_map. apply Forall_forall. intros d' Hd'.
      apply (Hsame d' Hd'). }
    rewrite Jlat, Jlon, <- Ela, <- Elo. apply reindex_like_same.
Qed.

Lemma sample_reads (second : NcFile) (values : cube) :
  dict_get String.eqb (nc_vars second) "tasmax" = Some values ->
  Forall2 (reads (sample_files second) "tasmax") [path_2035; path_2036]
    [data_array_of file_2035 [[[Num (Qc_of_Z 1)]]; [[Num (Qc_of_Z 2)]]];
     data_array_of second values].
Proof.
  intro Hv. constructor; [|constructor; [|constructor]].
  - exists file_2035, [[[Num (Qc_of_Z 1)]]; [[Num (Qc_of_Z 2)]]]. repeat split.
  - exists second, values. repeat split. exact Hv.
Defined.

Lemma merge_time_axis_and_years_witness :
  let files := sample_files file_2036 in
  let d0 := data_array_of file_2035 [[[Num (Qc_of_Z 1)]]; [[Num (Qc_of_Z 2)]]] in
  let d1 := data_array_of file_2036
              [[[Num (Qc_of_Z 3)]]; [[Num (Qc_of_Z 4)]]; [[Num (Qc_of_Z 5)]]] in
  let datasets := [d0; d1] in
  let years := [2035; 2036] in
  exists merged time_years,
    outcome (merge_nc_files files [path_2035; path_2036] "tasmax" (Some years))
    = Ok (merged, time_years)
    /\ da_len merged = list_sum (map da_len datasets)
    /\ da_time merged = concat (map da_time datasets)
    /\ da_values merged
       = concat (map (fun d => da_values
                                 (reindex_like (da_lat merged) (da_lon merged) d))
                     datasets)
    /\ length time_years = da_len merged
    /\ time_years = replicated_years datasets years
    /\ (forall k t d y,
          nth_error datasets k = Some d -> nth_error years k = Some y ->
          (t < da_len d)%nat ->
          nth_error time_years (time_offset datasets k + t) = Some y)
    /\ ((forall d, In d datasets ->
           da_lat d = da_lat d0 /\ da_lon d = da_lon d0) ->
        da_values merged = concat (map da_values datasets)).
Proof.
  intros files d0 d1 datasets years.
  apply (merge_time_axis_and_years files [path_2035; path_2036] "tasmax"
           years d0 [d1]).
  - discriminate.
  - apply sample_reads. reflexivity.
  - reflexivity.
  - constructor; [|constructor].
    split; one_label_within.
  - split; left; repeat constructor.
Defined.

(** The merged labels of the sample: two of 2035, three of 2036. *)
Example merge_sample_years :
  exists merged,
    outcome (merge_nc_files (sample_files file_2036) [path_2035; path_2036]
               "tasmax" (Some [2035; 2036]))
    = Ok (merged, [2035; 2035; 2036; 2036; 2036])
    /\ da_len merged = 5%nat.
Proof. eexists. split; vm_compute; reflexivity. Qed.

(** X25. What the coordinate check of the merge rejects. Let the files
    all hold the variable, let the files before position [k] agree with
    the first file's grid within the tolerance of [np.allclose], and let
    file [k] (counted from 0, [k >= 1]) have a latitude or longitude
    array of the reference length in which some value is further from
    the reference value than 0.01 + 1e-05 * |reference|.  Then the merge
    fails with the "Coordinate mismatch detected in file k + 1"
    ValueError, which names that file (counted from 1), and produces no
    output. *)
Theorem merge_rejects_mismatched_grid
    (files : ncfiles) (file_paths : list FilePath) (variable : string)
    (years : option (list Z))
    (d0 : DataArray) (before : list DataArray) (bad : DataArray)
    (after : list DataArray) :
  variable <> "" ->
  Forall2 (reads files variable) file_paths (d0 :: before ++ bad :: after) ->
  Forall (grid_within_tolerance d0) before ->
  length (da_lat bad) = length (da_lat d0) ->
  length (da_lon bad) = length (da_lon d0) ->
  beyond_tolerance (da_lat bad) (da_lat d0)
  \/ beyond_tolerance (da_lon bad) (da_lon d0) ->
  let k := S (length before) in
  nth_error (d0 :: before ++ bad :: after) k = Some bad
  /\ outcome (merge_nc_files files file_paths variable years)
     = Raise (ValueError_CoordinateMismatch (k + 1))
  /\ forall out, outcome (merge_nc_files files file_paths variable years) <> Ok out.
Proof.
  intros Hv Hreads Hclose Hllat Hllon Hfar k.
  assert (Hne : file_paths <> []).
  { inversion Hreads; discriminate. }
  assert (E : outcome (merge_nc_files files file_paths variable years)
              = Raise (ValueError_CoordinateMismatch (k + 1))).
  { rewrite (merge_nc_files_read files file_paths variable years _ Hne Hv Hreads).
    unfold outcome at 1. cbn [snd].
    rewrite (merge_datasets_mismatch d0 before bad after years
               Hclose Hllat Hllon Hfar).
    unfold outcome, k. cbn [snd]. f_equal. f_equal. lia. }
  split.
  - unfold k. cbn [nth_error]. rewrite nth_error_app2 by lia.
    rewrite Nat.sub_diag. reflexivity.
  - split; [exact E|]. intros out Hout. rewrite E in Hout. discriminate.
Qed.

Lemma merge_rejects_mismatched_grid_witness :
  let files := sample_files file_far in
  let d0 := data_array_of file_2035 [[[Num (Qc_of_Z 1)]]; [[Num (Qc_of_Z 2)]]] in
  let bad := data_array_of file_far [[[Num (Qc_of_Z 3)]]] in
  let k := 1%nat in
  nth_error [d0; bad] k = Some bad
  /\ outcome (merge_nc_files files [path_2035; path_2036] "tasmax"
                (Some [2035; 2036]))
     = Raise (ValueError_CoordinateMismatch (k + 1))
  /\ forall out,
       outcome (merge_nc_files files [path_2035; path_2036] "tasmax"
                  (Some [2035; 2036])) <> Ok out.
Proof.
  intros files d0 bad k.
  apply (merge_rejects_mismatched_grid files [path_2035; path_2036] "tasmax"
           (Some [2035; 2036]) d0 [] bad []).
  - discriminate.
  - apply (sample_reads file_far). reflexivity.
  - constructor.
  - reflexivity.
  - reflexivity.
  - right. split; [reflexivity|]. exists 0%nat. split; [simpl; lia|].
    unfold Qclt. vm_compute. reflexivity.
Defined.

(** C4. The merge does not hold the fixed tolerance of 0.01 that the
    lightweight check applies: a longitude 0.011 away from the reference
    value 150 differs by more than 0.01, yet it is inside the tolerance
    of [np.allclose] with its default relative part, 0.01 + 1e-05 * 150
    = 0.0115, and the merge goes through where the claim has it fail. *)
Lemma merge_accepts_beyond_absolute_tolerance :
  exists merged time_years,
    (tol_abs < Qcabs (Q2Qc (150011 # 1000) - Qc_of_Z 150))%Qc
    /\ (Qcabs (Q2Qc (150011 # 1000) - Qc_of_Z 150) <= tolerance_at (Qc_of_Z 150))%Qc
    /\ da_lon (data_array_of file_shifted [[[Num (Qc_of_Z 3)]]])
       = [Q2Qc (150011 # 1000)]
    /\ da_lon (data_array_of file_2035 [[[Num (Qc_of_Z 1)]]; [[Num (Qc_of_Z 2)]]])
       = [Qc_of_Z 150]
    /\ np_allclose [Q2Qc (150011 # 1000)] [Qc_of_Z 150] tol_abs = Ok true
    /\ outcome (merge_nc_files (sample_files file_shifted) [path_2035; path_2036]
                  "tasmax" (Some [2035; 2036]))
       = Ok (merged, time_years)
    /\ forall n,
         outcome (merge_nc_files (sample_files file_shifted) [path_2035; path_2036]
                    "tasmax" (Some [2035; 2036]))
         <> Raise (ValueError_CoordinateMismatch n).
Proof.
  eexists. eexists.
  split; [unfold Qclt; vm_compute; reflexivity|].
  split; [unfold Qcle; vm_compute; discriminate|].
  split; [reflexivity|]. split; [reflexivity|].
  split; [vm_compute; reflexivity|].
  split; [vm_compute; reflexivity|].
  intro n. vm_compute. discriminate.
Qed.

(* ================================================================== *)
(** * The spec's test cases, on the samples *)
(* ================================================================== *)

(** Mean over three days on a 2 x 2 grid: (1+2+6)/3, (2+4+0)/3,
    (3+6+0)/3, and a cell that is missing throughout. *)
Example mean_on_sample_grid :
  exists data_dict arr,
    outcome (extract_coordinate_data sample_series sample_years "mean")
    = Ok (sample_lat, sample_lon, data_dict)
    /\ data_dict = [(2035, arr)]
    /\ shape arr = [2%nat; 2%nat]
    /\ map val_Q (buf arr) = [Some (3 # 1); Some (2 # 1); Some (3 # 1); None].
Proof.
  eexists. eexists. split; [vm_compute; reflexivity|].
  split; [reflexivity|]. split; reflexivity.
Qed.

(** Tabulating one year on a 2 x 2 grid: four rows in lat-major order,
    columns "lat", "lon", "tasmax_2035". *)
Example tabulate_sample_grid :
  exists table df,
    outcome (prepare_dataframe_data sample_lat sample_lon sample_aggregate "tasmax")
    = Ok table
    /\ build_frame table = Ok df
    /\ df_column_names df = ["lat"; "lon"; "tasmax_2035"]
    /\ map (map val_Q) (df_rows df)
       = [[Some (-30 # 1); Some (150 # 1); Some (1 # 1)];
          [Some (-30 # 1); Some (151 # 1); Some (2 # 1)];
          [Some (-29 # 1); Some (150 # 1); Some (3 # 1)];
          [Some (-29 # 1); Some (151 # 1); None]].
Proof.
  eexists. eexists. split; [vm_compute; reflexivity|].
  split; [vm_compute; reflexivity|]. split; reflexivity.
Qed.

(** Three rows under a ceiling of two: sheets of two rows and of one. *)
Example split_sample_table :
  exists s1 s2,
    outcome (write_to_excel sample_table (Some "Data") (Some 2))
    = Ok [("Data_1", s1); ("Data_2", s2)]
    /\ df_len s1 = 2%nat /\ df_len s2 = 1%nat
    /\ df_rows s1 ++ df_rows s2 = df_rows (frame_of sample_table 3).
Proof.
  eexists. eexists. split; [vm_compute; reflexivity|].
  split; [reflexivity|]. split; reflexivity.
Qed.

(** Without explicit arguments the writer runs with the configured sheet
    name and ceiling. *)
Lemma write_to_excel_defaults (data_dict : list (string * list val)) :
  write_to_excel data_dict None None
  = write_to_excel data_dict (Some config.EXCEL_SHEET_NAME)
      (Some config.EXCEL_MAX_ROWS_PER_SHEET).
Proof. reflexivity. Qed.

(** A mismatch seen by the lightweight check does not stop the run: the
    verdict is False, and the merge of step 3 is what fails. *)
Example driver_proceeds_after_false_verdict :
  let w := mkWorld (fun _ => Some ["tasmax_2035_a.nc"; "tasmax_2036_a.nc"])
                   (sample_files file_far) true true in
  let dir := config.get_input_directory "ACCESS CM2" "SSP585" "tasmax" in
  outcome (validate_coordinate_consistency true (sample_files file_far)
             [mkPath dir "tasmax_2035_a.nc"; mkPath dir "tasmax_2036_a.nc"])
  = Ok false
    /\ outcome (process_files w "ACCESS CM2" "SSP585" "tasmax" None)
       = Raise (SystemExit 1)
    /\ In (EvPrint Warn_ProceedingAnyway)
          (log_of (process_files w "ACCESS CM2" "SSP585" "tasmax" None))
    /\ In (EvPrint (Msg_FailedTo "merge files"
                      (ValueError_CoordinateMismatch 2)))
          (log_of (process_files w "ACCESS CM2" "SSP585" "tasmax" None)).
Proof.
  split; [vm_compute; reflexivity|].
  split; [vm_compute; reflexivity|].
  split; vm_compute; tauto.
Qed.

(** An absent directory, and files that cannot be opened. *)
Example discover_absent_directory :
  let dir := config.get_input_directory "ACCESS CM2" "SSP585" "tasmax" in
  discover_nc_files (fun _ => None) "ACCESS CM2" "SSP585" "tasmax"
  = ([EvDirExists dir], Raise (FileNotFoundError_InputDirectory dir)).
Proof. reflexivity. Qed.

Example check_of_unreadable_files :
  validate_coordinate_consistency true (fun _ => None) [path_2035; path_2036]
  = ([EvOpenNc path_2035;
      EvPrint (Warn_CouldNotValidate (OSError_CannotOpen path_2035))],
     Ok true).
Proof. reflexivity. Qed.

(* ================================================================== *)
(** * Further properties of discovery *)
(* ================================================================== *)

Lemma decimal_among_range (zeros : list N) (cp : N) (v : Z) :
  decimal_among zeros cp = Some v -> 0 <= v <= 9.
Proof.
  induction zeros as [|z zeros IH]; cbn [decimal_among]; [discriminate|].
  destruct ((z <=? cp)%N && (cp <? z + 10)%N) eqn:E; [|exact IH].
  intros [= <-]. apply andb_true_iff in E. destruct E as [E1 E2].
  apply N.leb_le in E1. apply N.ltb_lt in E2. lia.
Qed.

Lemma digit_value_range (a : string) :
  decimal_digit a -> 0 <= digit_value a <= 9.
Proof.
  intros [v Hv]. unfold digit_value. rewrite Hv. unfold digit_here in Hv.
  destruct (utf8_head a) as [[cp r]|]; [|discriminate].
  destruct (unicode_decimal cp) as [v'|] eqn:E; [|discriminate].
  injection Hv as <- _. exact (decimal_among_range _ _ _ E).
Qed.

Lemma token_value_range (a b c d : string) :
  four_digits a b c d -> 0 <= token_value a b c d <= 9999.
Proof.
  intros (Ha & Hb & Hc & Hd). unfold token_value.
  pose proof (digit_value_range a Ha). pose proof (digit_value_range b Hb).
  pose proof (digit_value_range c Hc). pose proof (digit_value_range d Hd).
  lia.
Qed.

Lemma with_year_token_cons (ch : ascii) (pre a b c d post : string) :
  with_year_token (String ch pre) a b c d post
  = String ch (with_year_token pre a b c d post).
Proof. reflexivity. Qed.

Lemma with_year_token_not_empty (pre a b c d post : string) :
  with_year_token pre a b c d post <> "".
Proof. unfold with_year_token. destruct pre; discriminate. Qed.

(** A token at the head of a string is found by the anchored pattern. *)
Lemma match_year_here_head (a b c d post : string) :
  four_digits a b c d ->
  match_year_here (with_year_token "" a b c d post)
  = Some (token_value a b c d).
Proof.
  intro Hd. apply match_year_here_token. exists a, b, c, d, post. auto.
Qed.

(** The search returns the value of the leftmost token. *)
Lemma re_search_year_leftmost (s : string) (y : Z) :
  re_search_year s = Some y <->
  exists pre a b c d post,
    s = with_year_token pre a b c d post /\ four_digits a b c d
    /\ y = token_value a b c d
    /\ forall pre' a' b' c' d' post',
         s = with_year_token pre' a' b' c' d' post' -> four_digits a' b' c' d' ->
         (String.length pre <= String.length pre')%nat.
Proof.
  revert y. induction s as [|ch s IH]; intro y; rewrite re_search_year_eq.
  - split; [discriminate|].
    intros (pre & a & b & c & d & post & E & _).
    symmetry in E. exfalso. exact (with_year_token_not_empty _ _ _ _ _ _ E).
  - destruct (match_year_here (String ch s)) as [y'|] eqn:Hm.
    + pose proof Hm as Htok. apply match_year_here_token in Htok.
      destruct Htok as (a & b & c & d & post & Es & Hd & Ey).
      split.
      * intros [= <-]. exists EmptyString, a, b, c, d, post.
        repeat split; try assumption; try apply Hd.
        intros. simpl. lia.
      * intros (pre & a2 & b2 & c2 & d2 & post2 & E2 & Hd2 & -> & Hmin).
        specialize (Hmin EmptyString a b c d post Es Hd).
        destruct pre; [|simpl in Hmin; lia].
        rewrite E2, (match_year_here_head a2 b2 c2 d2 post2 Hd2) in Hm.
        congruence.
    + rewrite IH. split.
      * intros (pre & a & b & c & d & post & -> & Hd & -> & Hmin).
        exists (String ch pre), a, b, c, d, post.
        split; [reflexivity|]. split; [exact Hd|]. split; [reflexivity|].
        intros pre' a' b' c' d' post' E' Hd'.
        destruct pre' as [|ch' pre'].
        { exfalso. rewrite ?with_year_token_cons in Hm.
          rewrite E', (match_year_here_head a' b' c' d' post' Hd') in Hm.
          discriminate. }
        rewrite !with_year_token_cons in E'. injection E' as _ E'.
        simpl. apply le_n_S. apply (Hmin pre' a' b' c' d' post'); assumption.
      * intros (pre & a & b & c & d & post & E & Hd & -> & Hmin).
        destruct pre as [|ch0 pre].
        { exfalso.
          rewrite E, (match_year_here_head a b c d post Hd) in Hm.
          discriminate. }
        rewrite with_year_token_cons in E. injection E as <- ->.
        exists pre, a, b, c, d, post.
        split; [reflexivity|]. split; [exact Hd|]. split; [reflexivity|].
        intros pre' a' b' c' d' post' E' Hd'.
        apply le_S_n.
        apply (Hmin (String ch pre') a' b' c' d' post'); [|exact Hd'].
        rewrite with_year_token_cons, E'. reflexivity.
Qed.

(** The digits of every script count: Arabic-Indic and fullwidth digits
    are read like the ASCII ones, also side by side. *)
Example extract_year_other_scripts :
  extract_year_from_filename "tasmax_٢٠٣٥_a.nc" = Ok 2035
  /\ extract_year_from_filename "tasmax_２０３5_a.nc" = Ok 2035
  /\ extract_year_from_filename "tasmax_2035_a.nc" = Ok 2035
  /\ extract_year_from_filename "tasmax_²⁰³⁵_a.nc"
     = Raise (ValueError_CouldNotExtractYear "tasmax_²⁰³⁵_a.nc").
Proof. repeat split; reflexivity. Qed.

(** X1. [extract_year_from_filename] returns the number spelled by the
    leftmost run "underscore, four digits, underscore" of the name, the
    digits being the decimal digits of any script: it returns [y] exactly
    when the name has such a run spelling [y] with no other such run
    starting before it. The year lies between 0 and 9999.  It raises the
    "Could not extract year" ValueError, carrying the name, exactly when
    the name has no such run. *)
Theorem extract_year_leftmost_token (filename : string) :
  (forall y,
     extract_year_from_filename filename = Ok y <->
     exists pre a b c d post,
       filename = with_year_token pre a b c d post /\ four_digits a b c d
       /\ y = token_value a b c d
       /\ forall pre' a' b' c' d' post',
            filename = with_year_token pre' a' b' c' d' post' ->
            four_digits a' b' c' d' ->
            (String.length pre <= String.length pre')%nat)
  /\ (forall y, extract_year_from_filename filename = Ok y -> 0 <= y <= 9999)
  /\ (forall e,
        extract_year_from_filename filename = Raise e <->
        e = ValueError_CouldNotExtractYear filename
        /\ ~ matches_year_pattern filename).
Proof.
  assert (Hok : forall y, extract_year_from_filename filename = Ok y
                          <-> re_search_year filename = Some y).
  { intro y. unfold extract_year_from_filename.
    destruct (re_search_year filename); split; congruence. }
  split; [|split].
  - intro y. rewrite Hok. apply re_search_year_leftmost.
  - intros y Hy. apply Hok, re_search_year_leftmost in Hy.
    destruct Hy as (pre & a & b & c & d & post & _ & Hd & -> & _).
    apply token_value_range, Hd.
  - intro e. unfold extract_year_from_filename.
    destruct (re_search_year filename) as [y|] eqn:Hs.
    + split; [discriminate|]. intros [_ Hno]. exfalso. apply Hno.
      eapply re_search_year_some; eauto.
    + split.
      * intros [= <-]. split; [reflexivity|]. intro Hp.
        destruct (re_search_year_pattern _ Hp) as [y Hy]. congruence.
      * intros [-> _]. reflexivity.
Qed.

(** ** The order of files that share a year *)

Lemma insert_key_filter {A} (key : A -> Z) (k : Z) (x : A) (l : list A) :
  filter (fun a => key a =? k) (insert_key key x l)
  = if key x =? k then x :: filter (fun a => key a =? k) l
    else filter (fun a => key a =? k) l.
Proof.
  induction l as [|y l IH]; cbn [insert_key filter].
  - destruct (key x =? k); reflexivity.
  - destruct (Z.leb_spec (key x) (key y)) as [Hle|Hgt]; cbn [filter].
    + destruct (key x =? k); reflexivity.
    + rewrite IH.
      destruct (Z.eqb_spec (key x) k) as [Hx|Hx];
        destruct (Z.eqb_spec (key y) k) as [Hy|Hy]; try reflexivity.
      lia.
Qed.

(** The sort is stable: the elements of one key keep their order. *)
Lemma sort_key_stable {A} (key : A -> Z) (k : Z) (l : list A) :
  filter (fun a => key a =? k) (sort_key key l) = filter (fun a => key a =? k) l.
Proof.
  induction l as [|x l IH]; [reflexivity|].
  cbn [sort_key fold_right]. fold (sort_key key l).
  rewrite insert_key_filter, IH. reflexivity.
Qed.

Lemma year_pairs_of_year (dir : string) (names : list string) (y : Z) :
  map (fun pr => fp_name (fst pr))
      (filter (fun pr => snd pr =? y) (year_pairs dir names))
  = filter (name_has_year y) names.
Proof.
  induction names as [|n names IH]; [reflexivity|].
  unfold year_pairs in *. cbn [flat_map filter]. unfold name_has_year at 1.
  destruct (re_search_year n) as [y'|]; cbn [app filter snd]; [|exact IH].
  destruct (y' =? y); cbn [map fst fp_name]; rewrite IH; reflexivity.
Qed.

(** X2. Discovery sorts with a stable sort on the year alone: the files
    that carry one and the same year appear in the result in the order in
    which the directory listing gave them, each with that year. *)
Theorem discover_keeps_listing_order
    (fs : dirs) (model scenario variable : string) (entries : list string) :
  fs (config.get_input_directory model scenario variable) = Some entries ->
  filter has_year (glob_nc entries) <> [] ->
  exists res,
    outcome (discover_nc_files fs model scenario variable) = Ok res
    /\ forall y,
         map (fun pr => fp_name (fst pr)) (filter (fun pr => snd pr =? y) res)
         = filter (name_has_year y) (glob_nc entries).
Proof.
  intros Hfs Hne.
  destruct (discover_failure_cases_aux fs model scenario variable entries Hfs Hne)
    as [Hout _].
  eexists. split; [exact Hout|].
  intro y. rewrite (sort_key_stable snd y). apply year_pairs_of_year.
Qed.

Lemma discover_keeps_listing_order_witness :
  exists res,
    outcome (discover_nc_files sample_dirs_same_year "ACCESS CM2" "SSP585" "tasmax")
    = Ok res
    /\ forall y,
         map (fun pr => fp_name (fst pr)) (filter (fun pr => snd pr =? y) res)
         = filter (name_has_year y) (glob_nc ["a_2035_x.nc"; "b_2035_y.nc"]).
Proof.
  apply (discover_keeps_listing_order sample_dirs_same_year
           "ACCESS CM2" "SSP585" "tasmax" ["a_2035_x.nc"; "b_2035_y.nc"]).
  - reflexivity.
  - vm_compute. discriminate.
Defined.

(** ** Step 1 of the driver *)

(** Step 1, spelled out: discovery runs once for the driver and once more
    inside [get_file_info]. *)
Lemma step_1_cases (w : world) (model scenario variable : string) :
  step_1 w model scenario variable =
  match discover_nc_files (w_dirs w) model scenario variable with
  | (l, Ok files_with_years) => (EvPrint (Msg_Step 1) :: l ++ l, Ok files_with_years)
  | (l, Raise e) =>
      (EvPrint (Msg_Step 1) :: l ++ [EvPrint (Msg_Error e)], Raise (SystemExit 1))
  end.
Proof.
  unfold step_1, get_file_info.
  destruct (discover_nc_files (w_dirs w) model scenario variable) as [l [fwy|e]];
    unfold try_except, bind, print, emit, ret, raise; cbn [app];
    rewrite ?app_nil_r; reflexivity.
Qed.

Lemma skip_warning_count_app (n : string) (l1 l2 : list event) :
  skip_warning_count n (l1 ++ l2)
  = (skip_warning_count n l1 + skip_warning_count n l2)%nat.
Proof. unfold skip_warning_count. rewrite filter_app. apply length_app. Qed.

(** X3. Step 1 of the driver runs discovery twice on the directory: once
    itself and once through [get_file_info]. When discovery succeeds the
    step returns the discovered pairs, and its log is the step banner
    followed by the log of discovery twice over, so the existence test and
    the enumeration happen twice and every "Skipping file" warning is
    printed twice. When discovery raises, the step prints the error once
    and exits with status 1, and discovery has run only once. *)
Theorem step_1_discovers_twice (w : world) (model scenario variable : string) :
  let found := discover_nc_files (w_dirs w) model scenario variable in
  let run := step_1 w model scenario variable in
  (forall files_with_years,
     outcome found = Ok files_with_years ->
     outcome run = Ok files_with_years
     /\ log_of run = EvPrint (Msg_Step 1) :: log_of found ++ log_of found
     /\ forall n, skip_warning_count n (log_of run)
                  = (2 * skip_warning_count n (log_of found))%nat)
  /\ (forall e,
        outcome found = Raise e ->
        outcome run = Raise (SystemExit 1)
        /\ log_of run
           = EvPrint (Msg_Step 1) :: log_of found ++ [EvPrint (Msg_Error e)]).
Proof.
  intros found run. subst run. rewrite step_1_cases. fold found.
  destruct found as [l [fwy|e]]; unfold outcome, log_of; cbn [fst snd]; split.
  - intros fwy' [= <-]. split; [reflexivity|]. split; [reflexivity|].
    intro n. change (EvPrint (Msg_Step 1) :: l ++ l)
      with ([EvPrint (Msg_Step 1)] ++ l ++ l).
    rewrite !skip_warning_count_app. unfold skip_warning_count at 1.
    simpl. lia.
  - intros e' [=].
  - intros fwy' [=].
  - intros e' [= <-]. split; reflexivity.
Qed.

(* ================================================================== *)
(** * Further properties of the lightweight check *)
(* ================================================================== *)

Lemma Qcltb_lt (a b : Qc) : Qcltb a b = true <-> (a < b)%Qc.
Proof.
  unfold Qcltb. rewrite negb_true_iff. apply (Qcleb_false_lt b a).
Qed.

Lemma Qcltb_ge (a b : Qc) : Qcltb a b = false <-> (b <= a)%Qc.
Proof.
  unfold Qcltb. rewrite negb_false_iff. apply (Qcleb_le b a).
Qed.

(** The running maximum is one of the values and bounds them all. *)
Lemma fold_max_spec (ds : list Qc) (d : Qc) :
  In (fold_left (fun m x => if Qcleb m x then x else m) ds d) (d :: ds)
  /\ forall x, In x (d :: ds) ->
       (x <= fold_left (fun m x => if Qcleb m x then x else m) ds d)%Qc.
Proof.
  revert d. induction ds as [|x ds IH]; intro d; cbn [fold_left].
  - split; [left; reflexivity|]. intros x [<-|[]]. apply Qcle_refl.
  - destruct (IH (if Qcleb d x then x else d)) as [Hin Hmax]. split.
    + destruct Hin as [Hin|Hin]; [|right; right; exact Hin].
      rewrite <- Hin. destruct (Qcleb d x); [right; left|left]; reflexivity.
    + assert (Hd : (d <= (if Qcleb d x then x else d))%Qc).
      { destruct (Qcleb d x) eqn:E; [apply Qcleb_le, E|apply Qcle_refl]. }
      assert (Hx : (x <= (if Qcleb d x then x else d))%Qc).
      { destruct (Qcleb d x) eqn:E; [apply Qcle_refl|].
        apply Qclt_le_weak, Qcleb_false_lt, E. }
      intros z [<-|[<-|Hz]].
      * eapply Qcle_trans; [exact Hd|]. apply Hmax. left. reflexivity.
      * eapply Qcle_trans; [exact Hx|]. apply Hmax. left. reflexivity.
      * apply Hmax. right. exact Hz.
Qed.

Lemma abs_diff_nth (a b : list Qc) (p : nat) :
  length a = length b -> (p < length a)%nat ->
  nth p (map (fun q => Qcabs (fst q - snd q)%Qc) (combine a b)) 0%Qc
  = Qcabs (nth p a 0 - nth p b 0)%Qc.
Proof.
  intros Hlen Hp.
  rewrite (nth_indep _ 0%Qc ((fun q => Qcabs (fst q - snd q)%Qc) (0%Qc, 0%Qc)))
    by (rewrite length_map, length_combine; lia).
  rewrite (map_nth (fun q => Qcabs (fst q - snd q)%Qc)).
  rewrite combine_nth by exact Hlen. reflexivity.
Qed.

(** [abs(a - b).max()] for equally long arrays: it raises on empty
    arrays, and is otherwise the largest distance between two labels of
    one position. *)
Lemma abs_diff_max_cases (a b : list Qc) :
  length a = length b ->
  (a = [] /\ abs_diff_max a b = Raise ValueError_ZeroSizeReduction)
  \/ (a <> []
      /\ exists m, abs_diff_max a b = Ok m
           /\ (exists p, (p < length a)%nat /\ m = Qcabs (nth p a 0 - nth p b 0)%Qc)
           /\ forall p, (p < length a)%nat ->
                (Qcabs (nth p a 0 - nth p b 0) <= m)%Qc).
Proof.
  intro Hlen. destruct a as [|x a]; [left; split; reflexivity|].
  right. split; [discriminate|].
  destruct b as [|y b]; [discriminate|].
  unfold abs_diff_max.
  set (ds := map (fun q => Qcabs (fst q - snd q)%Qc) (combine (x :: a) (y :: b))).
  assert (Hds : length ds = length (x :: a)).
  { unfold ds. rewrite length_map, length_combine. lia. }
  assert (Hnth : forall p, (p < length (x :: a))%nat ->
            nth p ds 0%Qc = Qcabs (nth p (x :: a) 0 - nth p (y :: b) 0)%Qc).
  { intros p Hp. apply abs_diff_nth; assumption. }
  destruct ds as [|d ds'] eqn:Eds; [discriminate|].
  destruct (fold_max_spec ds' d) as [Hin Hmax].
  eexists. split; [reflexivity|]. split.
  - destruct (In_nth _ _ 0%Qc Hin) as (p & Hp & Hv).
    exists p. split; [lia|]. rewrite <- Hv. apply Hnth. lia.
  - intros p Hp. rewrite <- Hnth by exact Hp. apply Hmax.
    apply nth_In. lia.
Qed.

(** The comparison [abs(a - b).max() < 0.01] for arrays the check accepts
    and for arrays that are too far apart. *)
Lemma abs_diff_max_close (a ref : list Qc) :
  strictly_close a ref ->
  exists m, abs_diff_max a ref = Ok m /\ Qcltb m tol_abs = true.
Proof.
  intros (Hlen & Hne & Hall).
  destruct (abs_diff_max_cases a ref Hlen) as [[He _]|(_ & m & Hm & (p & Hp & ->) & _)];
    [contradiction|].
  eexists. split; [exact Hm|]. apply Qcltb_lt, Hall, Hp.
Qed.

Lemma abs_diff_max_apart (a ref : list Qc) :
  apart a ref ->
  exists m, abs_diff_max a ref = Ok m /\ Qcltb m tol_abs = false.
Proof.
  intros (Hlen & p & Hp & Hfar).
  destruct (abs_diff_max_cases a ref Hlen) as [[He _]|(_ & m & Hm & _ & Hmax)].
  - subst a. simpl in Hp. lia.
  - exists m. split; [exact Hm|]. apply Qcltb_ge.
    eapply Qcle_trans; [exact Hfar|apply Hmax, Hp].
Qed.

(** What the comparison tells about the arrays. *)
Lemma abs_diff_max_verdict (a ref : list Qc) (m : Qc) :
  length a = length ref -> abs_diff_max a ref = Ok m ->
  (Qcltb m tol_abs = true -> strictly_close a ref)
  /\ (Qcltb m tol_abs = false -> apart a ref).
Proof.
  intros Hlen Hm.
  destruct (abs_diff_max_cases a ref Hlen)
    as [[_ He]|(Hne & m' & Hm' & (p & Hp & Hv) & Hmax)]; [congruence|].
  rewrite Hm in Hm'. injection Hm' as <-. split; intro Hc.
  - split; [exact Hlen|]. split; [exact Hne|]. intros q Hq.
    eapply Qcle_lt_trans; [apply Hmax, Hq|apply Qcltb_lt, Hc].
  - split; [exact Hlen|]. exists p. split; [exact Hp|].
    rewrite <- Hv. apply Qcltb_ge, Hc.
Qed.

(** A file the check accepts lets the loop go on to the next file. *)
Lemma validate_loop_accept (files : ncfiles) (ref nc : NcFile)
    (p : FilePath) (rest : list FilePath) :
  files p = Some nc -> light_accepts ref nc ->
  validate_loop files (nc_lat ref) (nc_lon ref) (p :: rest)
  = (EvOpenNc p :: log_of (validate_loop files (nc_lat ref) (nc_lon ref) rest),
     outcome (validate_loop files (nc_lat ref) (nc_lon ref) rest)).
Proof.
  intros Hf [Hlat Hlon]. rewrite validate_loop_cons, Hf.
  destruct Hlat as (Hl1 & Hlat'). destruct Hlon as (Hl2 & Hlon').
  rewrite Hl1, Hl2, !Nat.eqb_refl. cbn [andb negb].
  destruct (abs_diff_max_close _ _ (conj Hl1 Hlat')) as (m1 & -> & ->).
  destruct (abs_diff_max_close _ _ (conj Hl2 Hlon')) as (m2 & -> & ->).
  reflexivity.
Qed.

(** A file the check rejects ends the loop with False, after a warning. *)
Lemma validate_loop_reject (files : ncfiles) (ref nc : NcFile)
    (p : FilePath) (rest : list FilePath) :
  files p = Some nc -> light_rejects ref nc ->
  exists m,
    validate_loop files (nc_lat ref) (nc_lon ref) (p :: rest)
    = ([EvOpenNc p; EvPrint m], Ok false)
    /\ (m = Warn_DimensionsDiffer \/ m = Warn_ValuesDiffer).
Proof.
  intros Hf Hrej. rewrite validate_loop_cons, Hf.
  destruct (Nat.eqb_spec (length (nc_lat nc)) (length (nc_lat ref))) as [Hl1|Hl1];
    [|exists Warn_DimensionsDiffer; split; [reflexivity|left; reflexivity]].
  destruct (Nat.eqb_spec (length (nc_lon nc)) (length (nc_lon ref))) as [Hl2|Hl2];
    [|exists Warn_DimensionsDiffer; split; [reflexivity|left; reflexivity]].
  cbn [andb negb]. exists Warn_ValuesDiffer. split; [|right; reflexivity].
  destruct Hrej as [H|[H|[H|[Hc H]]]]; try contradiction.
  - destruct (abs_diff_max_apart _ _ H) as (m1 & -> & ->). reflexivity.
  - destruct (abs_diff_max_close _ _ Hc) as (m1 & -> & ->).
    destruct (abs_diff_max_apart _ _ H) as (m2 & -> & ->). reflexivity.
Qed.

(** Every file either is accepted, is rejected, or makes the comparison
    raise. *)
Lemma validate_loop_step (files : ncfiles) (ref nc : NcFile)
    (p : FilePath) (rest : list FilePath) :
  files p = Some nc ->
  light_accepts ref nc \/ light_rejects ref nc
  \/ exists e, validate_loop files (nc_lat ref) (nc_lon ref) (p :: rest)
               = ([EvOpenNc p], Raise e).
Proof.
  intro Hf. rewrite validate_loop_cons, Hf.
  destruct (Nat.eqb_spec (length (nc_lat nc)) (length (nc_lat ref))) as [Hl1|Hl1];
    [|right; left; left; exact Hl1].
  destruct (Nat.eqb_spec (length (nc_lon nc)) (length (nc_lon ref))) as [Hl2|Hl2];
    [|right; left; right; left; exact Hl2].
  cbn [andb negb].
  destruct (abs_diff_max (nc_lat nc) (nc_lat ref)) as [m1|e] eqn:E1;
    [|right; right; exists e; reflexivity].
  destruct (abs_diff_max_verdict _ _ _ Hl1 E1) as [Hc1 Ha1].
  destruct (Qcltb m1 tol_abs); [|right; left; right; right; left; auto].
  destruct (abs_diff_max (nc_lon nc) (nc_lon ref)) as [m2|e] eqn:E2;
    [|right; right; exists e; reflexivity].
  destruct (abs_diff_max_verdict _ _ _ Hl2 E2) as [Hc2 Ha2].
  destruct (Qcltb m2 tol_abs).
  - left. split; auto.
  - right. left. right. right. right. split; auto.
Qed.

(** The loop ends with False exactly when it reaches a file it rejects,
    having accepted the files before it. *)
Lemma validate_loop_false (files : ncfiles) (ref : NcFile) (paths : list FilePath) :
  outcome (validate_loop files (nc_lat ref) (nc_lon ref) paths) = Ok false <->
  exists k nc,
    opens_at files paths k nc /\ light_rejects ref nc
    /\ forall i, (i < k)%nat ->
         exists nci, opens_at files paths i nci /\ light_accepts ref nci.
Proof.
  induction paths as [|p rest IH].
  - split; [discriminate|].
    intros (k & nc & (q & Hq & _) & _). destruct k; discriminate.
  - split.
    + intro Hout. destruct (files p) as [nc|] eqn:Hf.
      * destruct (validate_loop_step files ref nc p rest Hf) as [Hacc|[Hrej|[e He]]].
        -- rewrite (validate_loop_accept files ref nc p rest Hf Hacc) in Hout.
           unfold outcome at 1 in Hout. cbn [snd] in Hout.
           apply IH in Hout. destruct Hout as (k & nck & Hk & Hrej & Hbefore).
           exists (S k), nck. split; [exact Hk|]. split; [exact Hrej|].
           intros [|i] Hi.
           ++ exists nc. split; [exists p; auto|exact Hacc].
           ++ apply Hbefore. lia.
        -- exists O, nc. split; [exists p; auto|]. split; [exact Hrej|].
           intros i Hi. lia.
        -- rewrite He in Hout. discriminate.
      * rewrite validate_loop_cons, Hf in Hout. discriminate.
    + intros (k & nc & (q & Hq & Hfq) & Hrej & Hbefore).
      destruct k as [|k].
      * cbn [nth_error] in Hq. injection Hq as ->.
        destruct (validate_loop_reject files ref nc q rest Hfq Hrej) as (m & -> & _).
        reflexivity.
      * destruct (Hbefore O) as (nc0 & (q0 & Hq0 & Hf0) & Hacc); [lia|].
        cbn [nth_error] in Hq0. injection Hq0 as ->.
        rewrite (validate_loop_accept files ref nc0 q0 rest Hf0 Hacc).
        unfold outcome at 1. cbn [snd]. apply IH.
        exists k, nc. split; [exists q; auto|]. split; [exact Hrej|].
        intros i Hi. apply (Hbefore (S i)). lia.
Qed.

(** The files the loop is run on: those at positions 1 to 4. *)
Lemma compared_paths (p0 : FilePath) (rest : list FilePath) :
  py_slice 1 (Nat.min 5 (length (p0 :: rest))) (p0 :: rest) = firstn 4 rest.
Proof.
  unfold py_slice. cbn [skipn length].
  destruct (Nat.le_ge_cases 4 (length rest)) as [H|H].
  - replace (Nat.min 5 (S (length rest)) - 1)%nat with 4%nat by lia. reflexivity.
  - replace (Nat.min 5 (S (length rest)) - 1)%nat with (length rest) by lia.
    rewrite firstn_all, firstn_all2 by exact H. reflexivity.
Qed.

Lemma opens_at_compared (files : ncfiles) (p0 : FilePath) (rest : list FilePath)
    (k : nat) (nc : NcFile) :
  opens_at files (firstn 4 rest) k nc
  <-> (S k < Nat.min 5 (length (p0 :: rest)))%nat
      /\ opens_at files (p0 :: rest) (S k) nc.
Proof.
  unfold opens_at. cbn [nth_error length]. rewrite nth_error_firstn. split.
  - intros (p & Hp & Hf). destruct (Nat.ltb_spec k 4) as [Hk|]; [|discriminate].
    assert (Hlen : (k < length rest)%nat).
    { apply nth_error_Some. congruence. }
    split; [lia|]. exists p. auto.
  - intros [Hk (p & Hp & Hf)]. exists p.
    destruct (Nat.ltb_spec k 4) as [_|Hge]; [auto|lia].
Qed.

(** The body of the check ends with False exactly when a file at one of
    the positions 1 to 4 is rejected against the first file, the files
    between them having been accepted. *)
Lemma validate_try_false (inst : bool) (files : ncfiles) (file_paths : list FilePath) :
  outcome (validate_try inst files file_paths) = Ok false <->
  inst = true
  /\ exists k ref nc,
       (1 <= k < Nat.min 5 (length file_paths))%nat
       /\ opens_at files file_paths 0 ref
       /\ opens_at files file_paths k nc
       /\ light_rejects ref nc
       /\ forall i, (1 <= i < k)%nat ->
            exists nci, opens_at files file_paths i nci /\ light_accepts ref nci.
Proof.
  rewrite validate_try_cases. destruct inst.
  2: { split; [discriminate|]. intros [H _]. discriminate. }
  destruct file_paths as [|p0 rest].
  { split; [discriminate|]. intros (_ & k & ref & nc & Hk & _). simpl in Hk. lia. }
  destruct (files p0) as [nc0|] eqn:Hf0.
  2: { split; [discriminate|].
       intros (_ & k & ref & nc & _ & (q & Hq & Hfq) & _).
       cbn [nth_error] in Hq. injection Hq as <-. congruence. }
  cbv zeta. unfold outcome at 1. cbn [snd].
  rewrite compared_paths, validate_loop_false. split.
  - intros (k & nc & Hk & Hrej & Hbefore).
    apply (opens_at_compared files p0) in Hk. destruct Hk as [Hk Hopen].
    split; [reflexivity|]. exists (S k), nc0, nc.
    split; [lia|]. split; [exists p0; auto|]. split; [exact Hopen|].
    split; [exact Hrej|].
    intros [|i] Hi; [lia|].
    destruct (Hbefore i) as (nci & Hi' & Hacc); [lia|].
    apply (opens_at_compared files p0) in Hi'. exists nci. tauto.
  - intros (_ & k & ref & nc & Hk & (q & Hq & Hfq) & Hopen & Hrej & Hbefore).
    cbn [nth_error] in Hq. injection Hq as <-.
    rewrite Hf0 in Hfq. injection Hfq as <-.
    destruct k as [|k]; [lia|].
    exists k, nc.
    split; [apply (opens_at_compared files p0); split; [lia|exact Hopen]|].
    split; [exact Hrej|].
    intros i Hi. destruct (Hbefore (S i)) as (nci & Hi' & Hacc); [lia|].
    exists nci. split; [|exact Hacc].
    apply (opens_at_compared files p0). split; [lia|exact Hi'].
Qed.

(** X4. The lightweight check returns False in one situation only:
    netCDF4 can be imported, the first file can be opened, and a file at
    one of the positions 1 to 4 (the second to the fifth path) can be
    opened and has a grid the check rejects against the first file's -
    a latitude or longitude array of another length, or a label 0.01 or
    more away from the first file's - while every file between the first
    and that one was opened and accepted (equal lengths, no empty array,
    all labels less than 0.01 apart). In every other situation the
    verdict is True. *)
Theorem lightweight_false_verdict
    (inst : bool) (files : ncfiles) (file_paths : list FilePath) :
  let verdict := outcome (validate_coordinate_consistency inst files file_paths) in
  (verdict = Ok false <->
   inst = true
   /\ exists k ref nc,
        (1 <= k < Nat.min 5 (length file_paths))%nat
        /\ opens_at files file_paths 0 ref
        /\ opens_at files file_paths k nc
        /\ light_rejects ref nc
        /\ forall i, (1 <= i < k)%nat ->
             exists nci, opens_at files file_paths i nci /\ light_accepts ref nci)
  /\ (verdict <> Ok false -> verdict = Ok true).
Proof.
  intro verdict. split.
  - rewrite <- validate_try_false. subst verdict.
    unfold validate_coordinate_consistency.
    destruct (Nat.ltb_spec (length file_paths) 2) as [Hlt|Hge].
    + split; [discriminate|]. intro H. apply validate_try_false in H.
      destruct H as (_ & k & _ & _ & Hk & _). lia.
    + destruct (validate_try inst files file_paths) as [l [b|e]];
        unfold outcome, try_except, bind, print, emit, ret; cbn [snd];
        split; congruence.
  - destruct (validate_total inst files file_paths) as [[|] Hb];
      fold verdict in Hb; rewrite Hb; [reflexivity|congruence].
Qed.

(** X5. The lightweight check looks at the first five paths only: its
    verdict and everything it opens and prints are the same as for the
    list cut after the fifth path, so no file from the sixth on can
    influence it. *)
Theorem lightweight_check_first_five
    (inst : bool) (files : ncfiles) (file_paths : list FilePath) :
  validate_coordinate_consistency inst files file_paths
  = validate_coordinate_consistency inst files (firstn 5 file_paths).
Proof.
  unfold validate_coordinate_consistency.
  assert (Hshort : (length (firstn 5 file_paths) <? 2)%nat
                   = (length file_paths <? 2)%nat).
  { rewrite length_firstn.
    destruct (Nat.ltb_spec (length file_paths) 2);
      destruct (Nat.ltb_spec (Nat.min 5 (length file_paths)) 2);
      try reflexivity; lia. }
  rewrite Hshort. destruct (length file_paths <? 2)%nat; [reflexivity|].
  f_equal. rewrite !validate_try_cases. destruct inst; [|reflexivity].
  destruct file_paths as [|p0 rest]; [reflexivity|].
  rewrite (firstn_cons 4 p0 rest).
  destruct (files p0) as [nc0|]; [|reflexivity].
  cbv zeta. rewrite !compared_paths, firstn_firstn. reflexivity.
Qed.

(* ================================================================== *)
(** * Further properties of the merger *)
(* ================================================================== *)

(** ** Reading the files *)

(** Reading one file, spelled out. *)
Lemma read_nc_file_cases (files : ncfiles) (p : FilePath) (variable : string) :
  read_nc_file files p variable =
  ([EvOpenDataset p],
   match files p with
   | None => Raise (OSError_CannotOpen p)
   | Some ds =>
       if negb (String.eqb variable "") then
         match dict_get String.eqb (nc_vars ds) variable with
         | None => Raise (ValueError_VariableNotFound variable p)
         | Some values =>
             Ok (XDataArray (mkDA (nc_time ds) (nc_lat ds) (nc_lon ds) values))
         end
       else Ok (XDataset ds)
   end).
Proof.
  unfold read_nc_file. destruct (files p) as [ds|]; [|reflexivity].
  destruct (negb (String.eqb variable "")); [|reflexivity].
  destruct (dict_get String.eqb (nc_vars ds) variable); reflexivity.
Qed.

(** One iteration of the reading loop. *)
Lemma read_step_cases (files : ncfiles) (variable : string)
    (acc : list xr_object) (p : FilePath) :
  try_except
    (da <- read_nc_file files p variable ;; ret (acc ++ [da]))
    (fun e => raise (RuntimeError_ReadingFile p e))
  = ([EvOpenDataset p],
     match outcome (read_nc_file files p variable) with
     | Ok da => Ok (acc ++ [da])
     | Raise e => Raise (RuntimeError_ReadingFile p e)
     end).
Proof.
  rewrite read_nc_file_cases. unfold outcome. cbn [snd].
  destruct (match files p with None => _ | Some ds => _ end);
    reflexivity.
Qed.

(** What the reading loop has read when it completes. *)
Lemma read_loop_inv (files : ncfiles) (variable : string)
    (file_paths : list FilePath) (acc objs : list xr_object) (l : list event) :
  fold_M file_paths
    (fun acc file_path =>
       try_except
         (da <- read_nc_file files file_path variable ;; ret (acc ++ [da]))
         (fun e => raise (RuntimeError_ReadingFile file_path e)))
    acc
  = (l, Ok objs) ->
  exists news,
    objs = acc ++ news
    /\ Forall2 (fun p o =>
                  exists nc, files p = Some nc
                    /\ match o with
                       | XDataArray da =>
                           da_lat da = nc_lat nc /\ da_lon da = nc_lon nc
                       | XDataset ds => ds = nc
                       end) file_paths news.
Proof.
  revert acc l. induction file_paths as [|p ps IH]; intros acc l H.
  - cbn [fold_M] in H. unfold ret in H. injection H as _ <-.
    exists []. split; [symmetry; apply app_nil_r|constructor].
  - cbn [fold_M] in H. rewrite read_step_cases in H.
    rewrite read_nc_file_cases in H. unfold outcome in H. cbn [snd] in H.
    unfold bind in H.
    destruct (files p) as [nc|] eqn:Hf; [|discriminate].
    assert (Hone : forall o,
              (let (l', r) := fold_M ps
                   (fun acc file_path =>
                      try_except
                        (da <- read_nc_file files file_path variable ;;
                         ret (acc ++ [da]))
                        (fun e => raise (RuntimeError_ReadingFile file_path e)))
                   (acc ++ [o]) in ([EvOpenDataset p] ++ l', r)) = (l, Ok objs) ->
              match o with
              | XDataArray da => da_lat da = nc_lat nc /\ da_lon da = nc_lon nc
              | XDataset ds => ds = nc
              end ->
              exists news, objs = acc ++ news
                /\ Forall2 (fun p o =>
                     exists nc, files p = Some nc
                       /\ match o with
                          | XDataArray da =>
                              da_lat da = nc_lat nc /\ da_lon da = nc_lon nc
                          | XDataset ds => ds = nc
                          end) (p :: ps) news).
    { intros o Ho Hgrid.
      destruct (fold_M ps _ (acc ++ [o])) as [l' r'] eqn:Hrest.
      injection Ho as _ ->.
      destruct (IH _ _ Hrest) as (news & -> & Hall).
      exists (o :: news). split; [rewrite <- app_assoc; reflexivity|].
      constructor; [|exact Hall]. exists nc. auto. }
    destruct (negb (String.eqb variable "")).
    + destruct (dict_get String.eqb (nc_vars nc) variable) as [values|];
        [|discriminate].
      apply (Hone _ H). split; reflexivity.
    + apply (Hone _ H). reflexivity.
Qed.

Lemma as_data_arrays_inv (objs : list xr_object) (datasets : list DataArray) :
  as_data_arrays objs = Some datasets -> objs = map XDataArray datasets.
Proof.
  revert datasets. induction objs as [|[da|ds] objs IH]; intros datasets H;
    cbn [as_data_arrays] in H.
  - injection H as <-. reflexivity.
  - destruct (as_data_arrays objs) as [das|]; [|discriminate].
    injection H as <-. cbn [map]. rewrite (IH das eq_refl). reflexivity.
  - discriminate.
Qed.

(** ** How a sequence of steps ends *)

Lemma bind_cases {A B} (c : M A) (k : A -> M B) :
  bind c k =
  match outcome c with
  | Ok a => (log_of c ++ log_of (k a), outcome (k a))
  | Raise e => (log_of c, Raise e)
  end.
Proof.
  destruct c as [l [a|e]]; unfold bind, outcome, log_of; cbn [fst snd];
    [destruct (k a)|]; reflexivity.
Qed.

Lemma try_except_cases {A} (c : M A) (h : exn -> M A) :
  try_except c h =
  match outcome c with
  | Ok a => (log_of c, Ok a)
  | Raise e => (log_of c ++ log_of (h e), outcome (h e))
  end.
Proof.
  destruct c as [l [a|e]]; unfold try_except, outcome, log_of; cbn [fst snd];
    [|destruct (h e)]; reflexivity.
Qed.

Lemma bind_raise_inv {A B} (c : M A) (k : A -> M B) (e : exn) :
  outcome (bind c k) = Raise e ->
  outcome c = Raise e \/ exists a, outcome c = Ok a /\ outcome (k a) = Raise e.
Proof.
  rewrite bind_cases. destruct (outcome c) as [a|e']; unfold outcome at 1;
    cbn [snd]; intro H; [right; exists a; auto|left; congruence].
Qed.

Lemma bind_ok_inv {A B} (c : M A) (k : A -> M B) (b : B) :
  outcome (bind c k) = Ok b ->
  exists a, outcome c = Ok a /\ outcome (k a) = Ok b.
Proof.
  rewrite bind_cases. destruct (outcome c) as [a|e']; unfold outcome at 1;
    cbn [snd]; intro H; [exists a; auto|discriminate].
Qed.

(** A loop raises what one of its iterations raises. *)
Lemma fold_M_raise {A S} (P : exn -> Prop) (body : S -> A -> M S) (xs : list A) :
  (forall acc x e, In x xs -> outcome (body acc x) = Raise e -> P e) ->
  forall acc e, outcome (fold_M xs body acc) = Raise e -> P e.
Proof.
  induction xs as [|x xs IH]; intros Hbody acc e H.
  - discriminate.
  - cbn [fold_M] in H. apply bind_raise_inv in H.
    destruct H as [H|(a & _ & H)].
    + apply (Hbody acc x e); [left; reflexivity|exact H].
    + apply (IH (fun acc x e Hin => Hbody acc x e (or_intror Hin)) a e H).
Qed.

(** ** The coordinate check, case by case *)

Lemma np_allclose_raise (a b : list Qc) (atol : Qc) (e : exn) :
  np_allclose a b atol = Raise e -> e = ValueError_Broadcast.
Proof.
  unfold np_allclose, np_broadcast.
  destruct (length a =? length b)%nat; [discriminate|].
  destruct a as [|x [|x' a]]; destruct b as [|y [|y' b]];
    try discriminate; intros [= <-]; reflexivity.
Qed.

Lemma check_coords_cases (first_lat first_lon : list Qc) (i : nat) (da : DataArray) :
  check_coords first_lat first_lon (i, da) =
  ([],
   match np_allclose (da_lat da) first_lat tol_abs with
   | Raise e => Raise e
   | Ok lat_match =>
       match np_allclose (da_lon da) first_lon tol_abs with
       | Raise e => Raise e
       | Ok lon_match =>
           if negb (lat_match && lon_match)
           then Raise (ValueError_CoordinateMismatch (i + 1))
           else Ok tt
       end
   end).
Proof.
  unfold check_coords.
  destruct (np_allclose (da_lat da) first_lat tol_abs) as [b1|e]; [|reflexivity].
  destruct (np_allclose (da_lon da) first_lon tol_abs) as [b2|e]; [|reflexivity].
  unfold lift, bind, ret, raise. cbv beta iota.
  destruct (negb (b1 && b2)); reflexivity.
Qed.

(** The loop of the coordinate check prints nothing; when it raises, it
    raises numpy's broadcast error or the mismatch error that names the
    first file whose arrays [np.allclose] does not accept. *)
Lemma check_loop_cases (first_lat first_lon : list Qc) (start : nat)
    (others : list DataArray) :
  log_of (for_each (enumerate start others) (check_coords first_lat first_lon)) = []
  /\ forall e,
       outcome (for_each (enumerate start others)
                  (check_coords first_lat first_lon)) = Raise e ->
       e = ValueError_Broadcast
       \/ exists i da,
            e = ValueError_CoordinateMismatch (start + i + 1)
            /\ nth_error others i = Some da
            /\ ~ (np_allclose (da_lat da) first_lat tol_abs = Ok true
                  /\ np_allclose (da_lon da) first_lon tol_abs = Ok true).
Proof.
  revert start. induction others as [|da others IH]; intro start.
  - split; [reflexivity|discriminate].
  - rewrite enumerate_cons. cbn [for_each]. rewrite bind_cases.
    rewrite check_coords_cases. unfold outcome at 1 3, log_of at 1 2 4.
    cbn [fst snd app].
    destruct (IH (S start)) as [Hlog Hraise].
    destruct (np_allclose (da_lat da) first_lat tol_abs) as [b1|e1] eqn:E1.
    2: { cbn [fst snd]. split; [reflexivity|]. intros e [= <-]. left.
         eapply np_allclose_raise; eauto. }
    destruct (np_allclose (da_lon da) first_lon tol_abs) as [b2|e2] eqn:E2.
    2: { cbn [fst snd]. split; [reflexivity|]. intros e [= <-]. left.
         eapply np_allclose_raise; eauto. }
    destruct (negb (b1 && b2)) eqn:Eb; cbn [fst snd].
    + split; [reflexivity|]. intros e [= <-]. right. exists O, da.
      split; [f_equal; lia|]. split; [reflexivity|].
      intros [H1 H2]. rewrite E1 in H1. rewrite E2 in H2.
      injection H1 as ->. injection H2 as ->. discriminate.
    + split; [exact Hlog|]. intros e He.
      destruct (Hraise e He) as [Hb|(i & dai & -> & Hi & Hno)]; [left; exact Hb|].
      right. exists (S i), dai. split; [f_equal; lia|]. split; assumption.
Qed.

(** ** The exceptions of the merge *)

Lemma xr_concat_time_raise (datasets : list DataArray) (e : exn) :
  xr_concat_time datasets = Raise e -> e = ValueError_Alignment.
Proof.
  unfold xr_concat_time. destruct (forallb _ datasets); [discriminate|].
  intros [= <-]. reflexivity.
Qed.

Lemma years_step_raise (datasets : list DataArray) (acc : list Z) (iy : nat * Z)
    (e : exn) :
  outcome (years_step datasets acc iy) = Raise e ->
  e = IndexError /\ (length datasets <= fst iy)%nat.
Proof.
  destruct iy as [i y]. unfold years_step.
  destruct (nth_error datasets i) eqn:E; [discriminate|].
  intros [= <-]. split; [reflexivity|]. apply nth_error_None, E.
Qed.

Lemma in_enumerate {A} (start : nat) (xs : list A) (i : nat) (x : A) :
  In (i, x) (enumerate start xs) -> (start <= i < start + length xs)%nat.
Proof.
  unfold enumerate. intro H. apply in_combine_l in H. apply in_seq in H. exact H.
Qed.

(** What the merge of the arrays read can raise: numpy's broadcast error
    or the mismatch error from the coordinate check, xarray's alignment
    error from the concatenation, or IndexError from the labelling when
    there are more year labels than files. *)
Lemma merge_datasets_raise (datasets : list DataArray) (years : option (list Z))
    (e : exn) :
  outcome (merge_datasets datasets years) = Raise e ->
  e = ValueError_Broadcast
  \/ (exists i da d0,
        e = ValueError_CoordinateMismatch (i + 2)
        /\ nth_error datasets 0 = Some d0
        /\ nth_error datasets (S i) = Some da
        /\ ~ (np_allclose (da_lat da) (da_lat d0) tol_abs = Ok true
              /\ np_allclose (da_lon da) (da_lon d0) tol_abs = Ok true))
  \/ e = ValueError_Alignment
  \/ (e = IndexError
      /\ exists ys, years = Some ys /\ (length datasets < length ys)%nat).
Proof.
  unfold merge_datasets. intro H. apply bind_raise_inv in H.
  destruct H as [H|(_ & _ & H)].
  - destruct (1 <? length datasets)%nat; [|discriminate].
    destruct datasets as [|d0 others]; [discriminate|]. cbn [tl nth] in H.
    destruct (check_loop_cases (da_lat d0) (da_lon d0) 1 others) as [_ Hraise].
    destruct (Hraise e H) as [Hb|(i & da & -> & Hi & Hno)]; [left; exact Hb|].
    right. left. exists i, da, d0.
    split; [f_equal; lia|]. split; [reflexivity|]. split; assumption.
  - apply bind_raise_inv in H. destruct H as [H|(merged & _ & H)].
    + right. right. left. eapply xr_concat_time_raise. exact H.
    + apply bind_raise_inv in H. destruct H as [H|(ty & _ & H)]; [|discriminate].
      right. right. right.
      destruct years as [[|y ys]|].
      * destruct (pd_to_datetime_years (da_time merged)); discriminate.
      * assert (HP : e = IndexError /\ (length datasets < length (y :: ys))%nat).
        { revert H.
          apply (fold_M_raise
                   (fun e => e = IndexError
                             /\ (length datasets < length (y :: ys))%nat)).
          intros acc [i yi] e' Hin He'.
          apply years_step_raise in He'. destruct He' as [-> Hlen].
          apply in_enumerate in Hin. cbn [fst] in Hlen.
          split; [reflexivity|]. lia. }
        destruct HP as [-> Hlen]. split; [reflexivity|].
        exists (y :: ys). split; [reflexivity|exact Hlen].
      * destruct (pd_to_datetime_years (da_time merged)); discriminate.
Qed.

(* ================================================================== *)
(** * The two coordinate checks *)
(* ================================================================== *)

(** The tolerance of the merge is at least the 0.01 of the lightweight
    check. *)
Lemma tolerance_at_ge (ref : Qc) : (tol_abs <= tolerance_at ref)%Qc.
Proof.
  unfold tolerance_at.
  assert (H0 : (0 <= np_default_rtol * Qcabs ref)%Qc).
  { replace 0%Qc with (0 * Qcabs ref)%Qc by ring.
    apply Qcmult_le_compat_r; [|apply Qcabs_nonneg].
    unfold Qcle. vm_compute. discriminate. }
  replace tol_abs with (tol_abs + 0)%Qc at 1 by ring.
  apply Qcplus_le_compat; [apply Qcle_refl|exact H0].
Qed.

Lemma strictly_close_within (a ref : list Qc) :
  strictly_close a ref -> within_tolerance a ref.
Proof.
  intros (Hlen & _ & Hall). split; [exact Hlen|]. intros p Hp.
  eapply Qcle_trans; [apply Qclt_le_weak, Hall, Hp|apply tolerance_at_ge].
Qed.

Lemma validate_loop_all_accept (files : ncfiles) (ref : NcFile)
    (paths : list FilePath) :
  (forall i, (i < length paths)%nat ->
     exists nc, opens_at files paths i nc /\ light_accepts ref nc) ->
  validate_loop files (nc_lat ref) (nc_lon ref) paths
  = (map EvOpenNc paths, Ok true).
Proof.
  induction paths as [|p rest IH]; intro Hall; [reflexivity|].
  destruct (Hall O) as (nc & (q & Hq & Hf) & Hacc); [simpl; lia|].
  cbn [nth_error] in Hq. injection Hq as <-.
  rewrite (validate_loop_accept files ref nc p rest Hf Hacc).
  rewrite IH; [reflexivity|].
  intros i Hi. apply (Hall (S i)). simpl. lia.
Qed.

Lemma Forall2_nth_error {A B} (R : A -> B -> Prop) (l1 : list A) (l2 : list B)
    (k : nat) (y : B) :
  Forall2 R l1 l2 -> nth_error l2 k = Some y ->
  exists x, nth_error l1 k = Some x /\ R x y.
Proof.
  intro H. revert k. induction H as [|x0 y0 l1 l2 Hxy _ IH]; intros k Hk.
  - destruct k; discriminate.
  - destruct k as [|k]; cbn [nth_error] in *.
    + injection Hk as <-. exists x0. auto.
    + apply IH, Hk.
Qed.

(** X6. When the first file opens and each of the files at positions 1
    to 4 opens with a grid the lightweight check accepts (arrays of the
    first file's lengths, none empty, every label less than 0.01 from the
    first file's), the lightweight check returns True without printing
    anything, having opened the first five paths in order; and the merge
    of the same paths cannot raise the "Coordinate mismatch" error for any
    of the first five files, whatever the variable and the year labels:
    what the lightweight check accepts, the check of the merge accepts. *)
Theorem lightweight_pass_covers_merge_check
    (files : ncfiles) (file_paths : list FilePath) (ref : NcFile) :
  (2 <= length file_paths)%nat ->
  opens_at files file_paths 0 ref ->
  (forall i, (1 <= i < Nat.min 5 (length file_paths))%nat ->
     exists nc, opens_at files file_paths i nc /\ light_accepts ref nc) ->
  validate_coordinate_consistency true files file_paths
  = (map EvOpenNc (firstn 5 file_paths), Ok true)
  /\ forall variable years n,
       (n <= 5)%nat ->
       outcome (merge_nc_files files file_paths variable years)
       <> Raise (ValueError_CoordinateMismatch n).
Proof.
  intros Hlen (p0 & Hp0 & Hf0) Hall. split.
  - unfold validate_coordinate_consistency.
    destruct (Nat.ltb_spec (length file_paths) 2) as [Hlt|_]; [lia|].
    rewrite validate_try_cases.
    destruct file_paths as [|q0 rest]; [discriminate|].
    cbn [nth_error] in Hp0. injection Hp0 as ->. rewrite Hf0. cbv zeta.
    rewrite compared_paths, validate_loop_all_accept.
    + reflexivity.
    + intros i Hi. rewrite length_firstn in Hi.
      destruct (Hall (S i)) as (nc & Hopen & Hacc); [cbn [length]; lia|].
      exists nc. split; [|exact Hacc].
      apply (opens_at_compared files p0). split; [cbn [length]; lia|exact Hopen].
  - intros variable years n Hn Hraise.
    unfold merge_nc_files in Hraise.
    destruct file_paths as [|q0 rest] eqn:Epaths; [discriminate|].
    rewrite <- Epaths in *. apply bind_raise_inv in Hraise.
    destruct Hraise as [Hraise|(objs & Hobjs & Hraise)].
    + assert (Hne : ValueError_CoordinateMismatch n
                    <> ValueError_CoordinateMismatch n).
      { eapply (fold_M_raise (fun e => e <> ValueError_CoordinateMismatch n));
          [|exact Hraise].
        intros acc p e _ He. cbv beta in He. rewrite read_step_cases in He.
        unfold outcome at 1 in He. cbn [snd] in He.
        destruct (outcome (read_nc_file files p variable)); [discriminate|].
        injection He as <-. discriminate. }
      apply Hne. reflexivity.
    + destruct (as_data_arrays objs) as [datasets|] eqn:Eas; [|discriminate].
      apply as_data_arrays_inv in Eas. subst objs.
      destruct (fold_M file_paths _ []) as [l r] eqn:Eloop.
      unfold outcome in Hobjs. cbn [snd] in Hobjs. subst r.
      apply read_loop_inv in Eloop. destruct Eloop as (news & Enews & Hread).
      cbn [app] in Enews. subst news.
      apply merge_datasets_raise in Hraise.
      destruct Hraise as [H|[(i & da & d0 & H & Hd0 & Hda & Hno)|[H|[H _]]]];
        try discriminate.
      injection H as ->. apply Hno. clear Hno.
      assert (Hlen2 : length file_paths = length datasets).
      { apply Forall2_length in Hread. rewrite length_map in Hread. exact Hread. }
      assert (Hi : (S i < length datasets)%nat).
      { apply nth_error_Some. congruence. }
      destruct (Forall2_nth_error _ _ _ O (XDataArray d0) Hread)
        as (q & Hq & nc0 & Hfq & Hlat0 & Hlon0).
      { rewrite nth_error_map, Hd0. reflexivity. }
      destruct (Forall2_nth_error _ _ _ (S i) (XDataArray da) Hread)
        as (q' & Hq' & nc & Hfq' & Hlat & Hlon).
      { rewrite nth_error_map, Hda. reflexivity. }
      rewrite Hp0 in Hq. injection Hq as <-.
      rewrite Hf0 in Hfq. injection Hfq as <-.
      destruct (Hall (S i)) as (nc' & (q'' & Hq'' & Hfq'') & Hlat' & Hlon');
        [lia|].
      rewrite Hq' in Hq''. injection Hq'' as <-.
      rewrite Hfq' in Hfq''. injection Hfq'' as <-.
      rewrite Hlat0, Hlon0, Hlat, Hlon.
      split; apply np_allclose_within, strictly_close_within; assumption.
Qed.

Lemma lightweight_pass_covers_merge_check_witness :
  validate_coordinate_consistency true (sample_files file_2036)
    [path_2035; path_2036]
  = (map EvOpenNc (firstn 5 [path_2035; path_2036]), Ok true)
  /\ forall variable years n,
       (n <= 5)%nat ->
       outcome (merge_nc_files (sample_files file_2036) [path_2035; path_2036]
                  variable years)
       <> Raise (ValueError_CoordinateMismatch n).
Proof.
  apply (lightweight_pass_covers_merge_check (sample_files file_2036)
           [path_2035; path_2036] file_2035).
  - simpl. lia.
  - exists path_2035. split; reflexivity.
  - intros i Hi. simpl in Hi. assert (Ei : i = 1%nat) by lia. subst i.
    exists file_2036. split; [exists path_2036; split; reflexivity|].
    split;
      (split; [reflexivity|]; split; [discriminate|];
       intros p Hp; destruct p as [|p];
       [unfold Qclt; vm_compute; reflexivity|simpl in Hp; lia]).
Defined.

(* ================================================================== *)
(** * Failures and labels of the merge *)
(* ================================================================== *)

Lemma fold_M_app {A S} (body : S -> A -> M S) (xs ys : list A) (acc : S) :
  fold_M (xs ++ ys) body acc
  = bind (fold_M xs body acc) (fun acc' => fold_M ys body acc').
Proof.
  revert acc. induction xs as [|x xs IH]; intro acc; cbn [app fold_M].
  - unfold bind, ret. destruct (fold_M ys body acc). reflexivity.
  - destruct (body acc x) as [l [a|e]]; unfold bind; cbv beta iota.
    + rewrite IH. unfold bind.
      destruct (fold_M xs body a) as [l1 [a1|e1]]; cbv beta iota.
      * destruct (fold_M ys body a1) as [l2 r2]. rewrite app_assoc. reflexivity.
      * reflexivity.
    + reflexivity.
Qed.

(** X7. The merge reads the files in order and stops at the first one it
    cannot read: when the files before it are read and that file cannot
    be opened or does not hold the variable, the merge raises a
    RuntimeError that names the file and wraps the cause (the failure to
    open, or the "Variable not found" ValueError), and no later file is
    opened: the log holds the openings up to that file and nothing else. *)
Theorem merge_stops_at_unreadable_file
    (files : ncfiles) (variable : string) (years : option (list Z))
    (before : list FilePath) (read : list DataArray)
    (p : FilePath) (after : list FilePath) :
  variable <> "" ->
  Forall2 (reads files variable) before read ->
  files p = None
  \/ (exists nc, files p = Some nc
        /\ dict_get String.eqb (nc_vars nc) variable = None) ->
  let run := merge_nc_files files (before ++ p :: after) variable years in
  let cause := match files p with
               | None => OSError_CannotOpen p
               | Some _ => ValueError_VariableNotFound variable p
               end in
  outcome run = Raise (RuntimeError_ReadingFile p cause)
  /\ log_of run = map EvOpenDataset (before ++ [p])
  /\ forall q, In (EvOpenDataset q) (log_of run) -> In q (before ++ [p]).
Proof.
  intros Hv Hread Hbad run cause.
  assert (E : run = (map EvOpenDataset (before ++ [p]),
                     Raise (RuntimeError_ReadingFile p cause))).
  { unfold run, merge_nc_files.
    destruct (before ++ p :: after) as [|q0 qs] eqn:Epaths.
    { destruct before; discriminate. }
    rewrite <- Epaths. rewrite fold_M_app.
    rewrite (read_loop files variable before read [] Hv Hread).
    unfold bind at 2. cbv beta iota. cbn [fold_M app]. cbv beta.
    rewrite read_step_cases, read_nc_file_cases.
    unfold outcome. cbn [snd].
    assert (Hr : match files p with
                 | None => Raise (OSError_CannotOpen p)
                 | Some ds =>
                     if negb (String.eqb variable "") then
                       match dict_get String.eqb (nc_vars ds) variable with
                       | None => Raise (ValueError_VariableNotFound variable p)
                       | Some values =>
                           Ok (XDataArray
                                 (mkDA (nc_time ds) (nc_lat ds) (nc_lon ds) values))
                       end
                     else Ok (XDataset ds)
                 end = @Raise xr_object cause).
    { unfold cause. destruct Hbad as [->|(nc & -> & Hg)]; [reflexivity|].
      destruct (String.eqb_spec variable "") as [Ee|_]; [contradiction|].
      cbn [negb]. rewrite Hg. reflexivity. }
    rewrite Hr. unfold bind. cbv beta iota. rewrite map_app. reflexivity. }
  rewrite E. unfold outcome, log_of. cbn [fst snd].
  split; [reflexivity|]. split; [reflexivity|].
  intros q Hq. apply in_map_iff in Hq. destruct Hq as (q' & [= ->] & Hq).
  exact Hq.
Qed.

Lemma merge_stops_at_unreadable_file_witness :
  let files := sample_files file_2036 in
  let p := mkPath "in" "tasmax_2037_a.nc" in
  let run := merge_nc_files files ([path_2035] ++ p :: [path_2036]) "tasmax"
               (Some [2035; 2037; 2036]) in
  let cause := match files p with
               | None => OSError_CannotOpen p
               | Some _ => ValueError_VariableNotFound "tasmax" p
               end in
  outcome run = Raise (RuntimeError_ReadingFile p cause)
  /\ log_of run = map EvOpenDataset ([path_2035] ++ [p])
  /\ forall q, In (EvOpenDataset q) (log_of run) -> In q ([path_2035] ++ [p]).
Proof.
  intros files p.
  apply (merge_stops_at_unreadable_file files "tasmax" (Some [2035; 2037; 2036])
           [path_2035]
           [data_array_of file_2035 [[[Num (Qc_of_Z 1)]]; [[Num (Qc_of_Z 2)]]]]
           p [path_2036]).
  - discriminate.
  - constructor; [|constructor].
    exists file_2035, [[[Num (Qc_of_Z 1)]]; [[Num (Qc_of_Z 2)]]]. repeat split.
  - left. reflexivity.
Defined.

(** With a variable name, a completed reading loop has read the variable
    from every file. *)
Lemma read_loop_inv_var (files : ncfiles) (variable : string)
    (file_paths : list FilePath) (acc objs : list xr_object) (l : list event) :
  variable <> "" ->
  fold_M file_paths
    (fun acc file_path =>
       try_except
         (da <- read_nc_file files file_path variable ;; ret (acc ++ [da]))
         (fun e => raise (RuntimeError_ReadingFile file_path e)))
    acc
  = (l, Ok objs) ->
  exists datasets,
    objs = acc ++ map XDataArray datasets
    /\ Forall2 (reads files variable) file_paths datasets.
Proof.
  intro Hv. revert acc l. induction file_paths as [|p ps IH]; intros acc l H.
  - cbn [fold_M] in H. unfold ret in H. injection H as _ <-.
    exists []. split; [symmetry; apply app_nil_r|constructor].
  - cbn [fold_M] in H. rewrite read_step_cases in H.
    rewrite read_nc_file_cases in H. unfold outcome in H. cbn [snd] in H.
    unfold bind in H.
    destruct (files p) as [nc|] eqn:Hf; [|discriminate].
    destruct (String.eqb_spec variable "") as [Ee|_]; [contradiction|].
    cbn [negb] in H.
    destruct (dict_get String.eqb (nc_vars nc) variable) as [values|] eqn:Hg;
      [|discriminate].
    destruct (fold_M ps _ _) as [l' r'] eqn:Hrest.
    injection H as _ ->.
    destruct (IH _ _ Hrest) as (datasets & -> & Hall).
    exists (mkDA (nc_time nc) (nc_lat nc) (nc_lon nc) values :: datasets).
    split; [rewrite <- app_assoc; reflexivity|].
    constructor; [|exact Hall]. exists nc, values. auto.
Qed.

(** X8. The exceptions of the merge, with a variable name given. The
    merge raises "No file paths provided" for an empty list; a
    RuntimeError naming a file of the list and wrapping the cause, when
    that file cannot be opened or lacks the variable; numpy's broadcast
    error or the "Coordinate mismatch" ValueError, numbered from 2 up to
    the number of files, from the coordinate check; xarray's alignment
    error from the concatenation; or IndexError, only when there are more
    year labels than files. It raises nothing else. *)
Theorem merge_failure_modes
    (files : ncfiles) (file_paths : list FilePath) (variable : string)
    (years : option (list Z)) (e : exn) :
  variable <> "" ->
  outcome (merge_nc_files files file_paths variable years) = Raise e ->
  (file_paths = [] /\ e = ValueError_NoFilePaths)
  \/ (exists p cause,
        In p file_paths /\ e = RuntimeError_ReadingFile p cause
        /\ ((files p = None /\ cause = OSError_CannotOpen p)
            \/ (exists nc, files p = Some nc
                  /\ dict_get String.eqb (nc_vars nc) variable = None
                  /\ cause = ValueError_VariableNotFound variable p)))
  \/ e = ValueError_Broadcast
  \/ (exists n, e = ValueError_CoordinateMismatch n
        /\ (2 <= n <= length file_paths)%nat)
  \/ e = ValueError_Alignment
  \/ (e = IndexError
      /\ exists ys, years = Some ys /\ (length file_paths < length ys)%nat).
Proof.
  intros Hv Hraise. unfold merge_nc_files in Hraise.
  destruct file_paths as [|q0 rest] eqn:Epaths.
  { left. injection Hraise as <-. auto. }
  rewrite <- Epaths in *. right.
  apply bind_raise_inv in Hraise.
  destruct Hraise as [Hraise|(objs & Hobjs & Hraise)].
  - left. revert Hraise.
    apply (fold_M_raise
             (fun e => exists p cause,
                In p file_paths /\ e = RuntimeError_ReadingFile p cause
                /\ ((files p = None /\ cause = OSError_CannotOpen p)
                    \/ (exists nc, files p = Some nc
                          /\ dict_get String.eqb (nc_vars nc) variable = None
                          /\ cause = ValueError_VariableNotFound variable p)))).
    intros acc p e' Hin He. cbv beta in He. rewrite read_step_cases in He.
    rewrite read_nc_file_cases in He. unfold outcome in He. cbn [snd] in He.
    destruct (files p) as [nc|] eqn:Hf.
    + destruct (String.eqb_spec variable "") as [Ee|_]; [contradiction|].
      cbn [negb] in He.
      destruct (dict_get String.eqb (nc_vars nc) variable) eqn:Hg; [discriminate|].
      injection He as <-. exists p, (ValueError_VariableNotFound variable p).
      split; [exact Hin|]. split; [reflexivity|]. right. exists nc. auto.
    + injection He as <-. exists p, (OSError_CannotOpen p).
      split; [exact Hin|]. split; [reflexivity|]. left. auto.
  - right.
    destruct (fold_M file_paths _ []) as [l r] eqn:Eloop.
    unfold outcome in Hobjs. cbn [snd] in Hobjs. subst r.
    apply (read_loop_inv_var files variable file_paths [] objs l Hv) in Eloop.
    destruct Eloop as (datasets & -> & Hread). cbn [app] in Hraise.
    rewrite as_data_arrays_map in Hraise.
    assert (Hlen : length file_paths = length datasets).
    { eapply Forall2_length; eauto. }
    apply merge_datasets_raise in Hraise.
    destruct Hraise as [H|[(i & da & d0 & H & _ & Hda & _)|[H|(H & ys & Hy & Hl)]]].
    + left. exact H.
    + right. left. exists (i + 2)%nat. split; [exact H|].
      assert (Hi : (S i < length datasets)%nat).
      { apply nth_error_Some. congruence. }
      lia.
    + right. right. left. exact H.
    + right. right. right. split; [exact H|]. exists ys.
      split; [exact Hy|]. lia.
Qed.

Lemma merge_failure_modes_witness :
  let files := sample_files file_far in
  let file_paths := [path_2035; path_2036] in
  let e := ValueError_CoordinateMismatch 2 in
  (file_paths = [] /\ e = ValueError_NoFilePaths)
  \/ (exists p cause,
        In p file_paths /\ e = RuntimeError_ReadingFile p cause
        /\ ((files p = None /\ cause = OSError_CannotOpen p)
            \/ (exists nc, files p = Some nc
                  /\ dict_get String.eqb (nc_vars nc) "tasmax" = None
                  /\ cause = ValueError_VariableNotFound "tasmax" p)))
  \/ e = ValueError_Broadcast
  \/ (exists n, e = ValueError_CoordinateMismatch n
        /\ (2 <= n <= length file_paths)%nat)
  \/ e = ValueError_Alignment
  \/ (e = IndexError
      /\ exists ys, Some [2035; 2036] = Some ys
           /\ (length file_paths < length ys)%nat).
Proof.
  intros files file_paths e.
  apply (merge_failure_modes files file_paths "tasmax" (Some [2035; 2036]) e).
  - discriminate.
  - vm_compute. reflexivity.
Defined.

(** ** Labels when no years are supplied *)

Lemma pd_to_datetime_years_some (ts : list tstamp) (ys : list Z) :
  pd_to_datetime_years ts = Some ys <-> Forall2 (fun t y => t = Datetime y) ts ys.
Proof.
  revert ys. induction ts as [|[y|] ts IH]; intro ys; cbn [pd_to_datetime_years].
  - split; [intros [= <-]; constructor|intro H; inversion H; reflexivity].
  - split.
    + destruct (pd_to_datetime_years ts) as [ys'|]; [|discriminate].
      intros [= <-]. constructor; [reflexivity|]. apply IH. reflexivity.
    + intro H. inversion H as [|? y' ? ys' Hy Hrest]; subst.
      injection Hy as <-. apply IH in Hrest. rewrite Hrest. reflexivity.
  - split; [discriminate|]. intro H. inversion H; discriminate.
Qed.

Lemma pd_to_datetime_years_none (ts : list tstamp) :
  pd_to_datetime_years ts = None <-> In CFTime ts.
Proof.
  induction ts as [|[y|] ts IH]; cbn [pd_to_datetime_years].
  - split; [discriminate|intros []].
  - destruct (pd_to_datetime_years ts) as [ys|].
    + split; [discriminate|]. intros [H|H]; [discriminate|].
      apply IH in H. discriminate.
    + split; [|reflexivity]. intros _. right. apply IH. reflexivity.
  - split; [left; reflexivity|reflexivity].
Qed.

(** The last-resort labels are the labels 2000, 2001, ... supplied one
    per file. *)
Lemma sequential_years_from (start : nat) (datasets : list DataArray) :
  concat (map (fun id => repeat (2000 + Z.of_nat (fst id)) (da_len (snd id)))
              (enumerate start datasets))
  = replicated_years datasets
      (map (fun k => 2000 + Z.of_nat k) (seq start (length datasets))).
Proof.
  revert start. induction datasets as [|d ds IH]; intro start; [reflexivity|].
  rewrite enumerate_cons. unfold replicated_years in *.
  cbn [length seq map combine concat fst snd]. rewrite IH. reflexivity.
Qed.

Lemma merge_datasets_no_years (d0 : DataArray) (others : list DataArray)
    (years : option (list Z)) :
  Forall (grid_within_tolerance d0) others ->
  grids_alignable (d0 :: others) ->
  years = None \/ years = Some [] ->
  exists merged,
    xr_concat_time (d0 :: others) = Ok merged
    /\ merge_datasets (d0 :: others) years
       = match pd_to_datetime_years (da_time merged) with
         | Some ys => ([], Ok (merged, ys))
         | None => ([EvPrint Warn_SequentialYears],
                    Ok (merged, sequential_years (d0 :: others)))
         end.
Proof.
  intros Hclose Huniq Hyears.
  destruct (xr_concat_time_ok _ Huniq) as (merged & Hm & _).
  exists merged. split; [exact Hm|].
  unfold merge_datasets. cbn [tl nth].
  assert (Hcheck : (if (1 <? length (d0 :: others))%nat
                    then for_each (enumerate 1 others)
                           (check_coords (da_lat d0) (da_lon d0))
                    else ret tt) = ([], Ok tt)).
  { destruct (1 <? length (d0 :: others))%nat; [|reflexivity].
    apply check_loop_pass, Hclose. }
  rewrite Hcheck, Hm.
  destruct Hyears as [-> | ->]; unfold lift, bind, ret, print, emit;
    cbv beta iota;
    destruct (pd_to_datetime_years (da_time merged)); reflexivity.
Qed.

(** X9. Without year labels (none given, or an empty list) the merge
    labels the time steps from the merged time axis: when every time
    stamp is a calendar date, each time step is labelled with the year of
    its own time stamp and nothing is printed; when some time stamp
    cannot be converted, a warning is printed and every time step of file
    [k] (counted from 0) is labelled 2000 + k, whatever years the files
    hold. *)
Theorem merge_labels_without_years
    (files : ncfiles) (file_paths : list FilePath) (variable : string)
    (years : option (list Z)) (d0 : DataArray) (others : list DataArray) :
  variable <> "" ->
  Forall2 (reads files variable) file_paths (d0 :: others) ->
  Forall (grid_within_tolerance d0) others ->
  grids_alignable (d0 :: others) ->
  years = None \/ years = Some [] ->
  let datasets := d0 :: others in
  let times := concat (map da_time datasets) in
  let run := merge_nc_files files file_paths variable years in
  exists merged time_years,
    outcome run = Ok (merged, time_years)
    /\ da_time merged = times
    /\ ((forall t, In t times -> exists y, t = Datetime y) ->
        Forall2 (fun t y => t = Datetime y) times time_years
        /\ ~ In (EvPrint Warn_SequentialYears) (log_of run))
    /\ (In CFTime times ->
        In (EvPrint Warn_SequentialYears) (log_of run)
        /\ length time_years = da_len merged
        /\ forall k d t,
             nth_error datasets k = Some d -> (t < da_len d)%nat ->
             nth_error time_years (time_offset datasets k + t)
             = Some (2000 + Z.of_nat k)).
Proof.
  intros Hv Hreads Hclose Huniq Hyears datasets times run.
  assert (Hne : file_paths <> []).
  { inversion Hreads; discriminate. }
  destruct (merge_datasets_no_years d0 others years Hclose Huniq Hyears)
    as (merged & Hm & Hmerge).
  destruct (xr_concat_time_ok _ Huniq)
    as (merged' & Hm' & Htime & _ & Hsum & _).
  rewrite Hm in Hm'. injection Hm' as <-.
  fold datasets times in Htime.
  unfold run.
  rewrite (merge_nc_files_read files file_paths variable years
             (d0 :: others) Hne Hv Hreads).
  rewrite Hmerge, Htime. unfold outcome at 1, log_of at 1 3. cbn [fst snd].
  destruct (pd_to_datetime_years times) as [ys|] eqn:Epd.
  - exists merged, ys. unfold outcome, log_of. cbn [fst snd].
    split; [reflexivity|]. split; [exact Htime|]. split.
    + intros _. split; [apply pd_to_datetime_years_some, Epd|].
      rewrite app_nil_r. intro Hin. apply in_map_iff in Hin.
      destruct Hin as (q & Hq & _). discriminate.
    + intro Hcf. apply pd_to_datetime_years_none in Hcf. congruence.
  - exists merged, (sequential_years (d0 :: others)).
    unfold outcome, log_of. cbn [fst snd].
    split; [reflexivity|]. split; [exact Htime|]. split.
    + intro Hall. exfalso. apply pd_to_datetime_years_none in Epd.
      destruct (Hall _ Epd) as [y Hy]. discriminate.
    + intros _. split; [apply in_or_app; right; left; reflexivity|].
      unfold sequential_years. rewrite sequential_years_from.
      split.
      * rewrite Hsum. apply replicated_years_length.
        rewrite length_map, length_seq. reflexivity.
      * intros k d t Hd Ht. apply (replicated_years_nth _ _ _ _ d); try assumption.
        assert (Hk : (k < length (d0 :: others))%nat).
        { apply nth_error_Some. unfold datasets in Hd. congruence. }
        rewrite nth_error_map.
        rewrite (nth_error_nth' _ O) by (rewrite length_seq; exact Hk).
        rewrite seq_nth by exact Hk. reflexivity.
Qed.

Lemma merge_labels_without_years_witness :
  let files := sample_files file_2036 in
  let d0 := data_array_of file_2035 [[[Num (Qc_of_Z 1)]]; [[Num (Qc_of_Z 2)]]] in
  let d1 := data_array_of file_2036
              [[[Num (Qc_of_Z 3)]]; [[Num (Qc_of_Z 4)]]; [[Num (Qc_of_Z 5)]]] in
  let datasets := [d0; d1] in
  let times := concat (map da_time datasets) in
  let run := merge_nc_files files [path_2035; path_2036] "tasmax" None in
  exists merged time_years,
    outcome run = Ok (merged, time_years)
    /\ da_time merged = times
    /\ ((forall t, In t times -> exists y, t = Datetime y) ->
        Forall2 (fun t y => t = Datetime y) times time_years
        /\ ~ In (EvPrint Warn_SequentialYears) (log_of run))
    /\ (In CFTime times ->
        In (EvPrint Warn_SequentialYears) (log_of run)
        /\ length time_years = da_len merged
        /\ forall k d t,
             nth_error datasets k = Some d -> (t < da_len d)%nat ->
             nth_error time_years (time_offset datasets k + t)
             = Some (2000 + Z.of_nat k)).
Proof.
  intros files d0 d1 datasets times run.
  apply (merge_labels_without_years files [path_2035; path_2036] "tasmax"
           None d0 [d1]).
  - discriminate.
  - apply sample_reads. reflexivity.
  - constructor; [|constructor].
    split; one_label_within.
  - split; left; repeat constructor.
  - left. reflexivity.
Defined.

(** ** Labels when their number differs from the number of files *)

Lemma years_loop_short (pre rest : list DataArray) (years : list Z) (acc : list Z) :
  (length years <= length rest)%nat ->
  fold_M (enumerate (length pre) years) (years_step (pre ++ rest)) acc
  = ([], Ok (acc ++ replicated_years rest years)).
Proof.
  revert pre rest acc. induction years as [|y years IH]; intros pre rest acc Hlen.
  - simpl. unfold ret, replicated_years.
    destruct rest; simpl; rewrite app_nil_r; reflexivity.
  - destruct rest as [|d rest]; [simpl in Hlen; lia|].
    rewrite enumerate_cons. cbn [fold_M]. unfold years_step at 1.
    rewrite nth_error_app2 by lia. rewrite Nat.sub_diag. cbn [nth_error].
    unfold bind, ret. cbv beta iota.
    replace (pre ++ d :: rest) with ((pre ++ [d]) ++ rest)
      by (rewrite <- app_assoc; reflexivity).
    replace (S (length pre)) with (length (pre ++ [d]))
      by (rewrite length_app; simpl; lia).
    rewrite IH by (simpl in Hlen; lia).
    unfold replicated_years. cbn [combine map concat fst snd app].
    rewrite <- app_assoc. reflexivity.
Qed.

Lemma years_loop_long (pre rest : list DataArray) (years : list Z) (acc : list Z) :
  (length rest < length years)%nat ->
  fold_M (enumerate (length pre) years) (years_step (pre ++ rest)) acc
  = ([], Raise IndexError).
Proof.
  revert pre years acc. induction rest as [|d rest IH]; intros pre years acc Hlen.
  - destruct years as [|y years]; [simpl in Hlen; lia|].
    rewrite enumerate_cons. cbn [fold_M]. unfold years_step at 1.
    rewrite app_nil_r.
    replace (nth_error pre (length pre)) with (@None DataArray)
      by (symmetry; apply nth_error_None; lia).
    reflexivity.
  - destruct years as [|y years]; [simpl in Hlen; lia|].
    rewrite enumerate_cons. cbn [fold_M]. unfold years_step at 1.
    rewrite nth_error_app2 by lia. rewrite Nat.sub_diag. cbn [nth_error].
    unfold bind, ret. cbv beta iota.
    replace (pre ++ d :: rest) with ((pre ++ [d]) ++ rest)
      by (rewrite <- app_assoc; reflexivity).
    replace (S (length pre)) with (length (pre ++ [d]))
      by (rewrite length_app; simpl; lia).
    rewrite IH by (simpl in Hlen; lia). reflexivity.
Qed.

Lemma replicated_years_short_length (datasets : list DataArray) (years : list Z) :
  length (replicated_years datasets years)
  = time_offset datasets (length years).
Proof.
  revert years. induction datasets as [|d ds IH]; intros [|y ys];
    try reflexivity.
  unfold replicated_years, time_offset in *.
  cbn [combine map concat fst snd length firstn list_sum].
  rewrite length_app, repeat_length, IH. reflexivity.
Qed.

(** X10. Year labels are matched to the files by position and their
    number is not checked against the number of files. With more labels
    than files the merge raises IndexError. With fewer labels (at least
    one) it succeeds, but only the time steps of the first files, one per
    label, are labelled: the list of labels is shorter than the merged
    time axis by the time steps of the remaining files. *)
Theorem merge_with_miscounted_years
    (files : ncfiles) (file_paths : list FilePath) (variable : string)
    (years : list Z) (d0 : DataArray) (others : list DataArray) :
  variable <> "" ->
  Forall2 (reads files variable) file_paths (d0 :: others) ->
  Forall (grid_within_tolerance d0) others ->
  grids_alignable (d0 :: others) ->
  years <> [] ->
  let datasets := d0 :: others in
  let run := merge_nc_files files file_paths variable (Some years) in
  ((length file_paths < length years)%nat -> outcome run = Raise IndexError)
  /\ ((length years <= length file_paths)%nat ->
      exists merged time_years,
        outcome run = Ok (merged, time_years)
        /\ time_years = replicated_years datasets years
        /\ length time_years = time_offset datasets (length years)
        /\ da_len merged = time_offset datasets (length datasets)
        /\ (length time_years <= da_len merged)%nat).
Proof.
  intros Hv Hreads Hclose Huniq Hyears datasets run.
  assert (Hne : file_paths <> []).
  { inversion Hreads; discriminate. }
  assert (Hlen : length file_paths = length datasets).
  { eapply Forall2_length; eauto. }
  destruct (xr_concat_time_ok _ Huniq) as (merged & Hm & _ & _ & Hsum & _).
  assert (Hcheck : (if (1 <? length (d0 :: others))%nat
                    then for_each (enumerate 1 others)
                           (check_coords (da_lat d0) (da_lon d0))
                    else ret tt) = ([], Ok tt)).
  { destruct (1 <? length (d0 :: others))%nat; [|reflexivity].
    apply check_loop_pass, Hclose. }
  assert (Hmerge : merge_datasets datasets (Some years)
                   = bind (fold_M (enumerate 0 years) (years_step datasets) [])
                          (fun time_years => ret (merged, time_years))).
  { unfold merge_datasets, datasets. cbn [tl nth]. rewrite Hcheck, Hm.
    destruct years as [|y ys]; [contradiction|].
    unfold lift, bind at 1 2. cbv beta iota.
    destruct (time_years <- fold_M (enumerate 0 (y :: ys))
                              (years_step (d0 :: others)) [] ;;
              ret (merged, time_years)) as [l r].
    reflexivity. }
  unfold run.
  rewrite (merge_nc_files_read files file_paths variable (Some years)
             (d0 :: others) Hne Hv Hreads).
  fold datasets. rewrite Hmerge. unfold outcome at 1 3. cbn [snd].
  split.
  - intro Hlong.
    assert (E : fold_M (enumerate 0 years) (years_step datasets) []
                = ([], Raise IndexError)).
    { apply (years_loop_long [] datasets years []). lia. }
    rewrite E. reflexivity.
  - intro Hshort.
    assert (E : fold_M (enumerate 0 years) (years_step datasets) []
                = ([], Ok (replicated_years datasets years))).
    { apply (years_loop_short [] datasets years []). lia. }
    rewrite E.
    exists merged, (replicated_years datasets years).
    split; [reflexivity|]. split; [reflexivity|].
    split; [apply replicated_years_short_length|].
    assert (Hall : da_len merged = time_offset datasets (length datasets)).
    { rewrite Hsum. unfold time_offset. rewrite firstn_all. reflexivity. }
    split; [exact Hall|].
    rewrite replicated_years_short_length, Hall. unfold time_offset.
    rewrite firstn_all.
    rewrite <- (firstn_skipn (length years) datasets) at 2.
    rewrite map_app, list_sum_app. lia.
Qed.

Lemma merge_with_miscounted_years_witness :
  let files := sample_files file_2036 in
  let d0 := data_array_of file_2035 [[[Num (Qc_of_Z 1)]]; [[Num (Qc_of_Z 2)]]] in
  let d1 := data_array_of file_2036
              [[[Num (Qc_of_Z 3)]]; [[Num (Qc_of_Z 4)]]; [[Num (Qc_of_Z 5)]]] in
  let datasets := [d0; d1] in
  let years := [2035] in
  let run := merge_nc_files files [path_2035; path_2036] "tasmax" (Some years) in
  ((length [path_2035; path_2036] < length years)%nat ->
   outcome run = Raise IndexError)
  /\ ((length years <= length [path_2035; path_2036])%nat ->
      exists merged time_years,
        outcome run = Ok (merged, time_years)
        /\ time_years = replicated_years datasets years
        /\ length time_years = time_offset datasets (length years)
        /\ da_len merged = time_offset datasets (length datasets)
        /\ (length time_years <= da_len merged)%nat).
Proof.
  intros files d0 d1 datasets years run.
  apply (merge_with_miscounted_years files [path_2035; path_2036] "tasmax"
           years d0 [d1]).
  - discriminate.
  - apply sample_reads. reflexivity.
  - constructor; [|constructor].
    split; one_label_within.
  - split; left; repeat constructor.
  - discriminate.
Defined.

(** ** Grids of different sizes *)

Lemma np_allclose_not_broadcastable (a b : list Qc) (atol : Qc) :
  not_broadcastable a b -> np_allclose a b atol = Raise ValueError_Broadcast.
Proof.
  intros (Hne & Ha & Hb). unfold np_allclose, np_broadcast.
  destruct (Nat.eqb_spec (length a) (length b)) as [E|_]; [contradiction|].
  destruct a as [|x [|x' a]]; destruct b as [|y [|y' b]];
    simpl in *; try reflexivity; contradiction.
Qed.

Lemma check_coords_not_broadcastable (first_lat first_lon : list Qc) (i : nat)
    (da : DataArray) :
  not_broadcastable (da_lat da) first_lat
  \/ not_broadcastable (da_lon da) first_lon ->
  check_coords first_lat first_lon (i, da) = ([], Raise ValueError_Broadcast).
Proof.
  intro H. rewrite check_coords_cases. f_equal.
  destruct (np_allclose (da_lat da) first_lat tol_abs) as [b1|e] eqn:E1.
  - destruct H as [H|H].
    + rewrite (np_allclose_not_broadcastable _ _ _ H) in E1. discriminate.
    + rewrite (np_allclose_not_broadcastable _ _ _ H). reflexivity.
  - f_equal. eapply np_allclose_raise; eauto.
Qed.

(** X11. A file whose latitude or longitude array has another length
    than the first file's (neither length being 1) does not produce the
    "Coordinate mismatch" error: when the files before it agree with the
    first file's grid, the merge fails with numpy's broadcast error
    raised inside [np.allclose], and the number of the file is not
    reported. *)
Theorem merge_grid_size_mismatch
    (files : ncfiles) (file_paths : list FilePath) (variable : string)
    (years : option (list Z))
    (d0 : DataArray) (before : list DataArray) (bad : DataArray)
    (after : list DataArray) :
  variable <> "" ->
  Forall2 (reads files variable) file_paths (d0 :: before ++ bad :: after) ->
  Forall (grid_within_tolerance d0) before ->
  not_broadcastable (da_lat bad) (da_lat d0)
  \/ not_broadcastable (da_lon bad) (da_lon d0) ->
  outcome (merge_nc_files files file_paths variable years)
  = Raise ValueError_Broadcast
  /\ forall n, outcome (merge_nc_files files file_paths variable years)
               <> Raise (ValueError_CoordinateMismatch n).
Proof.
  intros Hv Hreads Hclose Hbad.
  assert (Hne : file_paths <> []).
  { inversion Hreads; discriminate. }
  assert (E : outcome (merge_nc_files files file_paths variable years)
              = Raise ValueError_Broadcast).
  { rewrite (merge_nc_files_read files file_paths variable years _ Hne Hv Hreads).
    unfold outcome at 1. cbn [snd]. unfold merge_datasets. cbn [tl nth].
    replace (1 <? length (d0 :: before ++ bad :: after))%nat with true
      by (symmetry; apply Nat.ltb_lt; cbn [length]; rewrite length_app;
          simpl; lia).
    assert (Hloop : forall start,
              for_each (enumerate start (before ++ bad :: after))
                (check_coords (da_lat d0) (da_lon d0))
              = ([], Raise ValueError_Broadcast)).
    { clear Hreads. induction Hclose as [|da das Hda _ IH]; intro start.
      - cbn [app]. rewrite enumerate_cons. cbn [for_each].
        rewrite (check_coords_not_broadcastable _ _ _ _ Hbad). reflexivity.
      - cbn [app]. rewrite enumerate_cons. cbn [for_each].
        rewrite (check_coords_pass _ _ _ Hda). unfold bind. rewrite IH.
        reflexivity. }
    rewrite Hloop. reflexivity. }
  split; [exact E|]. intros n Hn. rewrite E in Hn. discriminate.
Qed.

Lemma merge_grid_size_mismatch_witness :
  outcome (merge_nc_files wide_files [path_2035; path_2036] "tasmax"
             (Some [2035; 2036]))
  = Raise ValueError_Broadcast
  /\ forall n, outcome (merge_nc_files wide_files [path_2035; path_2036] "tasmax"
                          (Some [2035; 2036]))
               <> Raise (ValueError_CoordinateMismatch n).
Proof.
  apply (merge_grid_size_mismatch wide_files [path_2035; path_2036] "tasmax"
           (Some [2035; 2036])
           (data_array_of file_2035_wide
              [[[Num (Qc_of_Z 1)]; [Num (Qc_of_Z 2)]]])
           []
           (data_array_of file_wide
              [[[Num (Qc_of_Z 3)]; [Num (Qc_of_Z 4)]; [Num (Qc_of_Z 5)]]])
           []).
  - discriminate.
  - constructor; [|constructor; [|constructor]].
    + exists file_2035_wide, [[[Num (Qc_of_Z 1)]; [Num (Qc_of_Z 2)]]].
      repeat split.
    + exists file_wide,
        [[[Num (Qc_of_Z 3)]; [Num (Qc_of_Z 4)]; [Num (Qc_of_Z 5)]]].
      repeat split.
  - constructor.
  - left. unfold not_broadcastable. simpl. lia.
Defined.

(* ================================================================== *)
(** * Further properties of the aggregator *)
(* ================================================================== *)

(** ** The NaN-skipping extremes *)

(** Missing values leave the accumulator as it is. *)
Lemma pick_fold_numbers (better : Qc -> Qc -> bool) (vs : list val)
    (acc : option Qc) :
  fold_left (pick_step better) vs acc
  = fold_left (fun a q => pick_step better a (Num q)) (numbers vs) acc.
Proof.
  revert acc. induction vs as [|[|q] vs IH]; intro acc; cbn [fold_left numbers].
  - reflexivity.
  - destruct acc; apply IH.
  - apply IH.
Qed.

Lemma pick_fold_max (qs : list Qc) (m : Qc) :
  exists r,
    fold_left (fun a q => pick_step (fun q m => Qcltb m q) a (Num q)) qs (Some m)
    = Some r
    /\ In r (m :: qs) /\ forall x, In x (m :: qs) -> (x <= r)%Qc.
Proof.
  revert m. induction qs as [|q qs IH]; intro m; cbn [fold_left pick_step].
  - exists m. split; [reflexivity|]. split; [left; reflexivity|].
    intros x [<-|[]]. apply Qcle_refl.
  - destruct (Qcltb m q) eqn:E.
    + destruct (IH q) as (r & Hr & Hin & Hmax). exists r.
      split; [exact Hr|]. split; [right; exact Hin|].
      intros x [<-|Hx]; [|apply Hmax, Hx].
      eapply Qcle_trans; [apply Qclt_le_weak, Qcltb_lt, E|].
      apply Hmax. left. reflexivity.
    + destruct (IH m) as (r & Hr & Hin & Hmax). exists r.
      split; [exact Hr|].
      split; [destruct Hin as [Hin|Hin]; [left|right; right]; exact Hin|].
      intros x [<-|[<-|Hx]].
      * apply Hmax. left. reflexivity.
      * eapply Qcle_trans; [apply Qcltb_ge, E|]. apply Hmax. left. reflexivity.
      * apply Hmax. right. exact Hx.
Qed.

Lemma pick_fold_min (qs : list Qc) (m : Qc) :
  exists r,
    fold_left (fun a q => pick_step (fun q m => Qcltb q m) a (Num q)) qs (Some m)
    = Some r
    /\ In r (m :: qs) /\ forall x, In x (m :: qs) -> (r <= x)%Qc.
Proof.
  revert m. induction qs as [|q qs IH]; intro m; cbn [fold_left pick_step].
  - exists m. split; [reflexivity|]. split; [left; reflexivity|].
    intros x [<-|[]]. apply Qcle_refl.
  - destruct (Qcltb q m) eqn:E.
    + destruct (IH q) as (r & Hr & Hin & Hmin). exists r.
      split; [exact Hr|]. split; [right; exact Hin|].
      intros x [<-|Hx]; [|apply Hmin, Hx].
      eapply Qcle_trans; [apply Hmin; left; reflexivity|].
      apply Qclt_le_weak, Qcltb_lt, E.
    + destruct (IH m) as (r & Hr & Hin & Hmin). exists r.
      split; [exact Hr|].
      split; [destruct Hin as [Hin|Hin]; [left|right; right]; exact Hin|].
      intros x [<-|[<-|Hx]].
      * apply Hmin. left. reflexivity.
      * eapply Qcle_trans; [apply Hmin; left; reflexivity|]. apply Qcltb_ge, E.
      * apply Hmin. right. exact Hx.
Qed.

Lemma max_of_cell (vs : list val) :
  largest_number vs
    (pick_final (fold_left (pick_step (fun q m => Qcltb m q)) vs None)).
Proof.
  rewrite pick_fold_numbers. unfold largest_number.
  destruct (numbers vs) as [|q qs]; [reflexivity|].
  cbn [fold_left].
  change (pick_step (fun q m => Qcltb m q) None (Num q)) with (Some q).
  destruct (pick_fold_max qs q) as (r & -> & Hin & Hmax).
  exists r. auto.
Qed.

Lemma min_of_cell (vs : list val) :
  smallest_number vs
    (pick_final (fold_left (pick_step (fun q m => Qcltb q m)) vs None)).
Proof.
  rewrite pick_fold_numbers. unfold smallest_number.
  destruct (numbers vs) as [|q qs]; [reflexivity|].
  cbn [fold_left].
  change (pick_step (fun q m => Qcltb q m) None (Num q)) with (Some q).
  destruct (pick_fold_min qs q) as (r & -> & Hin & Hmin).
  exists r. auto.
Qed.

(** ** The mapping of the years *)

(** The loop over the years, for a mode whose iterations all succeed. *)
Lemma extract_with (da : DataArray) (years : list Z) (mode : string)
    (agg : Z -> ndarray) (ev : Z -> list event) :
  (forall y d, aggregate_year da years mode d y
               = (ev y, Ok (dict_set Z.eqb d y (agg y)))) ->
  extract_coordinate_data da years mode
  = (flat_map ev (np_unique years),
     Ok (da_lat da, da_lon da, map (fun y => (y, agg y)) (np_unique years))).
Proof.
  intro Hstep. unfold extract_coordinate_data. cbv zeta.
  rewrite (aggregate_loop da years mode agg ev).
  - unfold bind, ret. cbn [app]. rewrite app_nil_r. reflexivity.
  - intros y d _. apply Hstep.
  - apply np_unique_spec.
  - intros y _ [].
Qed.

Lemma extract_max (da : DataArray) (years : list Z) :
  (length years <= da_len da)%nat ->
  extract_coordinate_data da years "max"
  = (flat_map (fun y => [EvReduce RedMax y]) (np_unique years),
     Ok (da_lat da, da_lon da,
         map (fun y => (y, xr_max_time_values (year_slice da years y)))
             (np_unique years))).
Proof.
  intro Hlen.
  apply (extract_with da years "max"
           (fun y => xr_max_time_values (year_slice da years y))
           (fun y => [EvReduce RedMax y])).
  intros y d. unfold aggregate_year.
  rewrite year_indices_spec, isel_year by exact Hlen. reflexivity.
Qed.

Lemma extract_min (da : DataArray) (years : list Z) :
  (length years <= da_len da)%nat ->
  extract_coordinate_data da years "min"
  = (flat_map (fun y => [EvReduce RedMin y]) (np_unique years),
     Ok (da_lat da, da_lon da,
         map (fun y => (y, xr_min_time_values (year_slice da years y)))
             (np_unique years))).
Proof.
  intro Hlen.
  apply (extract_with da years "min"
           (fun y => xr_min_time_values (year_slice da years y))
           (fun y => [EvReduce RedMin y])).
  intros y d. unfold aggregate_year.
  rewrite year_indices_spec, isel_year by exact Hlen. reflexivity.
Qed.

(** X12. In mode "max", for a year with time steps mapped to it, every
    (lat, lon) cell of the year's 2-D array holds the largest of the
    numbers among the cell's values over the time steps of that year,
    missing values (NaN) being skipped; the cell is NaN when all of them
    are missing. *)
Theorem max_aggregation_per_cell (da : DataArray) (years : list Z) (year : Z) :
  da_wf da ->
  (length years <= da_len da)%nat ->
  In year years ->
  exists data_dict arr,
    outcome (extract_coordinate_data da years "max")
    = Ok (da_lat da, da_lon da, data_dict)
    /\ dict_get Z.eqb data_dict year = Some arr
    /\ shape arr = [length (da_lat da); length (da_lon da)]
    /\ forall i j, (i < length (da_lat da))%nat -> (j < length (da_lon da))%nat ->
         largest_number (cell_values da years year i j) (nd_get2 arr i j).
Proof.
  intros Hwf Hlen Hin.
  exists (map (fun y => (y, xr_max_time_values (year_slice da years y)))
              (np_unique years)),
         (xr_max_time_values (year_slice da years year)).
  split; [rewrite extract_max by exact Hlen; reflexivity|].
  split.
  { apply (dict_get_map_Z (fun y => xr_max_time_values (year_slice da years y))).
    apply np_unique_spec, Hin. }
  split; [reflexivity|].
  intros i j Hi Hj. unfold xr_max_time_values.
  rewrite xr_reduce_cell; [|apply year_slice_wf; assumption|exact Hi|exact Hj].
  rewrite year_slice_cells. apply max_of_cell.
Qed.

Lemma max_aggregation_per_cell_witness :
  exists data_dict arr,
    outcome (extract_coordinate_data sample_series sample_years "max")
    = Ok (da_lat sample_series, da_lon sample_series, data_dict)
    /\ dict_get Z.eqb data_dict 2035 = Some arr
    /\ shape arr = [length (da_lat sample_series); length (da_lon sample_series)]
    /\ forall i j,
         (i < length (da_lat sample_series))%nat ->
         (j < length (da_lon sample_series))%nat ->
         largest_number (cell_values sample_series sample_years 2035 i j)
           (nd_get2 arr i j).
Proof.
  apply (max_aggregation_per_cell sample_series sample_years 2035).
  - exact sample_series_wf.
  - unfold sample_years, sample_series, da_len. simpl. lia.
  - left. reflexivity.
Defined.

(** X13. In mode "min", for a year with time steps mapped to it, every
    (lat, lon) cell of the year's 2-D array holds the smallest of the
    numbers among the cell's values over the time steps of that year,
    missing values (NaN) being skipped; the cell is NaN when all of them
    are missing. *)
Theorem min_aggregation_per_cell (da : DataArray) (years : list Z) (year : Z) :
  da_wf da ->
  (length years <= da_len da)%nat ->
  In year years ->
  exists data_dict arr,
    outcome (extract_coordinate_data da years "min")
    = Ok (da_lat da, da_lon da, data_dict)
    /\ dict_get Z.eqb data_dict year = Some arr
    /\ shape arr = [length (da_lat da); length (da_lon da)]
    /\ forall i j, (i < length (da_lat da))%nat -> (j < length (da_lon da))%nat ->
         smallest_number (cell_values da years year i j) (nd_get2 arr i j).
Proof.
  intros Hwf Hlen Hin.
  exists (map (fun y => (y, xr_min_time_values (year_slice da years y)))
              (np_unique years)),
         (xr_min_time_values (year_slice da years year)).
  split; [rewrite extract_min by exact Hlen; reflexivity|].
  split.
  { apply (dict_get_map_Z (fun y => xr_min_time_values (year_slice da years y))).
    apply np_unique_spec, Hin. }
  split; [reflexivity|].
  intros i j Hi Hj. unfold xr_min_time_values.
  rewrite xr_reduce_cell; [|apply year_slice_wf; assumption|exact Hi|exact Hj].
  rewrite year_slice_cells. apply min_of_cell.
Qed.

Lemma min_aggregation_per_cell_witness :
  exists data_dict arr,
    outcome (extract_coordinate_data sample_series sample_years "min")
    = Ok (da_lat sample_series, da_lon sample_series, data_dict)
    /\ dict_get Z.eqb data_dict 2035 = Some arr
    /\ shape arr = [length (da_lat sample_series); length (da_lon sample_series)]
    /\ forall i j,
         (i < length (da_lat sample_series))%nat ->
         (j < length (da_lon sample_series))%nat ->
         smallest_number (cell_values sample_series sample_years 2035 i j)
           (nd_get2 arr i j).
Proof.
  apply (min_aggregation_per_cell sample_series sample_years 2035).
  - exact sample_series_wf.
  - unfold sample_years, sample_series, da_len. simpl. lia.
  - left. reflexivity.
Defined.

Lemma xr_reduce_shape {S} (init : S) (step : S -> val -> S) (final : S -> val)
    (da : DataArray) :
  da_wf da ->
  shape (xr_reduce_values init step final da)
  = [length (da_lat da); length (da_lon da)]
  /\ length (buf (xr_reduce_values init step final da))
     = (length (da_lat da) * length (da_lon da))%nat.
Proof.
  intro Hwf. split; [reflexivity|].
  unfold xr_reduce_values. cbn [buf].
  destruct (reduce_time_shape (length (da_lat da)) (length (da_lon da))
              init step (da_values da) Hwf) as [Hlen Hrows].
  rewrite (concat_rows_length _ (length (da_lon da))).
  - rewrite length_map, Hlen. reflexivity.
  - rewrite Forall_map. apply Forall_forall. intros row Hrow.
    rewrite length_map. rewrite Forall_forall in Hrows. apply Hrows, Hrow.
Qed.

Lemma da_values_nd_shape (da : DataArray) :
  da_wf da ->
  shape (da_values_nd da) = [da_len da; length (da_lat da); length (da_lon da)]
  /\ length (buf (da_values_nd da))
     = (da_len da * (length (da_lat da) * length (da_lon da)))%nat.
Proof.
  intro Hwf. split; [reflexivity|].
  unfold da_values_nd. cbn [buf].
  rewrite (concat_rows_length _ (length (da_lat da) * length (da_lon da))).
  - rewrite length_map. reflexivity.
  - rewrite Forall_map. apply Forall_forall. intros slice Hsl.
    unfold da_wf in Hwf. rewrite Forall_forall in Hwf.
    apply slice_flat_length. apply (Hwf slice Hsl).
Qed.

Lemma reductions_flat_map (r : reduction) (ys : list Z) :
  reductions (flat_map (fun y => [EvReduce r y]) ys) = map (fun y => (r, y)) ys.
Proof. induction ys as [|y ys IH]; simpl; congruence. Qed.

Lemma dict_keys_map_Z {V} (f : Z -> V) (ys : list Z) :
  dict_keys (map (fun y => (y, f y)) ys) = ys.
Proof. unfold dict_keys. rewrite map_map. apply map_id. Qed.

(** X14. For each of the four modes and a time-to-year mapping no longer
    than the time axis, the aggregator succeeds and returns the latitude
    and longitude arrays of the series unchanged, with a mapping that has
    exactly one entry per distinct year of the time-to-year mapping, in
    strictly ascending order of year. In modes "mean", "max" and "min"
    every array is 2-D of shape (lat, lon) and one reduction is performed
    per year, in that order; in mode "all" every array is 3-D of shape
    (time steps of the year, lat, lon) and no reduction is performed. *)
Theorem aggregation_mapping (da : DataArray) (years : list Z) (mode : string) :
  known_aggregation mode ->
  (length years <= da_len da)%nat ->
  da_wf da ->
  let m := length (da_lat da) in
  let n := length (da_lon da) in
  let run := extract_coordinate_data da years mode in
  exists data_dict,
    outcome run = Ok (da_lat da, da_lon da, data_dict)
    /\ dict_keys data_dict = np_unique years
    /\ StronglySorted Z.lt (dict_keys data_dict)
    /\ (forall y, In y (dict_keys data_dict) <-> In y years)
    /\ (forall y arr, In (y, arr) data_dict ->
          (mode = "all" ->
           shape arr = [length (year_times years y); m; n]
           /\ length (buf arr) = (length (year_times years y) * (m * n))%nat)
          /\ (mode <> "all" ->
              shape arr = [m; n] /\ length (buf arr) = (m * n)%nat))
    /\ map snd (reductions (log_of run))
       = if String.eqb mode "all" then [] else np_unique years.
Proof.
  intros Hmode Hlen Hwf m n run.
  destruct (np_unique_spec years) as (Hs & _ & Hin).
  assert (Hgen : forall (agg : Z -> ndarray) (l : list event),
            run = (l, Ok (da_lat da, da_lon da,
                          map (fun y => (y, agg y)) (np_unique years))) ->
            (forall y,
               (mode = "all" ->
                shape (agg y) = [length (year_times years y); m; n]
                /\ length (buf (agg y))
                   = (length (year_times years y) * (m * n))%nat)
               /\ (mode <> "all" ->
                   shape (agg y) = [m; n] /\ length (buf (agg y)) = (m * n)%nat)) ->
            map snd (reductions l)
            = (if String.eqb mode "all" then [] else np_unique years) ->
            exists data_dict,
              outcome run = Ok (da_lat da, da_lon da, data_dict)
              /\ dict_keys data_dict = np_unique years
              /\ StronglySorted Z.lt (dict_keys data_dict)
              /\ (forall y, In y (dict_keys data_dict) <-> In y years)
              /\ (forall y arr, In (y, arr) data_dict ->
                    (mode = "all" ->
                     shape arr = [length (year_times years y); m; n]
                     /\ length (buf arr)
                        = (length (year_times years y) * (m * n))%nat)
                    /\ (mode <> "all" ->
                        shape arr = [m; n] /\ length (buf arr) = (m * n)%nat))
              /\ map snd (reductions (log_of run))
                 = if String.eqb mode "all" then [] else np_unique years).
  { intros agg l Hrun Hshape Hred. eexists. rewrite Hrun.
    unfold outcome, log_of. cbn [fst snd].
    split; [reflexivity|]. rewrite dict_keys_map_Z.
    split; [reflexivity|]. split; [exact Hs|]. split; [exact Hin|].
    split; [|exact Hred].
    intros y arr Hy. apply in_map_iff in Hy. destruct Hy as (y' & Heq & _).
    injection Heq as <- <-. apply Hshape. }
  assert (Hreduced : forall (r : reduction),
            map snd (reductions (flat_map (fun y => [EvReduce r y])
                                          (np_unique years)))
            = np_unique years).
  { intro r. rewrite reductions_flat_map, map_map. apply map_id. }
  assert (Hslice : forall y, da_wf (year_slice da years y)).
  { intro y. apply year_slice_wf; assumption. }
  destruct Hmode as [-> | [-> | [-> | ->]]].
  - apply (Hgen (fun y => xr_mean_time_values (year_slice da years y))
                (map (EvReduce RedMean) (np_unique years))).
    + apply extract_mean, Hlen.
    + intro y. split; [discriminate|]. intros _.
      apply (xr_reduce_shape _ _ _ _ (Hslice y)).
    + cbn [String.eqb Ascii.eqb Bool.eqb]. clear.
      induction (np_unique years) as [|y ys IH]; simpl; congruence.
  - apply (Hgen (fun y => xr_max_time_values (year_slice da years y)) _
                (extract_max da years Hlen)).
    + intro y. split; [discriminate|]. intros _.
      apply (xr_reduce_shape _ _ _ _ (Hslice y)).
    + apply Hreduced.
  - apply (Hgen (fun y => xr_min_time_values (year_slice da years y)) _
                (extract_min da years Hlen)).
    + intro y. split; [discriminate|]. intros _.
      apply (xr_reduce_shape _ _ _ _ (Hslice y)).
    + apply Hreduced.
  - apply (Hgen (fun y => da_values_nd (year_slice da years y)) _
                (extract_all da years Hlen)).
    + intro y. split; [|intro H; contradiction H; reflexivity]. intros _.
      destruct (da_values_nd_shape _ (Hslice y)) as [Hsh Hb].
      unfold year_slice, da_len in Hsh, Hb. cbn [da_values da_lat da_lon] in Hsh, Hb.
      rewrite length_map in Hsh, Hb. split; assumption.
    + reflexivity.
Qed.

Lemma aggregation_mapping_witness :
  let da := sample_series in
  let years := sample_years in
  let m := length (da_lat da) in
  let n := length (da_lon da) in
  let run := extract_coordinate_data da years "max" in
  exists data_dict,
    outcome run = Ok (da_lat da, da_lon da, data_dict)
    /\ dict_keys data_dict = np_unique years
    /\ StronglySorted Z.lt (dict_keys data_dict)
    /\ (forall y, In y (dict_keys data_dict) <-> In y years)
    /\ (forall y arr, In (y, arr) data_dict ->
          ("max" = "all" ->
           shape arr = [length (year_times years y); m; n]
           /\ length (buf arr) = (length (year_times years y) * (m * n))%nat)
          /\ ("max" <> "all" ->
              shape arr = [m; n] /\ length (buf arr) = (m * n)%nat))
    /\ map snd (reductions (log_of run))
       = if String.eqb "max" "all" then [] else np_unique years.
Proof.
  apply (aggregation_mapping sample_series sample_years "max").
  - right. left. reflexivity.
  - unfold sample_years, sample_series, da_len. simpl. lia.
  - exact sample_series_wf.
Defined.

(** ** A mapping longer than the time axis *)

Lemma fold_M_must_raise {A S} (body : S -> A -> M S) (e0 : exn) (xs : list A) :
  (forall acc x, In x xs ->
     outcome (body acc x) = Raise e0 \/ exists a, outcome (body acc x) = Ok a) ->
  (exists x, In x xs /\ forall acc, outcome (body acc x) = Raise e0) ->
  forall acc, outcome (fold_M xs body acc) = Raise e0.
Proof.
  induction xs as [|x xs IH]; intros Hall (x0 & Hin & Hx0) acc.
  - destruct Hin.
  - cbn [fold_M]. rewrite bind_cases.
    destruct (Hall acc x (or_introl eq_refl)) as [Hr|(a & Ha)].
    + rewrite Hr. reflexivity.
    + rewrite Ha. unfold outcome at 1. cbn [snd].
      destruct Hin as [->|Hin]; [rewrite Hx0 in Ha; discriminate|].
      apply IH.
      * intros acc' x' Hx'. apply Hall. right. exact Hx'.
      * exists x0. auto.
Qed.

Lemma aggregate_year_outcome (da : DataArray) (years : list Z) (mode : string)
    (d : list (Z * ndarray)) (y : Z) :
  known_aggregation mode ->
  (forallb (fun i => (i <? da_len da)%nat) (year_times years y) = false ->
   outcome (aggregate_year da years mode d y) = Raise IndexError)
  /\ (forallb (fun i => (i <? da_len da)%nat) (year_times years y) = true ->
      exists a, outcome (aggregate_year da years mode d y) = Ok a).
Proof.
  intro Hmode. unfold aggregate_year. rewrite year_indices_spec.
  unfold isel_time. split; intro Hb; rewrite Hb.
  - reflexivity.
  - destruct Hmode as [-> | [-> | [-> | ->]]]; eexists; reflexivity.
Qed.

(** X15. A time-to-year mapping with more entries than the series has
    time steps makes the aggregator fail in each of the four modes: the
    selection of the time steps of some year reaches beyond the time
    axis, [isel] raises IndexError, and no mapping is returned. *)
Theorem aggregation_mapping_too_long (da : DataArray) (years : list Z)
    (mode : string) :
  known_aggregation mode ->
  (da_len da < length years)%nat ->
  outcome (extract_coordinate_data da years mode) = Raise IndexError.
Proof.
  intros Hmode Hlen. unfold extract_coordinate_data. cbv zeta.
  rewrite bind_cases.
  rewrite (fold_M_must_raise (aggregate_year da years mode) IndexError).
  - reflexivity.
  - intros acc y _.
    destruct (aggregate_year_outcome da years mode acc y Hmode) as [Hf Ht].
    destruct (forallb (fun i => (i <? da_len da)%nat) (year_times years y));
      [right; apply Ht; reflexivity|left; apply Hf; reflexivity].
  - exists (nth (da_len da) years 0). split.
    + apply np_unique_spec. apply nth_In. exact Hlen.
    + intro acc.
      apply (aggregate_year_outcome da years mode acc _ Hmode).
      destruct (forallb _ _) eqn:E; [|reflexivity]. exfalso.
      rewrite forallb_forall in E.
      assert (Hin : In (da_len da) (year_times years (nth (da_len da) years 0))).
      { apply year_times_spec. auto. }
      specialize (E _ Hin). apply Nat.ltb_lt in E. lia.
Qed.

Lemma aggregation_mapping_too_long_witness :
  outcome (extract_coordinate_data sample_series [2035; 2035; 2035; 2036] "mean")
  = Raise IndexError.
Proof.
  apply (aggregation_mapping_too_long sample_series [2035; 2035; 2035; 2036] "mean").
  - left. reflexivity.
  - unfold sample_series, da_len. simpl. lia.
Defined.

(* ================================================================== *)
(** * Further properties of the tabulator *)
(* ================================================================== *)

Lemma dict_get_year_columns (m n : nat) (v : string) (items : list (Z * ndarray))
    (item : Z * ndarray) :
  NoDup (map fst items) -> In item items ->
  dict_get String.eqb (year_columns m n v items) (column_name v (fst item))
  = Some (match flatten_year m n (snd item) with
          | Ok c => c
          | Raise _ => []
          end).
Proof.
  induction items as [|it items IH]; intros Hnd Hin; [destruct Hin|].
  inversion Hnd as [|? ? Hfresh Hnd']; subst.
  unfold year_columns in *. cbn [map dict_get].
  destruct Hin as [->|Hin].
  - rewrite String.eqb_refl. reflexivity.
  - destruct (String.eqb_spec (column_name v (fst it)) (column_name v (fst item)))
      as [E|_].
    + exfalso. apply column_name_inj in E. apply Hfresh. rewrite E.
      apply in_map, Hin.
    + apply IH; assumption.
Qed.

Lemma dict_get_table_for (lat lon : list Qc) (data_dict : list (Z * ndarray))
    (v : string) (item : Z * ndarray) :
  NoDup (dict_keys data_dict) -> In item (sort_key fst data_dict) ->
  dict_get String.eqb (table_for lat lon data_dict v) (column_name v (fst item))
  = Some (match flatten_year (length lat) (length lon) (snd item) with
          | Ok c => c
          | Raise _ => []
          end).
Proof.
  intros Hnd Hin. unfold table_for. cbn [dict_get].
  destruct (String.eqb_spec "lat" (column_name v (fst item))) as [E|_];
    [symmetry in E; apply column_name_not_lat in E; destruct E|].
  destruct (String.eqb_spec "lon" (column_name v (fst item))) as [E|_];
    [symmetry in E; apply column_name_not_lon in E; destruct E|].
  apply dict_get_year_columns; [|exact Hin].
  apply sorted_items, Hnd.
Qed.

(** X16. The tabulator keeps the values of 2-D aggregates in place: for
    a grid of M latitudes and N longitudes and a mapping of distinct
    years to (M, N) arrays, row [i * N + j] of the table is the latitude
    [lat[i]], the longitude [lon[j]] and then, for each year in ascending
    order, the value of that year's array at cell (i, j). *)
Theorem tabulator_cell_values
    (lat lon : list Qc) (data_dict : list (Z * ndarray)) (variable : string) :
  let m := length lat in
  let n := length lon in
  NoDup (dict_keys data_dict) ->
  Forall (fun item => shape (snd item) = [m; n]
                      /\ length (buf (snd item)) = (m * n)%nat) data_dict ->
  exists table df,
    outcome (prepare_dataframe_data lat lon data_dict variable) = Ok table
    /\ build_frame table = Ok df
    /\ forall i j, (i < m)%nat -> (j < n)%nat ->
         nth_error (df_rows df) (i * n + j)
         = Some (Num (nth i lat 0%Qc) :: Num (nth j lon 0%Qc)
                   :: map (fun item => nd_get2 (snd item) i j)
                          (sort_key fst data_dict)).
Proof.
  intros m n Hnd Hall.
  assert (Hgrid : Forall (fun item => aggregate_on_grid m n (snd item)) data_dict).
  { eapply Forall_impl; [|exact Hall]. intros item H. left. exact H. }
  pose proof (table_for_ok lat lon data_dict variable Hnd Hgrid) as Hok.
  fold m n in Hok.
  exists (table_for lat lon data_dict variable),
         (frame_of (table_for lat lon data_dict variable) (m * n)).
  split; [rewrite prepare_dataframe_data_ok by assumption; reflexivity|].
  split; [apply build_frame_ok, Hok|].
  intros i j Hi Hj.
  assert (Hr : (i * n + j < m * n)%nat) by nia.
  unfold df_rows. cbn [df_len frame_of].
  rewrite nth_error_map.
  rewrite (nth_error_nth' _ O) by (rewrite length_seq; exact Hr).
  rewrite seq_nth by exact Hr. cbn [Nat.add option_map].
  unfold df_row. rewrite table_for_frame_columns. cbn [map snd].
  unfold n at 1 2. rewrite meshgrid_lat_nth, meshgrid_lon_nth by assumption.
  do 3 f_equal. rewrite !map_map. apply map_ext_in. intros item Hitem.
  cbn [snd]. rewrite (dict_get_table_for lat lon data_dict variable item Hnd Hitem).
  apply sort_key_in in Hitem. rewrite Forall_forall in Hall.
  destruct (Hall item Hitem) as [Hsh Hb].
  unfold flatten_year, ndim, nd_get2. rewrite Hsh. reflexivity.
Qed.

Lemma tabulator_cell_values_witness :
  let m := length sample_lat in
  let n := length sample_lon in
  exists table df,
    outcome (prepare_dataframe_data sample_lat sample_lon sample_aggregate "tasmax")
    = Ok table
    /\ build_frame table = Ok df
    /\ forall i j, (i < m)%nat -> (j < n)%nat ->
         nth_error (df_rows df) (i * n + j)
         = Some (Num (nth i sample_lat 0%Qc) :: Num (nth j sample_lon 0%Qc)
                   :: map (fun item => nd_get2 (snd item) i j)
                          (sort_key fst sample_aggregate)).
Proof.
  apply (tabulator_cell_values sample_lat sample_lon sample_aggregate "tasmax").
  - repeat constructor. simpl. intros [].
  - repeat constructor.
Defined.

(** ** Failures of the tabulator *)

Lemma add_year_column_cases (m n : nat) (v : string)
    (res : list (string * list val)) (item : Z * ndarray) :
  add_year_column m n v res item =
  ([],
   match flatten_year m n (snd item) with
   | Ok col => Ok (dict_set String.eqb res (column_name v (fst item)) col)
   | Raise e => Raise e
   end).
Proof.
  destruct item as [y a]. unfold add_year_column. cbn [fst snd].
  destruct (flatten_year m n a); reflexivity.
Qed.

(** The loop over the years raises what the first array that cannot be
    flattened raises. *)
Lemma prepare_loop_raise (m n : nat) (v : string) (items : list (Z * ndarray))
    (res : list (string * list val)) (e : exn) :
  outcome (fold_M items (add_year_column m n v) res) = Raise e <->
  exists before item after,
    items = before ++ item :: after
    /\ (forall it, In it before -> exists col, flatten_year m n (snd it) = Ok col)
    /\ flatten_year m n (snd item) = Raise e.
Proof.
  revert res. induction items as [|it items IH]; intro res.
  - split; [discriminate|].
    intros (before & item & after & E & _). destruct before; discriminate.
  - cbn [fold_M]. rewrite bind_cases, add_year_column_cases.
    unfold outcome at 1, log_of at 1 2. cbn [fst snd].
    destruct (flatten_year m n (snd it)) as [col|e0] eqn:Hit.
    + unfold outcome at 1. cbn [snd]. rewrite IH. split.
      * intros (before & item & after & -> & Hb & Hr).
        exists (it :: before), item, after. split; [reflexivity|].
        split; [|exact Hr]. intros x [<-|Hx]; [eauto|apply Hb, Hx].
      * intros (before & item & after & E & Hb & Hr).
        destruct before as [|b before]; cbn [app] in E; injection E as <- ->.
        -- congruence.
        -- exists before, item, after. split; [reflexivity|].
           split; [|exact Hr]. intros x Hx. apply Hb. right. exact Hx.
    + unfold outcome. cbn [snd]. split.
      * intros [= <-]. exists [], it, items. split; [reflexivity|].
        split; [intros x []|exact Hit].
      * intros (before & item & after & E & Hb & Hr).
        destruct before as [|b before]; cbn [app] in E; injection E as <- ->.
        -- congruence.
        -- destruct (Hb it (or_introl eq_refl)) as [col Hcol]. congruence.
Qed.

Lemma np_mean_axis0_total (r k : nat) (b : list val) :
  exists a, np_mean_axis0 (mkNd [r; k] b) = Ok a.
Proof. unfold np_mean_axis0. cbn [shape]. eexists. reflexivity. Qed.

(** When one array cannot be flattened. *)
Lemma flatten_year_raise (m n : nat) (a : ndarray) (e : exn) :
  flatten_year m n a = Raise e <->
  (ndim a <> 2%nat /\ ndim a <> 3%nat /\ e = ValueError_UnexpectedShape (shape a))
  \/ (ndim a = 3%nat
      /\ ((m * n = 0)%nat \/ (length (buf a) mod (m * n) <> 0)%nat)
      /\ e = ValueError_Reshape).
Proof.
  unfold flatten_year.
  destruct (Nat.eqb_spec (ndim a) 2) as [H2|H2].
  { split; [discriminate|]. intros [(H & _)|(H & _)]; [contradiction|lia]. }
  destruct (Nat.eqb_spec (ndim a) 3) as [H3|H3].
  2: { split.
       - intros [= <-]. left. auto.
       - intros [(_ & _ & ->)|(H & _)]; [reflexivity|contradiction]. }
  unfold np_reshape_rows.
  destruct (Nat.eqb_spec (m * n) 0) as [Hz|Hz]; cbn [orb].
  { split.
    - intros [= <-]. right. auto.
    - intros [(_ & H & _)|(_ & _ & ->)]; [contradiction|reflexivity]. }
  destruct (Nat.eqb_spec (length (buf a) mod (m * n)) 0) as [Hd|Hd]; cbn [negb].
  - destruct (np_mean_axis0_total (length (buf a) / (m * n)) (m * n) (buf a))
      as [mean ->].
    split; [discriminate|].
    intros [(_ & H & _)|(_ & [H|H] & _)]; contradiction.
  - split.
    + intros [= <-]. right. auto.
    + intros [(_ & H & _)|(_ & _ & ->)]; [contradiction|reflexivity].
Qed.

(** X17. The tabulator fails exactly when, going through the years in
    ascending order, it meets an array it cannot flatten, and it raises
    the error of the first such array: the "Unexpected data array shape"
    ValueError for an array that is neither 2-D nor 3-D, or numpy's
    reshape error for a 3-D array whose size is not a multiple of the
    number of grid cells (or when the grid has no cell). A 2-D array is
    never refused, whatever its size. *)
Theorem tabulator_failures
    (lat lon : list Qc) (data_dict : list (Z * ndarray)) (variable : string) :
  let m := length lat in
  let n := length lon in
  (forall e,
     outcome (prepare_dataframe_data lat lon data_dict variable) = Raise e <->
     exists before item after,
       sort_key fst data_dict = before ++ item :: after
       /\ (forall it, In it before -> exists col, flatten_year m n (snd it) = Ok col)
       /\ flatten_year m n (snd item) = Raise e)
  /\ (forall a e,
        flatten_year m n a = Raise e <->
        (ndim a <> 2%nat /\ ndim a <> 3%nat
         /\ e = ValueError_UnexpectedShape (shape a))
        \/ (ndim a = 3%nat
            /\ ((m * n = 0)%nat \/ (length (buf a) mod (m * n) <> 0)%nat)
            /\ e = ValueError_Reshape))
  /\ (forall a, ndim a = 2%nat -> flatten_year m n a = Ok (buf a)).
Proof.
  intros m n. split; [|split].
  - intro e. unfold prepare_dataframe_data. cbv zeta.
    unfold np_meshgrid. cbv beta iota. apply prepare_loop_raise.
  - intros a e. apply flatten_year_raise.
  - intros a Ha. unfold flatten_year. rewrite Ha. reflexivity.
Qed.

(** ** Arrays that do not fit the grid *)

(** The loop over the sorted items, for arrays that can all be flattened. *)
Lemma prepare_loop_flat (m n : nat) (v : string) (items : list (Z * ndarray))
    (res : list (string * list val)) :
  (forall item, In item items -> exists col, flatten_year m n (snd item) = Ok col) ->
  NoDup (map fst items) ->
  (forall item, In item items -> ~ In (column_name v (fst item)) (dict_keys res)) ->
  fold_M items (add_year_column m n v) res
  = ([], Ok (res ++ year_columns m n v items)).
Proof.
  revert res. induction items as [|it items IH]; intros res Hall Hnd Hfresh.
  - simpl. unfold ret. rewrite app_nil_r. reflexivity.
  - inversion Hnd as [|? ? Hy Hnd']; subst.
    destruct (Hall it (or_introl eq_refl)) as [col Hcol].
    cbn [fold_M]. rewrite add_year_column_cases, Hcol.
    unfold bind. cbv beta iota.
    rewrite dict_set_fresh by (apply (Hfresh it); left; reflexivity).
    rewrite IH; [| |exact Hnd'|].
    + unfold year_columns. cbn [map fst snd app]. rewrite Hcol.
      rewrite <- app_assoc. reflexivity.
    + intros item Hitem. apply Hall. right. exact Hitem.
    + intros item Hitem Hin. unfold dict_keys in Hin.
      rewrite map_app in Hin. apply in_app_or in Hin.
      destruct Hin as [Hin|Hin].
      * apply (Hfresh item); [right; exact Hitem|exact Hin].
      * destruct Hin as [Heq|[]]. cbn [fst] in Heq.
        apply column_name_inj in Heq. apply Hy. rewrite Heq.
        apply in_map. exact Hitem.
Qed.

Lemma prepare_dataframe_data_flat (lat lon : list Qc)
    (data_dict : list (Z * ndarray)) (v : string) :
  NoDup (dict_keys data_dict) ->
  (forall item, In item data_dict ->
     exists col, flatten_year (length lat) (length lon) (snd item) = Ok col) ->
  prepare_dataframe_data lat lon data_dict v
  = ([], Ok (table_for lat lon data_dict v)).
Proof.
  intros Hnd Hall. unfold prepare_dataframe_data, table_for.
  cbv zeta. unfold np_meshgrid. cbv beta iota. cbn [fst snd].
  rewrite prepare_loop_flat.
  - reflexivity.
  - intros item Hin. apply sort_key_in in Hin. apply Hall, Hin.
  - apply sorted_items, Hnd.
  - intros item _ Hin. cbn in Hin.
    destruct Hin as [H|[H|[]]]; symmetry in H.
    + apply column_name_not_lat in H. exact H.
    + apply column_name_not_lon in H. exact H.
Qed.

Lemma forallb_false_witness {A} (f : A -> bool) (l : list A) (x : A) :
  In x l -> f x = false -> forallb f l = false.
Proof.
  intros Hin Hf. destruct (forallb f l) eqn:E; [|reflexivity].
  rewrite forallb_forall in E. rewrite (E x Hin) in Hf. discriminate.
Qed.

(** X18. The tabulator does not compare a 2-D array with the grid: for a
    mapping of distinct years to 2-D arrays one of which does not hold
    M * N values, the tabulator still succeeds, with a column of another
    length than the coordinate columns, and it is the writer that fails
    on that table, with pandas' "All arrays must be of the same length"
    ValueError. *)
Theorem unchecked_array_size_fails_in_writer
    (lat lon : list Qc) (data_dict : list (Z * ndarray)) (variable : string)
    (sheet_name : option string) (max_rows_per_sheet : option Z) :
  NoDup (dict_keys data_dict) ->
  Forall (fun item => ndim (snd item) = 2%nat) data_dict ->
  (exists item, In item data_dict
     /\ length (buf (snd item)) <> (length lat * length lon)%nat) ->
  exists table,
    prepare_dataframe_data lat lon data_dict variable = ([], Ok table)
    /\ outcome (write_to_excel table sheet_name max_rows_per_sheet)
       = Raise ValueError_ArraysLength.
Proof.
  intros Hnd H2d (item & Hitem & Hsize).
  assert (Hflat : forall it, In it data_dict ->
            flatten_year (length lat) (length lon) (snd it) = Ok (buf (snd it))).
  { intros it Hit. rewrite Forall_forall in H2d.
    unfold flatten_year. rewrite (H2d it Hit). reflexivity. }
  exists (table_for lat lon data_dict variable). split.
  { apply prepare_dataframe_data_flat; [exact Hnd|].
    intros it Hit. exists (buf (snd it)). apply Hflat, Hit. }
  unfold write_to_excel. rewrite table_for_keys.
  cbn [string_in existsb String.eqb Ascii.eqb Bool.eqb andb orb negb].
  assert (Hframe : build_frame (table_for lat lon data_dict variable)
                   = Raise ValueError_ArraysLength).
  { unfold build_frame, pd_DataFrame, table_for.
    destruct (meshgrid_lengths lat lon) as [Hlat _].
    rewrite (forallb_false_witness _ _
               (column_name variable (fst item), buf (snd item))).
    - reflexivity.
    - right. unfold year_columns. apply in_map_iff. exists item.
      rewrite (Hflat item Hitem). split; [reflexivity|].
      apply sort_key_in, Hitem.
    - cbn [snd]. rewrite Hlat. apply Nat.eqb_neq. exact Hsize. }
  rewrite Hframe. reflexivity.
Qed.

Lemma unchecked_array_size_fails_in_writer_witness :
  exists table,
    prepare_dataframe_data sample_lat sample_lon
      [(2035, mkNd [1%nat; 3%nat] [NaN; NaN; NaN])] "tasmax"
    = ([], Ok table)
    /\ outcome (write_to_excel table None None) = Raise ValueError_ArraysLength.
Proof.
  apply (unchecked_array_size_fails_in_writer sample_lat sample_lon
           [(2035, mkNd [1%nat; 3%nat] [NaN; NaN; NaN])] "tasmax" None None).
  - repeat constructor. simpl. intros [].
  - repeat constructor.
  - exists (2035, mkNd [1%nat; 3%nat] [NaN; NaN; NaN]).
    split; [left; reflexivity|]. simpl. lia.
Defined.

(* ================================================================== *)
(** * Further properties of the writer *)
(* ================================================================== *)

(** ** The frame *)





(** ** The sheets *)

(** The number of sheets computed for a negative ceiling is positive only
    for a frame of at most one row. *)
Lemma num_sheets_negative (rows ceiling : Z) :
  ceiling < 0 -> 0 <= rows ->
  ((rows + ceiling - 1) / ceiling <= 0 <-> 2 <= rows).
Proof.
  intros Hc Hr.
  pose proof (Z.div_mod (rows + ceiling - 1) ceiling ltac:(lia)) as Hdm.
  pose proof (Z.mod_neg_bound (rows + ceiling - 1) ceiling Hc) as Hb.
  split; intro H; nia.
Qed.

(** The title that openpyxl gives the only sheet of a book. *)
Lemma to_excel_first (df : DataFrame) (sheet_name : string) :
  to_excel [] df sheet_name =
  if sheet_too_large df then ([], Raise ValueError_SheetTooLarge)
  else if String.eqb sheet_name ""
  then ([("Sheet", mkDF 0 [])], Raise ValueError_TitleEmpty)
  else if has_character invalid_title_character sheet_name
  then ([("Sheet", mkDF 0 [])], Raise (ValueError_InvalidTitleCharacter sheet_name))
  else
    let title :=
      if String.eqb (lower sheet_name) "sheet" && negb (String.eqb sheet_name "Sheet")
      then (sheet_name ++ "1")%string else sheet_name in
    match find (has_character illegal_character) (df_column_names df) with
    | Some name =>
        ([(title, mkDF 0 (headers_until_illegal (df_columns df)))],
         Raise (IllegalCharacterError name))
    | None => ([(title, df)], Ok tt)
    end.
Proof.
  unfold to_excel, set_title. cbn [map existsb].
  destruct (sheet_too_large df); [reflexivity|].
  destruct (String.eqb sheet_name ""); [reflexivity|].
  destruct (has_character invalid_title_character sheet_name); [reflexivity|].
  destruct (String.eqb (lower sheet_name) "sheet" && negb (String.eqb sheet_name "Sheet"));
    reflexivity.
Qed.

(** Writing one sheet to a new book and saving it. *)
Lemma close_first (df : DataFrame) (sheet_name : string) :
  close_writer (to_excel [] df sheet_name) =
  if sheet_too_large df then Raise IndexError_NoVisibleSheet
  else if String.eqb sheet_name "" then Raise ValueError_TitleEmpty
  else if has_character invalid_title_character sheet_name
  then Raise (ValueError_InvalidTitleCharacter sheet_name)
  else
    match find (has_character illegal_character) (df_column_names df) with
    | Some name => Raise (IllegalCharacterError name)
    | None =>
        Ok [(if String.eqb (lower sheet_name) "sheet"
                && negb (String.eqb sheet_name "Sheet")
             then (sheet_name ++ "1")%string else sheet_name, df)]
    end.
Proof.
  rewrite to_excel_first.
  destruct (sheet_too_large df); [reflexivity|].
  destruct (String.eqb sheet_name ""); [reflexivity|].
  destruct (has_character invalid_title_character sheet_name); [reflexivity|].
  cbv zeta.
  destruct (find (has_character illegal_character) (df_column_names df));
    reflexivity.
Qed.

Lemma title_kept_eqb (sheet_name : string) :
  title_kept sheet_name ->
  String.eqb sheet_name "" = false
  /\ has_character invalid_title_character sheet_name = false
  /\ (if String.eqb (lower sheet_name) "sheet"
         && negb (String.eqb sheet_name "Sheet")
      then (sheet_name ++ "1")%string else sheet_name) = sheet_name.
Proof.
  intros (Hne & Hval & Hcase).
  split; [apply String.eqb_neq, Hne|]. split; [exact Hval|].
  destruct (String.eqb_spec (lower sheet_name) "sheet") as [E|_]; [|reflexivity].
  rewrite (Hcase E). reflexivity.
Qed.



Lemma write_sheets_cases (df : DataFrame) (sheet_name : string) (ceiling : Z) :
  let rows := Z.of_nat (df_len df) in
  let num := (rows + ceiling - 1) / ceiling in
  write_sheets df sheet_name ceiling =
  if rows >? ceiling then
    if ceiling =? 0 then ([EvPrint Msg_SplittingSheets], Raise ZeroDivisionError)
    else ([EvPrint Msg_SplittingSheets],
          close_writer (write_split df sheet_name ceiling num (py_range num) []))
  else ([], if sheet_too_large df then Raise ValueError_SheetTooLarge
            else close_writer (to_excel [] df sheet_name)).
Proof.
  intros rows num. unfold write_sheets. fold rows.
  destruct (rows >? ceiling); [|reflexivity].
  destruct (ceiling =? 0); reflexivity.
Qed.










(** The writer refuses a title with a slash, whatever the table. *)
Example write_to_excel_invalid_title :
  outcome (write_to_excel sample_table (Some "a/b") None)
  = Raise (ValueError_InvalidTitleCharacter "a/b")
  /\ outcome (write_to_excel sample_table (Some "a/b") (Some 2))
     = Raise (ValueError_InvalidTitleCharacter "a/b_1")
  /\ outcome (write_to_excel sample_table (Some "sheet") None)
     = Ok [("sheet1", frame_of sample_table 3)].
Proof. repeat split; reflexivity. Qed.



(** X21. A ceiling of zero or less never splits a table usefully, for a
    well-formed table. With a ceiling of 0 and at least one row the
    writer prints the splitting warning and raises ZeroDivisionError.
    With a negative ceiling it prints the warning and then, for two rows
    or more, writes no sheet at all and fails on saving; for exactly one
    row (and a table of at most 16,384 columns, column names free of
    control characters, a sheet name that is not empty, has no character
    invalid in a title and is not "Sheet" in another case) it writes a
    single sheet under the plain name that holds the column names and no
    row. *)
Theorem write_with_nonpositive_ceiling
    (data_dict : list (string * list val)) (sheet_name : string)
    (ceiling : Z) (rows : nat) :
  table_ok data_dict rows ->
  ceiling <= 0 ->
  (1 <= rows)%nat ->
  let run := write_to_excel data_dict (Some sheet_name) (Some ceiling) in
  log_of run = [EvPrint Msg_SplittingSheets]
  /\ (ceiling = 0 -> outcome run = Raise ZeroDivisionError)
  /\ (ceiling < 0 -> (2 <= rows)%nat ->
      outcome run = Raise IndexError_NoVisibleSheet)
  /\ (ceiling < 0 -> rows = 1%nat ->
      Z.of_nat (length data_dict) <= 16384 ->
      legal_headers (dict_keys data_dict) ->
      title_kept sheet_name ->
      exists sheet,
        outcome run = Ok [(sheet_name, sheet)]
        /\ df_len sheet = 0%nat
        /\ df_rows sheet = []
        /\ df_column_names sheet = df_column_names (frame_of data_dict rows)).
Proof.
  intros Hok Hc Hr run. unfold run.
  rewrite (write_to_excel_table _ rows) by exact Hok.
  rewrite write_sheets_cases.
  change (df_len (frame_of data_dict rows)) with rows.
  destruct (Z.gtb_spec (Z.of_nat rows) ceiling) as [_|Hle]; [|lia].
  destruct (Z.eqb_spec ceiling 0) as [Hz|Hnz].
  { unfold log_of, outcome. cbn [fst snd].
    split; [reflexivity|]. split; [reflexivity|]. split; intros; lia. }
  assert (Hneg : ceiling < 0) by lia.
  pose proof (num_sheets_negative (Z.of_nat rows) ceiling Hneg ltac:(lia)) as Hnum.
  unfold log_of, outcome. cbn [fst snd].
  split; [reflexivity|]. split; [intro; lia|]. split.
  - intros _ H2.
    assert (Hn : (Z.of_nat rows + ceiling - 1) / ceiling <= 0)
      by (apply Hnum; lia).
    unfold py_range.
    replace (Z.to_nat ((Z.of_nat rows + ceiling - 1) / ceiling)) with O by lia.
    reflexivity.
  - intros _ -> Hwidth Hleg Hkept.
    assert (E : (Z.of_nat 1 + ceiling - 1) / ceiling = 1).
    { replace (Z.of_nat 1 + ceiling - 1) with (1 * ceiling) by lia.
      apply Z.div_mul. lia. }
    rewrite E. change (py_range 1) with [0]. cbn [write_split]. cbv zeta.
    set (sheet := snd (split_sheet (frame_of data_dict 1) sheet_name ceiling 1 0)).
    change (fst (split_sheet (frame_of data_dict 1) sheet_name ceiling 1 0))
      with sheet_name.
    assert (Hlen : df_len sheet = O).
    { unfold sheet, split_sheet, df_iloc. cbn [snd df_len frame_of].
      unfold py_bound. rewrite Z.min_l by lia.
      destruct (Z.ltb_spec ((0 + 1) * ceiling) 0) as [_|H]; [|lia].
      destruct (Z.ltb_spec (0 * ceiling) 0) as [H|_]; [lia|].
      lia. }
    assert (Hnames : df_column_names sheet
                     = df_column_names (frame_of data_dict 1)).
    { unfold sheet, split_sheet. cbn [snd]. apply df_iloc_column_names. }
    assert (Hsize : sheet_too_large sheet = false).
    { unfold sheet_too_large. rewrite Hlen.
      unfold sheet, split_sheet. cbn [snd].
      rewrite df_iloc_columns_length, (frame_of_columns_length _ _ Hok).
      apply orb_false_iff. split; apply Z.ltb_ge; lia. }
    assert (Hwritten : to_excel [] sheet sheet_name
                       = ([(sheet_name, sheet)], Ok tt)).
    { rewrite to_excel_first, Hsize.
      destruct (title_kept_eqb sheet_name Hkept) as (-> & -> & E3).
      cbv zeta. rewrite E3, Hnames.
      rewrite (legal_headers_find _ (frame_of_legal_headers _ _ Hok Hleg)).
      reflexivity. }
    rewrite Hwritten. exists sheet. split; [reflexivity|].
    split; [exact Hlen|]. split; [|exact Hnames].
    unfold df_rows. rewrite Hlen. reflexivity.
Qed.

Lemma write_with_nonpositive_ceiling_witness :
  let run := write_to_excel sample_table (Some "Data") (Some (-2)) in
  log_of run = [EvPrint Msg_SplittingSheets]
  /\ (-2 = 0 -> outcome run = Raise ZeroDivisionError)
  /\ (-2 < 0 -> (2 <= 3)%nat ->
      outcome run = Raise IndexError_NoVisibleSheet)
  /\ (-2 < 0 -> 3%nat = 1%nat ->
      Z.of_nat (length sample_table) <= 16384 ->
      legal_headers (dict_keys sample_table) ->
      title_kept "Data" ->
      exists sheet,
        outcome run = Ok [("Data", sheet)]
        /\ df_len sheet = 0%nat
        /\ df_rows sheet = []
        /\ df_column_names sheet = df_column_names (frame_of sample_table 3)).
Proof.
  apply (write_with_nonpositive_ceiling sample_table "Data" (-2) 3).
  - exact sample_table_ok.
  - lia.
  - lia.
Defined.

(* ================================================================== *)
(** * Further properties of the driver *)
(* ================================================================== *)

(** ** Failures end in an exit *)

Lemma or_exit_cases {A} (stage : string) (c : M A) :
  or_exit stage c =
  match outcome c with
  | Ok a => (log_of c, Ok a)
  | Raise e => (log_of c ++ [EvPrint (Msg_FailedTo stage e)], Raise (SystemExit 1))
  end.
Proof.
  unfold or_exit. rewrite try_except_cases.
  destruct (outcome c); reflexivity.
Qed.

Lemma or_exit_exits {A} (stage : string) (c : M A) :
  In stage ["merge files"; "extract coordinate data";
            "prepare DataFrame data"; "export to Excel"] ->
  exits_after_message (or_exit stage c).
Proof.
  intros Hstage e. rewrite or_exit_cases.
  destruct (outcome c) as [a|e0]; unfold outcome, log_of; cbn [fst snd];
    [discriminate|].
  intros [= <-]. split; [reflexivity|].
  exists (fst c), (Msg_FailedTo stage e0). split; [reflexivity|].
  right. exists stage, e0. auto.
Qed.

Lemma bind_exits {A B} (c : M A) (k : A -> M B) :
  exits_after_message c -> (forall a, exits_after_message (k a)) ->
  exits_after_message (bind c k).
Proof.
  intros Hc Hk e. rewrite bind_cases.
  destruct (outcome c) as [a|e0] eqn:Ec; unfold outcome at 1, log_of at 1;
    cbn [fst snd].
  - intro He. destruct (Hk a e He) as (-> & l & m & Hl & Hm).
    split; [reflexivity|]. exists (log_of c ++ l), m.
    rewrite Hl, app_assoc. auto.
  - intros [= <-]. apply (Hc e0 Ec).
Qed.

Lemma never_raises_exits {A} (c : M A) :
  (exists a, outcome c = Ok a) -> exits_after_message c.
Proof. intros [a Ha] e He. congruence. Qed.

Lemma steps_5_to_6_exits (readback : bool) (model scenario variable : string)
    (lat lon : list Qc) (data_dict : list (Z * ndarray)) :
  exits_after_message
    (steps_5_to_6 readback model scenario variable lat lon data_dict).
Proof.
  unfold steps_5_to_6.
  apply bind_exits; [apply never_raises_exits; exists tt; reflexivity|]. intros _.
  apply bind_exits; [apply or_exit_exits; simpl; auto|]. intro table.
  apply bind_exits; [apply never_raises_exits; exists tt; reflexivity|]. intros _.
  apply or_exit_exits. simpl. auto.
Qed.

Lemma steps_4_to_6_exits (readback : bool) (model scenario variable : string)
    (aggregation : string) (merged_data : DataArray) (time_years : list Z) :
  exits_after_message
    (steps_4_to_6 readback model scenario variable aggregation
       merged_data time_years).
Proof.
  unfold steps_4_to_6.
  apply bind_exits; [apply never_raises_exits; exists tt; reflexivity|]. intros _.
  apply bind_exits; [apply or_exit_exits; simpl; auto|].
  intros [[lat lon] data_dict]. apply steps_5_to_6_exits.
Qed.

Lemma steps_3_to_6_exits (w : world) (model scenario variable : string)
    (aggregation : string) (files_with_years : list (FilePath * Z)) :
  exits_after_message
    (steps_3_to_6 w model scenario variable aggregation files_with_years).
Proof.
  unfold steps_3_to_6.
  apply bind_exits; [apply never_raises_exits; exists tt; reflexivity|]. intros _.
  apply bind_exits; [apply or_exit_exits; simpl; auto|].
  intros [merged_data time_years]. apply steps_4_to_6_exits.
Qed.

Lemma step_1_exits (w : world) (model scenario variable : string) :
  exits_after_message (step_1 w model scenario variable).
Proof.
  intros e. rewrite step_1_cases.
  destruct (discover_nc_files (w_dirs w) model scenario variable) as [l [fwy|e0]];
    unfold outcome, log_of; cbn [fst snd]; [discriminate|].
  intros [= <-]. split; [reflexivity|].
  exists (EvPrint (Msg_Step 1) :: l), (Msg_Error e0). split; [reflexivity|].
  left. exists e0. reflexivity.
Qed.

Lemma step_2_total (w : world) (file_paths : list FilePath) :
  exists a, outcome (step_2 w file_paths) = Ok a.
Proof.
  destruct (step_2_run w file_paths) as (b & _ & E). rewrite E.
  exists tt. reflexivity.
Qed.

(** X22. Whatever goes wrong in a run of the driver, the caller sees one
    thing only: when [process_files] does not return, it raises
    [SystemExit(1)], and the last thing it printed is the failure message
    - the error of discovery, or the name of the stage that failed
    (merging, extraction, tabulation or export) with its error. No other
    exception leaves [process_files]. *)
Theorem process_files_fails_by_exit
    (w : world) (model scenario variable : string) (aggregation : option string)
    (e : exn) :
  let run := process_files w model scenario variable aggregation in
  outcome run = Raise e ->
  e = SystemExit 1
  /\ exists l m, log_of run = l ++ [EvPrint m] /\ failure_message m.
Proof.
  intros run. subst run. revert e.
  change (exits_after_message
            (process_files w model scenario variable aggregation)).
  unfold process_files.
  apply bind_exits; [apply step_1_exits|]. intro fwy.
  apply bind_exits; [apply never_raises_exits, step_2_total|]. intros _.
  apply steps_3_to_6_exits.
Qed.

Lemma process_files_fails_by_exit_witness :
  let w := mkWorld (fun _ => None) (fun _ => None) true true in
  let run := process_files w "ACCESS CM2" "SSP585" "tasmax" None in
  SystemExit 1 = SystemExit 1
  /\ exists l m, log_of run = l ++ [EvPrint m] /\ failure_message m.
Proof.
  intros w run.
  apply (process_files_fails_by_exit w "ACCESS CM2" "SSP585" "tasmax" None
           (SystemExit 1)).
  reflexivity.
Defined.

(** ** What the result of a run depends on *)

Lemma outcome_bind {A B} (c : M A) (k : A -> M B) :
  outcome (bind c k)
  = match outcome c with
    | Ok a => outcome (k a)
    | Raise e => Raise e
    end.
Proof. rewrite bind_cases. destruct (outcome c); reflexivity. Qed.

Lemma outcome_or_exit {A} (stage : string) (c : M A) :
  outcome (or_exit stage c)
  = match outcome c with
    | Ok a => Ok a
    | Raise _ => Raise (SystemExit 1)
    end.
Proof. rewrite or_exit_cases. destruct (outcome c); reflexivity. Qed.

Lemma outcome_after_print {B} (m : message) (k : M B) :
  outcome (bind (print m) (fun _ => k)) = outcome k.
Proof. rewrite outcome_bind. reflexivity. Qed.

(** Steps 5 and 6 end with the configured output path and the workbook
    written, or with an exit. *)
Lemma steps_5_to_6_result (readback : bool) (model scenario variable : string)
    (lat lon : list Qc) (data_dict : list (Z * ndarray)) :
  outcome (steps_5_to_6 readback model scenario variable lat lon data_dict)
  = match outcome (prepare_dataframe_data lat lon data_dict variable) with
    | Raise _ => Raise (SystemExit 1)
    | Ok table =>
        match outcome (write_to_excel table None None) with
        | Raise _ => Raise (SystemExit 1)
        | Ok wb => Ok (config.get_output_path model scenario variable, wb)
        end
    end.
Proof.
  unfold steps_5_to_6. rewrite outcome_after_print.
  rewrite outcome_bind, outcome_or_exit.
  destruct (outcome (prepare_dataframe_data lat lon data_dict variable))
    as [table|e]; [|reflexivity].
  rewrite outcome_after_print.
  rewrite outcome_or_exit, outcome_bind.
  destruct (outcome (write_to_excel table None None)) as [wb|e]; [|reflexivity].
  rewrite outcome_bind. destruct readback; reflexivity.
Qed.

Lemma steps_4_to_6_result (readback : bool) (model scenario variable : string)
    (aggregation : string) (merged_data : DataArray) (time_years : list Z) :
  outcome (steps_4_to_6 readback model scenario variable aggregation
             merged_data time_years)
  = match outcome (extract_coordinate_data merged_data time_years aggregation) with
    | Raise _ => Raise (SystemExit 1)
    | Ok (lat, lon, data_dict) =>
        match lat, lon with
        | _ :: _, _ :: _ =>
            outcome (steps_5_to_6 readback model scenario variable lat lon data_dict)
        | _, _ => Raise (SystemExit 1)
        end
    end.
Proof.
  unfold steps_4_to_6. rewrite outcome_after_print.
  rewrite outcome_bind, outcome_or_exit, outcome_bind.
  destruct (outcome (extract_coordinate_data merged_data time_years aggregation))
    as [[[lat lon] data_dict]|e]; [|reflexivity].
  destruct lat as [|la lat]; [reflexivity|].
  destruct lon as [|lo lon]; reflexivity.
Qed.

Lemma steps_3_to_6_result (w : world) (model scenario variable : string)
    (aggregation : string) (files_with_years : list (FilePath * Z)) :
  outcome (steps_3_to_6 w model scenario variable aggregation files_with_years)
  = match outcome (merge_nc_files (w_files w) (map fst files_with_years) variable
                     (Some (map snd files_with_years))) with
    | Raise _ => Raise (SystemExit 1)
    | Ok (merged_data, time_years) =>
        outcome (steps_4_to_6 (w_readback w) model scenario variable aggregation
                   merged_data time_years)
    end.
Proof.
  unfold steps_3_to_6. rewrite outcome_after_print.
  rewrite outcome_bind, outcome_or_exit.
  destruct (outcome (merge_nc_files _ _ _ _)) as [[merged_data time_years]|e];
    reflexivity.
Qed.

Lemma process_files_result (w : world) (model scenario variable : string)
    (aggregation : option string) :
  outcome (process_files w model scenario variable aggregation)
  = match outcome (discover_nc_files (w_dirs w) model scenario variable) with
    | Raise _ => Raise (SystemExit 1)
    | Ok files_with_years =>
        outcome (steps_3_to_6 w model scenario variable
                   (default_aggregation aggregation) files_with_years)
    end.
Proof.
  unfold process_files. fold (default_aggregation aggregation).
  rewrite outcome_bind, step_1_cases.
  destruct (discover_nc_files (w_dirs w) model scenario variable) as [l [fwy|e]];
    [|reflexivity].
  change (outcome (EvPrint (Msg_Step 1) :: l ++ l, Ok fwy)) with (Ok fwy).
  change (outcome (l, Ok fwy)) with (Ok fwy). cbv beta iota.
  rewrite outcome_bind.
  destruct (step_2_total w (map fst fwy)) as [[] ->]. reflexivity.
Qed.

(** X23. The result of a run depends on the directories and the files
    only: whether netCDF4 can be imported for the lightweight check, and
    whether the written file passes [validate_excel_file], change the
    messages but never the result. When [process_files] returns, it
    returns the path that [config.get_output_path] gives for the model,
    scenario and variable, also when the validation of the written file
    has failed. *)
Theorem process_files_ignores_validation
    (fs : dirs) (files : ncfiles) (netCDF4_1 readback_1 netCDF4_2 readback_2 : bool)
    (model scenario variable : string) (aggregation : option string) :
  outcome (process_files (mkWorld fs files netCDF4_1 readback_1)
             model scenario variable aggregation)
  = outcome (process_files (mkWorld fs files netCDF4_2 readback_2)
               model scenario variable aggregation)
  /\ forall output_path wb,
       outcome (process_files (mkWorld fs files netCDF4_1 readback_1)
                  model scenario variable aggregation)
       = Ok (output_path, wb) ->
       output_path = config.get_output_path model scenario variable.
Proof.
  assert (Hres : forall n r,
            outcome (process_files (mkWorld fs files n r)
                       model scenario variable aggregation)
            = match outcome (discover_nc_files fs model scenario variable) with
              | Raise _ => Raise (SystemExit 1)
              | Ok fwy =>
                  match outcome (merge_nc_files files (map fst fwy) variable
                                   (Some (map snd fwy))) with
                  | Raise _ => Raise (SystemExit 1)
                  | Ok (merged_data, time_years) =>
                      match outcome (extract_coordinate_data merged_data time_years
                                       (default_aggregation aggregation)) with
                      | Raise _ => Raise (SystemExit 1)
                      | Ok (lat, lon, data_dict) =>
                          match lat, lon with
                          | _ :: _, _ :: _ =>
                              match outcome (prepare_dataframe_data lat lon
                                               data_dict variable) with
                              | Raise _ => Raise (SystemExit 1)
                              | Ok table =>
                                  match outcome (write_to_excel table None None) with
                                  | Raise _ => Raise (SystemExit 1)
                                  | Ok wb =>
                                      Ok (config.get_output_path model scenario
                                            variable, wb)
                                  end
                              end
                          | _, _ => Raise (SystemExit 1)
                          end
                      end
                  end
              end).
  { intros n r. rewrite process_files_result. cbn [w_dirs].
    destruct (outcome (discover_nc_files fs model scenario variable)) as [fwy|e];
      [|reflexivity].
    rewrite steps_3_to_6_result. cbn [w_files w_readback].
    destruct (outcome (merge_nc_files files (map fst fwy) variable
                         (Some (map snd fwy)))) as [[merged_data time_years]|e];
      [|reflexivity].
    rewrite steps_4_to_6_result.
    destruct (outcome (extract_coordinate_data merged_data time_years
                         (default_aggregation aggregation)))
      as [[[lat lon] data_dict]|e]; [|reflexivity].
    destruct lat as [|la lat]; [reflexivity|].
    destruct lon as [|lo lon]; [reflexivity|].
    apply steps_5_to_6_result. }
  split.
  - rewrite !Hres. reflexivity.
  - intros output_path wb. rewrite Hres.
    destruct (outcome (discover_nc_files fs model scenario variable)) as [fwy|e];
      [|discriminate].
    destruct (outcome (merge_nc_files files (map fst fwy) variable
                         (Some (map snd fwy)))) as [[merged_data time_years]|e];
      [|discriminate].
    destruct (outcome (extract_coordinate_data merged_data time_years
                         (default_aggregation aggregation)))
      as [[[lat lon] data_dict]|e]; [|discriminate].
    destruct lat as [|la lat]; [discriminate|].
    destruct lon as [|lo lon]; [discriminate|].
    destruct (outcome (prepare_dataframe_data (la :: lat) (lo :: lon)
                         data_dict variable)) as [table|e]; [|discriminate].
    destruct (outcome (write_to_excel table None None)) as [wb'|e];
      [|discriminate].
    intros [= <- _]. reflexivity.
Qed.

(* ================================================================== *)
(** * A run that succeeds *)
(* ================================================================== *)

(** ** Files on one grid *)

Lemma Forall2_pointwise {A B} (R : A -> B -> Prop) (l : list A) :
  (forall x, In x l -> exists y, R x y) -> exists l', Forall2 R l l'.
Proof.
  induction l as [|x l IH]; intro H.
  - exists []. constructor.
  - destruct (H x (or_introl eq_refl)) as [y Hy].
    destruct IH as [l' Hl']; [intros z Hz; apply H; right; exact Hz|].
    exists (y :: l'). constructor; assumption.
Qed.

Lemma within_tolerance_refl (a : list Qc) : within_tolerance a a.
Proof.
  split; [reflexivity|]. intros p _.
  replace (nth p a 0 - nth p a 0)%Qc with 0%Qc by ring.
  eapply Qcle_trans; [|apply tolerance_at_ge].
  unfold Qcle. vm_compute. discriminate.
Qed.

Lemma concat_wf (datasets : list DataArray) (m n : nat) :
  Forall (fun d => Forall (slice_shape m n) (da_values d)) datasets ->
  Forall (slice_shape m n) (concat (map da_values datasets)).
Proof.
  induction 1 as [|d ds Hd _ IH]; cbn [map concat]; [constructor|].
  apply Forall_app. split; assumption.
Qed.

(** The merge of files that share one grid: the grid is kept, and the
    values are the files' values one after another. *)
Lemma merge_same_grid (lat lon : list Qc) (d0 : DataArray)
    (others : list DataArray) (years : list Z) :
  Forall (fun d => da_lat d = lat /\ da_lon d = lon
                   /\ Forall (slice_shape (length lat) (length lon)) (da_values d))
         (d0 :: others) ->
  length years = length (d0 :: others) ->
  exists merged,
    merge_datasets (d0 :: others) (Some years)
    = ([], Ok (merged, replicated_years (d0 :: others) years))
    /\ da_lat merged = lat /\ da_lon merged = lon
    /\ da_wf merged
    /\ da_len merged = length (replicated_years (d0 :: others) years).
Proof.
  intros Hall Hlen.
  assert (Hgrid : forall d, In d (d0 :: others) -> da_lat d = lat /\ da_lon d = lon).
  { intros d Hd. rewrite Forall_forall in Hall. destruct (Hall d Hd) as (H1 & H2 & _).
    auto. }
  destruct (Hgrid d0 (or_introl eq_refl)) as [Hlat0 Hlon0].
  assert (Hclose : Forall (grid_within_tolerance d0) others).
  { apply Forall_forall. intros d Hd.
    destruct (Hgrid d (or_intror Hd)) as [H1 H2].
    unfold grid_within_tolerance. rewrite H1, H2, Hlat0, Hlon0.
    split; apply within_tolerance_refl. }
  assert (Halign : grids_alignable (d0 :: others)).
  { split; left; apply Forall_forall; intros a Ha; apply in_map_iff in Ha;
      destruct Ha as (d & <- & Hd); destruct (Hgrid d Hd) as [H1 H2];
      cbn [map hd]; congruence. }
  destruct (merge_datasets_ok d0 others years Hclose Halign Hlen)
    as (merged & Hm & Hmerge).
  destruct (xr_concat_time_ok _ Halign)
    as (merged' & Hm' & _ & Hvalues & Hsum & Hjlat & Hjlon).
  rewrite Hm in Hm'. injection Hm' as <-.
  assert (Jlat : da_lat merged = lat).
  { rewrite Hjlat, <- Hlat0. apply join_index_same; [discriminate|].
    rewrite Forall_map. apply Forall_forall. intros d Hd.
    destruct (Hgrid d Hd). congruence. }
  assert (Jlon : da_lon merged = lon).
  { rewrite Hjlon, <- Hlon0. apply join_index_same; [discriminate|].
    rewrite Forall_map. apply Forall_forall. intros d Hd.
    destruct (Hgrid d Hd). congruence. }
  assert (Hvals : da_values merged = concat (map da_values (d0 :: others))).
  { rewrite Hvalues. f_equal. apply map_ext_in. intros d Hd.
    destruct (Hgrid d Hd) as [H1 H2].
    rewrite Jlat, Jlon, <- H1, <- H2. apply reindex_like_same. }
  exists merged. split; [exact Hmerge|]. split; [exact Jlat|]. split; [exact Jlon|].
  split.
  - unfold da_wf. rewrite Hvals, Jlat, Jlon.
    apply (concat_wf (d0 :: others) (length lat) (length lon)).
    eapply Forall_impl; [|exact Hall]. intros d (_ & _ & H). exact H.
  - rewrite Hsum. symmetry. apply replicated_years_length, Hlen.
Qed.

(** ** Aggregating and writing *)

(** In each of the four modes the aggregator returns arrays that fit the
    grid of the series. *)
Lemma extract_known_mode (da : DataArray) (years : list Z) (mode : string) :
  known_aggregation mode ->
  (length years <= da_len da)%nat ->
  da_wf da ->
  (0 < length (da_lat da) * length (da_lon da))%nat ->
  exists agg l,
    extract_coordinate_data da years mode
    = (l, Ok (da_lat da, da_lon da, map (fun y => (y, agg y)) (np_unique years)))
    /\ forall y, aggregate_on_grid (length (da_lat da)) (length (da_lon da)) (agg y).
Proof.
  intros Hmode Hlen Hwf Hpos.
  assert (Hslice : forall y, da_wf (year_slice da years y)).
  { intro y. apply year_slice_wf; assumption. }
  assert (H2d : forall {S} (init : S) step final y,
            aggregate_on_grid (length (da_lat da)) (length (da_lon da))
              (xr_reduce_values init step final (year_slice da years y))).
  { intros S init step final y. left.
    apply (xr_reduce_shape init step final _ (Hslice y)). }
  destruct Hmode as [-> | [-> | [-> | ->]]].
  - eexists. eexists. split; [apply extract_mean, Hlen|]. intro y. apply H2d.
  - eexists. eexists. split; [apply extract_max, Hlen|]. intro y. apply H2d.
  - eexists. eexists. split; [apply extract_min, Hlen|]. intro y. apply H2d.
  - eexists. eexists. split; [apply extract_all, Hlen|]. intro y. right.
    destruct (da_values_nd_shape _ (Hslice y)) as [Hsh Hb].
    exists (da_len (year_slice da years y)). auto.
Qed.

(** With a positive ceiling the sheets written hold the rows of the
    frame, in order, under its column names. *)
Lemma write_sheets_rows (df : DataFrame) (sheet_name : string) (ceiling : Z) :
  df_wf df -> 0 < ceiling <= 1048576 ->
  Z.of_nat (length (df_columns df)) <= 16384 ->
  legal_headers (df_column_names df) ->
  title_kept sheet_name ->
  exists l sheets,
    write_sheets df sheet_name ceiling = (l, Ok sheets)
    /\ sheets <> []
    /\ concat (map (fun s => df_rows (snd s)) sheets) = df_rows df
    /\ Forall (fun s => df_column_names (snd s) = df_column_names df) sheets
    /\ (Z.of_nat (df_len df) <= ceiling -> sheets = [(sheet_name, df)]).
Proof.
  intros Hwf [Hc Hmax] Hwidth Hleg Hkept.
  destruct (Z.le_gt_cases (Z.of_nat (df_len df)) ceiling) as [Hle|Hgt].
  - exists [], [(sheet_name, df)]. split.
    { rewrite write_sheets_cases.
      destruct (Z.gtb_spec (Z.of_nat (df_len df)) ceiling); [lia|].
      assert (Hsize : sheet_too_large df = false).
      { unfold sheet_too_large. apply orb_false_iff.
        split; apply Z.ltb_ge; lia. }
      rewrite Hsize, close_first, Hsize.
      destruct (title_kept_eqb sheet_name Hkept) as (-> & -> & ->).
      rewrite (legal_headers_find _ Hleg). reflexivity. }
    split; [discriminate|]. split; [cbn; apply app_nil_r|].
    split; [repeat constructor|reflexivity].
  - rewrite write_sheets_split; try assumption; try lia; [|apply Hkept].
    set (num := (Z.of_nat (df_len df) + ceiling - 1) / ceiling).
    set (c := Z.to_nat ceiling).
    destruct (num_sheets_bounds (Z.of_nat (df_len df)) ceiling Hc Hgt)
      as (Hnum & Hup & Hlow).
    fold num in Hnum, Hup, Hlow.
    assert (Hcz : ceiling = Z.of_nat c) by (unfold c; lia).
    assert (Hcpos : (0 < c)%nat) by (unfold c; lia).
    assert (Hsheet : forall k, (k < Z.to_nat num)%nat ->
              let sheet := split_sheet df sheet_name ceiling num (Z.of_nat k) in
              df_column_names (snd sheet) = df_column_names df
              /\ df_rows (snd sheet) = firstn c (skipn (k * c) (df_rows df))).
    { intros k Hk. rewrite Hcz.
      assert (Hkc : (k * c <= df_len df)%nat) by nia.
      destruct (split_sheet_rows df sheet_name c k num Hwf Hcpos Hkc Hnum)
        as (_ & H1 & H2 & _).
      split; assumption. }
    eexists. eexists. split; [reflexivity|].
    split.
    { intro Hnil. apply (f_equal (@length _)) in Hnil.
      rewrite length_map, py_range_length in Hnil. simpl in Hnil. lia. }
    split.
    { rewrite map_map. unfold py_range. rewrite map_map.
      rewrite (map_ext_in _ (fun k => firstn c (skipn (k * c) (df_rows df)))).
      - apply pieces_concat. rewrite df_rows_length. nia.
      - intros k Hk. apply in_seq in Hk. apply (Hsheet k). lia. }
    split; [|intro; lia].
    unfold py_range. rewrite Forall_map, Forall_map. apply Forall_forall.
    intros k Hk. apply in_seq in Hk. apply (Hsheet k). lia.
Qed.

(** ** From the directory to the workbook *)

Lemma replicated_years_in (datasets : list DataArray) (years : list Z) (y : Z) :
  length years = length datasets ->
  Forall (fun d => da_values d <> []) datasets ->
  (In y (replicated_years datasets years) <-> In y years).
Proof.
  revert years. induction datasets as [|d ds IH]; intros [|y0 ys] Hlen Hne;
    try discriminate; [reflexivity|].
  inversion Hne as [|? ? Hd Hrest]; subst.
  unfold replicated_years in *. cbn [combine map concat fst snd].
  rewrite in_app_iff, IH by (simpl in Hlen; lia || assumption).
  cbn [In]. split.
  - intros [H|H]; [left; symmetry; eapply repeat_spec; eauto|right; exact H].
  - intros [->|H]; [left|right; exact H].
    unfold da_len. destruct (da_values d); [contradiction|]. left. reflexivity.
Qed.

Lemma Forall2_right {A B} (R : A -> B -> Prop) (P : B -> Prop)
    (l : list A) (l' : list B) :
  (forall x y, R x y -> P y) -> Forall2 R l l' -> Forall P l'.
Proof. intros HRP H. induction H; constructor; eauto. Qed.

Lemma Forall2_weaken {A B} (R R' : A -> B -> Prop) (l : list A) (l' : list B) :
  (forall x y, R x y -> R' x y) -> Forall2 R l l' -> Forall2 R' l l'.
Proof. intros HRR H. induction H; constructor; eauto. Qed.

(** The years found in the names of the files discovered. *)
Lemma discovered_years (dir : string) (entries : list string) (y : Z) :
  In y (map snd (sort_key snd (year_pairs dir (glob_nc entries))))
  <-> exists n, In n (filter has_year (glob_nc entries))
                /\ re_search_year n = Some y.
Proof.
  rewrite in_map_iff. split.
  - intros ([p y'] & Hy & Hin). cbn [snd] in Hy. subst y'.
    apply sort_key_in, year_pairs_in in Hin. destruct Hin as (_ & Hn & Hs).
    exists (fp_name p). split; [|exact Hs].
    apply filter_In. split; [exact Hn|]. unfold has_year. rewrite Hs. reflexivity.
  - intros (n & Hn & Hs). apply filter_In in Hn. destruct Hn as [Hn _].
    exists (mkPath dir n, y). split; [reflexivity|].
    apply sort_key_in, year_pairs_in. cbn [fp_dir fp_name]. auto.
Qed.

(** Every file discovered can be read when every matching name can. *)
Lemma discovered_files_read (files : ncfiles) (dir variable : string)
    (entries : list string) (lat lon : list Qc) :
  (forall n, In n (filter has_year (glob_nc entries)) ->
     exists nc, files (mkPath dir n) = Some nc /\ holds_on_grid variable lat lon nc) ->
  exists datasets,
    Forall2 (reads files variable)
      (map fst (sort_key snd (year_pairs dir (glob_nc entries)))) datasets
    /\ Forall (fun d => da_lat d = lat /\ da_lon d = lon
                        /\ Forall (slice_shape (length lat) (length lon))
                                  (da_values d)) datasets
    /\ Forall (fun d => da_values d <> []) datasets.
Proof.
  intro Hfiles.
  destruct (Forall2_pointwise
              (fun p d => reads files variable p d
                          /\ (da_lat d = lat /\ da_lon d = lon
                              /\ Forall (slice_shape (length lat) (length lon))
                                        (da_values d))
                          /\ da_values d <> [])
              (map fst (sort_key snd (year_pairs dir (glob_nc entries)))))
    as [datasets Hall].
  { intros p Hp. apply in_map_iff in Hp. destruct Hp as ([p' y] & Hp & Hin).
    cbn [fst] in Hp. subst p'.
    apply sort_key_in, year_pairs_in in Hin. destruct Hin as (Hd & Hn & Hs).
    destruct (Hfiles (fp_name p)) as (nc & Hf & Hla & Hlo & values & Hg & Hne & Hsh).
    { apply filter_In. split; [exact Hn|]. unfold has_year. rewrite Hs.
      reflexivity. }
    assert (Ep : mkPath dir (fp_name p) = p).
    { destruct p as [d n]. cbn [fp_dir fp_name] in *. subst d. reflexivity. }
    rewrite Ep in Hf.
    exists (mkDA (nc_time nc) (nc_lat nc) (nc_lon nc) values).
    cbn [da_lat da_lon da_values]. split; [|auto].
    exists nc, values. auto. }
  exists datasets. split; [|split].
  - eapply Forall2_weaken; [|exact Hall]. intros p d H. apply H.
  - eapply Forall2_right; [|exact Hall]. intros p d H. apply H.
  - eapply Forall2_right; [|exact Hall]. intros p d H. apply H.
Qed.

(** A column name with a control character is refused by openpyxl, so a
    variable of such a name stops the run at the export. *)
Example write_to_excel_control_character :
  outcome (write_to_excel
             [("lat", [NaN]); ("lon", [NaN]);
              (String "007"%char "_2035", [NaN])] None None)
  = Raise (IllegalCharacterError (String "007"%char "_2035")).
Proof. reflexivity. Qed.

(** The same in a whole run: the file is found, read, aggregated and
    tabulated, and the export fails on the header of the year column. *)
Example process_files_control_character :
  outcome (process_files bell_world "ACCESS CM2" "SSP585" bell_variable None)
  = Raise (SystemExit 1)
  /\ In (EvPrint (Msg_FailedTo "export to Excel"
                    (IllegalCharacterError (column_name bell_variable 2035))))
        (log_of (process_files bell_world "ACCESS CM2" "SSP585" bell_variable None)).
Proof.
  split; [vm_compute; reflexivity|].
  vm_compute. tauto.
Qed.

(** Strictly ascending numbers of a range are no more than the range
    holds. *)
Lemma sorted_length_bound (l : list Z) (lo hi : Z) :
  StronglySorted Z.lt l ->
  Forall (fun y => lo <= y <= hi) l ->
  Z.of_nat (length l) <= Z.max 0 (hi - lo + 1).
Proof.
  intro Hs. revert lo. induction Hs as [|y l Hs IH Hy]; intros lo Hr.
  - simpl. lia.
  - inversion Hr as [|? ? Hy0 Hr']; subst.
    assert (Hr2 : Forall (fun z => y + 1 <= z <= hi) l).
    { rewrite Forall_forall in *. intros z Hz.
      specialize (Hy z Hz). specialize (Hr' z Hz). lia. }
    specialize (IH (y + 1) Hr2). cbn [length]. lia.
Qed.

Lemma re_search_year_range (n : string) (y : Z) :
  re_search_year n = Some y -> 0 <= y <= 9999.
Proof.
  intro H. apply re_search_year_leftmost in H.
  destruct H as (pre & a & b & c & d & post & _ & Hd & -> & _).
  apply token_value_range, Hd.
Qed.

Lemma column_name_legal (variable : string) (y : Z) :
  has_character illegal_character variable = false ->
  has_character illegal_character (column_name variable y) = false.
Proof. apply numbered_title_legal. Qed.

(** X24. A run that succeeds.  When the input directory exists, at least
    one of its .nc names carries a year, and every such file can be read
    and holds the variable over one and the same non-empty grid with at
    least one time step, and the name of the variable has no control
    character, a run with a known aggregation mode returns the
    configured output path and writes a workbook: its table has the
    columns lat, lon and one column per distinct year found in the file
    names, in ascending order; it has one row per grid cell; the sheets,
    read in order, hold exactly its rows under its columns; and a table
    within the row ceiling is written to the single sheet Data. *)
Theorem process_files_succeeds
    (w : world) (model scenario variable : string) (aggregation : option string)
    (entries : list string) (lat lon : list Qc) :
  let dir := config.get_input_directory model scenario variable in
  let names := filter has_year (glob_nc entries) in
  w_dirs w dir = Some entries ->
  names <> [] ->
  variable <> "" ->
  has_character illegal_character variable = false ->
  (forall n, In n names ->
     exists nc, w_files w (mkPath dir n) = Some nc
                /\ holds_on_grid variable lat lon nc) ->
  lat <> [] -> lon <> [] ->
  known_aggregation (default_aggregation aggregation) ->
  exists wb df years,
    outcome (process_files w model scenario variable aggregation)
    = Ok (config.get_output_path model scenario variable, wb)
    /\ StronglySorted Z.lt years
    /\ (forall y, In y years
                  <-> exists n, In n names /\ re_search_year n = Some y)
    /\ df_column_names df = "lat" :: "lon" :: map (column_name variable) years
    /\ length (df_rows df) = (length lat * length lon)%nat
    /\ wb <> []
    /\ concat (map (fun s => df_rows (snd s)) wb) = df_rows df
    /\ Forall (fun s => df_column_names (snd s) = df_column_names df) wb
    /\ (Z.of_nat (length lat * length lon) <= config.EXCEL_MAX_ROWS_PER_SHEET ->
        wb = [(config.EXCEL_SHEET_NAME, df)]).
Proof.
  intros dir names Hdir Hnames Hv Hlegal Hfiles Hlat Hlon Hmode.
  destruct (discover_failure_cases_aux (w_dirs w) model scenario variable entries
              Hdir Hnames) as [Hdisc _].
  fold dir in Hdisc.
  set (fwy := sort_key snd (year_pairs dir (glob_nc entries))) in *.
  destruct (discovered_files_read (w_files w) dir variable entries lat lon Hfiles)
    as (datasets & Hreads & Hgrid & Hsteps).
  fold fwy in Hreads.
  assert (Hfwy : map fst fwy <> []).
  { intro E. apply Hnames. unfold names.
    destruct (filter has_year (glob_nc entries)) as [|n ns] eqn:Hf; [reflexivity|].
    exfalso.
    assert (Hn : In n (filter has_year (glob_nc entries))) by (rewrite Hf; left; reflexivity).
    apply filter_In in Hn. destruct Hn as [Hn Hy]. unfold has_year in Hy.
    destruct (re_search_year n) as [y|] eqn:Hs; [|discriminate].
    assert (Hin : In (mkPath dir n, y) fwy).
    { apply sort_key_in, year_pairs_in. cbn [fp_dir fp_name]. auto. }
    apply (in_map fst) in Hin. rewrite E in Hin. contradiction. }
  assert (Hlen : length (map snd fwy) = length datasets).
  { rewrite <- (Forall2_length Hreads). rewrite !length_map. reflexivity. }
  destruct datasets as [|d0 others].
  { inversion Hreads as [E|]; subst. symmetry in E. contradiction. }
  destruct (merge_same_grid lat lon d0 others (map snd fwy) Hgrid Hlen)
    as (merged & Hmerge & Hmlat & Hmlon & Hmwf & Hmlen).
  set (time_years := replicated_years (d0 :: others) (map snd fwy)) in *.
  assert (Hcells : (0 < length (da_lat merged) * length (da_lon merged))%nat).
  { rewrite Hmlat, Hmlon. destruct lat; [contradiction|]. destruct lon; [contradiction|].
    simpl. lia. }
  destruct (extract_known_mode merged time_years (default_aggregation aggregation)
              Hmode ltac:(lia) Hmwf Hcells) as (agg & lx & Hext & Hagg).
  rewrite Hmlat, Hmlon in Hext, Hagg.
  set (years := np_unique time_years) in *.
  set (data_dict := map (fun y => (y, agg y)) years) in *.
  destruct (np_unique_spec time_years) as (Hsorted & Hnodup & Hin).
  fold years in Hsorted, Hnodup, Hin.
  assert (Hkeys : NoDup (dict_keys data_dict)).
  { unfold data_dict. rewrite dict_keys_map_Z. exact Hnodup. }
  assert (Hon : Forall (fun item => aggregate_on_grid (length lat) (length lon)
                                      (snd item)) data_dict).
  { apply Forall_forall. intros item Hitem. unfold data_dict in Hitem.
    apply in_map_iff in Hitem. destruct Hitem as (y & <- & _). apply Hagg. }
  pose proof (table_for_ok lat lon data_dict variable Hkeys Hon) as Htable.
  set (table := table_for lat lon data_dict variable) in *.
  set (df := frame_of table (length lat * length lon)).
  pose proof (frame_of_wf _ _ Htable) as Hwf. fold df in Hwf.
  assert (Hyears : forall y, In y years
            <-> exists n, In n names /\ re_search_year n = Some y).
  { intro y. rewrite Hin. unfold time_years.
    rewrite replicated_years_in by assumption.
    apply discovered_years. }
  assert (Hnamesdf : df_column_names df
                     = "lat" :: "lon" :: map (column_name variable) years).
  { unfold df_column_names, df, table. rewrite table_for_frame_columns.
    cbn [map fst]. unfold data_dict at 2.
    rewrite (sort_key_map_sorted agg years Hsorted).
    rewrite !map_map. cbn [fst]. reflexivity. }
  assert (Hwidth : Z.of_nat (length (df_columns df)) <= 16384).
  { rewrite <- (length_map fst (df_columns df)).
    fold (df_column_names df). rewrite Hnamesdf. cbn [length].
    rewrite length_map.
    assert (Hb : Z.of_nat (length years) <= Z.max 0 (9999 - 0 + 1)).
    { apply sorted_length_bound; [exact Hsorted|].
      apply Forall_forall. intros y Hy. apply Hyears in Hy.
      destruct Hy as (n & _ & Hy). exact (re_search_year_range n y Hy). }
    lia. }
  assert (Hleg : legal_headers (df_column_names df)).
  { rewrite Hnamesdf. constructor; [reflexivity|].
    constructor; [reflexivity|].
    apply Forall_forall. intros c Hc. apply in_map_iff in Hc.
    destruct Hc as (y & <- & _). apply column_name_legal, Hlegal. }
  assert (Hdata : title_kept config.EXCEL_SHEET_NAME).
  { split; [discriminate|]. split; [reflexivity|]. discriminate. }
  destruct (write_sheets_rows df config.EXCEL_SHEET_NAME
              config.EXCEL_MAX_ROWS_PER_SHEET Hwf
              ltac:(unfold config.EXCEL_MAX_ROWS_PER_SHEET; lia)
              Hwidth Hleg Hdata)
    as (lw & wb & Hwrite & Hwb & Hrows & Hcols & Hone).
  exists wb, df, years.
  assert (Hdflen : df_len df = (length lat * length lon)%nat) by reflexivity.
  split; [|split; [exact Hsorted|split; [|split; [|
                   split; [|split; [exact Hwb|split; [exact Hrows|
                   split; [exact Hcols|]]]]]]]].
  - rewrite process_files_result, Hdisc, steps_3_to_6_result.
    rewrite (merge_nc_files_read _ _ _ _ (d0 :: others) Hfwy Hv Hreads).
    rewrite Hmerge.
    change (outcome (_, outcome (?l, Ok ?x))) with (Ok x).
    cbv beta iota.
    rewrite steps_4_to_6_result. fold time_years. rewrite Hext.
    change (outcome (lx, Ok ?x)) with (Ok x). cbv beta iota.
    destruct lat as [|la lat']; [contradiction|].
    destruct lon as [|lo lon']; [contradiction|].
    rewrite steps_5_to_6_result.
    rewrite (prepare_dataframe_data_ok _ _ _ _ Hkeys Hon).
    change (outcome ([], Ok ?x)) with (Ok x). cbv beta iota.
    fold table.
    rewrite write_to_excel_defaults, (write_to_excel_table _ _ _ _ Htable).
    fold df. rewrite Hwrite. reflexivity.
  - exact Hyears.
  - exact Hnamesdf.
  - rewrite df_rows_length. exact Hdflen.
  - intro Hle. apply Hone. rewrite Hdflen. exact Hle.
Qed.

Lemma process_files_succeeds_witness :
  exists wb df years,
    outcome (process_files sample_world "ACCESS CM2" "SSP585" "tasmax" None)
    = Ok (config.get_output_path "ACCESS CM2" "SSP585" "tasmax", wb)
    /\ StronglySorted Z.lt years
    /\ (forall y, In y years
                  <-> exists n, In n ["tasmax_2036_a.nc"; "tasmax_2035_a.nc"]
                                /\ re_search_year n = Some y)
    /\ df_column_names df = "lat" :: "lon" :: map (column_name "tasmax") years
    /\ length (df_rows df) = 1%nat
    /\ wb <> []
    /\ concat (map (fun s => df_rows (snd s)) wb) = df_rows df
    /\ Forall (fun s => df_column_names (snd s) = df_column_names df) wb
    /\ (1 <= config.EXCEL_MAX_ROWS_PER_SHEET ->
        wb = [(config.EXCEL_SHEET_NAME, df)]).
Proof.
  apply (process_files_succeeds sample_world "ACCESS CM2" "SSP585" "tasmax" None
           ["tasmax_2036_a.nc"; "notes.txt"; "tasmax_2035_a.nc"]
           [Qc_of_Z (-30)] [Qc_of_Z 150]).
  - reflexivity.
  - discriminate.
  - discriminate.
  - reflexivity.
  - intros n [<-|[<-|[]]].
    + exists file_2036. split; [reflexivity|].
      split; [reflexivity|]. split; [reflexivity|].
      eexists. split; [reflexivity|]. split; [discriminate|].
      repeat constructor.
    + exists file_2035. split; [reflexivity|].
      split; [reflexivity|]. split; [reflexivity|].
      eexists. split; [reflexivity|]. split; [discriminate|].
      repeat constructor.
  - discriminate.
  - discriminate.
  - left. reflexivity.
Defined.
